(** * screwdb: the append-only prefix B+tree engine (btree.c)

    A shallow embedding of [internal/c/screwdb/btree.c] and the properties
    its specification states about it.  Every definition carries the name
    of the C function it embeds. *)

From Stdlib Require Import ZArith List Lia Bool Strings.Byte.
From stdpp Require Import base option list gmap.
Import ListNotations.

Local Open Scope Z_scope.

(** ** Bytes and byte strings

    A [struct btval] is a pointer and a size; the embedding keeps the
    bytes it designates as a [list byte].  [memcmp] compares bytes as
    [unsigned char]. *)

Abbreviation bytes := (list byte).

Definition uchar (b : byte) : Z := Z.of_N (Byte.to_N b).

#[global] Instance byte_eq_dec : EqDecision byte := Byte.byte_eq_dec.

Module Cmp.

(** [memcmp(s1, s2, n)] of the C library: the difference of the first pair
    of differing bytes among the first [n], [0] if there is none.  The two
    lists are the objects the pointers designate; a comparison that has
    to read past the end of either object has no defined result. *)
Fixpoint memcmp (s1 s2 : bytes) (n : nat) {struct n} : option Z :=
  match n with
  | O => Some 0
  | S n' =>
      match s1, s2 with
      | b1 :: r1, b2 :: r2 =>
          if Byte.eqb b1 b2 then memcmp r1 r2 n'
          else Some (uchar b1 - uchar b2)
      | _, _ => None
      end
  end.

(** [memncmp] (btree.c:309). *)
Definition memncmp (s1 : bytes) (n1 : nat) (s2 : bytes) (n2 : nat) : option Z :=
  if (n1 <? n2)%nat && bool_decide (memcmp s1 s2 n1 = Some 0) then Some (-1)
  else if (n2 <? n1)%nat && bool_decide (memcmp s1 s2 n2 = Some 0) then Some 1
  else memcmp s1 s2 n1.

(** [btree_cmp] (btree.c:319): the comparison the API exports. *)
Definition btree_cmp (a b : bytes) : option Z :=
  memncmp a (length a) b (length b).

(** [a] compares strictly greater than [b] under the canonical
    comparison. *)
Definition gt (a b : bytes) : Prop := exists r, btree_cmp a b = Some r /\ 0 < r.

End Cmp.


(** ** Constants of btree.c and btree.h *)

Definition PAGESIZE : Z := 4096.
Definition BT_MINKEYS : Z := 4.
Definition BT_MAGIC : Z := 0xB3DBB3DB.
Definition BT_VERSION : Z := 4.
Definition MAXKEYSIZE : Z := 255.
Definition P_INVALID : Z := 0xFFFFFFFF.

Definition P_BRANCH : Z := 0x01.
Definition P_LEAF : Z := 0x02.
Definition P_OVERFLOW : Z := 0x04.
Definition P_META : Z := 0x08.
Definition P_HEAD : Z := 0x10.

Definition BT_TOMBSTONE : Z := 0x01.
Definition F_BIGDATA : Z := 0x01.
Definition BT_TXN_RDONLY : Z := 0x01.
Definition BT_TXN_ERROR : Z := 0x02.
Definition BT_FIXPADDING : Z := 0x01.
Definition BT_NOSYNC : Z := 0x02.
Definition BT_RDONLY : Z := 0x04.

Definition BT_FAIL : Z := -1.
Definition BT_SUCCESS : Z := 0.

Definition BT_COMMIT_PAGES : Z := 64.
Definition BT_MAXCACHE_DEF : Z := 1024.
Definition FILL_THRESHOLD : Z := 250.

(** [offsetof(struct page, ptrs)], [offsetof(struct node, data)] of the
    packed structs, and the sizes of [indx_t] and [pgno_t]. *)
Definition PAGEHDRSZ : Z := 12.
Definition NODESIZE : Z := 7.
Definition sizeof_indx_t : Z := 2.
Definition sizeof_pgno_t : Z := 4.

(** The values of <errno.h> the engine stores in [errno]. *)
Definition EPERM : Z := 1.
Definition ENOENT : Z := 2.
Definition EIO : Z := 5.
Definition EBUSY : Z := 16.
Definition EINVAL : Z := 22.
Definition ESTALE : Z := 116.
Definition EBADF : Z := 9.

Definition F_ISSET (w f : Z) : bool := Z.land w f =? f.

(** Wrap-around of the unsigned integer types. *)
Definition u16 (x : Z) : Z := x mod 2 ^ 16.
Definition u32 (x : Z) : Z := x mod 2 ^ 32.
Definition u64 (x : Z) : Z := x mod 2 ^ 64.

(** Wrap-around of a [short], as the conversion from [int] has it:
    [32767 + 1] is [-32768]. *)
Definition i16 (x : Z) : Z := (x + 2 ^ 15) mod 2 ^ 16 - 2 ^ 15.

(** A [pgno_t] in memory: four bytes, least significant first. *)
Definition byte_of_Z (x : Z) : byte :=
  match Byte.of_N (Z.to_N (x mod 256)) with Some b => b | None => x00 end.

Definition pgno_bytes (p : Z) : bytes :=
  [byte_of_Z p; byte_of_Z (p / 2 ^ 8); byte_of_Z (p / 2 ^ 16); byte_of_Z (p / 2 ^ 24)].

Definition pgno_of_bytes (l : bytes) : option Z :=
  match l with
  | b0 :: b1 :: b2 :: b3 :: _ =>
      Some (uchar b0 + uchar b1 * 2 ^ 8 + uchar b2 * 2 ^ 16 + uchar b3 * 2 ^ 24)
  | _ => None
  end.

(** ** Data model *)

(** [struct btval]: [bv_data] is the object the pointer designates, from
    the pointer on; [bv_size] is the size field, which the engine moves
    independently of the pointer. *)
Record btval := Btval { bv_data : bytes; bv_size : Z }.

Definition mkval (l : bytes) : btval := Btval l (Z.of_nat (length l)).

(** The [bv_size] bytes a value designates; nothing when the object is
    shorter than that. *)
Definition val_bytes (v : btval) : option bytes :=
  if (0 <=? bv_size v) && (bv_size v <=? Z.of_nat (length (bv_data v)))
  then Some (take (Z.to_nat (bv_size v)) (bv_data v)) else None.

(** [struct node]: [n_p] is the union of [n_pgno] and [n_dsize];
    [n_data] is the flexible array [data]: [ksize] bytes of key, then the
    payload. *)
Record node := Node {
  n_p : Z;
  ksize : Z;
  n_flags : Z;
  n_data : bytes
}.

Definition NODEKEY (n : node) : bytes := n_data n.
Definition NODEDATA (n : node) : bytes := drop (Z.to_nat (ksize n)) (n_data n).
Definition NODEPGNO (n : node) : Z := n_p n.
Definition NODEDSZ (n : node) : Z := n_p n.

(** [struct bt_head] and [struct bt_meta]. *)
Record bt_head := BtHead {
  h_magic : Z; h_version : Z; h_flags : Z; psize : Z
}.

Record bt_meta := BtMeta {
  m_flags : Z;
  m_root : Z;
  m_prev_meta : Z;
  m_created_at : Z;
  m_branch_pages : Z;
  m_leaf_pages : Z;
  m_overflow_pages : Z;
  m_revisions : Z;
  m_depth : Z;
  m_entries : Z;
  m_hash : bytes
}.

(** An entry of the slot array [ptrs]: the offset of a node written by
    [btree_add_node], given by that node, or the offset 0 that
    [memset] leaves. *)
Inductive slot :=
  | Written (n : node)
  | Zero.

(** What follows the header of a [struct page]: the slot array [ptrs] of a
    branch or a leaf, as far as its entries are known, each written slot
    with the node it points at; the bytes of an overflow page; the
    [bt_meta] of a meta page; the [bt_head] of the header page.  Of a page
    fresh from [malloc] no slot is known.  [BTorn n] is a page of the file
    that [ftruncate] made of a trailing partial page: it starts with the
    [n] bytes the file ended with, which are not recorded, and zeros
    follow. *)
Inductive pbody :=
  | BNodes (l : list slot)
  | BOverflow (d : bytes)
  | BMeta (m : bt_meta)
  | BHead (h : bt_head)
  | BTorn (n : Z).

(** [struct page].  [lower]/[upper] and [p_next_pgno] share a union in C;
    a page uses one or the other according to its kind. *)
Record page := Page {
  pg_pgno : Z;
  pg_flags : Z;
  lower : Z;
  upper : Z;
  p_next_pgno : Z;
  pg_body : pbody
}.

Definition pg_slots (p : page) : list slot :=
  match pg_body p with BNodes l => l | _ => [] end.

Definition NUMKEYSP (p : page) : Z := Z.shiftr (lower p - PAGEHDRSZ) 1.

(** The [struct node] at offset 0 of a page, where a slot holding 0
    points: both structs are packed and the integers little-endian, so
    the node's 32-bit field is the page number, its key size the low half
    of the page flags, its flags the third byte of the page flags, and
    its [data] starts with the last byte of the page flags followed by
    [lower] and [upper].  The slot array comes next and is not given
    here. *)
Definition header_node (p : page) : node :=
  Node (pg_pgno p) (pg_flags p mod 2 ^ 16) ((pg_flags p / 2 ^ 16) mod 256)
       [byte_of_Z (pg_flags p / 2 ^ 24);
        byte_of_Z (lower p); byte_of_Z (lower p / 2 ^ 8);
        byte_of_Z (upper p); byte_of_Z (upper p / 2 ^ 8)].

Definition slot_node (p : page) (s : slot) : node :=
  match s with Written n => n | Zero => header_node p end.


(** [NODEPTRP(p, i)]: the node slot [i] points at; reading a slot that is
    not known has no defined result. *)
Definition NODEPTRP (p : page) (i : Z) : option node :=
  if 0 <=? i then slot_node p <$> pg_slots p !! Z.to_nat i else None.

(** [struct mpage].  Pointers to [struct mpage] are indices into the heap
    of page objects kept in the state below.  [ref] is a [short]: where
    the code counts it up or down the result wraps around as [i16]. *)
Record mpage := Mpage {
  mp_parent : option nat;
  mp_parent_index : Z;
  mp_prefix : bytes;
  mp_page : page;
  mp_pgno : Z;
  mp_ref : Z;
  mp_dirty : bool
}.

(** [struct btree_txn]; [dirty_queue] lists page objects. *)
Record btree_txn := BtreeTxn {
  tx_root : Z;
  tx_next_pgno : Z;
  tx_dirty_queue : list nat;
  tx_flags : Z
}.

(** [struct ppage] and [struct cursor] (the stack has its top first). *)
Record ppage := Ppage { pp_mpage : nat; pp_ki : Z }.

Record cursor := Cursor {
  c_txn : option nat;
  c_stack : list ppage;
  c_initialized : bool;
  c_eof : bool
}.

(** [struct btree], together with what its pointers reach: the heap of
    [struct mpage] objects, the transaction objects, the file behind [fd]
    (its whole pages, and the number of bytes of a trailing partial page),
    [errno], and the value [time(0)] returns. *)
Record btree := Btree {
  bt_flags : Z;
  bt_head_ : bt_head;
  bt_meta_ : bt_meta;
  bt_page_cache : gmap Z nat;
  bt_lru_queue : list nat;
  bt_txn : option nat;
  bt_ref : Z;
  bt_cache_size : Z;
  bt_max_cache : Z;
  bt_size : Z;
  bt_heap : list mpage;
  bt_txns : list btree_txn;
  bt_file : list page;
  bt_file_tail : Z;
  bt_errno : Z;
  bt_now : Z
}.

(** ** Field updates *)

Definition set_pg_pgno (f : Z -> Z) (r : page) : page :=
  Page (f (pg_pgno r)) (pg_flags r) (lower r) (upper r) (p_next_pgno r) (pg_body r).

Definition set_pg_flags (f : Z -> Z) (r : page) : page :=
  Page (pg_pgno r) (f (pg_flags r)) (lower r) (upper r) (p_next_pgno r) (pg_body r).

Definition set_lower (f : Z -> Z) (r : page) : page :=
  Page (pg_pgno r) (pg_flags r) (f (lower r)) (upper r) (p_next_pgno r) (pg_body r).

Definition set_upper (f : Z -> Z) (r : page) : page :=
  Page (pg_pgno r) (pg_flags r) (lower r) (f (upper r)) (p_next_pgno r) (pg_body r).

Definition set_p_next_pgno (f : Z -> Z) (r : page) : page :=
  Page (pg_pgno r) (pg_flags r) (lower r) (upper r) (f (p_next_pgno r)) (pg_body r).

Definition set_pg_body (f : pbody -> pbody) (r : page) : page :=
  Page (pg_pgno r) (pg_flags r) (lower r) (upper r) (p_next_pgno r) (f (pg_body r)).

Definition set_n_p (f : Z -> Z) (r : node) : node :=
  Node (f (n_p r)) (ksize r) (n_flags r) (n_data r).

Definition set_ksize (f : Z -> Z) (r : node) : node :=
  Node (n_p r) (f (ksize r)) (n_flags r) (n_data r).

Definition set_n_flags (f : Z -> Z) (r : node) : node :=
  Node (n_p r) (ksize r) (f (n_flags r)) (n_data r).

Definition set_n_data (f : bytes -> bytes) (r : node) : node :=
  Node (n_p r) (ksize r) (n_flags r) (f (n_data r)).

Definition set_mp_parent (f : option nat -> option nat) (r : mpage) : mpage :=
  Mpage (f (mp_parent r)) (mp_parent_index r) (mp_prefix r) (mp_page r) (mp_pgno r) (mp_ref r) (mp_dirty r).

Definition set_mp_parent_index (f : Z -> Z) (r : mpage) : mpage :=
  Mpage (mp_parent r) (f (mp_parent_index r)) (mp_prefix r) (mp_page r) (mp_pgno r) (mp_ref r) (mp_dirty r).

Definition set_mp_prefix (f : bytes -> bytes) (r : mpage) : mpage :=
  Mpage (mp_parent r) (mp_parent_index r) (f (mp_prefix r)) (mp_page r) (mp_pgno r) (mp_ref r) (mp_dirty r).

Definition set_mp_page (f : page -> page) (r : mpage) : mpage :=
  Mpage (mp_parent r) (mp_parent_index r) (mp_prefix r) (f (mp_page r)) (mp_pgno r) (mp_ref r) (mp_dirty r).

Definition set_mp_pgno (f : Z -> Z) (r : mpage) : mpage :=
  Mpage (mp_parent r) (mp_parent_index r) (mp_prefix r) (mp_page r) (f (mp_pgno r)) (mp_ref r) (mp_dirty r).

Definition set_mp_ref (f : Z -> Z) (r : mpage) : mpage :=
  Mpage (mp_parent r) (mp_parent_index r) (mp_prefix r) (mp_page r) (mp_pgno r) (f (mp_ref r)) (mp_dirty r).

Definition set_mp_dirty (f : bool -> bool) (r : mpage) : mpage :=
  Mpage (mp_parent r) (mp_parent_index r) (mp_prefix r) (mp_page r) (mp_pgno r) (mp_ref r) (f (mp_dirty r)).

Definition set_tx_root (f : Z -> Z) (r : btree_txn) : btree_txn :=
  BtreeTxn (f (tx_root r)) (tx_next_pgno r) (tx_dirty_queue r) (tx_flags r).

Definition set_tx_next_pgno (f : Z -> Z) (r : btree_txn) : btree_txn :=
  BtreeTxn (tx_root r) (f (tx_next_pgno r)) (tx_dirty_queue r) (tx_flags r).

Definition set_tx_dirty_queue (f : list nat -> list nat) (r : btree_txn) : btree_txn :=
  BtreeTxn (tx_root r) (tx_next_pgno r) (f (tx_dirty_queue r)) (tx_flags r).

Definition set_tx_flags (f : Z -> Z) (r : btree_txn) : btree_txn :=
  BtreeTxn (tx_root r) (tx_next_pgno r) (tx_dirty_queue r) (f (tx_flags r)).

Definition set_m_flags (f : Z -> Z) (r : bt_meta) : bt_meta :=
  BtMeta (f (m_flags r)) (m_root r) (m_prev_meta r) (m_created_at r) (m_branch_pages r) (m_leaf_pages r) (m_overflow_pages r) (m_revisions r) (m_depth r) (m_entries r) (m_hash r).

Definition set_m_root (f : Z -> Z) (r : bt_meta) : bt_meta :=
  BtMeta (m_flags r) (f (m_root r)) (m_prev_meta r) (m_created_at r) (m_branch_pages r) (m_leaf_pages r) (m_overflow_pages r) (m_revisions r) (m_depth r) (m_entries r) (m_hash r).

Definition set_m_prev_meta (f : Z -> Z) (r : bt_meta) : bt_meta :=
  BtMeta (m_flags r) (m_root r) (f (m_prev_meta r)) (m_created_at r) (m_branch_pages r) (m_leaf_pages r) (m_overflow_pages r) (m_revisions r) (m_depth r) (m_entries r) (m_hash r).

Definition set_m_created_at (f : Z -> Z) (r : bt_meta) : bt_meta :=
  BtMeta (m_flags r) (m_root r) (m_prev_meta r) (f (m_created_at r)) (m_branch_pages r) (m_leaf_pages r) (m_overflow_pages r) (m_revisions r) (m_depth r) (m_entries r) (m_hash r).

Definition set_m_branch_pages (f : Z -> Z) (r : bt_meta) : bt_meta :=
  BtMeta (m_flags r) (m_root r) (m_prev_meta r) (m_created_at r) (f (m_branch_pages r)) (m_leaf_pages r) (m_overflow_pages r) (m_revisions r) (m_depth r) (m_entries r) (m_hash r).

Definition set_m_leaf_pages (f : Z -> Z) (r : bt_meta) : bt_meta :=
  BtMeta (m_flags r) (m_root r) (m_prev_meta r) (m_created_at r) (m_branch_pages r) (f (m_leaf_pages r)) (m_overflow_pages r) (m_revisions r) (m_depth r) (m_entries r) (m_hash r).

Definition set_m_overflow_pages (f : Z -> Z) (r : bt_meta) : bt_meta :=
  BtMeta (m_flags r) (m_root r) (m_prev_meta r) (m_created_at r) (m_branch_pages r) (m_leaf_pages r) (f (m_overflow_pages r)) (m_revisions r) (m_depth r) (m_entries r) (m_hash r).

Definition set_m_revisions (f : Z -> Z) (r : bt_meta) : bt_meta :=
  BtMeta (m_flags r) (m_root r) (m_prev_meta r) (m_created_at r) (m_branch_pages r) (m_leaf_pages r) (m_overflow_pages r) (f (m_revisions r)) (m_depth r) (m_entries r) (m_hash r).

Definition set_m_depth (f : Z -> Z) (r : bt_meta) : bt_meta :=
  BtMeta (m_flags r) (m_root r) (m_prev_meta r) (m_created_at r) (m_branch_pages r) (m_leaf_pages r) (m_overflow_pages r) (m_revisions r) (f (m_depth r)) (m_entries r) (m_hash r).

Definition set_m_entries (f : Z -> Z) (r : bt_meta) : bt_meta :=
  BtMeta (m_flags r) (m_root r) (m_prev_meta r) (m_created_at r) (m_branch_pages r) (m_leaf_pages r) (m_overflow_pages r) (m_revisions r) (m_depth r) (f (m_entries r)) (m_hash r).

Definition set_m_hash (f : bytes -> bytes) (r : bt_meta) : bt_meta :=
  BtMeta (m_flags r) (m_root r) (m_prev_meta r) (m_created_at r) (m_branch_pages r) (m_leaf_pages r) (m_overflow_pages r) (m_revisions r) (m_depth r) (m_entries r) (f (m_hash r)).

Definition set_c_txn (f : option nat -> option nat) (r : cursor) : cursor :=
  Cursor (f (c_txn r)) (c_stack r) (c_initialized r) (c_eof r).

Definition set_c_stack (f : list ppage -> list ppage) (r : cursor) : cursor :=
  Cursor (c_txn r) (f (c_stack r)) (c_initialized r) (c_eof r).

Definition set_c_initialized (f : bool -> bool) (r : cursor) : cursor :=
  Cursor (c_txn r) (c_stack r) (f (c_initialized r)) (c_eof r).

Definition set_c_eof (f : bool -> bool) (r : cursor) : cursor :=
  Cursor (c_txn r) (c_stack r) (c_initialized r) (f (c_eof r)).

Definition set_bt_flags (f : Z -> Z) (r : btree) : btree :=
  Btree (f (bt_flags r)) (bt_head_ r) (bt_meta_ r) (bt_page_cache r) (bt_lru_queue r) (bt_txn r) (bt_ref r) (bt_cache_size r) (bt_max_cache r) (bt_size r) (bt_heap r) (bt_txns r) (bt_file r) (bt_file_tail r) (bt_errno r) (bt_now r).

Definition set_bt_head_ (f : bt_head -> bt_head) (r : btree) : btree :=
  Btree (bt_flags r) (f (bt_head_ r)) (bt_meta_ r) (bt_page_cache r) (bt_lru_queue r) (bt_txn r) (bt_ref r) (bt_cache_size r) (bt_max_cache r) (bt_size r) (bt_heap r) (bt_txns r) (bt_file r) (bt_file_tail r) (bt_errno r) (bt_now r).

Definition set_bt_meta_ (f : bt_meta -> bt_meta) (r : btree) : btree :=
  Btree (bt_flags r) (bt_head_ r) (f (bt_meta_ r)) (bt_page_cache r) (bt_lru_queue r) (bt_txn r) (bt_ref r) (bt_cache_size r) (bt_max_cache r) (bt_size r) (bt_heap r) (bt_txns r) (bt_file r) (bt_file_tail r) (bt_errno r) (bt_now r).

Definition set_bt_page_cache (f : gmap Z nat -> gmap Z nat) (r : btree) : btree :=
  Btree (bt_flags r) (bt_head_ r) (bt_meta_ r) (f (bt_page_cache r)) (bt_lru_queue r) (bt_txn r) (bt_ref r) (bt_cache_size r) (bt_max_cache r) (bt_size r) (bt_heap r) (bt_txns r) (bt_file r) (bt_file_tail r) (bt_errno r) (bt_now r).

Definition set_bt_lru_queue (f : list nat -> list nat) (r : btree) : btree :=
  Btree (bt_flags r) (bt_head_ r) (bt_meta_ r) (bt_page_cache r) (f (bt_lru_queue r)) (bt_txn r) (bt_ref r) (bt_cache_size r) (bt_max_cache r) (bt_size r) (bt_heap r) (bt_txns r) (bt_file r) (bt_file_tail r) (bt_errno r) (bt_now r).

Definition set_bt_txn (f : option nat -> option nat) (r : btree) : btree :=
  Btree (bt_flags r) (bt_head_ r) (bt_meta_ r) (bt_page_cache r) (bt_lru_queue r) (f (bt_txn r)) (bt_ref r) (bt_cache_size r) (bt_max_cache r) (bt_size r) (bt_heap r) (bt_txns r) (bt_file r) (bt_file_tail r) (bt_errno r) (bt_now r).

Definition set_bt_ref (f : Z -> Z) (r : btree) : btree :=
  Btree (bt_flags r) (bt_head_ r) (bt_meta_ r) (bt_page_cache r) (bt_lru_queue r) (bt_txn r) (f (bt_ref r)) (bt_cache_size r) (bt_max_cache r) (bt_size r) (bt_heap r) (bt_txns r) (bt_file r) (bt_file_tail r) (bt_errno r) (bt_now r).

Definition set_bt_cache_size (f : Z -> Z) (r : btree) : btree :=
  Btree (bt_flags r) (bt_head_ r) (bt_meta_ r) (bt_page_cache r) (bt_lru_queue r) (bt_txn r) (bt_ref r) (f (bt_cache_size r)) (bt_max_cache r) (bt_size r) (bt_heap r) (bt_txns r) (bt_file r) (bt_file_tail r) (bt_errno r) (bt_now r).

Definition set_bt_max_cache (f : Z -> Z) (r : btree) : btree :=
  Btree (bt_flags r) (bt_head_ r) (bt_meta_ r) (bt_page_cache r) (bt_lru_queue r) (bt_txn r) (bt_ref r) (bt_cache_size r) (f (bt_max_cache r)) (bt_size r) (bt_heap r) (bt_txns r) (bt_file r) (bt_file_tail r) (bt_errno r) (bt_now r).

Definition set_bt_size (f : Z -> Z) (r : btree) : btree :=
  Btree (bt_flags r) (bt_head_ r) (bt_meta_ r) (bt_page_cache r) (bt_lru_queue r) (bt_txn r) (bt_ref r) (bt_cache_size r) (bt_max_cache r) (f (bt_size r)) (bt_heap r) (bt_txns r) (bt_file r) (bt_file_tail r) (bt_errno r) (bt_now r).

Definition set_bt_heap (f : list mpage -> list mpage) (r : btree) : btree :=
  Btree (bt_flags r) (bt_head_ r) (bt_meta_ r) (bt_page_cache r) (bt_lru_queue r) (bt_txn r) (bt_ref r) (bt_cache_size r) (bt_max_cache r) (bt_size r) (f (bt_heap r)) (bt_txns r) (bt_file r) (bt_file_tail r) (bt_errno r) (bt_now r).

Definition set_bt_txns (f : list btree_txn -> list btree_txn) (r : btree) : btree :=
  Btree (bt_flags r) (bt_head_ r) (bt_meta_ r) (bt_page_cache r) (bt_lru_queue r) (bt_txn r) (bt_ref r) (bt_cache_size r) (bt_max_cache r) (bt_size r) (bt_heap r) (f (bt_txns r)) (bt_file r) (bt_file_tail r) (bt_errno r) (bt_now r).

Definition set_bt_file (f : list page -> list page) (r : btree) : btree :=
  Btree (bt_flags r) (bt_head_ r) (bt_meta_ r) (bt_page_cache r) (bt_lru_queue r) (bt_txn r) (bt_ref r) (bt_cache_size r) (bt_max_cache r) (bt_size r) (bt_heap r) (bt_txns r) (f (bt_file r)) (bt_file_tail r) (bt_errno r) (bt_now r).

Definition set_bt_file_tail (f : Z -> Z) (r : btree) : btree :=
  Btree (bt_flags r) (bt_head_ r) (bt_meta_ r) (bt_page_cache r) (bt_lru_queue r) (bt_txn r) (bt_ref r) (bt_cache_size r) (bt_max_cache r) (bt_size r) (bt_heap r) (bt_txns r) (bt_file r) (f (bt_file_tail r)) (bt_errno r) (bt_now r).

Definition set_bt_errno (f : Z -> Z) (r : btree) : btree :=
  Btree (bt_flags r) (bt_head_ r) (bt_meta_ r) (bt_page_cache r) (bt_lru_queue r) (bt_txn r) (bt_ref r) (bt_cache_size r) (bt_max_cache r) (bt_size r) (bt_heap r) (bt_txns r) (bt_file r) (bt_file_tail r) (f (bt_errno r)) (bt_now r).

Definition set_bt_now (f : Z -> Z) (r : btree) : btree :=
  Btree (bt_flags r) (bt_head_ r) (bt_meta_ r) (bt_page_cache r) (bt_lru_queue r) (bt_txn r) (bt_ref r) (bt_cache_size r) (bt_max_cache r) (bt_size r) (bt_heap r) (bt_txns r) (bt_file r) (bt_file_tail r) (bt_errno r) (f (bt_now r)).

Definition set_pg_slots (f : list slot -> list slot) (p : page) : page :=
  set_pg_body (fun _ => BNodes (f (pg_slots p))) p.

(** ** Stateful code

    A C function that reads and writes the [struct btree] and the objects
    behind it is a function from the state to a result and a new state.
    The outer [option] is [None] where the C code leaves what the
    embedding covers: it dereferences a null pointer, reads a slot or
    bytes that were never written, or runs out of the fuel of a loop.
    Return codes ([BT_SUCCESS], [BT_FAIL]) and null results are ordinary
    results.  [malloc], [calloc], [write], [writev], [fsync], [ftruncate],
    [lseek] and [flock] succeed; the branches taken on their failure are
    not embedded. *)

Definition M (A : Type) : Type := btree -> option (A * btree).

Definition ret {A} (a : A) : M A := fun s => Some (a, s).

Definition bind {A B} (m : M A) (k : A -> M B) : M B :=
  fun s => match m s with Some (a, s') => k a s' | None => None end.

Notation "x <- c1 ;; c2" := (bind c1 (fun x => c2))
  (at level 100, c1 at next level, right associativity).
Notation "c1 ;;; c2" := (bind c1 (fun _ => c2))
  (at level 100, right associativity).

Definition undefined {A} : M A := fun _ => None.
Definition gets {A} (f : btree -> A) : M A := fun s => Some (f s, s).
Definition modify (f : btree -> btree) : M unit := fun s => Some (tt, f s).
Definition liftO {A} (o : option A) : M A :=
  match o with Some a => ret a | None => undefined end.
Definition set_errno (e : Z) : M unit := modify (set_bt_errno (fun _ => e)).

(** Dereferencing a [struct mpage *]. *)
Definition mp_get (mp : nat) : M mpage := fun s => liftO (bt_heap s !! mp) s.
Definition mp_upd (mp : nat) (f : mpage -> mpage) : M unit :=
  m <- mp_get mp ;; modify (set_bt_heap (fun h => <[mp := f m]> h)).
Definition mp_new (m : mpage) : M nat :=
  n <- gets (fun s => length (bt_heap s)) ;;
  modify (set_bt_heap (fun h => h ++ [m])) ;;; ret n.

(** Dereferencing [bt->txn] and a [struct btree_txn *]. *)
Definition txn_get (t : nat) : M btree_txn := fun s => liftO (bt_txns s !! t) s.
Definition txn_upd (t : nat) (f : btree_txn -> btree_txn) : M unit :=
  x <- txn_get t ;; modify (set_bt_txns (fun l => <[t := f x]> l)).
Definition bt_txn_ptr : M nat := fun s => liftO (bt_txn s) s.

Definition the_psize : M Z := gets (fun s => psize (bt_head_ s)).

Definition NUMKEYS (m : mpage) : Z := NUMKEYSP (mp_page m).
Definition SIZELEFT (m : mpage) : Z := u16 (upper (mp_page m) - lower (mp_page m)).
Definition PAGEFILL (ps : Z) (m : mpage) : Z :=
  u64 (1000 * u64 (ps - PAGEHDRSZ - SIZELEFT m)) / u64 (ps - PAGEHDRSZ).
Definition IS_LEAF (m : mpage) : bool := F_ISSET (pg_flags (mp_page m)) P_LEAF.
Definition IS_BRANCH (m : mpage) : bool := F_ISSET (pg_flags (mp_page m)) P_BRANCH.
Definition IS_OVERFLOW (m : mpage) : bool := F_ISSET (pg_flags (mp_page m)) P_OVERFLOW.
Definition NODEPTR (m : mpage) (i : Z) : option node := NODEPTRP (mp_page m) i.

(** ** The page cache (btree.c:376-492) *)

(** [mpage_lookup] (btree.c:386): [RB_FIND], and the page found moves to
    the tail of the LRU queue. *)
Definition mpage_lookup (pgno : Z) : M (option nat) :=
  c <- gets bt_page_cache ;;
  match c !! pgno with
  | Some mp =>
      modify (set_bt_lru_queue (fun q => filter (fun x => x <> mp) q ++ [mp])) ;;;
      ret (Some mp)
  | None => ret None
  end.

(** [mpage_add] (btree.c:399).  [RB_INSERT] leaves the tree as it is when
    it already holds a page of that number. *)
Definition mpage_add (mp : nat) : M unit :=
  m <- mp_get mp ;;
  modify (set_bt_page_cache (fun c =>
            match c !! mp_pgno m with Some _ => c | None => <[mp_pgno m := mp]> c end)) ;;;
  modify (set_bt_cache_size (fun n => u32 (n + 1))) ;;;
  modify (set_bt_lru_queue (fun q => q ++ [mp])).

(** [mpage_free] (btree.c:405).  Page objects are never reused by the
    embedding, so releasing one leaves the heap as it is. *)
Definition mpage_free (mp : nat) : M unit := ret tt.

(** [mpage_del] (btree.c:412).  [RB_REMOVE] is given a page that is in
    the tree. *)
Definition mpage_del (mp : nat) : M unit :=
  m <- mp_get mp ;;
  c <- gets bt_page_cache ;;
  match c !! mp_pgno m with
  | Some mp' =>
      if bool_decide (mp' = mp) then
        modify (set_bt_page_cache (delete (mp_pgno m))) ;;;
        modify (set_bt_cache_size (fun n => u32 (n - 1))) ;;;
        modify (set_bt_lru_queue (filter (fun x => x <> mp)))
      else undefined
  | None => undefined
  end.

(** [mpage_flush] (btree.c:418). *)
Definition mpage_flush : M unit :=
  c <- gets bt_page_cache ;;
  foldr (fun kv k => mpage_del kv.2 ;;; mpage_free kv.2 ;;; k) (ret tt) (map_to_list c).

(** [mpage_copy] (btree.c:427). *)
Definition mpage_copy (mp : nat) : M nat :=
  m <- mp_get mp ;;
  mp_new (Mpage (mp_parent m) (mp_parent_index m) (mp_prefix m) (mp_page m)
                (mp_pgno m) 0 false).

(** [mpage_prune] (btree.c:450), over the LRU queue as it stands at the
    call, head first. *)
Fixpoint mpage_prune_loop (q : list nat) : M unit :=
  match q with
  | [] => ret tt
  | mp :: next =>
      cs <- gets bt_cache_size ;;
      mc <- gets bt_max_cache ;;
      if cs <=? mc then ret tt
      else
        m <- mp_get mp ;;
        (if negb (mp_dirty m) && (mp_ref m <=? 0)
         then mpage_del mp ;;; mpage_free mp else ret tt) ;;;
        mpage_prune_loop next
  end.

Definition mpage_prune : M unit :=
  q <- gets bt_lru_queue ;; mpage_prune_loop q.

(** [mpage_dirty] (btree.c:467). *)
Definition mpage_dirty (mp : nat) : M unit :=
  m <- mp_get mp ;;
  if mp_dirty m then ret tt
  else
    mp_upd mp (set_mp_dirty (fun _ => true)) ;;;
    t <- bt_txn_ptr ;;
    txn_upd t (set_tx_dirty_queue (fun q => q ++ [mp])).

(** [bt->txn->next_pgno++]. *)
Definition alloc_pgno : M Z :=
  t <- bt_txn_ptr ;;
  x <- txn_get t ;;
  txn_upd t (set_tx_next_pgno (fun n => u32 (n + 1))) ;;;
  ret (tx_next_pgno x).

(** Writing [NODEPGNO(NODEPTR(mp, i))], for a slot that points at a node
    of its own. *)
Definition set_node_pgno (mp : nat) (i : Z) (pgno : Z) : M unit :=
  m <- mp_get mp ;;
  n <- liftO (if 0 <=? i
              then match pg_slots (mp_page m) !! Z.to_nat i with
                   | Some (Written n) => Some n
                   | _ => None
                   end
              else None) ;;
  mp_upd mp (set_mp_page (set_pg_slots (fun l =>
    <[Z.to_nat i := Written (set_n_p (fun _ => pgno) n)]> l))).

(** [mpage_touch] (btree.c:475). *)
Definition mpage_touch (mp : nat) : M nat :=
  m <- mp_get mp ;;
  if mp_dirty m then ret mp
  else
    mp <- (if mp_ref m =? 0 then mpage_del mp ;;; ret mp else mpage_copy mp) ;;
    pgno <- alloc_pgno ;;
    mp_upd mp (fun m => set_mp_pgno (fun _ => pgno)
                          (set_mp_page (set_pg_pgno (fun _ => pgno)) m)) ;;;
    mpage_dirty mp ;;;
    mpage_add mp ;;;
    m <- mp_get mp ;;
    match mp_parent m with
    | Some parent => set_node_pgno parent (mp_parent_index m) pgno
    | None => ret tt
    end ;;;
    ret mp.

(** [btree_read_page] (btree.c:494).  [pread] returns [0] at or past the
    end of the file and fewer bytes than asked for inside a trailing
    partial page.  What a page made of a partial page holds is not
    recorded: reading it has no defined result. *)
Definition btree_read_page (pgno : Z) : M (Z * option page) :=
  ps <- the_psize ;;
  f <- gets bt_file ;;
  tail <- gets bt_file_tail ;;
  let fsize := Z.of_nat (length f) * ps + tail in
  let off := pgno * ps in
  if fsize <=? off then set_errno ENOENT ;;; ret (BT_FAIL, None)
  else if fsize - off <? ps then set_errno EINVAL ;;; ret (BT_FAIL, None)
  else
    pg <- liftO (f !! Z.to_nat pgno) ;;
    match pg_body pg with
    | BTorn _ => undefined
    | _ =>
        if negb (pg_pgno pg =? pgno) then set_errno EINVAL ;;; ret (BT_FAIL, None)
        else ret (BT_SUCCESS, Some pg)
    end.

(** [btree_get_mpage] (btree.c:1061). *)
Definition btree_get_mpage (pgno : Z) : M (option nat) :=
  o <- mpage_lookup pgno ;;
  match o with
  | Some mp => ret (Some mp)
  | None =>
      r <- btree_read_page pgno ;;
      match r.2 with
      | Some pg =>
          mp <- mp_new (Mpage None 0 [] pg pgno 0 false) ;;
          mpage_add mp ;;; ret (Some mp)
      | None => ret None
      end
  end.

(** The state outside the page cache: what a call leaves as it is when it
    only drops pages from the cache. *)
Definition outside_cache (s : btree) : btree :=
  set_bt_page_cache (fun _ => ∅)
    (set_bt_lru_queue (fun _ => []) (set_bt_cache_size (fun _ => 0) s)).

(** The cache is consistent: the LRU queue lists each page object once,
    and the tree of cached pages maps the number of each to it. *)
Definition cache_entry_ok (s : btree) (mp : nat) : bool :=
  match bt_heap s !! mp with
  | Some m => bool_decide (bt_page_cache s !! mp_pgno m = Some mp)
  | None => false
  end.

Definition cache_ok (s : btree) : bool :=
  bool_decide (NoDup (bt_lru_queue s)) && forallb (cache_entry_ok s) (bt_lru_queue s).

(** ** Prefixes (btree.c:323-374, 1084-1123) *)

Fixpoint common_len (a b : bytes) : nat :=
  match a, b with
  | x :: a', y :: b' => if Byte.eqb x y then S (common_len a' b') else O
  | _, _ => O
  end.

(** [common_prefix] (btree.c:323) on two [struct btkey]: the loop stops at
    the first differing pair or at the end of the shorter key. *)
Definition common_prefix (min max : bytes) : bytes :=
  if (length min =? 0)%nat || (length max =? 0)%nat then []
  else take (common_len min max) max.

(** [remove_prefix] (btree.c:351); [size_t] does not go below zero. *)
Definition remove_prefix (key : btval) (pfxlen : Z) : option btval :=
  if pfxlen =? 0 then Some key
  else if bv_size key <? pfxlen then None
  else Some (Btval (drop (Z.to_nat pfxlen) (bv_data key)) (bv_size key - pfxlen)).

(** [concat_prefix] (btree.c:1084) into a buffer of [cap] bytes. *)
Definition concat_prefix (s1 s2 : bytes) (cap : Z) : option bytes :=
  if Z.of_nat (length (s1 ++ s2)) <=? cap then Some (s1 ++ s2) else None.

(** The [ksize] bytes at [NODEKEY(node)]. *)
Definition node_key (n : node) : option bytes :=
  val_bytes (Btval (NODEKEY n) (ksize n)).

(** [expand_prefix] (btree.c:360) into a [struct btkey]. *)
Definition expand_prefix (m : mpage) (indx : Z) : option bytes :=
  n ← NODEPTR m indx;
  k ← node_key n;
  concat_prefix (mp_prefix m) k MAXKEYSIZE.

(** [bt_cmp] (btree.c:370). *)
Definition bt_cmp (key1 key2 : btval) (pfx : bytes) : option Z :=
  let pl := Z.of_nat (length pfx) in
  if (bv_size key1 <? pl) || (bv_size key2 <? 0) then None
  else Cmp.memncmp (drop (length pfx) (bv_data key1)) (Z.to_nat (bv_size key1 - pl))
                   (bv_data key2) (Z.to_nat (bv_size key2)).

(** The two walks up the parent chain in [find_common_prefix]
    (btree.c:1098-1114): the page whose parent holds the bracketing
    separator, and the index of that separator. *)
Fixpoint lbound_walk (fuel : nat) (h : list mpage) (lp : nat) : option (nat * Z) :=
  m ← h !! lp;
  match mp_parent m with
  | None => Some (lp, 0)
  | Some par =>
      if 0 <? mp_parent_index m then Some (lp, u16 (mp_parent_index m))
      else match fuel with O => None | S f => lbound_walk f h par end
  end.

Fixpoint ubound_walk (fuel : nat) (h : list mpage) (up : nat) : option (nat * Z) :=
  m ← h !! up;
  match mp_parent m with
  | None => Some (up, 0)
  | Some par =>
      pm ← h !! par;
      if u32 (mp_parent_index m + 1) <? u16 (NUMKEYS pm)
      then Some (up, u16 (mp_parent_index m + 1))
      else match fuel with O => None | S f => ubound_walk f h par end
  end.

(** [find_common_prefix] (btree.c:1091). *)
Definition find_common_prefix (mp : nat) : M unit :=
  mp_upd mp (set_mp_prefix (fun _ => [])) ;;;
  h <- gets bt_heap ;;
  lw <- liftO (lbound_walk (length h) h mp) ;;
  uw <- liftO (ubound_walk (length h) h mp) ;;
  lpm <- mp_get lw.1 ;;
  upm <- mp_get uw.1 ;;
  m <- mp_get mp ;;
  match mp_parent lpm, mp_parent upm with
  | Some lpar, Some upar =>
      lparm <- mp_get lpar ;;
      uparm <- mp_get upar ;;
      lprefix <- liftO (expand_prefix lparm lw.2) ;;
      uprefix <- liftO (expand_prefix uparm uw.2) ;;
      mp_upd mp (set_mp_prefix (fun _ => common_prefix lprefix uprefix))
  | _, _ =>
      match mp_parent m with
      | Some par =>
          parm <- mp_get par ;;
          mp_upd mp (set_mp_prefix (fun _ => mp_prefix parm))
      | None => ret tt
      end
  end.

(** ** Search (btree.c:983-1233) *)

(** The binary search of [btree_search_node]: the last index probed and
    the last comparison. *)
Fixpoint search_node_loop (fuel : nat) (m : mpage) (key : btval)
    (low high i rc : Z) : option (Z * Z) :=
  if low <=? high then
    match fuel with
    | O => None
    | S f =>
        let i := Z.shiftr (low + high) 1 in
        n ← NODEPTR m i;
        rc ← bt_cmp key (Btval (NODEKEY n) (ksize n)) (mp_prefix m);
        if rc =? 0 then Some (i, rc)
        else if 0 <? rc then search_node_loop f m key (i + 1) high i rc
        else search_node_loop f m key low (i - 1) i rc
    end
  else Some (i, rc).

(** [btree_search_node] (btree.c:990).  The result is [None] for the
    null pointer, and otherwise what the call leaves in [*exactp] and
    [*kip]; the node returned is [NODEPTR(mp, *kip)]. *)
Definition btree_search_node (m : mpage) (key : btval) : option (option (bool * Z)) :=
  let low := if IS_LEAF m then 0 else 1 in
  let high := NUMKEYS m - 1 in
  r ← search_node_loop (S (Z.to_nat (NUMKEYS m))) m key low high 0 0;
  let i := r.1 in
  let rc := r.2 in
  if 0 <? rc then
    if NUMKEYS m <=? i + 1 then Some None
    else Some (Some (rc =? 0, i + 1))
  else Some (Some (rc =? 0, i)).

(** [cursor_pop_page] (btree.c:1039) and [cursor_push_page]
    (btree.c:1049). *)
Definition cursor_pop_page (c : cursor) : M cursor :=
  match c_stack c with
  | top :: rest =>
      mp_upd (pp_mpage top) (set_mp_ref (fun r => i16 (r - 1))) ;;;
      ret (set_c_stack (fun _ => rest) c)
  | [] => undefined
  end.

Definition cursor_push_page (c : cursor) (mp : nat) : M cursor :=
  mp_upd mp (set_mp_ref (fun r => i16 (r + 1))) ;;;
  ret (set_c_stack (fun st => Ppage mp 0 :: st) c).

(** [CURSOR_TOP(cursor)->ki = i]. *)
Definition cursor_set_top_ki (c : cursor) (i : Z) : M cursor :=
  match c_stack c with
  | top :: rest => ret (set_c_stack (fun _ => Ppage (pp_mpage top) i :: rest) c)
  | [] => undefined
  end.

(** Applying an operation to the cursor when there is one. *)
Definition with_cursor (oc : option cursor) (f : cursor -> M cursor) : M (option cursor) :=
  match oc with
  | Some c => c' <- f c ;; ret (Some c')
  | None => ret None
  end.

(** The descent of [btree_search_page_root] (btree.c:1135-1179); the
    result is the return code, the cursor, and [*mpp], which is written
    on success only. *)
Fixpoint search_page_root_loop (fuel : nat) (mp : nat) (key : option btval)
    (oc : option cursor) (modify_ : bool) : M (Z * option cursor * option nat) :=
  m <- mp_get mp ;;
  if IS_BRANCH m then
    match fuel with
    | O => undefined
    | S f =>
        i <- match key with
             | None => ret 0
             | Some k =>
                 r <- liftO (btree_search_node m k) ;;
                 match r with
                 | None => ret (u32 (NUMKEYS m - 1))
                 | Some (exact, i) => ret (if exact then i else u32 (i - 1))
                 end
             end ;;
        n <- liftO (NODEPTR m i) ;;
        oc <- with_cursor oc (fun c => cursor_set_top_ki c i) ;;
        o <- btree_get_mpage (NODEPGNO n) ;;
        match o with
        | None => ret (BT_FAIL, oc, None)
        | Some child =>
            mp_upd child (fun x => set_mp_parent (fun _ => Some mp)
                                     (set_mp_parent_index (fun _ => i) x)) ;;;
            find_common_prefix child ;;;
            oc <- with_cursor oc (fun c => cursor_push_page c child) ;;
            child <- (if modify_ then mpage_touch child else ret child) ;;
            search_page_root_loop f child key oc modify_
        end
    end
  else if negb (IS_LEAF m) then ret (BT_FAIL, oc, None)
  else ret (BT_SUCCESS, oc, Some mp).

(** [btree_search_page_root] (btree.c:1125).  The descent visits each
    page object at most once. *)
Definition btree_search_page_root (root : nat) (key : option btval)
    (oc : option cursor) (modify_ : bool) : M (Z * option cursor * option nat) :=
  oc <- with_cursor oc (fun c => cursor_push_page c root) ;;
  fuel <- gets (fun s => (length (bt_heap s) + length (bt_file s))%nat) ;;
  search_page_root_loop fuel root key oc modify_.

(** ** Reading a leaf's data (btree.c:1235) *)

(** The loop of [btree_read_data] over the overflow chain: [sz] bytes are
    still to be read, starting with page [pgno]. *)
Fixpoint read_overflow_loop (fuel : nat) (pgno sz max : Z) (acc : bytes) : M (Z * bytes) :=
  if sz <=? 0 then ret (BT_SUCCESS, acc)
  else
    match fuel with
    | O => undefined
    | S f =>
        o <- btree_get_mpage pgno ;;
        match o with
        | None => ret (BT_FAIL, [])
        | Some omp =>
            m <- mp_get omp ;;
            if negb (IS_OVERFLOW m) then mpage_free omp ;;; ret (BT_FAIL, [])
            else
              let psz := if max <? sz then max else sz in
              d <- liftO (match pg_body (mp_page m) with
                          | BOverflow d => val_bytes (Btval d psz)
                          | _ => None
                          end) ;;
              read_overflow_loop f (p_next_pgno (mp_page m)) (sz - psz) max (acc ++ d)
        end
    end.

(** [btree_read_data] (btree.c:1235): the return code and the bytes left
    in [*data].  A value borrowed from the page pins the page. *)
Definition btree_read_data (mp : option nat) (leaf : node) : M (Z * bytes) :=
  ps <- the_psize ;;
  let max := ps - PAGEHDRSZ in
  if negb (F_ISSET (n_flags leaf) F_BIGDATA) then
    d <- liftO (val_bytes (Btval (NODEDATA leaf) (NODEDSZ leaf))) ;;
    (if 0 <? NODEDSZ leaf then
       match mp with
       | None => ret tt
       | Some mp => mp_upd mp (set_mp_ref (fun r => i16 (r + 1)))
       end
     else ret tt) ;;;
    ret (BT_SUCCESS, d)
  else
    pgno <- liftO (pgno_of_bytes (NODEDATA leaf)) ;;
    read_overflow_loop (S (Z.to_nat (NODEDSZ leaf))) pgno (NODEDSZ leaf) max [].

(** ** Adding and deleting nodes (btree.c:1550-1743) *)

(** [btree_new_page] (btree.c:1550).  The page comes from [malloc]: past
    its header nothing is written yet. *)
Definition btree_new_page (flags : Z) : M nat :=
  ps <- the_psize ;;
  pgno <- alloc_pgno ;;
  mp <- mp_new (Mpage None 0 [] (Page pgno flags PAGEHDRSZ (u16 ps) 0 (BNodes []))
                      pgno 0 false) ;;
  m <- mp_get mp ;;
  (if IS_BRANCH m then
     modify (set_bt_meta_ (set_m_branch_pages (fun n => u32 (n + 1))))
   else if IS_LEAF m then
     modify (set_bt_meta_ (set_m_leaf_pages (fun n => u32 (n + 1))))
   else if IS_OVERFLOW m then
     modify (set_bt_meta_ (set_m_overflow_pages (fun n => u32 (n + 1))))
   else ret tt) ;;;
  mpage_add mp ;;;
  mpage_dirty mp ;;;
  ret mp.

(** The page object [btree_new_page] creates, and the page counter it
    increments. *)
Definition new_mpage (ps pgno flags : Z) (dirty : bool) : mpage :=
  Mpage None 0 [] (Page pgno flags PAGEHDRSZ (u16 ps) 0 (BNodes [])) pgno 0 dirty.

Definition count_page (flags : Z) (s : btree) : btree :=
  if F_ISSET flags P_BRANCH
  then set_bt_meta_ (set_m_branch_pages (fun n => u32 (n + 1))) s
  else if F_ISSET flags P_LEAF
  then set_bt_meta_ (set_m_leaf_pages (fun n => u32 (n + 1))) s
  else if F_ISSET flags P_OVERFLOW
  then set_bt_meta_ (set_m_overflow_pages (fun n => u32 (n + 1))) s
  else s.

(** [bt_leaf_size] (btree.c:1579) and [bt_branch_size] (btree.c:1592). *)
Definition bt_leaf_size (ps : Z) (key data : btval) : Z :=
  let sz := u64 (NODESIZE + bv_size key + bv_size data) in
  let sz := if ps / BT_MINKEYS <=? bv_size data
            then u64 (sz - u64 (bv_size data - sizeof_pgno_t)) else sz in
  u64 (sz + sizeof_indx_t).

Definition bt_branch_size (key : option btval) : Z :=
  u64 (NODESIZE + match key with Some k => bv_size k | None => 0 end + sizeof_indx_t).

(** [btree_write_overflow_data] (btree.c:1596): [cur] is the page object
    the loop writes to, [done] the bytes written so far. *)
Fixpoint write_overflow_loop (fuel : nat) (cur : nat) (data : btval) (done max : Z) : M Z :=
  if bv_size data <=? done then ret BT_SUCCESS
  else
    match fuel with
    | O => undefined
    | S f =>
        nxt <- (if max <? bv_size data - done then
                  nx <- btree_new_page P_OVERFLOW ;;
                  nm <- mp_get nx ;;
                  mp_upd cur (set_mp_page (set_p_next_pgno (fun _ => mp_pgno nm))) ;;;
                  ret nx
                else
                  mp_upd cur (set_mp_page (set_p_next_pgno (fun _ => 0))) ;;;
                  ret cur) ;;
        let sz := if max <? bv_size data - done then max else bv_size data - done in
        chunk <- liftO (val_bytes (Btval (drop (Z.to_nat done) (bv_data data)) sz)) ;;
        mp_upd cur (set_mp_page (set_pg_body (fun _ => BOverflow chunk))) ;;;
        write_overflow_loop f nxt data (done + sz) max
    end.

Definition btree_write_overflow_data (p : nat) (data : btval) : M Z :=
  ps <- the_psize ;;
  write_overflow_loop (S (Z.to_nat (bv_size data))) p data 0 (ps - PAGEHDRSZ).

(** The chain of overflow pages that starts at the cached page [pgno]
    holds the bytes [d]: every page but the last is filled up to the end
    and names the next in [p_next_pgno]; the last has [p_next_pgno = 0]. *)
Inductive overflow_chain (s : btree) : Z -> bytes -> Prop :=
  | overflow_chain_last (pgno : Z) (mp : nat) (m : mpage) (d : bytes) :
      bt_page_cache s !! pgno = Some mp -> bt_heap s !! mp = Some m ->
      IS_OVERFLOW m = true -> pg_body (mp_page m) = BOverflow d ->
      p_next_pgno (mp_page m) = 0 ->
      Z.of_nat (length d) <= psize (bt_head_ s) - PAGEHDRSZ ->
      overflow_chain s pgno d
  | overflow_chain_link (pgno : Z) (mp : nat) (m : mpage) (d rest : bytes) :
      bt_page_cache s !! pgno = Some mp -> bt_heap s !! mp = Some m ->
      IS_OVERFLOW m = true -> pg_body (mp_page m) = BOverflow d ->
      Z.of_nat (length d) = psize (bt_head_ s) - PAGEHDRSZ ->
      rest <> [] ->
      overflow_chain s (p_next_pgno (mp_page m)) rest ->
      overflow_chain s pgno (d ++ rest).


(** Moving the slots from [indx] to [numkeys - 1] up by one and storing
    the offset [ofs] of the new node at [indx] (btree.c:1668-1674).  With
    [indx] above [numkeys] nothing moves and the slots between the two
    keep what they held; the stored slot then lies above [lower] and has
    to end below the new node.  The slots that are read have to be
    known. *)
Definition store_slot (numkeys indx ofs : Z) (n : node) (l : list slot)
    : option (list slot) :=
  let len := Z.of_nat (length l) in
  if indx <? 0 then None
  else if indx <=? numkeys then
    if numkeys <=? len
    then Some (take (Z.to_nat indx) l ++ Written n ::
               take (Z.to_nat (numkeys - indx)) (drop (Z.to_nat indx) l) ++
               drop (Z.to_nat (numkeys + 1)) l)
    else None
  else if (indx <=? len) && (PAGEHDRSZ + sizeof_indx_t * (indx + 1) <=? ofs) then
    if indx <? len then Some (<[Z.to_nat indx := Written n]> l)
    else Some (l ++ [Written n])
  else None.

(** [btree_add_node] (btree.c:1632).  [key] and [data] are null or point
    to a value; the key prefix is already stripped. *)
Definition btree_add_node (mp : nat) (indx : Z) (key data : option btval)
    (pgno : Z) (flags : Z) : M Z :=
  m <- mp_get mp ;;
  ps <- the_psize ;;
  let node_size := u64 (NODESIZE + match key with Some k => bv_size k | None => 0 end) in
  r <- (if IS_LEAF m then
          d <- liftO data ;;
          let node_size := u64 (node_size + bv_size d) in
          if F_ISSET flags F_BIGDATA then
            ret (u64 (node_size - u64 (bv_size d - sizeof_pgno_t)), None, flags)
          else if ps / BT_MINKEYS <=? bv_size d then
            ofp <- btree_new_page P_OVERFLOW ;;
            ret (u64 (node_size - u64 (bv_size d - sizeof_pgno_t)), Some ofp,
                 Z.lor flags F_BIGDATA)
          else ret (node_size, None, flags)
        else ret (node_size, None, flags)) ;;
  let node_size := r.1.1 in
  let ofp := r.1.2 in
  let flags := r.2 in
  m <- mp_get mp ;;
  if SIZELEFT m <? u64 (node_size + sizeof_indx_t) then ret BT_FAIL
  else
    kbytes <- liftO (match key with Some k => val_bytes k | None => Some [] end) ;;
    payload <- (if IS_LEAF m then
                  d <- liftO data ;;
                  k <- liftO key ;;
                  match ofp with
                  | None =>
                      if F_ISSET flags F_BIGDATA
                      then liftO (val_bytes (Btval (bv_data d) sizeof_pgno_t))
                      else liftO (val_bytes d)
                  | Some o => om <- mp_get o ;; ret (pgno_bytes (mp_pgno om))
                  end
                else ret []) ;;
    np <- (if IS_LEAF m then d <- liftO data ;; ret (u32 (bv_size d)) else ret pgno) ;;
    let n := Node np (u16 (match key with Some k => bv_size k | None => 0 end))
                  (flags mod 256) (kbytes ++ payload) in
    let ofs := u16 (upper (mp_page m) - node_size) in
    slots <- liftO (store_slot (NUMKEYS m) indx ofs n (pg_slots (mp_page m))) ;;
    mp_upd mp (set_mp_page (fun p =>
      set_pg_slots (fun _ => slots)
        (set_upper (fun _ => ofs) (set_lower (fun l => u16 (l + sizeof_indx_t)) p)))) ;;;
    match ofp, data with
    | Some o, Some d => btree_write_overflow_data o d
    | _, _ => ret BT_SUCCESS
    end.

(** [btree_del_node] (btree.c:1710), on a page whose slots below
    [NUMKEYS] all point at nodes of their own (the loop would add [sz] to
    the offset 0 of a zeroed slot as to any other offset below [ptr]).
    The loop moves the slots above [indx] down by one; the last slot keeps
    an offset that is no longer the start of a node, and is not known
    afterwards, nor are the slots above it. *)
Definition btree_del_node (mp : nat) (indx : Z) : M unit :=
  m <- mp_get mp ;;
  n <- liftO (if (0 <=? indx) && (indx <? NUMKEYS m)
                 && forallb (fun s => match s with Written _ => true | Zero => false end)
                            (take (Z.to_nat (NUMKEYS m)) (pg_slots (mp_page m)))
                 && (NUMKEYS m <=? Z.of_nat (length (pg_slots (mp_page m))))
              then NODEPTR m indx else None) ;;
  let sz := NODESIZE + ksize n in
  let sz := if IS_LEAF m
            then (if F_ISSET (n_flags n) F_BIGDATA then sz + sizeof_pgno_t
                  else sz + NODEDSZ n)
            else sz in
  let sz := u32 sz in
  mp_upd mp (set_mp_page (fun p =>
    set_pg_slots (fun l => delete (Z.to_nat indx) (take (Z.to_nat (NUMKEYS m)) l))
      (set_upper (fun u => u16 (u + sz)) (set_lower (fun l => u16 (l - sizeof_indx_t)) p)))).

(** ** Meta pages and transactions (btree.c:524-891) *)

(** The file behind [bt->fd]: its size, appending whole pages at its end
    (the descriptor is opened with [O_APPEND]), and [ftruncate] up to the
    next page boundary.  The bytes of a trailing partial page are kept by
    their number only; the page that [ftruncate] makes of them is a
    [BTorn] page. *)
Definition file_size : M Z :=
  ps <- the_psize ;;
  f <- gets bt_file ;;
  tail <- gets bt_file_tail ;;
  ret (Z.of_nat (length f) * ps + tail).

Definition file_append (pages : list page) : M unit :=
  tail <- gets bt_file_tail ;;
  if tail =? 0 then modify (set_bt_file (fun f => f ++ pages)) else undefined.

Definition torn_page (n : Z) : page := Page 0 0 0 0 0 (BTorn n).

Definition file_pad : M unit :=
  tail <- gets bt_file_tail ;;
  modify (set_bt_file (fun f => f ++ [torn_page tail])) ;;;
  modify (set_bt_file_tail (fun _ => 0)).

(** The descriptor is the one [btree_open] (btree.c:943) opens for the
    flags of the handle: [O_RDONLY] when [BT_RDONLY] is among them, and
    open for writing otherwise.  On a read-only descriptor [write] and
    [writev] fail with [EBADF] and [ftruncate] fails with [EINVAL], and
    the file stays as it is; on a descriptor open for writing they
    succeed and write every byte. *)
Definition fd_rdonly : M bool := gets (fun s => F_ISSET (bt_flags s) BT_RDONLY).

(** [write] and [writev] of whole pages: [true] when every byte was
    written. *)
Definition file_write (pages : list page) : M bool :=
  ro <- fd_rdonly ;;
  if ro then set_errno EBADF ;;; ret false
  else file_append pages ;;; ret true.

(** [ftruncate] up to the next page boundary: [true] when it returned
    [0]. *)
Definition file_truncate_up : M bool :=
  ro <- fd_rdonly ;;
  if ro then set_errno EINVAL ;;; ret false
  else file_pad ;;; ret true.

(** The [METAHASHLEN] bytes of a [struct bt_meta] that are hashed, field
    by field. *)
Definition meta_hash_input (m : bt_meta) : list Z :=
  [m_flags m; m_root m; m_prev_meta m; m_created_at m; m_branch_pages m;
   m_leaf_pages m; m_overflow_pages m; m_revisions m; m_depth m; m_entries m].

Definition btree_ref : M unit := modify (set_bt_ref (fun r => r + 1)).

(** [btree_close] (btree.c:968). *)
Definition btree_close : M unit :=
  modify (set_bt_ref (fun r => r - 1)) ;;;
  r <- gets bt_ref ;;
  if r =? 0 then mpage_flush else ret tt.

(** [btree_txn_abort] (btree.c:568). *)
Definition btree_txn_abort (txn : option nat) : M unit :=
  match txn with
  | None => ret tt
  | Some t =>
      x <- txn_get t ;;
      (if negb (F_ISSET (tx_flags x) BT_TXN_RDONLY) then
         foldr (fun mp k => mpage_del mp ;;; mpage_free mp ;;; k) (ret tt)
               (tx_dirty_queue x) ;;;
         txn_upd t (set_tx_dirty_queue (fun _ => [])) ;;;
         modify (set_bt_txn (fun _ => None))
       else ret tt) ;;;
      btree_close
  end.

(** ** Splitting a page (btree.c:2228-2431) *)

(** The loop of [bt_reduce_separator]: [p1] and [p2] are the objects at
    [NODEKEY(min)] and [sep->data], [n] the number of bytes found equal so
    far.  The bounds are tested after [n] is incremented. *)
Fixpoint reduce_separator_loop (fuel : nat) (p1 p2 : bytes) (min_ksize sep_size : Z)
    (n : nat) : option nat :=
  b1 ← p1 !! n;
  b2 ← p2 !! n;
  if Byte.eqb b1 b2 then
    let n' := S n in
    if (Z.of_nat n' =? min_ksize) || (Z.of_nat n' =? sep_size) then Some n'
    else match fuel with
         | O => None
         | S f => reduce_separator_loop f p1 p2 min_ksize sep_size n'
         end
  else Some n.

(** [bt_reduce_separator] (btree.c:2235): [sep] with its new size. *)
Definition bt_reduce_separator (min : node) (sep : btval) : option btval :=
  n ← reduce_separator_loop (Z.to_nat (bv_size sep)) (NODEKEY min) (bv_data sep)
        (ksize min) (bv_size sep) O;
  Some (Btval (bv_data sep) (Z.of_nat n + 1)).

(** The separator [btree_split] finds between the two halves
    (btree.c:2312-2331), before the page prefix is put back in front of
    it: [copy] is the page being split, [pfx] its prefix.  The candidate
    is the new key when it lands at the split index, and otherwise the
    key at the split index. *)
Definition split_indx_of (copy : page) : Z := u32 (NUMKEYSP copy / 2 + 1).

Definition split_candidate (copy : page) (pfx : bytes) (newindx : Z) (newkey : btval)
    : option btval :=
  let split_indx := split_indx_of copy in
  if newindx =? split_indx
  then remove_prefix newkey (Z.of_nat (length pfx))
  else n ← NODEPTRP copy split_indx; Some (Btval (NODEKEY n) (ksize n)).

Definition split_sepkey (copy : page) (pfx : bytes) (newindx : Z) (newkey : btval)
    : option btval :=
  let split_indx := split_indx_of copy in
  sepkey ← split_candidate copy pfx newindx newkey;
  if F_ISSET (pg_flags copy) P_LEAF then
    (* Find the smallest separator. *)
    min ← NODEPTRP copy (split_indx - 1);
    bt_reduce_separator min sepkey
  else Some sepkey.

(** The keys stored on a leaf increase with the slot index. *)
Definition leaf_keys_increasing (p : page) : Prop :=
  forall i j ni nj ki kj, 0 <= i < j -> j < NUMKEYSP p ->
    NODEPTRP p i = Some ni -> NODEPTRP p j = Some nj ->
    node_key ni = Some ki -> node_key nj = Some kj -> Cmp.gt kj ki.

(** The state of the redistribution loop of [btree_split]
    (btree.c:2370-2427). *)
Record split_loop_state := SplitLoop {
  sl_i : Z;
  sl_j : Z;
  sl_ins_new : bool;
  sl_rc : Z;
  sl_mpp : nat;
  sl_newindxp : Z
}.

Section SplitLoop.

Variables (mp pright : nat) (copy : page) (split_indx newindx : Z).
Variables (newkey : btval) (newdata : option btval) (newpgno : Z).
Variables (left_pfx_diff right_pfx_diff : Z).

Fixpoint split_loop (fuel : nat) (st : split_loop_state) : M split_loop_state :=
  let i := sl_i st in
  if NUMKEYSP copy <? i then ret st
  else
    match fuel with
    | O => undefined
    | S f =>
        m <- mp_get mp ;;
        let leaf := IS_LEAF m in
        let j := if (i <? split_indx) then sl_j st
                 else if i =? split_indx
                      then (if (i =? newindx) && sl_ins_new st then 1 else 0)
                      else sl_j st in
        let p := if i <? split_indx then mp else pright in
        let pfx_diff := if i <? split_indx then left_pfx_diff else right_pfx_diff in
        pm <- mp_get p ;;
        if (i =? newindx) && negb (sl_ins_new st) then
          (* Insert the original entry that caused the split. *)
          rdata <- (if leaf then d <- liftO newdata ;; ret (Some d) else ret None) ;;
          let pfx_diff := Z.of_nat (length (mp_prefix pm)) in
          rkey <- (if negb leaf && (j =? 0) then ret (Btval (bv_data newkey) 0)
                   else liftO (remove_prefix newkey pfx_diff)) ;;
          rc <- btree_add_node p j (Some rkey) rdata newpgno 0 ;;
          split_loop f (SplitLoop i (u32 (j + 1)) true rc p j)
        else if i =? NUMKEYSP copy then ret st
        else
          n <- liftO (NODEPTRP copy i) ;;
          let rdata := if leaf then Some (Btval (NODEDATA n) (n_p n)) else None in
          rkey <- (if negb leaf && (j =? 0) then ret (Btval (NODEKEY n) 0)
                   else liftO (remove_prefix (Btval (NODEKEY n) (ksize n)) pfx_diff)) ;;
          rc <- btree_add_node p j (Some rkey) rdata (n_p n) (n_flags n) ;;
          split_loop f (SplitLoop (u32 (i + 1)) (u32 (j + 1)) (sl_ins_new st) rc
                                  (sl_mpp st) (sl_newindxp st))
    end.

End SplitLoop.

(** [btree_split] (btree.c:2261): the return code and the values left in
    [*mpp] and [*newindxp].  [fuel] bounds the splits of ancestors. *)
Fixpoint btree_split (fuel : nat) (mpp : nat) (newindxp : Z) (newkey : btval)
    (newdata : option btval) (newpgno : Z) : M (Z * nat * Z) :=
  let mp := mpp in
  let newindx := u16 newindxp in
  ps <- the_psize ;;
  m <- mp_get mp ;;
  let orig_pfx_len := Z.of_nat (length (mp_prefix m)) in
  rc0 <- match mp_parent m with
         | Some _ => ret BT_SUCCESS
         | None =>
             par <- btree_new_page P_BRANCH ;;
             pm <- mp_get par ;;
             mp_upd mp (fun x => set_mp_parent (fun _ => Some par)
                                   (set_mp_parent_index (fun _ => 0) x)) ;;;
             t <- bt_txn_ptr ;;
             txn_upd t (set_tx_root (fun _ => mp_pgno pm)) ;;;
             modify (set_bt_meta_ (set_m_depth (fun d => u32 (d + 1)))) ;;;
             (* Add left (implicit) pointer. *)
             btree_add_node par 0 None None (mp_pgno m) 0
         end ;;
  if negb (rc0 =? BT_SUCCESS) then ret (BT_FAIL, mpp, newindxp)
  else
    (* Create a right sibling. *)
    m <- mp_get mp ;;
    pright <- btree_new_page (pg_flags (mp_page m)) ;;
    mp_upd pright (fun x => set_mp_parent (fun _ => mp_parent m)
                              (set_mp_parent_index (fun _ => u32 (mp_parent_index m + 1)) x)) ;;;
    (* Move half of the keys to the right sibling. *)
    let copy := mp_page m in
    mp_upd mp (set_mp_page (fun p =>
      set_pg_body (fun _ => BNodes (repeat Zero (Z.to_nat ((ps - PAGEHDRSZ) / sizeof_indx_t))))
        (set_upper (fun _ => u16 ps) (set_lower (fun _ => PAGEHDRSZ) p)))) ;;;
    let split_indx := split_indx_of copy in
    (* First find the separating key between the split pages. *)
    sepkey <- liftO (split_sepkey copy (mp_prefix m) newindx newkey) ;;
    (* Fix separator wrt parent prefix. *)
    sepbytes <- liftO (val_bytes sepkey) ;;
    tmpkey <- liftO (concat_prefix (mp_prefix m) sepbytes MAXKEYSIZE) ;;
    let sepkey := mkval tmpkey in
    (* Copy separator key to the parent. *)
    prm <- mp_get pright ;;
    par <- liftO (mp_parent prm) ;;
    parm <- mp_get par ;;
    rc <- (if SIZELEFT parm <? bt_branch_size (Some sepkey) then
             match fuel with
             | O => undefined
             | S f =>
                 r <- btree_split f par (mp_parent_index prm) sepkey None (mp_pgno prm) ;;
                 mp_upd pright (fun x => set_mp_parent (fun _ => Some r.1.2)
                                           (set_mp_parent_index (fun _ => r.2) x)) ;;;
                 (* Right page might now have changed parent.
                    Check if left page also changed parent. *)
                 prm <- mp_get pright ;;
                 m <- mp_get mp ;;
                 mpar <- liftO (mp_parent m) ;;
                 mparm <- mp_get mpar ;;
                 (if negb (bool_decide (mp_parent prm = mp_parent m)) &&
                     (NUMKEYS mparm <=? mp_parent_index m)
                  then mp_upd mp (fun x =>
                         set_mp_parent (fun _ => mp_parent prm)
                           (set_mp_parent_index (fun _ => u32 (mp_parent_index prm - 1)) x))
                  else ret tt) ;;;
                 ret r.1.1
             end
           else
             sk <- liftO (remove_prefix sepkey (Z.of_nat (length (mp_prefix parm)))) ;;
             btree_add_node par (u16 (mp_parent_index prm)) (Some sk) None (mp_pgno prm) 0) ;;
    if negb (rc =? BT_SUCCESS) then ret (BT_FAIL, mpp, newindxp)
    else
      (* Update prefix for right and left page, if the parent was split. *)
      find_common_prefix pright ;;;
      prm <- mp_get pright ;;
      let right_pfx_diff := u64 (Z.of_nat (length (mp_prefix prm)) - orig_pfx_len) in
      find_common_prefix mp ;;;
      m <- mp_get mp ;;
      let left_pfx_diff := u64 (Z.of_nat (length (mp_prefix m)) - orig_pfx_len) in
      st <- split_loop mp pright copy split_indx newindx newkey newdata newpgno
              left_pfx_diff right_pfx_diff
              (S (S (Z.to_nat (NUMKEYSP copy))))
              (SplitLoop 0 0 false rc mpp newindxp) ;;
      ret (sl_rc st, sl_mpp st, sl_newindxp st).

Section Engine.

(** [SHA256] of OpenSSL, over the hashed fields of a [struct bt_meta]. *)
Variable SHA256 : list Z -> bytes.

(** [btree_write_meta] (btree.c:758). *)
Definition btree_write_meta (root : Z) (flags : Z) : M Z :=
  mp <- btree_new_page P_META ;;
  now <- gets bt_now ;;
  modify (set_bt_meta_ (fun m =>
    let m := set_m_prev_meta (fun _ => m_root m) m in
    let m := set_m_root (fun _ => root) m in
    let m := set_m_flags (fun _ => flags) m in
    let m := set_m_created_at (fun _ => now) m in
    let m := set_m_revisions (fun r => u32 (r + 1)) m in
    set_m_hash (fun _ => SHA256 (meta_hash_input m)) m)) ;;;
  meta <- gets bt_meta_ ;;
  mp_upd mp (set_mp_page (set_pg_body (fun _ => BMeta meta))) ;;;
  m <- mp_get mp ;;
  written <- file_write [mp_page m] ;;
  mp_upd mp (set_mp_dirty (fun _ => false)) ;;;
  t <- bt_txn_ptr ;;
  x <- txn_get t ;;
  match tx_dirty_queue x with
  | [] => undefined
  | _ :: q => txn_upd t (set_tx_dirty_queue (fun _ => q))
  end ;;;
  if negb written then ret BT_FAIL
  else
    sz <- file_size ;;
    modify (set_bt_size (fun _ => sz)) ;;;
    ret BT_SUCCESS.

(** [btree_is_meta_page] (btree.c:793). *)
Definition btree_is_meta_page (p : page) : M bool :=
  if negb (F_ISSET (pg_flags p) P_META) then set_errno EINVAL ;;; ret false
  else
    match pg_body p with
    | BMeta m =>
        if (pg_pgno p <=? m_root m) && negb (m_root m =? P_INVALID)
        then set_errno EINVAL ;;; ret false
        else if negb (bool_decide (SHA256 (meta_hash_input m) = m_hash m))
        then set_errno EINVAL ;;; ret false
        else ret true
    | _ => undefined
    end.

(** The backward scan of [btree_read_meta] (btree.c:866-882); [n] counts
    the page numbers from [meta_pgno] down to [1]. *)
Fixpoint read_meta_scan (n : nat) : M (option Z) :=
  match n with
  | O => ret None
  | S n' =>
      o <- btree_get_mpage (Z.of_nat n) ;;
      match o with
      | None => ret None
      | Some mp =>
          m <- mp_get mp ;;
          ok <- btree_is_meta_page (mp_page m) ;;
          if ok then
            match pg_body (mp_page m) with
            | BMeta meta =>
                if F_ISSET (m_flags meta) BT_TOMBSTONE
                then set_errno ESTALE ;;; ret (Some BT_FAIL)
                else modify (set_bt_meta_ (fun _ => meta)) ;;; ret (Some BT_SUCCESS)
            | _ => undefined
            end
          else read_meta_scan n'
      end
  end.

(** [btree_read_meta] (btree.c:817): the return code and the value left
    in [*p_next]. *)
Definition btree_read_meta : M (Z * Z) :=
  sz <- file_size ;;
  ps <- the_psize ;;
  old <- gets bt_size ;;
  if sz <? old then set_errno EIO ;;; ret (BT_FAIL, P_INVALID)
  else if sz =? ps then ret (BT_SUCCESS, 1)
  else
    let next_pgno := u32 (sz / ps) in
    if next_pgno =? 0 then set_errno EIO ;;; ret (BT_FAIL, P_INVALID)
    else
      let meta_pgno := next_pgno - 1 in
      next_pgno <- (if negb (sz mod ps =? 0) then
                      modify (set_bt_flags (fun f => Z.lor f BT_FIXPADDING)) ;;;
                      ret (u32 (next_pgno + 1))
                    else ret next_pgno) ;;
      if sz =? old then
        meta <- gets bt_meta_ ;;
        if F_ISSET (m_flags meta) BT_TOMBSTONE
        then set_errno ESTALE ;;; ret (BT_FAIL, next_pgno)
        else ret (BT_SUCCESS, next_pgno)
      else
        modify (set_bt_size (fun _ => sz)) ;;;
        r <- read_meta_scan (Z.to_nat meta_pgno) ;;
        match r with
        | Some rc => ret (rc, next_pgno)
        | None => set_errno EIO ;;; ret (BT_FAIL, P_INVALID)
        end.

(** [btree_txn_begin] (btree.c:524). *)
Definition btree_txn_begin (rdonly : bool) : M (option nat) :=
  cur <- gets bt_txn ;;
  if negb rdonly && bool_decide (cur <> None) then set_errno EBUSY ;;; ret None
  else
    t <- gets (fun s => length (bt_txns s)) ;;
    modify (set_bt_txns (fun l =>
      l ++ [BtreeTxn 0 0 [] (if rdonly then BT_TXN_RDONLY else 0)])) ;;;
    (if rdonly then ret tt else modify (set_bt_txn (fun _ => Some t))) ;;;
    btree_ref ;;;
    r <- btree_read_meta ;;
    txn_upd t (set_tx_next_pgno (fun _ => r.2)) ;;;
    if negb (r.1 =? BT_SUCCESS) then btree_txn_abort (Some t) ;;; ret None
    else
      root <- gets (fun s => m_root (bt_meta_ s)) ;;
      txn_upd t (set_tx_root (fun _ => root)) ;;;
      ret (Some t).

(** The write loop of [btree_txn_commit] (btree.c:639-670): [false] when
    a [writev] did not write the whole batch. *)
Fixpoint commit_write_loop (fuel : nat) (t : nat) : M bool :=
  x <- txn_get t ;;
  let q := tx_dirty_queue x in
  let batch := take (Z.to_nat BT_COMMIT_PAGES) q in
  match batch with
  | [] => ret true
  | _ =>
      h <- gets bt_heap ;;
      pages <- liftO (mapM (fun mp => mp_page <$> h !! mp) batch) ;;
      written <- file_write pages ;;
      if negb written then ret false
      else
        foldr (fun mp k => mp_upd mp (set_mp_dirty (fun _ => false)) ;;; k) (ret tt)
              batch ;;;
        txn_upd t (set_tx_dirty_queue (fun _ => drop (length batch) q)) ;;;
        if (length q <? Z.to_nat BT_COMMIT_PAGES)%nat then ret true
        else match fuel with O => undefined | S f => commit_write_loop f t end
  end.

(** [fsync] succeeds on the descriptor of the handle, read-only or
    not. *)
Definition fsync : M Z := ret 0.

(** [btree_sync] (btree.c:516). *)
Definition btree_sync : M Z :=
  fl <- gets bt_flags ;;
  if negb (F_ISSET fl BT_NOSYNC) then fsync else ret 0.

(** [btree_txn_commit] (btree.c:596). *)
Definition btree_txn_commit (txn : nat) : M Z :=
  x <- txn_get txn ;;
  cur <- gets bt_txn ;;
  if F_ISSET (tx_flags x) BT_TXN_RDONLY then
    btree_txn_abort (Some txn) ;;; set_errno EPERM ;;; ret BT_FAIL
  else if negb (bool_decide (cur = Some txn)) then
    btree_txn_abort (Some txn) ;;; set_errno EINVAL ;;; ret BT_FAIL
  else if F_ISSET (tx_flags x) BT_TXN_ERROR then
    btree_txn_abort (Some txn) ;;; set_errno EINVAL ;;; ret BT_FAIL
  else
    match tx_dirty_queue x with
    | [] => mpage_prune ;;; btree_txn_abort (Some txn) ;;; ret BT_SUCCESS
    | _ =>
        fl <- gets bt_flags ;;
        padded <- (if F_ISSET fl BT_FIXPADDING then
                     ok <- file_truncate_up ;;
                     (if ok
                      then modify (set_bt_flags (fun f => Z.land f (Z.lnot BT_FIXPADDING)))
                      else ret tt) ;;;
                     ret ok
                   else ret true) ;;
        if negb padded then btree_txn_abort (Some txn) ;;; ret BT_FAIL
        else
          written <- commit_write_loop (length (tx_dirty_queue x)) txn ;;
          if negb written then btree_txn_abort (Some txn) ;;; ret BT_FAIL
          else
            synced <- btree_sync ;;
            if negb (synced =? 0) then btree_txn_abort (Some txn) ;;; ret BT_FAIL
            else
              x <- txn_get txn ;;
              rc <- btree_write_meta (tx_root x) 0 ;;
              if negb (rc =? BT_SUCCESS) then btree_txn_abort (Some txn) ;;; ret BT_FAIL
              else
                synced <- btree_sync ;;
                if negb (synced =? 0) then btree_txn_abort (Some txn) ;;; ret BT_FAIL
                else mpage_prune ;;; btree_txn_abort (Some txn) ;;; ret BT_SUCCESS
    end.

(** [btree_search_page] (btree.c:1188). *)
Definition btree_search_page (txn : option nat) (key : option btval)
    (oc : option cursor) (modify_ : bool) : M (Z * option cursor * option nat) :=
  match txn, modify_ with
  | None, true => set_errno EINVAL ;;; ret (BT_FAIL, oc, None)
  | _, _ =>
      r <- match txn with
           | None =>
               rm <- btree_read_meta ;;
               if negb (rm.1 =? BT_SUCCESS) then ret (inl rm.1)
               else root <- gets (fun s => m_root (bt_meta_ s)) ;; ret (inr root)
           | Some t =>
               x <- txn_get t ;;
               if F_ISSET (tx_flags x) BT_TXN_ERROR
               then set_errno EINVAL ;;; ret (inl BT_FAIL)
               else ret (inr (tx_root x))
           end ;;
      match r with
      | inl rc => ret (rc, oc, None)
      | inr root =>
          if root =? P_INVALID then set_errno ENOENT ;;; ret (BT_FAIL, oc, None)
          else
            o <- btree_get_mpage root ;;
            match o with
            | None => ret (BT_FAIL, oc, None)
            | Some mp =>
                m <- mp_get mp ;;
                mp <- (if modify_ && negb (mp_dirty m) then
                         mp' <- mpage_touch mp ;;
                         m' <- mp_get mp' ;;
                         t <- liftO txn ;;
                         txn_upd t (set_tx_root (fun _ => mp_pgno m')) ;;;
                         ret mp'
                       else ret mp) ;;
                btree_search_page_root mp key oc modify_
            end
      end
  end.

(** [btree_txn_get] (btree.c:1293).  [bt_null] tells whether the [bt]
    argument is null; a transaction belongs to the one database there
    is, so the first test of the C function cannot fail. *)
Definition btree_txn_get (bt_null : bool) (txn : option nat) (key : btval)
    : M (Z * bytes) :=
  if bt_null && bool_decide (txn = None) then set_errno EINVAL ;;; ret (BT_FAIL, [])
  else if (bv_size key =? 0) || (MAXKEYSIZE <? bv_size key)
  then set_errno EINVAL ;;; ret (BT_FAIL, [])
  else
    r <- btree_search_page txn (Some key) None false ;;
    if negb (r.1.1 =? BT_SUCCESS) then ret (r.1.1, [])
    else
      mp <- liftO r.2 ;;
      m <- mp_get mp ;;
      sn <- liftO (btree_search_node m key) ;;
      res <- match sn with
             | Some (true, ki) =>
                 leaf <- liftO (NODEPTR m ki) ;;
                 btree_read_data (Some mp) leaf
             | _ => set_errno ENOENT ;;; ret (BT_FAIL, [])
             end ;;
      mpage_prune ;;;
      ret res.

(** Closing the transaction an entry point opened itself
    (btree.c:2216-2225, 2512-2521). *)
Definition finish_txn (close_txn : bool) (txn : nat) (rc : Z) : M Z :=
  rc <- (if close_txn then
           if rc =? BT_SUCCESS then btree_txn_commit txn
           else btree_txn_abort (Some txn) ;;; ret rc
         else ret rc) ;;
  mpage_prune ;;;
  ret rc.

(** The leaf and the slot [btree_txn_put] adds the new node to, or the
    return code with which it gives up (btree.c:2471-2490).  When the
    search finds a leaf, the slot is the one of the key or of the first
    greater key, the node of the key being deleted first when the key is
    there, or the slot after the last when all keys are smaller; when
    the tree is empty it is slot 0 of a new root leaf. *)
Definition put_target (txn : nat) (key : btval) : M (Z + nat * Z) :=
  r <- btree_search_page (Some txn) (Some key) None true ;;
  e <- gets bt_errno ;;
  if r.1.1 =? BT_SUCCESS then
    mp <- liftO r.2 ;;
    m <- mp_get mp ;;
    sn <- liftO (btree_search_node m key) ;;
    match sn with
    | Some (exact, ki) =>
        (if exact then btree_del_node mp ki else ret tt) ;;;
        ret (inr (mp, ki))
    | None => ret (inr (mp, NUMKEYS m)) (* append if not found *)
    end
  else if e =? ENOENT then
    (* new file, just write a root leaf page *)
    mp <- btree_new_page P_LEAF ;;
    m <- mp_get mp ;;
    txn_upd txn (set_tx_root (fun _ => mp_pgno m)) ;;;
    modify (set_bt_meta_ (set_m_depth (fun d => u32 (d + 1)))) ;;;
    ret (inr (mp, 0))
  else ret (inl r.1.1).

(** [btree_txn_put] (btree.c:2433). *)
Definition btree_txn_put (bt_null : bool) (txn : option nat) (key data : btval) : M Z :=
  rd <- match txn with
        | Some t => x <- txn_get t ;; ret (F_ISSET (tx_flags x) BT_TXN_RDONLY)
        | None => ret false
        end ;;
  if rd then set_errno EINVAL ;;; ret BT_FAIL
  else if bt_null && bool_decide (txn = None) then set_errno EINVAL ;;; ret BT_FAIL
  else if (bv_size key =? 0) || (MAXKEYSIZE <? bv_size key)
  then set_errno EINVAL ;;; ret BT_FAIL
  else
    ot <- match txn with
          | Some t => ret (Some (false, t))
          | None =>
              o <- btree_txn_begin false ;;
              ret (match o with Some t => Some (true, t) | None => None end)
          end ;;
    match ot with
    | None => ret BT_FAIL
    | Some (close_txn, txn) =>
        ps <- the_psize ;;
        (* the page and the index the new node goes to, or the return code *)
        tgt <- put_target txn key ;;
        match tgt with
        | inl rc => finish_txn close_txn txn rc
        | inr (mp, ki) =>
            m <- mp_get mp ;;
            rc <- (if SIZELEFT m <? bt_leaf_size ps key data then
                     fuel <- gets (fun s => length (bt_heap s)) ;;
                     r <- btree_split fuel mp ki key (Some data) P_INVALID ;;
                     ret r.1.1
                   else
                     (* There is room already in this leaf page. *)
                     xkey <- liftO (remove_prefix key (Z.of_nat (length (mp_prefix m)))) ;;
                     btree_add_node mp (u16 ki) (Some xkey) (Some data) 0 0) ;;
            (if negb (rc =? BT_SUCCESS)
             then txn_upd txn (set_tx_flags (fun f => Z.lor f BT_TXN_ERROR))
             else modify (set_bt_meta_ (set_m_entries (fun n => u64 (n + 1))))) ;;;
            finish_txn close_txn txn rc
        end
    end.

Section Delete.

(** [btree_rebalance] (btree.c:2082) with the node moves and page merges
    below it is not embedded; [btree_txn_del] takes it as given. *)
Variable btree_rebalance : nat -> M Z.

(** [btree_txn_del] (btree.c:2158): the return code and, when the caller
    asks for it ([want_data]), the data of the deleted key. *)
Definition btree_txn_del (bt_null : bool) (txn : option nat) (key : btval)
    (want_data : bool) : M (Z * bytes) :=
  rd <- match txn with
        | Some t => x <- txn_get t ;; ret (F_ISSET (tx_flags x) BT_TXN_RDONLY)
        | None => ret false
        end ;;
  if rd then set_errno EINVAL ;;; ret (BT_FAIL, [])
  else if bt_null && bool_decide (txn = None) then set_errno EINVAL ;;; ret (BT_FAIL, [])
  else if (bv_size key =? 0) || (MAXKEYSIZE <? bv_size key)
  then set_errno EINVAL ;;; ret (BT_FAIL, [])
  else
    ot <- match txn with
          | Some t => ret (Some (false, t))
          | None =>
              o <- btree_txn_begin false ;;
              ret (match o with Some t => Some (true, t) | None => None end)
          end ;;
    match ot with
    | None => ret (BT_FAIL, [])
    | Some (close_txn, txn) =>
        r <- btree_search_page (Some txn) (Some key) None true ;;
        res <- (if negb (r.1.1 =? BT_SUCCESS) then ret (r.1.1, [])
                else
                  mp <- liftO r.2 ;;
                  m <- mp_get mp ;;
                  sn <- liftO (btree_search_node m key) ;;
                  match sn with
                  | Some (true, ki) =>
                      leaf <- liftO (NODEPTR m ki) ;;
                      rdd <- (if want_data then btree_read_data None leaf
                              else ret (BT_SUCCESS, [])) ;;
                      if negb (rdd.1 =? BT_SUCCESS) then ret rdd
                      else
                        btree_del_node mp ki ;;;
                        modify (set_bt_meta_ (set_m_entries (fun n => u64 (n - 1)))) ;;;
                        rc <- btree_rebalance mp ;;
                        (if negb (rc =? BT_SUCCESS)
                         then txn_upd txn (set_tx_flags (fun f => Z.lor f BT_TXN_ERROR))
                         else ret tt) ;;;
                        ret (rc, rdd.2)
                  | _ => set_errno ENOENT ;;; ret (BT_FAIL, [])
                  end) ;;
        rc <- finish_txn close_txn txn res.1 ;;
        ret (rc, res.2)
    end.

End Delete.

(** ** Cursors (btree.c:1333-1548, 1745-1780) *)

(** [btree_sibling] (btree.c:1333), by recursion on the cursor stack. *)
Fixpoint btree_sibling_stack (stack : list ppage) (move_right : bool)
    : M (Z * list ppage) :=
  match stack with
  | [] => undefined
  | top :: rest =>
      match rest with
      | [] => set_errno ENOENT ;;; ret (BT_FAIL, stack) (* root has no siblings *)
      | parent :: above =>
          mp_upd (pp_mpage top) (set_mp_ref (fun r => i16 (r - 1))) ;;;
          pm <- mp_get (pp_mpage parent) ;;
          r <- (if (if move_right then NUMKEYS pm <=? u32 (pp_ki parent + 1)
                    else pp_ki parent =? 0)
                then btree_sibling_stack rest move_right
                else ret (BT_SUCCESS,
                          Ppage (pp_mpage parent)
                                (if move_right then u32 (pp_ki parent + 1)
                                 else u32 (pp_ki parent - 1)) :: above)) ;;
          if negb (r.1 =? BT_SUCCESS) then ret r
          else
            match r.2 with
            | [] => undefined
            | parent :: above =>
                pm <- mp_get (pp_mpage parent) ;;
                indx <- liftO (NODEPTR pm (pp_ki parent)) ;;
                o <- btree_get_mpage (n_p indx) ;;
                match o with
                | None => ret (BT_FAIL, r.2)
                | Some mp =>
                    mp_upd mp (fun x => set_mp_parent (fun _ => Some (pp_mpage parent))
                                          (set_mp_parent_index (fun _ => pp_ki parent) x)) ;;;
                    mp_upd mp (set_mp_ref (fun r => i16 (r + 1))) ;;;
                    find_common_prefix mp ;;;
                    ret (BT_SUCCESS, Ppage mp 0 :: r.2)
                end
            end
      end
  end.

Definition btree_sibling (c : cursor) (move_right : bool) : M (Z * cursor) :=
  r <- btree_sibling_stack (c_stack c) move_right ;;
  ret (r.1, set_c_stack (fun _ => r.2) c).

(** [bt_set_key] (btree.c:1373): the key left in [*key].  A key borrowed
    from the page pins the page. *)
Definition bt_set_key (mp : nat) (n : node) (want_key : bool) : M (Z * bytes) :=
  if negb want_key then ret (0, [])
  else
    m <- mp_get mp ;;
    k <- liftO (node_key n) ;;
    if (0 <? length (mp_prefix m))%nat then ret (0, mp_prefix m ++ k)
    else mp_upd mp (set_mp_ref (fun r => i16 (r + 1))) ;;; ret (0, k).

(** What a cursor operation hands back: the return code, the cursor, and
    the key and data left in [*key] and [*data]. *)
Definition cursor_result : Type := Z * cursor * bytes * bytes.

(** The tail shared by the three cursor moves (btree.c:1424-1434,
    1470-1478, 1496-1504). *)
Definition cursor_fetch (c : cursor) (mp : nat) (leaf : node)
    (want_key want_data : bool) : M cursor_result :=
  rd <- (if want_data then btree_read_data (Some mp) leaf else ret (BT_SUCCESS, [])) ;;
  if negb (rd.1 =? BT_SUCCESS) then ret (BT_FAIL, c, [], [])
  else
    rk <- bt_set_key mp leaf want_key ;;
    if negb (rk.1 =? 0) then ret (BT_FAIL, c, [], rd.2)
    else ret (BT_SUCCESS, c, rk.2, rd.2).

(** [btree_cursor_next] (btree.c:1399). *)
Definition btree_cursor_next (c : cursor) (want_key want_data : bool) : M cursor_result :=
  if c_eof c then set_errno ENOENT ;;; ret (BT_FAIL, c, [], [])
  else
    match c_stack c with
    | [] => undefined
    | top :: rest =>
        m <- mp_get (pp_mpage top) ;;
        r <- (if NUMKEYS m <=? u32 (pp_ki top + 1) then
                s <- btree_sibling c true ;;
                if negb (s.1 =? BT_SUCCESS)
                then ret (inl (set_c_eof (fun _ => true) s.2))
                else ret (inr s.2)
              else ret (inr (set_c_stack (fun _ =>
                              Ppage (pp_mpage top) (u32 (pp_ki top + 1)) :: rest) c))) ;;
        match r with
        | inl c => ret (BT_FAIL, c, [], [])
        | inr c =>
            match c_stack c with
            | [] => undefined
            | top :: _ =>
                m <- mp_get (pp_mpage top) ;;
                leaf <- liftO (NODEPTR m (pp_ki top)) ;;
                cursor_fetch c (pp_mpage top) leaf want_key want_data
            end
        end
    end.

(** [btree_cursor_set] (btree.c:1437); [exactp] tells whether the caller
    passes a pointer to [exact], which [btree_cursor_get] initialises to
    [0]. *)
Definition btree_cursor_set (c : cursor) (key : btval) (want_data : bool)
    (exactp : bool) : M cursor_result :=
  r <- btree_search_page (c_txn c) (Some key) (Some c) false ;;
  c <- liftO r.1.2 ;;
  if negb (r.1.1 =? BT_SUCCESS) then ret (r.1.1, c, [], [])
  else
    mp <- liftO r.2 ;;
    m <- mp_get mp ;;
    sn <- liftO (btree_search_node m key) ;;
    c <- match sn with
         | Some (_, ki) => cursor_set_top_ki c ki
         | None => ret c
         end ;;
    let exact := match sn with Some (e, _) => e | None => false end in
    if exactp && negb exact then
      (* BT_CURSOR_EXACT specified and not an exact match. *)
      set_errno ENOENT ;;; ret (BT_FAIL, c, [], [])
    else
      r <- match sn with
           | Some (_, ki) => ret (inr (c, mp, ki))
           | None =>
               s <- btree_sibling c true ;;
               if negb (s.1 =? BT_SUCCESS) then ret (inl s.2)
               else
                 c <- cursor_set_top_ki s.2 0 ;;
                 match c_stack c with
                 | [] => undefined
                 | top :: _ => ret (inr (c, pp_mpage top, 0))
                 end
           end ;;
      match r with
      | inl c => ret (BT_FAIL, c, [], []) (* no entries matched *)
      | inr (c, mp, ki) =>
          m <- mp_get mp ;;
          leaf <- liftO (NODEPTR m ki) ;;
          let c := set_c_eof (fun _ => false) (set_c_initialized (fun _ => true) c) in
          cursor_fetch c mp leaf true want_data
      end.

(** [btree_cursor_first] (btree.c:1481). *)
Definition btree_cursor_first (c : cursor) (want_key want_data : bool) : M cursor_result :=
  r <- btree_search_page (c_txn c) None (Some c) false ;;
  c <- liftO r.1.2 ;;
  if negb (r.1.1 =? BT_SUCCESS) then ret (r.1.1, c, [], [])
  else
    mp <- liftO r.2 ;;
    m <- mp_get mp ;;
    leaf <- liftO (NODEPTR m 0) ;;
    let c := set_c_eof (fun _ => false) (set_c_initialized (fun _ => true) c) in
    cursor_fetch c mp leaf want_key want_data.

(** [enum cursor_op]. *)
Inductive cursor_op := BT_CURSOR | BT_CURSOR_EXACT | BT_FIRST | BT_NEXT.

(** [while (CURSOR_TOP(cursor) != NULL) cursor_pop_page(cursor)]. *)
Fixpoint cursor_pop_all (fuel : nat) (c : cursor) : M cursor :=
  match c_stack c with
  | [] => ret c
  | _ => match fuel with
         | O => undefined
         | S f => c <- cursor_pop_page c ;; cursor_pop_all f c
         end
  end.

(** [btree_cursor_get] (btree.c:1507); [key] and [data] are null or point
    to a value. *)
Definition btree_cursor_get (c : cursor) (key : option btval) (want_data : bool)
    (op : cursor_op) : M cursor_result :=
  r <- match op with
       | BT_CURSOR | BT_CURSOR_EXACT =>
           c <- cursor_pop_all (length (c_stack c)) c ;;
           match key with
           | Some k =>
               if (bv_size k =? 0) || (MAXKEYSIZE <? bv_size k)
               then set_errno EINVAL ;;; ret (BT_FAIL, c, [], [])
               else btree_cursor_set c k want_data
                      (match op with BT_CURSOR_EXACT => true | _ => false end)
           | None => set_errno EINVAL ;;; ret (BT_FAIL, c, [], [])
           end
       | BT_NEXT =>
           if negb (c_initialized c)
           then btree_cursor_first c (bool_decide (key <> None)) want_data
           else btree_cursor_next c (bool_decide (key <> None)) want_data
       | BT_FIRST =>
           c <- cursor_pop_all (length (c_stack c)) c ;;
           btree_cursor_first c (bool_decide (key <> None)) want_data
       end ;;
  mpage_prune ;;;
  ret r.

(** [btree_txn_cursor_open] (btree.c:1745) and [btree_cursor_close]
    (btree.c:1771). *)
Definition btree_txn_cursor_open (bt_null : bool) (txn : option nat) : M (option cursor) :=
  if bt_null && bool_decide (txn = None) then set_errno EINVAL ;;; ret None
  else btree_ref ;;; ret (Some (Cursor txn [] false false)).

Definition btree_cursor_close (c : option cursor) : M unit :=
  match c with
  | None => ret tt
  | Some c => cursor_pop_all (length (c_stack c)) c ;;; btree_close
  end.

(** ** Opening a database (btree.c:685-756, 893-941) *)

(** [btree_write_header] (btree.c:685); [st_blksize] is what [fstat]
    reports for the file. *)
Definition btree_write_header (st_blksize : Z) : M Z :=
  let ps := if 32 * 1024 <? st_blksize then 32 * 1024 else st_blksize in
  let h := BtHead BT_MAGIC BT_VERSION 0 ps in
  modify (set_bt_head_ (fun _ => h)) ;;;
  written <- file_write [Page 0 P_HEAD 0 0 0 (BHead h)] ;;
  if negb written then ret BT_FAIL else ret BT_SUCCESS.

(** [btree_read_header] (btree.c:719).  The file is kept as the list of
    its pages, whose size is the one its header page names, so the bytes
    read at offset [0] are those of its first page; [pread] is asked for
    [PAGESIZE] bytes and returns fewer when the file is shorter.  A first
    page that is no header page is turned down with [EINVAL] whether the
    read was short or not. *)
Definition btree_read_header : M Z :=
  f <- gets bt_file ;;
  tail <- gets bt_file_tail ;;
  match f with
  | [] => if tail =? 0 then set_errno ENOENT ;;; ret (-1)
          else if tail <? PAGESIZE then set_errno EINVAL ;;; ret (-1)
          else undefined
  | p :: _ =>
      match pg_body p with
      | BHead h =>
          let fsize := Z.of_nat (length f) * psize h + tail in
          if fsize =? 0 then set_errno ENOENT ;;; ret (-1)
          else if fsize <? PAGESIZE then set_errno EINVAL ;;; ret (-1)
          else if negb (F_ISSET (pg_flags p) P_HEAD) then set_errno EINVAL ;;; ret (-1)
          else if negb (h_magic h =? BT_MAGIC) then set_errno EINVAL ;;; ret (-1)
          else if negb (h_version h =? BT_VERSION) then set_errno EINVAL ;;; ret (-1)
          else modify (set_bt_head_ (fun _ => h)) ;;; ret 0
      | BTorn _ => undefined
      | _ =>
          if negb (F_ISSET (pg_flags p) P_HEAD) then set_errno EINVAL ;;; ret (-1)
          else undefined
      end
  end.

(** The [struct btree] that [btree_open_fd] allocates (btree.c:902-920),
    over the file behind [fd]. *)
Definition btree_calloc (file : list page) (tail : Z) (flags : Z) (now : Z) : btree :=
  Btree (Z.land flags (Z.lnot BT_FIXPADDING)) (BtHead 0 0 0 0)
        (BtMeta 0 P_INVALID 0 0 0 0 0 0 0 0 []) ∅ [] None 1 0 BT_MAXCACHE_DEF 0
        [] [] file tail 0 now.

(** [btree_open_fd] (btree.c:893): [false] for the null pointer. *)
Definition btree_open_fd (st_blksize : Z) : M bool :=
  rc <- btree_read_header ;;
  e <- gets bt_errno ;;
  if negb (rc =? 0) && negb (e =? ENOENT) then ret false
  else
    (if negb (rc =? 0) then btree_write_header st_blksize ;;; ret tt else ret tt) ;;;
    r <- btree_read_meta ;;
    ret (r.1 =? 0).

End Engine.

(** ** Runs of the engine on a new database *)

Module Scenario.
Section Runs.

Variable SHA256 : list Z -> bytes.

Definition key (b : byte) : btval := mkval [b].
Definition value (b : byte) (n : nat) : btval := mkval (repeat b n).

(** The [struct btree] allocated over an empty file, and [btree_open_fd]
    on a file system whose block size is 4096. *)
Definition fresh : btree := btree_calloc [] 0 0 0.
Definition open_fresh : M bool := btree_open_fd SHA256 4096.

(** The entry points called with the database handle and no transaction:
    each call runs in a transaction of its own. *)
Definition put (k v : btval) : M Z := btree_txn_put SHA256 false None k v.
Definition get (k : btval) : M (Z * bytes) := btree_txn_get SHA256 false None k.

(** A cursor traversal: [BT_FIRST], then [BT_NEXT] until an operation
    fails.  The result is the keys returned, and whether the traversal
    reached a failing operation within [fuel] steps. *)
Fixpoint traverse_from (fuel : nat) (c : cursor) (op : cursor_op) : M (list bytes * bool) :=
  match fuel with
  | O => ret ([], false)
  | S f =>
      r <- btree_cursor_get SHA256 c (Some (Btval [] 0)) false op ;;
      match r with
      | (rc, c, k, _) =>
          if rc =? BT_SUCCESS then
            l <- traverse_from f c BT_NEXT ;; ret (k :: l.1, l.2)
          else ret ([], true)
      end
  end.

Definition traverse (fuel : nat) : M (list bytes * bool) :=
  oc <- btree_txn_cursor_open false None ;;
  match oc with
  | Some c => traverse_from fuel c BT_FIRST
  | None => ret ([], false)
  end.

(** A leaf node with a one-byte key and [n] bytes of data, and a leaf
    page that holds the keys [a] and [b]. *)
Definition leaf_node (k : byte) (n : nat) : node :=
  Node (Z.of_nat n) 1 0 (k :: repeat "0"%byte n).

Definition two_key_leaf : page :=
  Page 1 P_LEAF (PAGEHDRSZ + 4) 4080 0 (BNodes [Written (leaf_node "a" 1); Written (leaf_node "b" 1)]).

Definition key_bcd : bytes := ["b"%byte; "c"%byte; "d"%byte].

(** What a run returns from a given state. *)
Definition result {A} (m : M A) (s : btree) : option A := fst <$> m s.

(** A digest of no bytes, for the runs that are evaluated in full: none of
    them compares digests. *)
Definition no_digest : list Z -> bytes := fun _ => [].

(** Five keys, four of them with 1020 bytes of data: the fifth put splits
    the root leaf. *)
Definition five_puts : M (list Z * (Z * bytes)) :=
  open_fresh ;;;
  r1 <- put (key "a") (value "1" 1020) ;;
  r2 <- put (key "b") (value "2" 1020) ;;
  r3 <- put (key "d") (value "4" 1020) ;;
  r4 <- put (key "e") (value "5" 0) ;;
  g <- get (key "d") ;;
  r5 <- put (key "c") (value "3" 1020) ;;
  ret ([r1; r2; r3; r4; r5], g).

Definition five_puts_get : M (list Z * (Z * bytes) * (Z * bytes) * Z) :=
  r <- five_puts ;;
  g <- get (key "d") ;;
  e <- gets bt_errno ;;
  ret (r, g, e).

Definition five_puts_traverse : M (list Z * (list bytes * bool)) :=
  r <- five_puts ;;
  t <- traverse 8 ;;
  ret (r.1, t).

(** Eight keys: the first seven fill the root leaf with three entries of
    1020 bytes of data and four without data; the eighth, smaller than all
    of them and with 1020 bytes of data, splits it. *)
Definition eight_puts : M (list Z * (list bytes * bool)) :=
  open_fresh ;;;
  r1 <- put (key "b") (value "2" 1020) ;;
  r2 <- put (key "c") (value "3" 1020) ;;
  r3 <- put (key "d") (value "4" 1020) ;;
  r4 <- put (key "e") (value "5" 0) ;;
  r5 <- put (key "f") (value "6" 0) ;;
  r6 <- put (key "g") (value "7" 0) ;;
  r7 <- put (key "h") (value "8" 0) ;;
  t <- traverse 12 ;;
  r8 <- put (key "a") (value "1" 1020) ;;
  ret ([r1; r2; r3; r4; r5; r6; r7; r8], t).

Definition eight_puts_traverse
    : M (list Z * (list bytes * bool) * (list bytes * bool)) :=
  r <- eight_puts ;;
  t <- traverse 12 ;;
  ret (r, t).

(** Seven keys: the first six fill the root leaf with three entries of
    1020 bytes of data and three without data; the seventh, greater than
    the first three and smaller than the others, has 1020 bytes of data
    and splits the leaf.  Then a lookup of the seventh key and a
    traversal. *)
Definition seven_puts : M (list Z * (Z * bytes) * Z * (list bytes * bool)) :=
  open_fresh ;;;
  r1 <- put (key "a") (value "1" 1020) ;;
  r2 <- put (key "b") (value "2" 1020) ;;
  r3 <- put (key "c") (value "3" 1020) ;;
  r4 <- put (key "e") (value "5" 0) ;;
  r5 <- put (key "f") (value "6" 0) ;;
  r6 <- put (key "g") (value "7" 0) ;;
  r7 <- put (key "d") (value "4" 1020) ;;
  g <- get (key "d") ;;
  e <- gets bt_errno ;;
  t <- traverse 12 ;;
  ret ([r1; r2; r3; r4; r5; r6; r7], g, e, t).

(** The same key and value put twice. *)
Definition entries : M Z := gets (fun s => m_entries (bt_meta_ s)).

Definition put_twice
    : M (Z * Z * (Z * bytes) * (list bytes * bool) * (Z * Z * (Z * bytes) * (list bytes * bool))) :=
  open_fresh ;;;
  r1 <- put (key "k") (value "v" 3) ;;
  e1 <- entries ;;
  g1 <- get (key "k") ;;
  t1 <- traverse 4 ;;
  r2 <- put (key "k") (value "v" 3) ;;
  e2 <- entries ;;
  g2 <- get (key "k") ;;
  t2 <- traverse 4 ;;
  ret (r1, e1, g1, t1, (r2, e2, g2, t2)).

(** Two commits, and what the file then holds: the flags of each page,
    and the [prev_meta] and [root] of each meta page. *)
Definition page_summary (p : page) : Z * option (Z * Z) :=
  (pg_flags p, match pg_body p with
               | BMeta m => Some (m_prev_meta m, m_root m)
               | _ => None
               end).

Definition two_commits : M (Z * Z * list (Z * option (Z * Z))) :=
  open_fresh ;;;
  r1 <- put (key "a") (value "1" 1) ;;
  r2 <- put (key "b") (value "2" 1) ;;
  f <- gets bt_file ;;
  ret (r1, r2, map page_summary f).


(** A put in a read-only transaction. *)
Definition put_rdonly : M (option nat * Z * Z) :=
  open_fresh ;;;
  t <- btree_txn_begin SHA256 true ;;
  r <- btree_txn_put SHA256 false t (key "k") (value "v" 1) ;;
  e <- gets bt_errno ;;
  ret (t, r, e).


End Runs.

Definition state_after {A} (m : M A) (s : btree) : btree :=
  match m s with Some (_, s') => s' | None => s end.

(** The database just opened, with a read-only transaction begun, and
    with a write transaction begun. *)
Definition rdonly_begun : btree :=
  state_after (open_fresh no_digest ;;; btree_txn_begin no_digest true) fresh.

Definition write_begun : btree :=
  state_after (open_fresh no_digest ;;; btree_txn_begin no_digest false) fresh.

(** A write transaction that has allocated a leaf, and the same after a
    node with 1024 bytes of data is added to the leaf. *)
Definition leaf_allocated : btree :=
  state_after (btree_new_page P_LEAF) write_begun.

Definition leaf_with_node : btree :=
  state_after (btree_add_node 0 0 (Some (key "k")) (Some (value "v" 1024)) 0 0)
              leaf_allocated.

End Scenario.

Definition stored_key (m : mpage) (i : Z) : option bytes :=
  n ← NODEPTR m i; node_key n.

Definition search_low (m : mpage) : Z := if IS_LEAF m then 0 else 1.

Definition keys_increasing (m : mpage) : Prop :=
  forall i j ki kj, search_low m <= i < j -> j < NUMKEYS m ->
    stored_key m i = Some ki -> stored_key m j = Some kj -> Cmp.gt kj ki.

(** Where a probe of the binary search for [k] stands: the keys below it
    are smaller than [k], the keys above it greater, and [rc] compares [k]
    with the key at the probe. *)
Definition probe_ok (m : mpage) (k : bytes) (i rc : Z) : Prop :=
  search_low m <= i < NUMKEYS m /\
  exists ki, stored_key m i = Some ki /\ Cmp.btree_cmp k ki = Some rc /\
    (forall j kj, search_low m <= j < i -> stored_key m j = Some kj -> Cmp.gt k kj) /\
    (forall j kj, i < j < NUMKEYS m -> stored_key m j = Some kj -> Cmp.gt kj k).

(** The page object of a leaf page that was read from the file. *)
Definition leaf_object (p : page) : mpage := Mpage None 0 [] p (pg_pgno p) 0 false.

(** ** Rebalancing after a delete (btree.c:1782-2156) *)

(** The node of slot [indx] of a page whose slots below [NUMKEYS] all
    point at nodes of their own, as the loops over the slot array of
    [btree_update_key] take them to do. *)
Definition own_node (m : mpage) (indx : Z) : option node :=
  if (0 <=? indx) && (indx <? NUMKEYS m)
     && forallb (fun s => match s with Written _ => true | Zero => false end)
                (take (Z.to_nat (NUMKEYS m)) (pg_slots (mp_page m)))
     && (NUMKEYS m <=? Z.of_nat (length (pg_slots (mp_page m))))
  then NODEPTR m indx else None.

(** [btree_update_key] (btree.c:1782): the key of the node is replaced in
    place; what follows the key in the node stays. *)
Definition btree_update_key (mp : nat) (indx : Z) (key : btval) : M Z :=
  m <- mp_get mp ;;
  n <- liftO (own_node m indx) ;;
  let delta := bv_size key - ksize n in
  if bv_size key =? ksize n then
    kb <- liftO (val_bytes key) ;;
    mp_upd mp (set_mp_page (set_pg_slots (fun l =>
      <[Z.to_nat indx := Written (set_n_data (fun _ => kb ++ NODEDATA n) n)]> l))) ;;;
    ret BT_SUCCESS
  else if (0 <? delta) && (SIZELEFT m <? delta) then ret BT_FAIL
  else
    kb <- liftO (val_bytes key) ;;
    mp_upd mp (set_mp_page (fun p =>
      set_pg_slots (fun l =>
          <[Z.to_nat indx := Written (Node (n_p n) (u16 (bv_size key)) (n_flags n)
                                           (kb ++ NODEDATA n))]> l)
        (set_upper (fun u => u16 (u - delta)) p))) ;;;
    ret BT_SUCCESS.

(** The key [btree_adjust_prefix] builds in [tmpkey] for a node
    (btree.c:1828-1835): with [delta > 0] the stored key without its
    first [delta] bytes; otherwise the last [-delta] bytes of the page
    prefix followed by the stored key.  [tmpkey.str] holds [MAXKEYSIZE]
    bytes. *)
Definition adjusted_key (pfx : bytes) (n : node) (delta : Z) : option bytes :=
  let len := ksize n - delta in
  if (len <? 0) || (MAXKEYSIZE <? len) then None
  else if 0 <? delta
  then val_bytes (Btval (drop (Z.to_nat delta) (NODEKEY n)) len)
  else
    let off := Z.of_nat (length pfx) + delta in
    if off <? 0 then None
    else k ← node_key n; Some (drop (Z.to_nat off) pfx ++ k).

(** [btree_adjust_prefix] (btree.c:1820), from slot [i] on. *)
Fixpoint adjust_prefix_loop (fuel : nat) (src : nat) (delta i : Z) : M Z :=
  m <- mp_get src ;;
  if NUMKEYS m <=? i then ret BT_SUCCESS
  else
    match fuel with
    | O => undefined
    | S f =>
        n <- liftO (NODEPTR m i) ;;
        tmpkey <- liftO (adjusted_key (mp_prefix m) n delta) ;;
        rc <- btree_update_key src i (mkval tmpkey) ;;
        if negb (rc =? BT_SUCCESS) then ret BT_FAIL
        else adjust_prefix_loop f src delta (i + 1)
    end.

Definition btree_adjust_prefix (src : nat) (delta : Z) : M Z :=
  m <- mp_get src ;;
  adjust_prefix_loop (Z.to_nat (NUMKEYS m)) src delta 0.

(** Going on when a call returned [BT_SUCCESS], and returning [BT_FAIL]
    otherwise. *)
Definition on_success (c : M Z) (k : M Z) : M Z :=
  rc <- c ;; if rc =? BT_SUCCESS then k else ret BT_FAIL.

(** The lowest key below a branch page (btree.c:1894-1899, 2038-2043),
    expanded; the result of [btree_search_page_root] is not tested. *)
Definition lowest_key (src : nat) : M bytes :=
  r <- btree_search_page_root src None None false ;;
  low <- liftO r.2 ;;
  lm <- mp_get low ;;
  liftO (expand_prefix lm 0).

(** Bringing the separator of a page in its parent up to date with the
    first key of the page (btree.c:1927-1937, 1945-1955). *)
Definition update_separator (mp : nat) : M Z :=
  m <- mp_get mp ;;
  tmpkey <- liftO (expand_prefix m 0) ;;
  par <- liftO (mp_parent m) ;;
  pm <- mp_get par ;;
  key <- liftO (remove_prefix (mkval tmpkey) (Z.of_nat (length (mp_prefix pm)))) ;;
  btree_update_key par (mp_parent_index m) key.

(** Recomputing the prefix of a page and adjusting its keys when the
    prefix has changed (btree.c:1966-1980). *)
Definition refresh_prefix (mp : nat) : M Z :=
  m <- mp_get mp ;;
  let pfxlen := Z.of_nat (length (mp_prefix m)) in
  find_common_prefix mp ;;;
  m <- mp_get mp ;;
  if negb (Z.of_nat (length (mp_prefix m)) =? pfxlen)
  then btree_adjust_prefix mp (Z.of_nat (length (mp_prefix m)) - pfxlen)
  else ret BT_SUCCESS.

(** [btree_move_node] (btree.c:1846). *)
Definition btree_move_node (src : nat) (srcindx : Z) (dst : nat) (dstindx : Z) : M Z :=
  sm <- mp_get src ;;
  srcnode <- liftO (NODEPTR sm srcindx) ;;
  find_common_prefix src ;;;
  child <- (if IS_BRANCH sm then
              (* Need to check if the page the moved node points to
                 changes prefix. *)
              o <- btree_get_mpage (NODEPGNO srcnode) ;;
              match o with
              | None => ret None
              | Some mp =>
                  mp_upd mp (fun x => set_mp_parent (fun _ => Some src)
                                        (set_mp_parent_index (fun _ => srcindx) x)) ;;;
                  find_common_prefix mp ;;;
                  m <- mp_get mp ;;
                  ret (Some (Some (mp, Z.of_nat (length (mp_prefix m)))))
              end
            else ret (Some None)) ;;
  match child with
  | None => ret BT_FAIL
  | Some child =>
      (* Mark src and dst as dirty. *)
      src <- mpage_touch src ;;
      dst <- mpage_touch dst ;;
      find_common_prefix dst ;;;
      (* Check if src node has destination page prefix. Otherwise the
         destination page must expand its prefix on all its nodes. *)
      srckey <- liftO (k ← node_key srcnode; concat_prefix [] k MAXKEYSIZE) ;;
      dm <- mp_get dst ;;
      let tmpkey := common_prefix srckey (mp_prefix dm) in
      on_success
        (if negb (length tmpkey =? length (mp_prefix dm))%nat then
           on_success
             (btree_adjust_prefix dst (Z.of_nat (length tmpkey)
                                       - Z.of_nat (length (mp_prefix dm))))
             (mp_upd dst (set_mp_prefix (fun _ => tmpkey)) ;;; ret BT_SUCCESS)
         else ret BT_SUCCESS)
        (sm <- mp_get src ;;
         srckey <- (if (srcindx =? 0) && IS_BRANCH sm then lowest_key src
                    else ret srckey) ;;
         find_common_prefix src ;;;
         (* expand the prefix *)
         sm <- mp_get src ;;
         tmpkey <- liftO (concat_prefix (mp_prefix sm) srckey MAXKEYSIZE) ;;
         (* Add the node to the destination page. Adjust prefix for
            destination page. *)
         dm <- mp_get dst ;;
         key <- liftO (remove_prefix (mkval tmpkey) (Z.of_nat (length (mp_prefix dm)))) ;;
         on_success
           (btree_add_node dst dstindx (Some key)
              (Some (Btval (NODEDATA srcnode) (NODEDSZ srcnode)))
              (NODEPGNO srcnode) (n_flags srcnode))
           ((* Delete the node from the source page. *)
            btree_del_node src srcindx ;;;
            (* Update the parent separators. *)
            sm <- mp_get src ;;
            on_success
              (if (srcindx =? 0) && negb (mp_parent_index sm =? 0)
               then update_separator src else ret BT_SUCCESS)
              ((if (srcindx =? 0) && IS_BRANCH sm
                then btree_update_key src 0 (Btval [] 0) ;;; ret tt else ret tt) ;;;
               dm <- mp_get dst ;;
               on_success
                 (if (dstindx =? 0) && negb (mp_parent_index dm =? 0)
                  then update_separator dst else ret BT_SUCCESS)
                 ((if (dstindx =? 0) && IS_BRANCH dm
                   then btree_update_key dst 0 (Btval [] 0) ;;; ret tt else ret tt) ;;;
                  (* We can get a new page prefix here!
                     Must update keys in all nodes of this page! *)
                  on_success (refresh_prefix src)
                    (on_success (refresh_prefix dst)
                       (dm <- mp_get dst ;;
                        if IS_BRANCH dm then
                          c <- liftO child ;;
                          let mp := c.1 in
                          mp_upd mp (fun x => set_mp_parent (fun _ => Some dst)
                                                (set_mp_parent_index (fun _ => dstindx) x)) ;;;
                          find_common_prefix mp ;;;
                          m <- mp_get mp ;;
                          if negb (Z.of_nat (length (mp_prefix m)) =? c.2) then
                            mp <- mpage_touch mp ;;
                            m <- mp_get mp ;;
                            btree_adjust_prefix mp (Z.of_nat (length (mp_prefix m)) - c.2)
                          else ret BT_SUCCESS
                        else ret BT_SUCCESS))))))
  end.

(** The loop of [btree_merge] that moves all nodes from [src] to [dst]
    (btree.c:2031-2057). *)
Fixpoint merge_loop (fuel : nat) (src dst : nat) (i : Z) : M Z :=
  sm <- mp_get src ;;
  if NUMKEYS sm <=? i then ret BT_SUCCESS
  else
    match fuel with
    | O => undefined
    | S f =>
        srcnode <- liftO (NODEPTR sm i) ;;
        (* If branch node 0 (implicit key), find the real key. *)
        tmpkey <- (if (i =? 0) && IS_BRANCH sm then lowest_key src
                   else liftO (expand_prefix sm i)) ;;
        dm <- mp_get dst ;;
        key <- liftO (remove_prefix (mkval tmpkey) (Z.of_nat (length (mp_prefix dm)))) ;;
        on_success
          (btree_add_node dst (u16 (NUMKEYS dm)) (Some key)
             (Some (Btval (NODEDATA srcnode) (NODEDSZ srcnode)))
             (NODEPGNO srcnode) (n_flags srcnode))
          (merge_loop f src dst (i + 1))
    end.

(** [btree_merge] (btree.c:2002); [rebalance] is the call of
    [btree_rebalance] on the parent it ends with. *)
Definition btree_merge (rebalance : nat -> M Z) (src dst : nat) : M Z :=
  (* Mark src and dst as dirty. *)
  src <- mpage_touch src ;;
  dst <- mpage_touch dst ;;
  find_common_prefix src ;;;
  find_common_prefix dst ;;;
  (* Check if source nodes has destination page prefix. Otherwise
     the destination page must expand its prefix on all its nodes. *)
  sm <- mp_get src ;;
  dm <- mp_get dst ;;
  let dstpfx := common_prefix (mp_prefix sm) (mp_prefix dm) in
  on_success
    (if negb (length dstpfx =? length (mp_prefix dm))%nat then
       on_success
         (btree_adjust_prefix dst (Z.of_nat (length dstpfx)
                                   - Z.of_nat (length (mp_prefix dm))))
         (mp_upd dst (set_mp_prefix (fun _ => dstpfx)) ;;; ret BT_SUCCESS)
     else ret BT_SUCCESS)
    ((* Move all nodes from src to dst. *)
     sm <- mp_get src ;;
     on_success (merge_loop (Z.to_nat (NUMKEYS sm)) src dst 0)
       ((* Unlink the src page from parent. *)
        sm <- mp_get src ;;
        par <- liftO (mp_parent sm) ;;
        btree_del_node par (u16 (mp_parent_index sm)) ;;;
        on_success
          (if mp_parent_index sm =? 0 then
             on_success (btree_update_key par 0 (Btval [] 0))
               (find_common_prefix src ;;; ret BT_SUCCESS)
           else ret BT_SUCCESS)
          ((if IS_LEAF sm
            then modify (set_bt_meta_ (set_m_leaf_pages (fun n => u32 (n - 1))))
            else modify (set_bt_meta_ (set_m_branch_pages (fun n => u32 (n - 1))))) ;;;
           rebalance par))).

(** [btree_rebalance] (btree.c:2082); [fuel] bounds the merges up the
    tree. *)
Fixpoint btree_rebalance (fuel : nat) (mp : nat) : M Z :=
  m <- mp_get mp ;;
  ps <- the_psize ;;
  if FILL_THRESHOLD <=? PAGEFILL ps m then ret BT_SUCCESS
  else
    match mp_parent m with
    | None =>
        if NUMKEYS m =? 0 then
          t <- bt_txn_ptr ;;
          txn_upd t (set_tx_root (fun _ => P_INVALID)) ;;;
          modify (set_bt_meta_ (set_m_depth (fun d => u32 (d - 1)))) ;;;
          modify (set_bt_meta_ (set_m_leaf_pages (fun n => u32 (n - 1)))) ;;;
          ret BT_SUCCESS
        else if IS_BRANCH m && (NUMKEYS m =? 1) then
          n <- liftO (NODEPTR m 0) ;;
          t <- bt_txn_ptr ;;
          txn_upd t (set_tx_root (fun _ => NODEPGNO n)) ;;;
          o <- btree_get_mpage (NODEPGNO n) ;;
          match o with
          | None => ret BT_FAIL
          | Some root =>
              mp_upd root (set_mp_parent (fun _ => None)) ;;;
              modify (set_bt_meta_ (set_m_depth (fun d => u32 (d - 1)))) ;;;
              modify (set_bt_meta_ (set_m_branch_pages (fun n => u32 (n - 1)))) ;;;
              ret BT_SUCCESS
          end
        else ret BT_SUCCESS
    | Some parent =>
        (* Leaf page fill factor is below the threshold.
           Try to move keys from left or right neighbor, or
           merge with a neighbor page. *)
        pm <- mp_get parent ;;
        (* Find neighbors. *)
        let ni := if mp_parent_index m =? 0 then u32 (mp_parent_index m + 1)
                  else u32 (mp_parent_index m - 1) in
        node <- liftO (NODEPTR pm ni) ;;
        o <- btree_get_mpage (NODEPGNO node) ;;
        match o with
        | None => ret BT_FAIL
        | Some neighbor =>
            mp_upd neighbor (set_mp_parent_index (fun _ => ni)) ;;;
            nm <- mp_get neighbor ;;
            m <- mp_get mp ;;
            let si := if mp_parent_index m =? 0 then 0 else u16 (NUMKEYS nm - 1) in
            let di := if mp_parent_index m =? 0 then u16 (NUMKEYS m) else 0 in
            mp_upd neighbor (set_mp_parent (fun _ => Some parent)) ;;;
            (* If the neighbor page is above threshold and has at least two
               keys, move one key from it.  Otherwise we should try to
               merge them. *)
            nm <- mp_get neighbor ;;
            if (FILL_THRESHOLD <=? PAGEFILL ps nm) && (2 <=? NUMKEYS nm)
            then btree_move_node neighbor si mp di
            else
              match fuel with
              | O => undefined
              | S f =>
                  if mp_parent_index m =? 0
                  then btree_merge (btree_rebalance f) neighbor mp
                  else btree_merge (btree_rebalance f) mp neighbor
              end
        end
    end.

(** [btree_rebalance] as [btree_txn_del] calls it. *)
Definition rebalance (mp : nat) : M Z :=
  fuel <- gets (fun s => length (bt_heap s)) ;;
  btree_rebalance fuel mp.

(** ** What a call leaves of the state *)

(** Every run of [m] that returns relates the state before to the state
    after by [R]. *)
Definition respects (R : btree -> btree -> Prop) {A} (m : M A) : Prop :=
  forall s a s', m s = Some (a, s') -> R s s'.

(** A part of the state is after the call what it was before. *)
Definition same {T} (proj : btree -> T) (s s' : btree) : Prop := proj s' = proj s.

(** The file: its pages and the size of its partial last page. *)
Definition file_state (s : btree) : list page * Z := (bt_file s, bt_file_tail s).

(** The pages the file held are still there, at the same place. *)
Definition file_grows (s s' : btree) : Prop := bt_file s `prefix_of` bt_file s'.

(** A part of the state that does not depend on the page objects, the
    page cache, the transaction objects, [errno], the reference count and
    the page counters and depth of the meta data. *)
Record ignores_objects {T} (proj : btree -> T) : Prop := {
  ig_heap : forall f s, proj (set_bt_heap f s) = proj s;
  ig_page_cache : forall f s, proj (set_bt_page_cache f s) = proj s;
  ig_lru_queue : forall f s, proj (set_bt_lru_queue f s) = proj s;
  ig_cache_size : forall f s, proj (set_bt_cache_size f s) = proj s;
  ig_txns : forall f s, proj (set_bt_txns f s) = proj s;
  ig_txn : forall f s, proj (set_bt_txn f s) = proj s;
  ig_errno : forall f s, proj (set_bt_errno f s) = proj s;
  ig_ref : forall f s, proj (set_bt_ref f s) = proj s;
  ig_branch_pages : forall f s, proj (set_bt_meta_ (set_m_branch_pages f) s) = proj s;
  ig_leaf_pages : forall f s, proj (set_bt_meta_ (set_m_leaf_pages f) s) = proj s;
  ig_overflow_pages : forall f s, proj (set_bt_meta_ (set_m_overflow_pages f) s) = proj s;
  ig_depth : forall f s, proj (set_bt_meta_ (set_m_depth f) s) = proj s
}.

(** A part of the state that does not depend on the meta data, the flags
    and the recorded file size either. *)
Record ignores_meta {T} (proj : btree -> T) : Prop := {
  ig_meta : forall f s, proj (set_bt_meta_ f s) = proj s;
  ig_flags : forall f s, proj (set_bt_flags f s) = proj s;
  ig_size : forall f s, proj (set_bt_size f s) = proj s
}.

(** The number of entries the meta data count. *)
Definition entries_count (s : btree) : Z := m_entries (bt_meta_ s).

(** A database that holds one key, and the same with a write transaction
    begun. *)
Definition one_key : btree :=
  Scenario.state_after
    (Scenario.open_fresh Scenario.no_digest ;;;
     Scenario.put Scenario.no_digest (Scenario.key "k") (Scenario.value "v" 3))
    Scenario.fresh.

Definition one_key_writing : btree :=
  Scenario.state_after (btree_txn_begin Scenario.no_digest false) one_key.

(** Every run of [m] that starts in a state with [P] and returns [a]
    ends in a state with [Q a]. *)
Definition hoare {A} (P : btree -> Prop) (m : M A) (Q : A -> btree -> Prop) : Prop :=
  forall s a s', P s -> m s = Some (a, s') -> Q a s'.

(** ** Leaf pages by their nodes *)

(** The slot array of the page holds the nodes [ns], one per slot and
    nothing else, and their stored keys are [ks]. *)
Definition leaf_holds (m : mpage) (ns : list node) (ks : list bytes) : Prop :=
  pg_slots (mp_page m) = map Written ns /\
  NUMKEYS m = Z.of_nat (length ns) /\
  mapM node_key ns = Some ks.

(** The keys of the list increase. *)
Definition increasing (ks : list bytes) : Prop :=
  forall i j ki kj, (i < j)%nat -> ks !! i = Some ki -> ks !! j = Some kj -> Cmp.gt kj ki.

(** The leaf page after [btree_add_node] has stored [key] and [data]
    inline at slot [indx]. *)
Definition leaf_after_add (m : mpage) (ns : list node) (indx : nat) (key data : btval)
    (kb db : bytes) : mpage :=
  set_mp_page (fun p =>
    set_pg_slots (fun _ => map Written
        (take indx ns ++ Node (bv_size data) (bv_size key) 0 (kb ++ db) :: drop indx ns))
      (set_upper (fun _ => upper (mp_page m) - (NODESIZE + bv_size key + bv_size data))
         (set_lower (fun l => l + 2) p))) m.
(** A write transaction whose only page object is the leaf that holds
    [a] and [b]. *)
Definition leaf_ab : btree :=
  set_bt_heap (fun _ => [leaf_object Scenario.two_key_leaf]) Scenario.write_begun.

(** ** What a commit writes *)

(** A page object with its dirty flag cleared, and the pages of the page
    objects a dirty queue lists. *)
Definition clean (m : mpage) : mpage := set_mp_dirty (fun _ => false) m.

Definition queue_pages (s : btree) (q : list nat) : option (list page) :=
  mapM (fun mp => mp_page <$> bt_heap s !! mp) q.

(** The meta page [btree_write_meta] builds in a page object fresh from
    [btree_new_page]. *)
Definition meta_page (ps pgno : Z) (m : bt_meta) : page :=
  Page pgno P_META PAGEHDRSZ (u16 ps) 0 (BMeta m).

(** ** What opening a file finds *)

(** A page that [btree_is_meta_page] accepts as the meta page [m], and a
    page that it turns down. *)
Definition meta_accepted (SHA256 : list Z -> bytes) (p : page) (m : bt_meta) : Prop :=
  F_ISSET (pg_flags p) P_META = true /\ pg_body p = BMeta m /\
  (m_root m < pg_pgno p \/ m_root m = P_INVALID) /\
  SHA256 (meta_hash_input m) = m_hash m.

Definition meta_refused (SHA256 : list Z -> bytes) (p : page) : Prop :=
  F_ISSET (pg_flags p) P_META = false \/
  exists m, pg_body p = BMeta m /\
    ((pg_pgno p <= m_root m /\ m_root m <> P_INVALID) \/
     SHA256 (meta_hash_input m) <> m_hash m).

(** A page of the file that [ftruncate] made of a partial page. *)
Definition torn (p : page) : bool :=
  match pg_body p with BTorn _ => true | _ => false end.

(** A file that starts with a header page of this version. *)
Definition has_header (f : list page) (h : bt_head) : Prop :=
  exists p0, f !! O = Some p0 /\ F_ISSET (pg_flags p0) P_HEAD = true /\
    pg_body p0 = BHead h /\ h_magic h = BT_MAGIC /\ h_version h = BT_VERSION.

(** The file of [one_key] after a commit that was cut off: a leaf page and
    a hundred bytes of the next page follow the last meta page. *)
Definition torn_file : list page :=
  bt_file one_key ++ [Page 3 P_LEAF PAGEHDRSZ 4096 0 (BNodes [])].

(** The same file with a page in the place of the leaf page that carries
    the number [7], and a file of a header page and a leaf page. *)
Definition misnumbered_file : list page :=
  bt_file one_key ++ [Page 7 P_LEAF PAGEHDRSZ 4096 0 (BNodes [])].

Definition meta_less_file : list page :=
  take 1 (bt_file one_key) ++ [Page 1 P_LEAF PAGEHDRSZ 4096 0 (BNodes [])].

(** ** What pruning the cache keeps *)

(** A page object that [mpage_prune] does not drop: it is dirty, or its
    reference count is above zero. *)
Definition in_use (s : btree) (mp : nat) : Prop :=
  exists m, bt_heap s !! mp = Some m /\ (mp_dirty m = true \/ 0 < mp_ref m).

(** [one_key_writing] after a put in its write transaction and, in a
    read-only transaction begun after that, a cursor moved to the first
    key.  The cache holds three page objects: the leaf of the write
    transaction, dirty; the meta page of the last commit, clean and not
    referenced; the leaf of the read-only transaction, clean and
    referenced by the cursor and by the key handed out.  [max_cache] is
    set to one page. *)
Definition crowded_cache : btree :=
  set_bt_max_cache (fun _ => 1)
    (Scenario.state_after
       (t <- btree_txn_begin Scenario.no_digest true ;;
        btree_cursor_get Scenario.no_digest (Cursor t [] false false) (Some (Btval [] 0))
          false BT_FIRST)
       (Scenario.state_after
          (btree_txn_put Scenario.no_digest false (Some 1%nat) (Scenario.key "a")
             (Scenario.value "1" 3))
          one_key_writing)).

(** ** A tree of one leaf *)

(** The tree of transaction [t] is the one leaf [mp], which is in the
    cache under the root page number of the transaction. *)
Definition leaf_tree (s : btree) (t : nat) (x : btree_txn) (mp : nat) (m : mpage) : Prop :=
  bt_txns s !! t = Some x /\
  F_ISSET (tx_flags x) BT_TXN_ERROR = false /\
  tx_root x <> P_INVALID /\
  bt_page_cache s !! tx_root x = Some mp /\
  bt_heap s !! mp = Some m /\
  mp_pgno m = tx_root x /\
  IS_LEAF m = true /\ IS_BRANCH m = false /\
  cache_ok s = true.

(** The data a node holds inline. *)
Definition inline_data (n : node) : option bytes :=
  if F_ISSET (n_flags n) F_BIGDATA then None
  else val_bytes (Btval (NODEDATA n) (NODEDSZ n)).

(** A write transaction on a new database after its first put. *)
Definition one_key_in_txn : btree :=
  Scenario.state_after
    (btree_txn_put Scenario.no_digest false (Some O) (Scenario.key "k") (Scenario.value "v" 3))
    Scenario.write_begun.

(** The transaction of [one_key_in_txn] after it has put the key [m] with
    the data [ww] as well. *)
Definition two_keys_in_txn : btree :=
  Scenario.state_after
    (btree_txn_put Scenario.no_digest false (Some O) (Scenario.key "m") (Scenario.value "w" 2))
    one_key_in_txn.

(** Its leaf, with the nodes and the keys the leaf holds. *)
Definition km_nodes : list node :=
  [Node 3 1 0 [ "k"; "v"; "v"; "v" ]%byte; Node 2 1 0 [ "m"; "w"; "w" ]%byte].

Definition km_keys : list bytes := [[ "k"%byte ]; [ "m"%byte ]].

Definition km_leaf : mpage :=
  Mpage None 0 [] (Page 1 P_LEAF 16 4075 0 (BNodes (map Written km_nodes))) 1 0 true.

(** The leaf page after [btree_del_node] has taken the node [n], stored
    inline, out of slot [indx]. *)
Definition leaf_after_del (m : mpage) (ns : list node) (indx : nat) (n : node) : mpage :=
  set_mp_page (fun p =>
    set_pg_slots (fun _ => map Written (delete indx ns))
      (set_upper (fun u => u16 (u + u32 (NODESIZE + ksize n + NODEDSZ n)))
         (set_lower (fun l => u16 (l - sizeof_indx_t)) p))) m.

(** A cursor stands on the one leaf of transaction [t]: the leaf holds
    the nodes [ns] with the keys [ks] behind the prefix [pfx], and is
    referenced, at most [r] times. *)
Definition scanning (s : btree) (t : nat) (x : btree_txn) (mp : nat)
    (ns : list node) (ks : list bytes) (pfx : bytes) (r : Z) : Prop :=
  exists m, leaf_tree s t x mp m /\ leaf_holds m ns ks /\ mp_prefix m = pfx /\
            0 < mp_ref m <= r.

(** The transaction of [two_keys_in_txn] after a cursor went from the
    first key to the last: the cursor stands on [m], in slot [1] of the
    leaf. *)
Definition on_last_key : btree :=
  Scenario.state_after
    (Scenario.traverse_from Scenario.no_digest 2 (Cursor (Some O) [] false false) BT_FIRST)
    two_keys_in_txn.

(* ################################################################# *)
(** * Properties *)

Module CmpFacts.
Import Cmp.

Lemma uchar_inj b1 b2 : uchar b1 = uchar b2 -> b1 = b2.
Proof.
  unfold uchar. intros H. apply N2Z.inj in H.
  assert (Some b1 = Some b2) as E; [|now inversion E].
  now rewrite <- (Byte.of_to_N b1), <- (Byte.of_to_N b2), H.
Qed.

Lemma eqb_refl b : Byte.eqb b b = true.
Proof. now apply Byte.byte_dec_lb. Qed.

Lemma eqb_neq b1 b2 : b1 <> b2 -> Byte.eqb b1 b2 = false.
Proof.
  intros H. destruct (Byte.eqb b1 b2) eqn:E; [|reflexivity].
  now apply Byte.byte_dec_bl in E.
Qed.

(** [memcmp] answers [0] exactly on two objects that are long enough and
    agree on their first [n] bytes. *)
Lemma memcmp_zero s1 s2 n :
  memcmp s1 s2 n = Some 0 <->
  (n <= length s1)%nat /\ (n <= length s2)%nat /\ take n s1 = take n s2.
Proof.
  revert s1 s2. induction n as [|n IH]; intros s1 s2; simpl.
  - rewrite !take_0. split; [intros _; repeat split; lia | reflexivity].
  - destruct s1 as [|b1 r1], s2 as [|b2 r2]; simpl;
      try (split; [discriminate | intros (? & ? & ?); lia]).
    destruct (Byte.eqb b1 b2) eqn:E.
    + apply Byte.byte_dec_bl in E. subst b2. rewrite IH.
      split; intros (? & ? & H); repeat split; try lia; congruence.
    + apply Byte.eqb_false in E. split.
      * intros H. exfalso. apply E, uchar_inj. injection H. lia.
      * intros (_ & _ & H). congruence.
Qed.

(** On two objects that first differ at offset [length p], [memcmp] over
    more than [length p] bytes answers the difference of that pair. *)
Lemma memcmp_diff p x y ra rb n :
  x <> y -> (length p < n)%nat ->
  memcmp (p ++ x :: ra) (p ++ y :: rb) n = Some (uchar x - uchar y).
Proof.
  intros Hxy. revert n. induction p as [|c p IH]; intros n Hn; simpl in *.
  - destruct n; [lia|]. simpl. now rewrite eqb_neq.
  - destruct n; [lia|]. simpl. rewrite eqb_refl. apply IH. lia.
Qed.

Lemma uchar_diff_nonzero x y : x <> y -> uchar x - uchar y <> 0.
Proof. intros H E. apply H, uchar_inj. lia. Qed.

(** The first differing pair of two byte strings is unique. *)
Lemma first_diff_unique (p p' : bytes) x y x' y' ra rb ra' rb' :
  p ++ x :: ra = p' ++ x' :: ra' -> p ++ y :: rb = p' ++ y' :: rb' ->
  x <> y -> x' <> y' -> x = x' /\ y = y'.
Proof.
  revert p'. induction p as [|c p IH]; intros [|c' p'] Ha Hb Hxy Hxy'; simpl in *.
  - split; congruence.
  - exfalso. congruence.
  - exfalso. congruence.
  - injection Ha as _ Ha. injection Hb as _ Hb. now apply (IH p').
Qed.

Lemma app_cons_neq_self (a : bytes) c r : a ++ c :: r <> a.
Proof.
  intros H. apply (f_equal length) in H. rewrite length_app in H. simpl in H. lia.
Qed.

Lemma prefix_no_diff (a : bytes) c t p x y ra rb :
  a = p ++ x :: ra -> a ++ c :: t = p ++ y :: rb -> x = y.
Proof.
  intros -> H. rewrite <- app_assoc in H. apply app_inv_head in H.
  simpl in H. congruence.
Qed.

(** Two byte strings are equal, or one is a strict prefix of the other, or
    they have a first differing pair of bytes. *)
Lemma bytes_trichotomy (a b : bytes) :
  a = b \/ (exists c r, b = a ++ c :: r) \/ (exists c r, a = b ++ c :: r) \/
  (exists p x y ra rb, a = p ++ x :: ra /\ b = p ++ y :: rb /\ x <> y).
Proof.
  revert b. induction a as [|x a IH]; intros [|y b].
  - now left.
  - right; left. now exists y, b.
  - right; right; left. now exists x, a.
  - destruct (Byte.eqb x y) eqn:E.
    + apply Byte.byte_dec_bl in E. subst y.
      destruct (IH b) as [->|[(c & r & ->)|[(c & r & ->)|(p & x' & y' & ra & rb & -> & -> & Hn)]]].
      * now left.
      * right; left. now exists c, r.
      * right; right; left. now exists c, r.
      * right; right; right. now exists (x :: p), x', y', ra, rb.
    + apply Byte.eqb_false in E. right; right; right.
      now exists [], x, y, a, b.
Qed.

Lemma memncmp_prefix_l (a : bytes) c r :
  btree_cmp a (a ++ c :: r) = Some (-1).
Proof.
  unfold btree_cmp, memncmp. rewrite length_app. simpl.
  assert ((length a <? length a + S (length r))%nat = true) as ->
    by (apply Nat.ltb_lt; lia).
  rewrite bool_decide_eq_true_2; [reflexivity|].
  apply memcmp_zero. rewrite length_app. repeat split; try lia.
  now rewrite take_app_length, firstn_all.
Qed.

Lemma memncmp_prefix_r (b : bytes) c r :
  btree_cmp (b ++ c :: r) b = Some 1.
Proof.
  unfold btree_cmp, memncmp. rewrite length_app. simpl.
  assert ((length b + S (length r) <? length b)%nat = false) as ->
    by (apply Nat.ltb_ge; lia).
  assert ((length b <? length b + S (length r))%nat = true) as ->
    by (apply Nat.ltb_lt; lia).
  simpl. rewrite bool_decide_eq_true_2; [reflexivity|].
  apply memcmp_zero. rewrite length_app. simpl. repeat split; try lia.
  now rewrite take_app_length, firstn_all.
Qed.

Lemma memncmp_refl (a : bytes) : btree_cmp a a = Some 0.
Proof.
  unfold btree_cmp, memncmp. rewrite Nat.ltb_irrefl. simpl.
  apply memcmp_zero. auto.
Qed.

Lemma memncmp_diff p x y ra rb :
  x <> y ->
  btree_cmp (p ++ x :: ra) (p ++ y :: rb) = Some (uchar x - uchar y).
Proof.
  intros Hxy. unfold btree_cmp, memncmp.
  assert (forall n, (length p < n)%nat ->
            bool_decide (memcmp (p ++ x :: ra) (p ++ y :: rb) n = Some 0) = false) as Hz.
  { intros n Hn. apply bool_decide_eq_false_2.
    rewrite memcmp_diff by assumption. intros E.
    apply (uchar_diff_nonzero x y Hxy). congruence. }
  rewrite !length_app. simpl.
  rewrite !Hz by lia. rewrite !andb_false_r.
  apply memcmp_diff; [assumption | lia].
Qed.

(** C5.  For every pair of byte strings [a] and [b] the canonical
    comparison [btree_cmp] returns a result [r]: negative when [a] is a
    strict byte-prefix of [b], positive when [b] is a strict byte-prefix of
    [a], otherwise of the sign of the difference of the first differing
    pair of bytes, read as unsigned; and [r] is [0] exactly when [a] and
    [b] are equal. *)
Theorem btree_cmp_sign (a b : bytes) :
  exists r, btree_cmp a b = Some r /\
    ((exists c t, b = a ++ c :: t) -> r < 0) /\
    ((exists c t, a = b ++ c :: t) -> 0 < r) /\
    (forall p x y ra rb, a = p ++ x :: ra -> b = p ++ y :: rb -> x <> y ->
       Z.sgn r = Z.sgn (uchar x - uchar y)) /\
    (r = 0 <-> a = b).
Proof.
  destruct (bytes_trichotomy a b)
    as [->|[(c & r & ->)|[(c & r & ->)|(p & x & y & ra & rb & -> & -> & Hn)]]].
  - exists 0. split; [apply memncmp_refl|]. repeat split; try reflexivity.
    + intros (c & t & H). symmetry in H. now apply app_cons_neq_self in H.
    + intros (c & t & H). symmetry in H. now apply app_cons_neq_self in H.
    + intros p x y ra rb Ha Hb Hxy. exfalso. rewrite Ha in Hb.
      apply app_inv_head in Hb. congruence.
  - exists (-1). split; [apply memncmp_prefix_l|]. repeat split; try lia.
    + intros (c' & t' & H). exfalso. apply (f_equal length) in H.
      repeat (rewrite length_app in H; simpl in H). lia.
    + intros p x y ra rb Ha Hb Hxy. exfalso.
      apply Hxy. eapply prefix_no_diff; eassumption.
    + intros H. symmetry in H. now apply app_cons_neq_self in H.
  - exists 1. split; [apply memncmp_prefix_r|]. repeat split; try lia.
    + intros (c' & t' & H). exfalso. apply (f_equal length) in H.
      repeat (rewrite length_app in H; simpl in H). lia.
    + intros p x y ra rb Ha Hb Hxy. exfalso.
      apply Hxy. symmetry. eapply prefix_no_diff; eassumption.
    + intros H. now apply app_cons_neq_self in H.
  - exists (uchar x - uchar y). split; [now apply memncmp_diff|].
    pose proof (uchar_diff_nonzero x y Hn) as Hd. repeat split.
    + intros (c & t & H). exfalso. apply Hn. symmetry in H.
      eapply prefix_no_diff; [reflexivity | exact H].
    + intros (c & t & H). exfalso. apply Hn. symmetry in H.
      symmetry. eapply prefix_no_diff; [reflexivity | exact H].
    + intros p' x' y' ra' rb' Ha Hb Hxy.
      destruct (first_diff_unique _ _ _ _ _ _ _ _ _ _ Ha Hb Hn Hxy) as [-> ->].
      reflexivity.
    + intros H. contradiction.
    + intros H. exfalso. apply Hn.
      assert (length p = length p) as Hl by reflexivity.
      apply app_inj_1 in H as [_ H]; [congruence | reflexivity].
Qed.

End CmpFacts.

Module SepFacts.
Import Cmp CmpFacts.


Section Loop.
Variables (p1 p2 : bytes) (K S : Z).

Lemma reduce_loop_eq (fuel n : nat) :
  reduce_separator_loop fuel p1 p2 K S n =
  (b1 ← p1 !! n; b2 ← p2 !! n;
   if Byte.eqb b1 b2 then
     if (Z.of_nat (Datatypes.S n) =? K) || (Z.of_nat (Datatypes.S n) =? S)
     then Some (Datatypes.S n)
     else match fuel with
          | O => None
          | Datatypes.S f => reduce_separator_loop f p1 p2 K S (Datatypes.S n)
          end
   else Some n).
Proof. destruct fuel; reflexivity. Qed.

(** While the two objects agree and neither bound is reached, the loop
    goes on. *)
Lemma reduce_loop_run (d n fuel : nat) :
  (forall i, (n <= i < n + d)%nat -> exists b, p1 !! i = Some b /\ p2 !! i = Some b) ->
  (forall i, (n < i <= n + d)%nat -> Z.of_nat i <> K /\ Z.of_nat i <> S) ->
  reduce_separator_loop (d + fuel) p1 p2 K S n =
  reduce_separator_loop fuel p1 p2 K S (n + d).
Proof.
  revert n. induction d as [|d IH]; intros n Hag Hb.
  - now rewrite Nat.add_0_r.
  - rewrite reduce_loop_eq.
    destruct (Hag n ltac:(lia)) as (b & -> & ->). cbn [mbind option_bind].
    rewrite eqb_refl.
    destruct (Hb (Datatypes.S n) ltac:(lia)) as [HK HS].
    apply Z.eqb_neq in HK, HS. rewrite HK, HS.
    cbn [orb Nat.add]. rewrite IH.
    + f_equal. lia.
    + intros i Hi. apply Hag. lia.
    + intros i Hi. apply Hb. lia.
Qed.

(** The loop stops on the first pair of bytes that differ. *)
Lemma reduce_loop_diff (n fuel : nat) b1 b2 :
  p1 !! n = Some b1 -> p2 !! n = Some b2 -> b1 <> b2 ->
  reduce_separator_loop fuel p1 p2 K S n = Some n.
Proof.
  intros H1 H2 Hne. rewrite reduce_loop_eq, H1, H2. cbn [mbind option_bind].
  now rewrite eqb_neq.
Qed.

(** The loop stops when the bound of the shorter key is reached. *)
Lemma reduce_loop_bound (n fuel : nat) b :
  p1 !! n = Some b -> p2 !! n = Some b ->
  Z.of_nat (Datatypes.S n) = K \/ Z.of_nat (Datatypes.S n) = S ->
  reduce_separator_loop fuel p1 p2 K S n = Some (Datatypes.S n).
Proof.
  intros H1 H2 Hb. rewrite reduce_loop_eq, H1, H2. cbn [mbind option_bind].
  rewrite eqb_refl.
  destruct Hb as [Hb|Hb]; apply Z.eqb_eq in Hb; rewrite Hb;
    [reflexivity | now rewrite orb_true_r].
Qed.

End Loop.

(** A proper prefix of [b] does not compare greater than [b]. *)
Lemma take_not_gt (a b : bytes) (m : nat) :
  take m a = take m b -> ~ gt (take m a) b.
Proof.
  intros E (r & Hr & Hpos). rewrite E in Hr.
  destruct (decide (m < length b)%nat) as [Hlt|Hge].
  - rewrite <- (take_drop m b) in Hr at 2.
    destruct (drop m b) as [|c t] eqn:Ed.
    + apply (f_equal length) in Ed. rewrite length_drop in Ed. simpl in Ed. lia.
    + rewrite memncmp_prefix_l in Hr. injection Hr as <-. lia.
  - rewrite take_ge in Hr by lia. rewrite memncmp_refl in Hr.
    injection Hr as <-. lia.
Qed.

Lemma agree_on_prefix (p a b : bytes) (i : nat) :
  (i < length p)%nat ->
  exists c, (p ++ a) !! i = Some c /\ (p ++ b) !! i = Some c.
Proof.
  intros Hi. destruct (lookup_lt_is_Some_2 p i Hi) as [c Hc].
  exists c. now rewrite !lookup_app_l, Hc by assumption.
Qed.

(** The separator reduction of [bt_reduce_separator] on a candidate
    [cand] that compares greater than a non-empty key [kmin]: what
    follows the two keys in memory ([r1], [r2]) does not matter.  The new
    size is the least at which the candidate still compares greater. *)
Lemma reduce_separator_minimal (kmin cand r1 r2 : bytes) :
  kmin <> [] -> gt cand kmin ->
  exists n : nat,
    reduce_separator_loop (length cand) (kmin ++ r1) (cand ++ r2)
      (Z.of_nat (length kmin)) (Z.of_nat (length cand)) O = Some n /\
    (n < length cand)%nat /\
    gt (take (Datatypes.S n) cand) kmin /\
    forall m, (m <= n)%nat -> ~ gt (take m cand) kmin.
Proof.
  intros Hne (r & Hr & Hpos).
  destruct (bytes_trichotomy cand kmin)
    as [->|[(c & t & ->)|[(c & t & ->)|(p & y & x & rb & ra & -> & -> & Hn)]]].
  - rewrite memncmp_refl in Hr. injection Hr as <-. lia.
  - rewrite memncmp_prefix_l in Hr. injection Hr as <-. lia.
  - (* the candidate extends [kmin] *)
    destruct (length kmin) as [|k] eqn:Hk.
    { destruct kmin; [congruence | discriminate]. }
    exists (Datatypes.S k). repeat split.
    + replace (length (kmin ++ c :: t)) with (k + (length t + 2))%nat
        by (rewrite length_app, Hk; simpl; lia).
      rewrite <- app_assoc.
      rewrite reduce_loop_run.
      * destruct (agree_on_prefix kmin r1 ((c :: t) ++ r2) k ltac:(lia))
          as (b & Hb1 & Hb2).
        eapply reduce_loop_bound; [exact Hb1 | exact Hb2 | left; lia].
      * intros i Hi. apply agree_on_prefix. lia.
      * intros i Hi. lia.
    + rewrite length_app. simpl. lia.
    + exists 1. split; [|lia]. rewrite <- Hk.
      replace (take (Datatypes.S (length kmin)) (kmin ++ c :: t)) with (kmin ++ [c]).
      * apply memncmp_prefix_r.
      * rewrite take_app_ge by lia.
        replace (Datatypes.S (length kmin) - length kmin)%nat with 1%nat by lia.
        reflexivity.
    + intros m Hm. apply take_not_gt. rewrite take_app_le by lia. reflexivity.
  - (* the two keys differ first at offset [length p] *)
    rewrite memncmp_diff in Hr by assumption. injection Hr as <-.
    exists (length p). repeat split.
    + replace (length (p ++ y :: rb)) with (length p + (length rb + 1))%nat
        by (rewrite length_app; simpl; lia).
      rewrite <- !app_assoc. rewrite reduce_loop_run.
      * eapply reduce_loop_diff with (b1 := x) (b2 := y).
        -- rewrite lookup_app_r by lia. now rewrite Nat.sub_diag.
        -- rewrite lookup_app_r by lia. now rewrite Nat.sub_diag.
        -- congruence.
      * intros i Hi. apply agree_on_prefix. lia.
      * intros i Hi. rewrite ?length_app. simpl. lia.
    + rewrite length_app. simpl. lia.
    + exists (uchar y - uchar x). split; [|assumption].
      replace (take (Datatypes.S (length p)) (p ++ y :: rb)) with (p ++ [y]).
      * now apply memncmp_diff.
      * rewrite take_app_ge by lia.
        replace (Datatypes.S (length p) - length p)%nat with 1%nat by lia.
        reflexivity.
    + intros m Hm. apply take_not_gt. now rewrite !take_app_le by lia.
Qed.

Lemma val_bytes_spec (v : btval) (b : bytes) :
  val_bytes v = Some b ->
  bv_size v = Z.of_nat (length b) /\
  bv_data v = b ++ drop (length b) (bv_data v).
Proof.
  unfold val_bytes. intros H.
  destruct ((0 <=? bv_size v) && (bv_size v <=? Z.of_nat (length (bv_data v)))) eqn:E;
    [|discriminate].
  injection H as <-. apply andb_true_iff in E as [E1 E2].
  apply Z.leb_le in E1, E2.
  rewrite length_take. split.
  - lia.
  - replace (Z.to_nat (bv_size v) `min` length (bv_data v))%nat
      with (Z.to_nat (bv_size v)) by lia.
    now rewrite take_drop.
Qed.

Lemma empty_not_gt (b : bytes) : ~ gt [] b.
Proof.
  intros (r & Hr & Hpos). destruct b as [|c t].
  - rewrite memncmp_refl in Hr. injection Hr as <-. lia.
  - pose proof (memncmp_prefix_l [] c t) as E. simpl in E.
    rewrite E in Hr. injection Hr as <-. lia.
Qed.

Lemma split_indx_ge_2 (copy : page) :
  lower copy < 2 ^ 16 -> 2 <= NUMKEYSP copy -> 2 <= split_indx_of copy.
Proof.
  unfold split_indx_of, NUMKEYSP, u32, PAGEHDRSZ. rewrite Z.shiftr_div_pow2 by lia.
  change (2 ^ 1) with 2. intros Hl Hn.
  assert ((lower copy - 12) / 2 < 2 ^ 16) by (apply Z.div_lt_upper_bound; lia).
  assert (1 <= (lower copy - 12) / 2 / 2) by (apply Z.div_le_lower_bound; lia).
  assert ((lower copy - 12) / 2 / 2 < 2 ^ 16) by (apply Z.div_lt_upper_bound; lia).
  rewrite Z.mod_small; lia.
Qed.

Lemma split_indx_le (copy : page) :
  lower copy < 2 ^ 16 -> 2 <= NUMKEYSP copy -> split_indx_of copy <= NUMKEYSP copy.
Proof.
  unfold split_indx_of, NUMKEYSP, u32, PAGEHDRSZ. rewrite Z.shiftr_div_pow2 by lia.
  change (2 ^ 1) with 2. intros Hl Hn.
  assert ((lower copy - 12) / 2 < 2 ^ 16) by (apply Z.div_lt_upper_bound; lia).
  assert ((lower copy - 12) / 2 / 2 < (lower copy - 12) / 2)
    by (apply Z.div_lt_upper_bound; lia).
  assert (0 <= (lower copy - 12) / 2 / 2) by (apply Z.div_pos; lia).
  rewrite Z.mod_small; lia.
Qed.

(** C6.  At a leaf split, let the stored keys of the page increase with
    the slot index and the page hold at least two of them; let the
    candidate be the new key when it lands at the split index and
    otherwise the first key of the right half, and let it compare
    strictly greater than the last key of the left half.  Then the
    separator reduction leaves a prefix of the candidate that still
    compares strictly greater than that key, and no shorter prefix of
    the candidate does. *)
Theorem leaf_split_separator_minimal
    (copy : page) (pfx : bytes) (newindx : Z) (newkey : btval)
    (first minn : node) (kfirst kmin cand : bytes) (candv : btval) :
  F_ISSET (pg_flags copy) P_LEAF = true ->
  lower copy < 2 ^ 16 -> 2 <= NUMKEYSP copy ->
  leaf_keys_increasing copy ->
  NODEPTRP copy 0 = Some first -> node_key first = Some kfirst ->
  NODEPTRP copy (split_indx_of copy - 1) = Some minn -> node_key minn = Some kmin ->
  split_candidate copy pfx newindx newkey = Some candv ->
  val_bytes candv = Some cand ->
  gt cand kmin ->
  exists sep sepb,
    split_sepkey copy pfx newindx newkey = Some sep /\
    val_bytes sep = Some sepb /\
    sepb = take (length sepb) cand /\
    (1 <= length sepb <= length cand)%nat /\
    gt sepb kmin /\
    forall m, (m < length sepb)%nat -> ~ gt (take m cand) kmin.
Proof.
  intros Hleaf Hlow Hnum Hinc Hfirst Hkfirst Hmin Hkmin Hcand Hcandb Hgt.
  pose proof (split_indx_ge_2 copy Hlow Hnum) as Hsi.
  pose proof (split_indx_le copy Hlow Hnum) as Hsl.
  assert (kmin <> []) as Hne.
  { intros ->. apply (empty_not_gt kfirst).
    eapply (Hinc 0 (split_indx_of copy - 1)); eauto; lia. }
  destruct (val_bytes_spec _ _ Hcandb) as [Hcs Hcd].
  destruct (val_bytes_spec _ _ Hkmin) as [Hks Hkd]. simpl in Hks, Hkd.
  destruct (reduce_separator_minimal kmin cand
              (drop (length kmin) (n_data minn)) (drop (length cand) (bv_data candv))
              Hne Hgt) as (n & Hloop & Hn & Hgt' & Hmin').
  exists (Btval (bv_data candv) (Z.of_nat n + 1)), (take (Datatypes.S n) cand).
  assert (length (take (Datatypes.S n) cand) = Datatypes.S n) as Hlen
    by (rewrite length_take; lia).
  repeat split.
  - unfold split_sepkey. rewrite Hcand. cbn [mbind option_bind]. rewrite Hleaf, Hmin.
    cbn [mbind option_bind]. unfold bt_reduce_separator, NODEKEY.
    rewrite Hcs, Hks, Nat2Z.id. unfold NODEKEY in Hkd.
    rewrite <- Hkd, <- Hcd in Hloop. rewrite Hloop. reflexivity.
  - unfold val_bytes. cbn [bv_data bv_size].
    assert (length cand <= length (bv_data candv))%nat.
    { rewrite Hcd, length_app. lia. }
    replace ((0 <=? Z.of_nat n + 1) && (Z.of_nat n + 1 <=? Z.of_nat (length (bv_data candv))))
      with true by (symmetry; apply andb_true_iff; split; apply Z.leb_le; lia).
    f_equal. replace (Z.to_nat (Z.of_nat n + 1)) with (Datatypes.S n) by lia.
    rewrite Hcd at 1. now rewrite take_app_le by lia.
  - rewrite Hlen. reflexivity.
  - lia.
  - lia.
  - exact Hgt'.
  - intros m Hm. apply Hmin'. lia.
Qed.

(** A leaf holding the keys [a] and [b] that is split by the put of
    [bcd], which lands at the split index: the separator is [bc]. *)
Lemma leaf_split_separator_minimal_witness :
  exists sep sepb,
    split_sepkey Scenario.two_key_leaf [] 2 (mkval Scenario.key_bcd) = Some sep /\
    val_bytes sep = Some sepb /\
    sepb = take (length sepb) Scenario.key_bcd /\
    (1 <= length sepb <= length Scenario.key_bcd)%nat /\
    gt sepb ["b"%byte] /\
    forall m, (m < length sepb)%nat -> ~ gt (take m Scenario.key_bcd) ["b"%byte].
Proof.
  apply (leaf_split_separator_minimal Scenario.two_key_leaf [] 2 (mkval Scenario.key_bcd)
           (Scenario.leaf_node "a" 1) (Scenario.leaf_node "b" 1)
           ["a"%byte] ["b"%byte] Scenario.key_bcd (mkval Scenario.key_bcd));
    try reflexivity; try (vm_compute; lia).
  - intros i j ni nj ki kj Hij Hjn Hi Hj Hki Hkj.
    assert (i = 0 /\ j = 1) as [-> ->].
    { change (NUMKEYSP Scenario.two_key_leaf) with 2 in Hjn. lia. }
    vm_compute in Hi, Hj. injection Hi as <-. injection Hj as <-.
    vm_compute in Hki, Hkj. injection Hki as <-. injection Hkj as <-.
    exists 1. split; [vm_compute; reflexivity | lia].
  - exists 1. split; [vm_compute; reflexivity | lia].
Defined.

End SepFacts.

(** ** Runs that lose a key, miscount entries, or chain meta pages by root *)

Module RunFacts.
Import Scenario.

(** C1.  On a new database with pages of 4096 bytes, the keys [a], [b],
    [d] (1020 bytes of data each) and [e] (no data) are put, each put
    committed; [get] then returns the data of [d].  The put of [c] (1020
    bytes) that follows succeeds as well, and after it [get] on [d] fails
    with [ENOENT], although [d] was put and never deleted. *)
Theorem put_split_loses_key (SHA256 : list Z -> bytes) :
  result (five_puts_get SHA256) fresh =
  Some ([BT_SUCCESS; BT_SUCCESS; BT_SUCCESS; BT_SUCCESS; BT_SUCCESS],
        (BT_SUCCESS, repeat "4"%byte 1020), (BT_FAIL, []), ENOENT).
Proof. vm_compute. reflexivity. Qed.

(** After the same five puts, the traversal [BT_FIRST], [BT_NEXT]...
    returns the keys [a], [b], [c], [e] and then fails: the key [d], put
    and never deleted, is not visited. *)
Lemma five_puts_traversal (SHA256 : list Z -> bytes) :
  result (five_puts_traverse SHA256) fresh =
  Some ([BT_SUCCESS; BT_SUCCESS; BT_SUCCESS; BT_SUCCESS; BT_SUCCESS],
        ([["a"%byte]; ["b"%byte]; ["c"%byte]; ["e"%byte]], true)).
Proof. vm_compute. reflexivity. Qed.

(** C2.  On a new database with pages of 4096 bytes, the keys [b], [c],
    [d] (1020 bytes of data each) and [e], [f], [g], [h] (no data) are
    put and the traversal [BT_FIRST], [BT_NEXT]... returns them in this
    order.  The put of [a] (1020 bytes) that follows succeeds; the
    traversal then returns [a], [b], [c], the two bytes 0 and 20, [f],
    [g], [h] and fails.  The fourth key is smaller than the third and was
    never put, and the keys [d] and [e] are not visited. *)
Theorem traversal_out_of_order (SHA256 : list Z -> bytes) :
  result (eight_puts_traverse SHA256) fresh =
  Some (repeat BT_SUCCESS 8,
        ([["b"]; ["c"]; ["d"]; ["e"]; ["f"]; ["g"]; ["h"]]%byte, true),
        ([["a"]; ["b"]; ["c"]; ["000"; "020"]; ["f"]; ["g"]; ["h"]]%byte, true)) /\
  Cmp.gt ["c"%byte] ["000"%byte; "020"%byte].
Proof. split; [vm_compute; reflexivity | exists 99; split; [reflexivity | lia]]. Qed.

(** C3.  The same key and value put twice on a new database: [get] and
    the traversal return the same after the second put as after the
    first, and the entries counter is [1] after the first put and [2]
    after the second. *)
Theorem put_twice_counts_twice (SHA256 : list Z -> bytes) :
  result (put_twice SHA256) fresh =
  Some (BT_SUCCESS, 1, (BT_SUCCESS, repeat "v"%byte 3), ([["k"%byte]], true),
        (BT_SUCCESS, 2, (BT_SUCCESS, repeat "v"%byte 3), ([["k"%byte]], true))).
Proof. vm_compute. reflexivity. Qed.

(** C7.  Two committed puts on a new database leave a file of five pages:
    the header, a leaf, the first meta page (page 2), a leaf, the second
    meta page (page 4).  The first meta page has root [1] and
    [prev_meta = P_INVALID]; the second has root [3] and [prev_meta = 1],
    the number of the previous root, not the number [2] of the previous
    meta page. *)
Theorem prev_meta_is_previous_root (SHA256 : list Z -> bytes) :
  result (two_commits SHA256) fresh =
  Some (BT_SUCCESS, BT_SUCCESS,
        [(P_HEAD, None); (P_LEAF, None); (P_META, Some (P_INVALID, 1));
         (P_LEAF, None); (P_META, Some (1, 3))]).
Proof. vm_compute. reflexivity. Qed.


(** A put that splits the leaf can return [BT_SUCCESS] without storing
    the entry.  On a new database with pages of 4096 bytes, the keys [a],
    [b], [c] (1020 bytes of data each) and [e], [f], [g] (no data) are
    put, each put committed.  The put of [d] (1020 bytes) that follows
    returns [BT_SUCCESS]; after it [get] on [d] fails with [ENOENT], and
    the traversal [BT_FIRST], [BT_NEXT]... visits neither [d] nor [e]. *)
Theorem put_split_drops_new_entry (SHA256 : list Z -> bytes) :
  result (seven_puts SHA256) fresh =
  Some (repeat BT_SUCCESS 7, (BT_FAIL, []), ENOENT,
        ([["a"]; ["b"]; ["c"]; ["000"; "020"]; ["f"]; ["g"]]%byte, true)).
Proof. vm_compute. reflexivity. Qed.

(** A put in a read-only transaction fails with [EINVAL], which is not
    [EPERM]. *)
Lemma put_rdonly_is_einval :
  result (put_rdonly no_digest) fresh = Some (Some O, BT_FAIL, EINVAL) /\ EINVAL <> EPERM.
Proof. split; [vm_compute; reflexivity | discriminate]. Qed.

End RunFacts.

(** ** Dereferencing page and transaction objects *)

Module StateFacts.

Lemma mp_get_eq (s : btree) (mp : nat) (m : mpage) :
  bt_heap s !! mp = Some m -> mp_get mp s = Some (m, s).
Proof. intros H. unfold mp_get. rewrite H. reflexivity. Qed.

Lemma mp_upd_eq (s : btree) (mp : nat) (m : mpage) (f : mpage -> mpage) :
  bt_heap s !! mp = Some m ->
  mp_upd mp f s = Some (tt, set_bt_heap (fun h => <[mp := f m]> h) s).
Proof. intros H. unfold mp_upd, bind. rewrite (mp_get_eq _ _ _ H). reflexivity. Qed.

Lemma btree_sync_eq (s : btree) : btree_sync s = Some (0, s).
Proof.
  unfold btree_sync, fsync, bind, gets.
  now destruct (negb (F_ISSET (bt_flags s) BT_NOSYNC)).
Qed.

Lemma txn_get_eq (s : btree) (t : nat) (x : btree_txn) :
  bt_txns s !! t = Some x -> txn_get t s = Some (x, s).
Proof. intros H. unfold txn_get. rewrite H. reflexivity. Qed.

Lemma txn_upd_eq (s : btree) (t : nat) (x : btree_txn) (f : btree_txn -> btree_txn) :
  bt_txns s !! t = Some x ->
  txn_upd t f s = Some (tt, set_bt_txns (fun l => <[t := f x]> l) s).
Proof. intros H. unfold txn_upd, bind. rewrite (txn_get_eq _ _ _ H). reflexivity. Qed.

End StateFacts.

(** ** The page cache *)

Module CacheFacts.

Lemma cache_ok_spec (s : btree) :
  cache_ok s = true <->
  NoDup (bt_lru_queue s) /\
  forall mp, mp ∈ bt_lru_queue s -> cache_entry_ok s mp = true.
Proof.
  unfold cache_ok. rewrite andb_true_iff, bool_decide_eq_true, forallb_forall.
  split; intros [H1 H2]; split; auto; intros mp Hmp; apply H2.
  - now apply list_elem_of_In.
  - now apply list_elem_of_In.
Qed.

Lemma cache_entry_ok_inv (s : btree) (mp : nat) :
  cache_entry_ok s mp = true ->
  exists m, bt_heap s !! mp = Some m /\ bt_page_cache s !! mp_pgno m = Some mp.
Proof.
  unfold cache_entry_ok. destruct (bt_heap s !! mp) as [m|]; [|discriminate].
  intros H. apply bool_decide_eq_true in H. eauto.
Qed.

(** [mpage_del] on a page of a consistent cache. *)
Lemma mpage_del_ok (s : btree) (mp : nat) :
  cache_ok s = true -> mp ∈ bt_lru_queue s ->
  exists s', mpage_del mp s = Some (tt, s') /\
    outside_cache s' = outside_cache s /\
    cache_ok s' = true /\
    bt_lru_queue s' = filter (fun x => x <> mp) (bt_lru_queue s).
Proof.
  intros Hok Hin. apply cache_ok_spec in Hok as [Hnd Hall].
  destruct (cache_entry_ok_inv s mp (Hall mp Hin)) as (m & Hm & Hc).
  eexists. split.
  { unfold mpage_del, bind, mp_get, liftO, gets. rewrite Hm. cbn [ret].
    rewrite Hc. rewrite bool_decide_eq_true_2 by reflexivity.
    unfold modify. reflexivity. }
  split; [reflexivity|]. split; [|reflexivity].
  apply cache_ok_spec. cbn. split.
  - now apply NoDup_filter.
  - intros mp' Hmp'. apply list_elem_of_filter in Hmp' as [Hne Hmp'].
    destruct (cache_entry_ok_inv s mp' (Hall mp' Hmp')) as (m' & Hm' & Hc').
    unfold cache_entry_ok. cbn. rewrite Hm'. apply bool_decide_eq_true.
    rewrite lookup_delete_ne; [assumption|].
    intros E. rewrite E in Hc. congruence.
Qed.

(** [mpage_prune] on a consistent cache only drops pages from the cache. *)
Lemma mpage_prune_loop_ok (q : list nat) : forall s,
  cache_ok s = true -> NoDup q -> q ⊆ bt_lru_queue s ->
  exists s', mpage_prune_loop q s = Some (tt, s') /\
    outside_cache s' = outside_cache s /\
    cache_ok s' = true /\
    sublist (bt_lru_queue s') (bt_lru_queue s).
Proof.
  induction q as [|mp next IH]; intros s Hok Hnd Hsub.
  - exists s. repeat split; auto.
  - cbn [mpage_prune_loop]. unfold bind at 1 2. cbn [gets].
    destruct (bt_cache_size s <=? bt_max_cache s).
    { exists s. repeat split; auto. }
    assert (mp ∈ bt_lru_queue s) as Hin by (apply Hsub; left).
    pose proof Hok as Hok'. apply cache_ok_spec in Hok' as [_ Hall].
    destruct (cache_entry_ok_inv s mp (Hall mp Hin)) as (m & Hm & Hc).
    unfold bind at 1. unfold mp_get at 1. rewrite Hm. cbn [liftO ret].
    apply NoDup_cons in Hnd as [Hnotin Hnd].
    destruct (negb (mp_dirty m) && (mp_ref m <=? 0)).
    + destruct (mpage_del_ok s mp Hok Hin) as (s1 & Hdel & Hout & Hok1 & Hlru).
      unfold bind at 1. unfold bind at 1. rewrite Hdel. unfold mpage_free. cbn [ret].
      destruct (IH s1 Hok1 Hnd) as (s' & Hloop & Hout' & Hok'' & Hsl).
      { intros y Hy. rewrite Hlru. apply list_elem_of_filter. split.
        - intros ->. contradiction.
        - apply Hsub. now right. }
      exists s'. rewrite Hloop. repeat split; auto.
      * congruence.
      * etrans; [exact Hsl|]. rewrite Hlru. apply sublist_filter.
    + unfold bind at 1. cbn [ret].
      apply IH; auto. intros y Hy. apply Hsub. now right.
Qed.

Lemma mpage_prune_ok (s : btree) :
  cache_ok s = true ->
  exists s', mpage_prune s = Some (tt, s') /\
    outside_cache s' = outside_cache s /\
    cache_ok s' = true /\
    sublist (bt_lru_queue s') (bt_lru_queue s).
Proof.
  intros Hok. unfold mpage_prune, bind. cbn [gets].
  apply mpage_prune_loop_ok; auto.
  now apply cache_ok_spec in Hok as [Hnd _].
Qed.

End CacheFacts.

(** ** Transactions *)

Module TxnFacts.
Import StateFacts CacheFacts.

Lemma outside_cache_fields (s s' : btree) :
  outside_cache s' = outside_cache s ->
  bt_file s' = bt_file s /\ bt_file_tail s' = bt_file_tail s /\
  bt_meta_ s' = bt_meta_ s /\ bt_size s' = bt_size s /\
  bt_txns s' = bt_txns s /\ bt_txn s' = bt_txn s /\ bt_ref s' = bt_ref s /\
  bt_heap s' = bt_heap s /\ bt_errno s' = bt_errno s.
Proof.
  intros H.
  repeat split;
    [ apply (f_equal bt_file) in H | apply (f_equal bt_file_tail) in H
    | apply (f_equal bt_meta_) in H | apply (f_equal bt_size) in H
    | apply (f_equal bt_txns) in H | apply (f_equal bt_txn) in H
    | apply (f_equal bt_ref) in H | apply (f_equal bt_heap) in H
    | apply (f_equal bt_errno) in H ]; exact H.
Qed.

Section Rdonly.
Variable SHA256 : list Z -> bytes.
Variable btree_rebalance : nat -> M Z.
Variables (s : btree) (t : nat) (x : btree_txn).
Hypothesis Ht : bt_txns s !! t = Some x.
Hypothesis Hrd : F_ISSET (tx_flags x) BT_TXN_RDONLY = true.

Lemma put_rdonly (bt_null : bool) (key data : btval) :
  btree_txn_put SHA256 bt_null (Some t) key data s =
  Some (BT_FAIL, set_bt_errno (fun _ => EINVAL) s).
Proof.
  unfold btree_txn_put, bind. rewrite (txn_get_eq _ _ _ Ht). cbn [ret].
  rewrite Hrd. reflexivity.
Qed.

Lemma del_rdonly (bt_null : bool) (key : btval) (want_data : bool) :
  btree_txn_del SHA256 btree_rebalance bt_null (Some t) key want_data s =
  Some ((BT_FAIL, []), set_bt_errno (fun _ => EINVAL) s).
Proof.
  unfold btree_txn_del, bind. rewrite (txn_get_eq _ _ _ Ht). cbn [ret].
  rewrite Hrd. reflexivity.
Qed.

Lemma commit_rdonly :
  bt_ref s <> 1 ->
  btree_txn_commit SHA256 t s =
  Some (BT_FAIL, set_bt_errno (fun _ => EPERM) (set_bt_ref (fun r => r - 1) s)).
Proof.
  intros Href.
  unfold btree_txn_commit, bind. rewrite (txn_get_eq _ _ _ Ht). cbn [gets].
  rewrite Hrd. unfold btree_txn_abort, bind.
  rewrite (txn_get_eq _ _ _ Ht). rewrite Hrd. cbn [negb ret].
  unfold btree_close, bind, modify, gets. cbn [bt_ref set_bt_ref].
  destruct (bt_ref s - 1 =? 0) eqn:E; [apply Z.eqb_eq in E; lia|].
  reflexivity.
Qed.

End Rdonly.

(** C8, as the code has it.  On a read-only transaction the three write
    operations fail: [btree_txn_put] and [btree_txn_del] with [EINVAL],
    before anything else is done, and [btree_txn_commit] with [EPERM]. *)
Theorem rdonly_write_ops_fail
    (SHA256 : list Z -> bytes) (btree_rebalance : nat -> M Z)
    (s : btree) (t : nat) (x : btree_txn)
    (bt_null : bool) (key data : btval) (want_data : bool) :
  bt_txns s !! t = Some x ->
  F_ISSET (tx_flags x) BT_TXN_RDONLY = true ->
  bt_ref s <> 1 ->
  (exists s', btree_txn_put SHA256 bt_null (Some t) key data s = Some (BT_FAIL, s') /\
              bt_errno s' = EINVAL) /\
  (exists s', btree_txn_del SHA256 btree_rebalance bt_null (Some t) key want_data s =
              Some ((BT_FAIL, []), s') /\
              bt_errno s' = EINVAL) /\
  (exists s', btree_txn_commit SHA256 t s = Some (BT_FAIL, s') /\
              bt_errno s' = EPERM).
Proof.
  intros Ht Hrd Href. split; [|split]; eexists; split.
  - now apply put_rdonly with (x := x).
  - reflexivity.
  - now apply del_rdonly with (x := x).
  - reflexivity.
  - now apply commit_rdonly with (x := x).
  - reflexivity.
Qed.

(** The read-only transaction begun on a database just opened. *)
Lemma rdonly_write_ops_fail_witness :
  (exists s', btree_txn_put Scenario.no_digest false (Some O) (Scenario.key "k")
                (Scenario.value "v" 1) Scenario.rdonly_begun = Some (BT_FAIL, s') /\
              bt_errno s' = EINVAL) /\
  (exists s', btree_txn_del Scenario.no_digest (fun _ => ret BT_SUCCESS) false (Some O)
                (Scenario.key "k") false Scenario.rdonly_begun =
              Some ((BT_FAIL, []), s') /\
              bt_errno s' = EINVAL) /\
  (exists s', btree_txn_commit Scenario.no_digest O Scenario.rdonly_begun =
              Some (BT_FAIL, s') /\
              bt_errno s' = EPERM).
Proof.
  apply (rdonly_write_ops_fail Scenario.no_digest (fun _ => ret BT_SUCCESS)
           Scenario.rdonly_begun O (BtreeTxn P_INVALID 1 [] BT_TXN_RDONLY)).
  - vm_compute. reflexivity.
  - vm_compute. reflexivity.
  - vm_compute. discriminate.
Defined.
(** C9.  Committing the current write transaction, with no error flagged
    and an empty dirty queue, returns [BT_SUCCESS] and leaves the file,
    its size and the meta as they are: no page is written. *)
Theorem commit_empty_queue_writes_nothing
    (SHA256 : list Z -> bytes) (s : btree) (t : nat) (x : btree_txn) :
  bt_txn s = Some t -> bt_txns s !! t = Some x ->
  F_ISSET (tx_flags x) BT_TXN_RDONLY = false ->
  F_ISSET (tx_flags x) BT_TXN_ERROR = false ->
  tx_dirty_queue x = [] ->
  cache_ok s = true -> bt_ref s <> 1 ->
  exists s',
    btree_txn_commit SHA256 t s = Some (BT_SUCCESS, s') /\
    bt_file s' = bt_file s /\ bt_file_tail s' = bt_file_tail s /\
    bt_meta_ s' = bt_meta_ s /\ bt_size s' = bt_size s.
Proof.
  intros Hcur Ht Hrd Herr Hq Hok Href.
  destruct (mpage_prune_ok s Hok) as (s1 & Hprune & Hout & _ & _).
  destruct (outside_cache_fields _ _ Hout)
    as (Hf & Hft & Hm & Hsz & Htx & Htxn & Hr & _ & _).
  unfold btree_txn_commit, bind. rewrite (txn_get_eq _ _ _ Ht). cbn [gets].
  rewrite Hrd, Hcur, bool_decide_eq_true_2 by reflexivity. cbn [negb].
  rewrite Herr, Hq, Hprune.
  unfold btree_txn_abort, bind. rewrite (txn_get_eq s1 t x) by congruence.
  rewrite Hrd, Hq. cbn [negb foldr ret].
  unfold txn_upd, bind. rewrite (txn_get_eq s1 t x) by congruence.
  unfold modify, btree_close, bind, modify, gets. cbn.
  rewrite Hr. destruct (bt_ref s - 1 =? 0) eqn:E; [apply Z.eqb_eq in E; lia|].
  eexists. split; [reflexivity|]. cbn. auto.
Qed.

(** The write transaction begun on a database just opened. *)
Lemma commit_empty_queue_writes_nothing_witness :
  exists s',
    btree_txn_commit Scenario.no_digest O Scenario.write_begun = Some (BT_SUCCESS, s') /\
    bt_file s' = bt_file Scenario.write_begun /\
    bt_file_tail s' = bt_file_tail Scenario.write_begun /\
    bt_meta_ s' = bt_meta_ Scenario.write_begun /\
    bt_size s' = bt_size Scenario.write_begun.
Proof.
  apply (commit_empty_queue_writes_nothing Scenario.no_digest Scenario.write_begun O
           (BtreeTxn P_INVALID 1 [] 0)).
  - vm_compute. reflexivity.
  - vm_compute. reflexivity.
  - vm_compute. reflexivity.
  - vm_compute. reflexivity.
  - vm_compute. reflexivity.
  - vm_compute. reflexivity.
  - vm_compute. discriminate.
Defined.

End TxnFacts.

Module CursorFacts.
Import CacheFacts TxnFacts.

(** The tail of a cursor move hands back the cursor it was given. *)
Lemma cursor_fetch_cursor (c : cursor) (mp : nat) (leaf : node) (wk wd : bool)
    (s s' : btree) (rc : Z) (c' : cursor) (k d : bytes) :
  cursor_fetch c mp leaf wk wd s = Some ((rc, c', k, d), s') -> c' = c.
Proof.
  unfold cursor_fetch, bind.
  destruct ((if wd then btree_read_data (Some mp) leaf else ret (BT_SUCCESS, [])) s)
    as [[rd s1]|]; [|discriminate].
  destruct (negb (rd.1 =? BT_SUCCESS)); [intros [= _ <- _ _ _]; reflexivity|].
  destruct (bt_set_key mp leaf wk s1) as [[rk s2]|]; [|discriminate].
  destruct (negb (rk.1 =? 0)); intros [= _ <- _ _ _]; reflexivity.
Qed.

(** A successful [btree_cursor_first] or [btree_cursor_set] leaves [eof]
    cleared and the cursor initialised. *)
Lemma cursor_first_clears_eof (SHA256 : list Z -> bytes) (c : cursor) (wk wd : bool)
    (s s' : btree) (c' : cursor) (k d : bytes) :
  btree_cursor_first SHA256 c wk wd s = Some ((BT_SUCCESS, c', k, d), s') ->
  c_eof c' = false /\ c_initialized c' = true.
Proof.
  unfold btree_cursor_first, bind.
  destruct (btree_search_page SHA256 (c_txn c) None (Some c) false s)
    as [[[[rc oc] omp] s1]|]; [|discriminate].
  cbn [fst snd]. destruct oc as [c1|]; [|discriminate]. cbn [liftO ret].
  destruct (rc =? BT_SUCCESS) eqn:Erc; cbn [negb].
  2:{ intros [= -> _ _ _ _]. discriminate. }
  destruct omp as [mp|]; [|discriminate]. cbn [liftO ret].
  destruct (mp_get mp s1) as [[m s2]|]; [|discriminate].
  destruct (liftO (NODEPTR m 0) s2) as [[leaf s3]|]; [|discriminate].
  intros H. apply cursor_fetch_cursor in H. subst c'. split; reflexivity.
Qed.

Lemma cursor_set_clears_eof (SHA256 : list Z -> bytes) (c : cursor) (key : btval)
    (wd exactp : bool) (s s' : btree) (c' : cursor) (k d : bytes) :
  btree_cursor_set SHA256 c key wd exactp s = Some ((BT_SUCCESS, c', k, d), s') ->
  c_eof c' = false /\ c_initialized c' = true.
Proof.
  unfold btree_cursor_set, bind.
  destruct (btree_search_page SHA256 (c_txn c) (Some key) (Some c) false s)
    as [[[[rc oc] omp] s1]|]; [|discriminate].
  cbn [fst snd]. destruct oc as [c1|]; [|discriminate]. cbn [liftO ret].
  destruct (rc =? BT_SUCCESS) eqn:Erc; cbn [negb].
  2:{ intros [= -> _ _ _ _]. discriminate. }
  destruct omp as [mp|]; [|discriminate]. cbn [liftO ret].
  destruct (mp_get mp s1) as [[m s2]|]; [|discriminate].
  destruct (liftO (btree_search_node m key) s2) as [[sn s3]|]; [|discriminate].
  destruct (match sn with
            | Some (_, ki) => cursor_set_top_ki c1 ki
            | None => ret c1
            end s3) as [[c2 s4]|]; [|discriminate].
  destruct (exactp && negb match sn with Some (e, _) => e | None => false end).
  { cbn [set_errno modify ret]. intros [= ]. }
  destruct (match sn with
            | Some (_, ki) => ret (inr (c2, mp, ki))
            | None => _
            end s4) as [[[c3|[[c3 mp3] ki3]] s5]|]; [| |discriminate].
  { cbn [ret]. intros [= ]. }
  destruct (mp_get mp3 s5) as [[m3 s6]|]; [|discriminate].
  destruct (liftO (NODEPTR m3 ki3) s6) as [[leaf s7]|]; [|discriminate].
  intros H. apply cursor_fetch_cursor in H. subst c'. split; reflexivity.
Qed.

(** The operations that reposition the cursor, when they succeed, leave
    [eof] cleared. *)
Lemma cursor_reposition_clears_eof (SHA256 : list Z -> bytes) (c : cursor)
    (key : option btval) (wd : bool) (op : cursor_op)
    (s s' : btree) (c' : cursor) (k d : bytes) :
  op <> BT_NEXT ->
  btree_cursor_get SHA256 c key wd op s = Some ((BT_SUCCESS, c', k, d), s') ->
  c_eof c' = false /\ c_initialized c' = true.
Proof.
  intros Hop. unfold btree_cursor_get. unfold bind at 1.
  match goal with |- context [match ?r s with _ => _ end] => destruct (r s) as [[res s1]|] eqn:E end;
    [|discriminate].
  unfold bind. destruct (mpage_prune s1) as [[[] s2]|]; [|discriminate].
  cbn [ret]. intros [= -> ->].
  destruct op; try congruence; unfold bind in E.
  - destruct (cursor_pop_all (length (c_stack c)) c s) as [[c1 s3]|]; [|discriminate].
    destruct key as [kv|]; [|discriminate].
    destruct ((bv_size kv =? 0) || (MAXKEYSIZE <? bv_size kv)); [discriminate|].
    eapply cursor_set_clears_eof; exact E.
  - destruct (cursor_pop_all (length (c_stack c)) c s) as [[c1 s3]|]; [|discriminate].
    destruct key as [kv|]; [|discriminate].
    destruct ((bv_size kv =? 0) || (MAXKEYSIZE <? bv_size kv)); [discriminate|].
    eapply cursor_set_clears_eof; exact E.
  - destruct (cursor_pop_all (length (c_stack c)) c s) as [[c1 s3]|]; [|discriminate].
    eapply cursor_first_clears_eof; exact E.
Qed.

(** [btree_cursor_next] past the last key: when the move to the right
    sibling fails, the call fails and sets [eof]. *)
Lemma cursor_next_sets_eof (c : cursor) (wk wd : bool) (s s1 : btree)
    (top : ppage) (rest : list ppage) (m : mpage) (rc : Z) (c1 : cursor) :
  c_eof c = false -> c_stack c = top :: rest ->
  bt_heap s !! pp_mpage top = Some m ->
  NUMKEYS m <= u32 (pp_ki top + 1) ->
  btree_sibling c true s = Some ((rc, c1), s1) -> rc <> BT_SUCCESS ->
  btree_cursor_next c wk wd s =
  Some ((BT_FAIL, set_c_eof (fun _ => true) c1, [], []), s1).
Proof.
  intros Heof Hst Hm Hnum Hsib Hrc.
  unfold btree_cursor_next. rewrite Heof, Hst.
  unfold bind at 1. unfold mp_get at 1. rewrite Hm. cbn [liftO ret].
  apply Z.leb_le in Hnum. rewrite Hnum.
  unfold bind. rewrite Hsib. cbn [fst snd].
  apply Z.eqb_neq in Hrc. rewrite Hrc. reflexivity.
Qed.

(** [BT_NEXT] on a cursor whose [eof] is set. *)
Lemma cursor_next_at_eof (SHA256 : list Z -> bytes) (s : btree) (c : cursor)
    (key : option btval) (wd : bool) :
  cache_ok s = true -> c_eof c = true -> c_initialized c = true ->
  exists s',
    btree_cursor_get SHA256 c key wd BT_NEXT s = Some ((BT_FAIL, c, [], []), s') /\
    bt_errno s' = ENOENT /\
    bt_heap s' = bt_heap s /\ bt_file s' = bt_file s /\
    sublist (bt_lru_queue s') (bt_lru_queue s) /\
    cache_ok s' = true.
Proof.
  intros Hok Heof Hinit.
  assert (cache_ok (set_bt_errno (fun _ => ENOENT) s) = true) as Hok' by exact Hok.
  destruct (mpage_prune_ok _ Hok') as (s' & Hprune & Hout & Hok'' & Hsub).
  destruct (outside_cache_fields _ _ Hout) as (Hf & _ & _ & _ & _ & _ & _ & Hh & He).
  exists s'. split.
  - unfold btree_cursor_get, bind. rewrite Hinit. cbn [negb].
    unfold btree_cursor_next. rewrite Heof. unfold set_errno, bind, modify, ret.
    rewrite Hprune. reflexivity.
  - repeat split; assumption.
Qed.

End CursorFacts.

(** ** New page objects, value bytes and node slots *)

Module OverflowFacts.
Import StateFacts SepFacts.

Lemma mpage_add_eq (s : btree) (mp : nat) (m : mpage) :
  bt_heap s !! mp = Some m -> bt_page_cache s !! mp_pgno m = None ->
  mpage_add mp s =
  Some (tt, set_bt_lru_queue (fun q => q ++ [mp])
              (set_bt_cache_size (fun n => u32 (n + 1))
                 (set_bt_page_cache (fun c => <[mp_pgno m := mp]> c) s))).
Proof.
  intros Hm Hc. unfold mpage_add, bind. rewrite (mp_get_eq _ _ _ Hm).
  unfold modify. cbv [set_bt_page_cache set_bt_cache_size set_bt_lru_queue].
  cbv beta iota. cbn [bt_page_cache bt_flags bt_head_ bt_meta_ bt_lru_queue bt_txn bt_ref
    bt_cache_size bt_max_cache bt_size bt_heap bt_txns bt_file bt_file_tail bt_errno bt_now].
  rewrite Hc. reflexivity.
Qed.

Lemma mpage_dirty_eq (s : btree) (mp : nat) (m : mpage) (t : nat) (x : btree_txn) :
  bt_heap s !! mp = Some m -> mp_dirty m = false ->
  bt_txn s = Some t -> bt_txns s !! t = Some x ->
  mpage_dirty mp s =
  Some (tt, set_bt_txns (fun l => <[t := set_tx_dirty_queue (fun q => q ++ [mp]) x]> l)
              (set_bt_heap (fun h => <[mp := set_mp_dirty (fun _ => true) m]> h) s)).
Proof.
  intros Hm Hd Ht Hx. unfold mpage_dirty, bind. rewrite (mp_get_eq _ _ _ Hm), Hd.
  rewrite (mp_upd_eq _ _ _ _ Hm). unfold bt_txn_ptr. cbn. rewrite Ht. cbn.
  unfold txn_upd, bind, txn_get. cbn. rewrite Hx. reflexivity.
Qed.

Lemma count_page_frame (flags : Z) (s : btree) :
  bt_heap (count_page flags s) = bt_heap s /\
  bt_page_cache (count_page flags s) = bt_page_cache s /\
  bt_txn (count_page flags s) = bt_txn s /\
  bt_txns (count_page flags s) = bt_txns s /\
  bt_head_ (count_page flags s) = bt_head_ s.
Proof.
  unfold count_page.
  destruct (F_ISSET flags P_BRANCH), (F_ISSET flags P_LEAF), (F_ISSET flags P_OVERFLOW);
    repeat split.
Qed.




End OverflowFacts.

(** ** The order of the keys *)

Module OrderFacts.
Import Cmp CmpFacts.

Lemma btree_cmp_cons_eq (x : byte) (a b : bytes) :
  btree_cmp (x :: a) (x :: b) = btree_cmp a b.
Proof.
  unfold btree_cmp, memncmp. simpl length.
  change (S (length a) <? S (length b))%nat with (length a <? length b)%nat.
  change (S (length b) <? S (length a))%nat with (length b <? length a)%nat.
  assert (forall n, memcmp (x :: a) (x :: b) (S n) = memcmp a b n) as E
    by (intros n; simpl; now rewrite eqb_refl).
  rewrite !E. reflexivity.
Qed.

Lemma btree_cmp_cons_neq (x y : byte) (a b : bytes) :
  x <> y -> btree_cmp (x :: a) (y :: b) = Some (uchar x - uchar y).
Proof. intros H. exact (memncmp_diff [] x y a b H). Qed.

Lemma gt_nil_l (b : bytes) : ~ gt [] b.
Proof.
  intros (r & H & Hr). destruct b as [|y b].
  - rewrite memncmp_refl in H. injection H as <-. lia.
  - rewrite (memncmp_prefix_l [] y b : btree_cmp [] (y :: b) = _) in H. injection H as <-. lia.
Qed.

Lemma gt_nil_r (x : byte) (a : bytes) : gt (x :: a) [].
Proof. exists 1. split; [exact (memncmp_prefix_r [] x a) | lia]. Qed.

Lemma gt_cons (x y : byte) (a b : bytes) :
  gt (x :: a) (y :: b) <-> uchar y < uchar x \/ (x = y /\ gt a b).
Proof.
  destruct (decide (x = y)) as [->|Hn].
  - unfold gt. rewrite btree_cmp_cons_eq. split.
    + intros H. right. now split.
    + intros [H|[_ H]]; [lia | exact H].
  - unfold gt. rewrite btree_cmp_cons_neq by assumption. split.
    + intros (r & [= <-] & Hr). left. lia.
    + intros [H|[H _]]; [|contradiction]. eexists. split; [reflexivity | lia].
Qed.

(** The canonical comparison is antisymmetric: exchanging the arguments
    of [btree_cmp] changes the sign of the result. *)
Theorem btree_cmp_antisym (a b : bytes) :
  exists r r', btree_cmp a b = Some r /\ btree_cmp b a = Some r' /\
               Z.sgn r' = - Z.sgn r.
Proof.
  destruct (bytes_trichotomy a b)
    as [->|[(c & t & ->)|[(c & t & ->)|(p & x & y & ra & rb & -> & -> & Hn)]]].
  - exists 0, 0. rewrite memncmp_refl. auto.
  - exists (-1), 1. rewrite memncmp_prefix_l, memncmp_prefix_r. auto.
  - exists 1, (-1). rewrite memncmp_prefix_l, memncmp_prefix_r. auto.
  - exists (uchar x - uchar y), (uchar y - uchar x).
    rewrite !memncmp_diff by congruence. repeat split. lia.
Qed.

Lemma gt_transitive (a b c : bytes) : gt a b -> gt b c -> gt a c.
Proof.
  revert b c. induction a as [|x a IH]; intros b c Hab Hbc.
  - now apply gt_nil_l in Hab.
  - destruct c as [|z c]; [apply gt_nil_r|].
    destruct b as [|y b]; [now apply gt_nil_l in Hbc|].
    apply gt_cons in Hab, Hbc. apply gt_cons.
    destruct Hab as [Hab|[-> Hab]], Hbc as [Hbc|[-> Hbc]]; try (left; lia).
    right. split; [reflexivity|]. now apply (IH b).
Qed.

(** Comparing strictly greater under the canonical comparison is a strict
    linear order of the keys: no key is greater than itself, the relation
    is transitive, and of two different keys one is greater than the
    other. *)
Theorem gt_strict_linear_order :
  (forall a, ~ gt a a) /\
  (forall a b c, gt a b -> gt b c -> gt a c) /\
  (forall a b, a = b \/ gt a b \/ gt b a).
Proof.
  split; [|split].
  - intros a (r & H & Hr). rewrite memncmp_refl in H. injection H as <-. lia.
  - exact gt_transitive.
  - intros a b.
    destruct (bytes_trichotomy a b)
      as [->|[(c & t & ->)|[(c & t & ->)|(p & x & y & ra & rb & -> & -> & Hn)]]].
    + now left.
    + right; right. exists 1. split; [apply memncmp_prefix_r | lia].
    + right; left. exists 1. split; [apply memncmp_prefix_r | lia].
    + pose proof (uchar_diff_nonzero x y Hn) as Hd.
      destruct (Z.lt_trichotomy (uchar x) (uchar y)) as [Hlt|[He|Hgt]]; [|lia|].
      * right; right. exists (uchar y - uchar x).
        split; [apply memncmp_diff; congruence | lia].
      * right; left. exists (uchar x - uchar y).
        split; [now apply memncmp_diff | lia].
Qed.

End OrderFacts.

(** ** Prefixes and page numbers in nodes *)

Module PrefixFacts.
Import Cmp CmpFacts.

Lemma common_len_take (a b : bytes) :
  take (common_len a b) a = take (common_len a b) b.
Proof.
  revert b. induction a as [|x a IH]; intros [|y b]; simpl; try reflexivity.
  destruct (Byte.eqb x y) eqn:E; [|reflexivity].
  apply Byte.byte_dec_bl in E. subst y. simpl. now rewrite IH.
Qed.

Lemma common_len_le (a b : bytes) :
  (common_len a b <= length a)%nat /\ (common_len a b <= length b)%nat.
Proof.
  revert b. induction a as [|x a IH]; intros [|y b]; simpl; try lia.
  destruct (Byte.eqb x y); [|lia]. destruct (IH b). lia.
Qed.

Lemma common_len_max (p a b : bytes) :
  p `prefix_of` a -> p `prefix_of` b -> (length p <= common_len a b)%nat.
Proof.
  revert a b. induction p as [|c p IH]; intros a b [ka ->] [kb ->]; simpl; [lia|].
  rewrite eqb_refl. apply le_n_S. apply IH; eexists; reflexivity.
Qed.

(** [common_prefix] returns the longest common prefix of the two keys: it
    is a prefix of both, and every common prefix of the two is a prefix
    of it. *)
Theorem common_prefix_longest (min max : bytes) :
  common_prefix min max `prefix_of` min /\
  common_prefix min max `prefix_of` max /\
  forall p, p `prefix_of` min -> p `prefix_of` max ->
            p `prefix_of` common_prefix min max.
Proof.
  unfold common_prefix.
  destruct ((length min =? 0)%nat || (length max =? 0)%nat) eqn:E.
  - split; [apply prefix_nil|]. split; [apply prefix_nil|].
    intros p [ka Ha] [kb Hb].
    apply orb_true_iff in E as [E|E]; apply Nat.eqb_eq in E;
      apply nil_length_inv in E; subst; symmetry in Ha || symmetry in Hb.
    + apply app_eq_nil in Ha as [-> _]. apply prefix_nil.
    + apply app_eq_nil in Hb as [-> _]. apply prefix_nil.
  - split; [|split].
    + rewrite <- common_len_take. apply prefix_take.
    + apply prefix_take.
    + intros p Ha Hb. pose proof (common_len_max p min max Ha Hb) as Hl.
      destruct Hb as [kb ->]. rewrite take_app_ge by lia.
      apply prefix_app_r. reflexivity.
Qed.

Lemma memcmp_app (a b r1 r2 : bytes) (n : nat) :
  (n <= length a)%nat -> (n <= length b)%nat ->
  memcmp (a ++ r1) (b ++ r2) n = memcmp a b n.
Proof.
  revert a b. induction n as [|n IH]; intros a b Ha Hb; [reflexivity|].
  destruct a as [|x a], b as [|y b]; simpl in *; try lia.
  destruct (Byte.eqb x y); [|reflexivity]. apply IH; lia.
Qed.

Lemma memcmp_found (a b r1 r2 : bytes) (n m : nat) (d : Z) :
  memcmp a b n = Some d -> d <> 0 -> (n <= m)%nat ->
  memcmp (a ++ r1) (b ++ r2) m = Some d.
Proof.
  revert a b m. induction n as [|n IH]; intros a b m H Hd Hm; simpl in H.
  - congruence.
  - destruct a as [|x a], b as [|y b]; try discriminate.
    destruct m as [|m]; [lia|]. simpl.
    destruct (Byte.eqb x y); [|exact H]. apply (IH a b); [assumption.. | lia].
Qed.

Lemma memcmp_total (a b : bytes) (n : nat) :
  (n <= length a)%nat -> (n <= length b)%nat -> exists d, memcmp a b n = Some d.
Proof.
  revert a b. induction n as [|n IH]; intros a b Ha Hb; [now exists 0|].
  destruct a as [|x a], b as [|y b]; simpl in *; try lia.
  destruct (Byte.eqb x y); [apply IH; lia | eauto].
Qed.

(** [memncmp] on two objects and sizes is the comparison of the bytes the
    sizes designate. *)
Lemma memncmp_take (s1 s2 : bytes) (n1 n2 : nat) :
  (n1 <= length s1)%nat -> (n2 <= length s2)%nat ->
  memncmp s1 n1 s2 n2 = btree_cmp (take n1 s1) (take n2 s2).
Proof.
  intros H1 H2.
  rewrite <- (take_drop n1 s1) at 1. rewrite <- (take_drop n2 s2) at 1.
  set (a := take n1 s1). set (b := take n2 s2).
  assert (length a = n1) as La by (subst a; rewrite length_take; lia).
  assert (length b = n2) as Lb by (subst b; rewrite length_take; lia).
  clearbody a b. subst n1 n2.
  unfold btree_cmp, memncmp.
  destruct (Nat.ltb_spec (length a) (length b)) as [Hlt|Hge].
  - replace (length b <? length a)%nat with false by (symmetry; apply Nat.ltb_ge; lia).
    rewrite !memcmp_app by lia. reflexivity.
  - simpl. destruct (Nat.ltb_spec (length b) (length a)) as [Hlt|Hge'].
    + rewrite (memcmp_app a b _ _ (length b)) by lia.
      destruct (bool_decide (memcmp a b (length b) = Some 0)) eqn:E; [reflexivity|].
      apply bool_decide_eq_false in E. simpl.
      destruct (memcmp_total a b (length b)) as [d Hd]; [lia..|].
      assert (d <> 0) by congruence.
      rewrite (memcmp_found a b _ _ (length b) (length a) d) by (auto; lia).
      pose proof (memcmp_found a b [] [] (length b) (length a) d Hd) as Hf.
      rewrite !app_nil_r in Hf. symmetry. apply Hf; auto; lia.
    + simpl. apply memcmp_app; lia.
Qed.

Lemma btree_cmp_app (p a b : bytes) : btree_cmp (p ++ a) (p ++ b) = btree_cmp a b.
Proof.
  induction p as [|c p IH]; [reflexivity|]. simpl.
  unfold btree_cmp, memncmp in *. simpl length.
  change (S (length (p ++ a)) <? S (length (p ++ b)))%nat
    with (length (p ++ a) <? length (p ++ b))%nat.
  change (S (length (p ++ b)) <? S (length (p ++ a)))%nat
    with (length (p ++ b) <? length (p ++ a))%nat.
  assert (forall n, memcmp (c :: p ++ a) (c :: p ++ b) (S n) = memcmp (p ++ a) (p ++ b) n) as E
    by (intros n; simpl; now rewrite eqb_refl).
  rewrite !E. exact IH.
Qed.

(** [bt_cmp] skips the page prefix of the search key and compares what
    follows with the stored part of the node's key. *)
Lemma bt_cmp_suffix (pfx k sk : bytes) (n : node) :
  node_key n = Some sk ->
  bt_cmp (mkval (pfx ++ k)) (Btval (NODEKEY n) (ksize n)) pfx = btree_cmp k sk.
Proof.
  intros Hn. unfold node_key, val_bytes in Hn. cbn [bv_size bv_data] in Hn.
  destruct ((0 <=? ksize n) && (ksize n <=? Z.of_nat (length (NODEKEY n)))) eqn:E;
    [|discriminate].
  apply andb_true_iff in E as [E1 E2]. apply Z.leb_le in E1, E2.
  injection Hn as <-.
  unfold bt_cmp, mkval. cbn [bv_size bv_data]. rewrite length_app.
  replace (Z.of_nat (length pfx + length k) <? Z.of_nat (length pfx)) with false
    by (symmetry; apply Z.ltb_ge; lia).
  replace (ksize n <? 0) with false by (symmetry; apply Z.ltb_ge; lia).
  cbn [orb]. rewrite drop_app_length.
  replace (Z.to_nat (Z.of_nat (length pfx + length k) - Z.of_nat (length pfx)))
    with (length k) by lia.
  rewrite memncmp_take by lia. now rewrite firstn_all.
Qed.

(** The comparison of a search on a page with prefix [pfx]: a key that
    starts with the prefix is compared with the stored part of the node's
    key as the whole key is compared with the node's key with the prefix
    put back in front of it. *)
Theorem bt_cmp_full_keys (pfx k sk : bytes) (n : node) :
  node_key n = Some sk ->
  bt_cmp (mkval (pfx ++ k)) (Btval (NODEKEY n) (ksize n)) pfx =
  btree_cmp (pfx ++ k) (pfx ++ sk).
Proof.
  intros Hn. rewrite btree_cmp_app.
  unfold node_key, val_bytes in Hn. cbn [bv_size bv_data] in Hn.
  destruct ((0 <=? ksize n) && (ksize n <=? Z.of_nat (length (NODEKEY n)))) eqn:E;
    [|discriminate].
  apply andb_true_iff in E as [E1 E2]. apply Z.leb_le in E1, E2.
  injection Hn as <-.
  unfold bt_cmp, mkval. cbn [bv_size bv_data]. rewrite length_app.
  replace (Z.of_nat (length pfx + length k) <? Z.of_nat (length pfx)) with false
    by (symmetry; apply Z.ltb_ge; lia).
  replace (ksize n <? 0) with false by (symmetry; apply Z.ltb_ge; lia).
  cbn [orb]. rewrite drop_app_length.
  replace (Z.to_nat (Z.of_nat (length pfx + length k) - Z.of_nat (length pfx)))
    with (length k) by lia.
  rewrite memncmp_take by lia. now rewrite firstn_all.
Qed.

Lemma bt_cmp_full_keys_witness :
  bt_cmp (mkval ([ "a" ] ++ [ "c" ]))%byte
         (Btval (NODEKEY (Scenario.leaf_node "b" 1)) (ksize (Scenario.leaf_node "b" 1)))
         [ "a"%byte ] =
  btree_cmp ([ "a" ] ++ [ "c" ])%byte ([ "a" ] ++ [ "b" ])%byte.
Proof. apply bt_cmp_full_keys. reflexivity. Defined.

Lemma uchar_byte_of_Z (z : Z) : uchar (byte_of_Z z) = z mod 256.
Proof.
  unfold uchar, byte_of_Z.
  assert (0 <= z mod 256 < 256) as Hr by (apply Z.mod_pos_bound; lia).
  destruct (Byte.of_N (Z.to_N (z mod 256))) as [b|] eqn:E.
  - apply Byte.to_of_N in E. rewrite E. lia.
  - apply Byte.of_N_None_iff in E. lia.
Qed.

(** A page number written into a node as four bytes, as
    [btree_add_node] writes the head of an overflow chain, is read back by
    [btree_read_data] as the same number. *)
Theorem pgno_bytes_roundtrip (p : Z) (rest : bytes) :
  0 <= p < 2 ^ 32 -> pgno_of_bytes (pgno_bytes p ++ rest) = Some p.
Proof.
  intros Hp. unfold pgno_bytes, pgno_of_bytes. cbn [app].
  rewrite !uchar_byte_of_Z. f_equal.
  change (2 ^ 8) with 256. change (2 ^ 16) with (256 * 256).
  change (2 ^ 24) with (256 * 256 * 256).
  change (2 ^ 32) with (256 * 256 * 256 * 256) in Hp.
  rewrite <- !Z.div_div by lia.
  pose proof (Z.div_mod p 256 ltac:(lia)).
  pose proof (Z.div_mod (p / 256) 256 ltac:(lia)).
  pose proof (Z.div_mod (p / 256 / 256) 256 ltac:(lia)).
  assert (p / 256 / 256 / 256 < 256).
  { rewrite !Z.div_div by lia. apply Z.div_lt_upper_bound; lia. }
  assert (0 <= p / 256 / 256 / 256) by (repeat apply Z.div_pos; lia).
  rewrite (Z.mod_small (p / 256 / 256 / 256)) by lia. lia.
Qed.

Lemma pgno_bytes_roundtrip_witness :
  pgno_of_bytes (pgno_bytes 70000 ++ []) = Some 70000.
Proof. apply pgno_bytes_roundtrip. lia. Defined.

End PrefixFacts.

(** ** The binary search of a page *)

Module SearchFacts.
Import Cmp CmpFacts OrderFacts PrefixFacts.

Lemma cmp_sign (a b : bytes) (r : Z) :
  btree_cmp a b = Some r ->
  (r = 0 -> a = b) /\ (0 < r -> gt a b) /\ (r < 0 -> gt b a).
Proof.
  intros H.
  destruct (bytes_trichotomy a b)
    as [->|[(c & t & ->)|[(c & t & ->)|(p & x & y & ra & rb & -> & -> & Hn)]]].
  - rewrite memncmp_refl in H. injection H as <-. repeat split; lia.
  - rewrite memncmp_prefix_l in H. injection H as <-.
    split; [lia|]. split; [lia|]. intros _. exists 1.
    split; [apply memncmp_prefix_r | lia].
  - rewrite memncmp_prefix_r in H. injection H as <-.
    split; [lia|]. split; [|lia]. intros _. exists 1.
    split; [apply memncmp_prefix_r | lia].
  - rewrite memncmp_diff in H by assumption. injection H as <-.
    pose proof (uchar_diff_nonzero x y Hn). split; [lia|]. split.
    + intros Hr. eexists. split; [now apply memncmp_diff | lia].
    + intros Hr. exists (uchar y - uchar x).
      split; [apply memncmp_diff; congruence | lia].
Qed.

Section Search.

Variables (m : mpage) (k : bytes).
Let key := mkval (mp_prefix m ++ k).
Let N := NUMKEYS m.
Let low0 := search_low m.

Hypothesis Hkeys : forall i, low0 <= i < N -> exists ki, stored_key m i = Some ki.
Hypothesis Hinc : keys_increasing m.

Lemma probe (i : Z) :
  low0 <= i < N ->
  exists n ki rc, NODEPTR m i = Some n /\ stored_key m i = Some ki /\
    bt_cmp key (Btval (NODEKEY n) (ksize n)) (mp_prefix m) = Some rc /\
    btree_cmp k ki = Some rc.
Proof.
  intros Hi. destruct (Hkeys i Hi) as [ki Hk]. pose proof Hk as Hk'.
  unfold stored_key in Hk. destruct (NODEPTR m i) as [n|]; [|discriminate].
  cbn in Hk. destruct (btree_cmp k ki) as [rc|] eqn:E.
  - exists n, ki, rc. subst key. rewrite (bt_cmp_suffix _ _ _ _ Hk). auto.
  - exfalso.
    destruct (bytes_trichotomy k ki)
      as [->|[(c & t & ->)|[(c & t & ->)|(p & x & y & ra & rb & -> & -> & Hn)]]].
    + rewrite memncmp_refl in E. discriminate.
    + rewrite memncmp_prefix_l in E. discriminate.
    + rewrite memncmp_prefix_r in E. discriminate.
    + rewrite memncmp_diff in E by assumption. discriminate.
Qed.

Lemma search_node_loop_spec (fuel : nat) : forall low high i rc,
  low0 <= low -> high < N -> low <= high + 1 -> high - low < Z.of_nat fuel ->
  (forall j kj, low0 <= j < low -> stored_key m j = Some kj -> gt k kj) ->
  (forall j kj, high < j < N -> stored_key m j = Some kj -> gt kj k) ->
  (low <= high \/ probe_ok m k i rc) ->
  exists i' rc', search_node_loop fuel m key low high i rc = Some (i', rc') /\
                 probe_ok m k i' rc'.
Proof.
  induction fuel as [|fuel IH]; intros low high i rc Hl Hh Hlh Hf Hbelow Habove Hpre.
  - assert (high < low) as Hx by lia.
    cbn [search_node_loop]. rewrite (proj2 (Z.leb_gt low high)) by lia.
    exists i, rc. split; [reflexivity|]. destruct Hpre; [lia | assumption].
  - cbn [search_node_loop]. destruct (low <=? high) eqn:E.
    2:{ apply Z.leb_gt in E. exists i, rc. split; [reflexivity|].
        destruct Hpre; [lia | assumption]. }
    apply Z.leb_le in E.
    set (p := Z.shiftr (low + high) 1).
    assert (low <= p <= high) as Hp.
    { subst p. rewrite Z.shiftr_div_pow2 by lia. change (2 ^ 1) with 2.
      split; [apply Z.div_le_lower_bound | apply Z.div_le_upper_bound]; lia. }
    destruct (probe p ltac:(lia)) as (n & kp & r & Hn & Hkp & Hcmp & Hr).
    rewrite Hn. cbn [mbind option_bind]. rewrite Hcmp. cbn [mbind option_bind].
    destruct (cmp_sign _ _ _ Hr) as (H0 & Hpos & Hneg).
    destruct (r =? 0) eqn:E0.
    { apply Z.eqb_eq in E0. specialize (H0 E0). subst kp.
      exists p, r. split; [reflexivity|]. split; [lia|].
      exists k. repeat split; auto.
      - intros j kj Hj Hkj. apply (Hinc j p kj k); auto; lia.
      - intros j kj Hj Hkj. apply (Hinc p j k kj); auto; lia. }
    apply Z.eqb_neq in E0.
    destruct (0 <? r) eqn:E1.
    + apply Z.ltb_lt in E1. specialize (Hpos E1).
      assert (forall j kj, low0 <= j < p + 1 -> stored_key m j = Some kj -> gt k kj) as Hb'.
      { intros j kj Hj Hkj. destruct (decide (j = p)) as [->|Hne].
        - congruence.
        - apply (gt_transitive k kp kj); [assumption|].
          apply (Hinc j p kj kp); auto; lia. }
      apply IH; try lia; auto.
      destruct (decide (p + 1 <= high)); [now left|]. right.
      split; [lia|]. exists kp. repeat split; auto.
      * intros j kj Hj. apply Hb'. lia.
      * intros j kj Hj. apply Habove. lia.
    + apply Z.ltb_ge in E1. assert (r < 0) as Hr0 by lia. specialize (Hneg Hr0).
      assert (forall j kj, p - 1 < j < N -> stored_key m j = Some kj -> gt kj k) as Ha'.
      { intros j kj Hj Hkj. destruct (decide (j = p)) as [->|Hne].
        - congruence.
        - apply (gt_transitive kj kp k); [|assumption].
          apply (Hinc p j kp kj); auto; lia. }
      apply IH; try lia; auto.
      destruct (decide (low <= p - 1)); [now left|]. right.
      split; [lia|]. exists kp. repeat split; auto.
      * intros j kj Hj. apply Hbelow. lia.
      * intros j kj Hj. apply Ha'. lia.
Qed.

End Search.

(** The binary search of [btree_search_node] on a page whose stored keys
    increase, for a key that starts with the page prefix and continues
    with [k]: the search returns the first slot whose key is not smaller
    than [k], and tells whether that key is [k]; it returns null when
    every key of the page is smaller. *)
Theorem search_node_finds_first_not_smaller (m : mpage) (k : bytes) :
  search_low m <= NUMKEYS m - 1 ->
  (forall i, search_low m <= i < NUMKEYS m -> exists ki, stored_key m i = Some ki) ->
  keys_increasing m ->
  exists r, btree_search_node m (mkval (mp_prefix m ++ k)) = Some r /\
    match r with
    | None =>
        forall i ki, search_low m <= i < NUMKEYS m -> stored_key m i = Some ki -> gt k ki
    | Some (exact, i) =>
        search_low m <= i < NUMKEYS m /\
        (forall j kj, search_low m <= j < i -> stored_key m j = Some kj -> gt k kj) /\
        exists ki, stored_key m i = Some ki /\ if exact then ki = k else gt ki k
    end.
Proof.
  intros Hne Hkeys Hinc.
  assert (0 <= search_low m) by (unfold search_low; destruct (IS_LEAF m); lia).
  destruct (search_node_loop_spec m k Hkeys Hinc (S (Z.to_nat (NUMKEYS m)))
              (search_low m) (NUMKEYS m - 1) 0 0)
    as (i & rc & Hloop & Hi & ki & Hki & Hcmp & Hbelow & Habove);
    try (intros; lia).
  unfold btree_search_node. fold (search_low m). rewrite Hloop.
  cbn [mbind option_bind fst snd].
  destruct (cmp_sign _ _ _ Hcmp) as (H0 & Hpos & Hneg).
  destruct (0 <? rc) eqn:E1.
  - apply Z.ltb_lt in E1. specialize (Hpos E1).
    destruct (NUMKEYS m <=? i + 1) eqn:E2.
    + apply Z.leb_le in E2. eexists. split; [reflexivity|].
      intros j kj Hj Hkj. destruct (decide (j = i)) as [->|Hn]; [congruence|].
      apply (Hbelow j kj); auto. lia.
    + apply Z.leb_gt in E2. eexists. split; [reflexivity|].
      replace (rc =? 0) with false by (symmetry; apply Z.eqb_neq; lia).
      split; [lia|]. split.
      * intros j kj Hj Hkj. destruct (decide (j = i)) as [->|Hn]; [congruence|].
        apply (Hbelow j kj); auto. lia.
      * destruct (Hkeys (i + 1) ltac:(lia)) as [kn Hkn].
        exists kn. split; [assumption|]. apply (Habove (i + 1) kn); auto. lia.
  - apply Z.ltb_ge in E1. eexists. split; [reflexivity|].
    split; [lia|]. split; [exact Hbelow|].
    exists ki. split; [assumption|].
    destruct (rc =? 0) eqn:E0.
    + apply Z.eqb_eq in E0. symmetry. auto.
    + apply Z.eqb_neq in E0. apply Hneg. lia.
Qed.

(** The search for [b] on the leaf that holds [a] and [b]. *)
Lemma search_node_finds_first_not_smaller_witness :
  exists r, btree_search_node (leaf_object Scenario.two_key_leaf)
              (mkval ([] ++ ["b"%byte])) = Some r /\
    match r with
    | None =>
        forall i ki, 0 <= i < 2 ->
          stored_key (leaf_object Scenario.two_key_leaf) i = Some ki -> gt ["b"%byte] ki
    | Some (exact, i) =>
        0 <= i < 2 /\
        (forall j kj, 0 <= j < i ->
           stored_key (leaf_object Scenario.two_key_leaf) j = Some kj -> gt ["b"%byte] kj) /\
        exists ki, stored_key (leaf_object Scenario.two_key_leaf) i = Some ki /\
                   if exact then ki = ["b"%byte] else gt ki ["b"%byte]
    end.
Proof.
  apply (search_node_finds_first_not_smaller (leaf_object Scenario.two_key_leaf) ["b"%byte]).
  - vm_compute. discriminate.
  - intros i Hi. change (0 <= i < 2) in Hi.
    assert (i = 0 \/ i = 1) as [-> | ->] by lia; eexists; reflexivity.
  - intros i j ki kj Hij Hj Hki Hkj. change (0 <= i < j) in Hij. change (j < 2) in Hj.
    assert (i = 0 /\ j = 1) as [-> ->] by lia.
    vm_compute in Hki, Hkj. injection Hki as <-. injection Hkj as <-.
    exists 1. split; [reflexivity | lia].
Defined.

End SearchFacts.

(** ** Reading the data of a leaf node *)

Module ReadFacts.
Import StateFacts SepFacts.

Lemma overflow_chain_frame (s s1 : btree) (pgno : Z) (d : bytes) :
  overflow_chain s pgno d ->
  bt_page_cache s1 = bt_page_cache s -> bt_heap s1 = bt_heap s ->
  bt_head_ s1 = bt_head_ s ->
  overflow_chain s1 pgno d.
Proof.
  intros H Hc Hh Hd.
  induction H as [pgno mp m d H1 H2 H3 H4 H5 H6|pgno mp m d rest H1 H2 H3 H4 H5 H6 H7 IH].
  - apply (overflow_chain_last s1 pgno mp m d); rewrite ?Hc, ?Hh, ?Hd; assumption.
  - apply (overflow_chain_link s1 pgno mp m d rest); rewrite ?Hc, ?Hh, ?Hd; assumption.
Qed.

(** [btree_get_mpage] on a cached page: the page moves to the tail of the
    LRU queue. *)
Lemma get_mpage_hit (s : btree) (pgno : Z) (mp : nat) :
  bt_page_cache s !! pgno = Some mp ->
  btree_get_mpage pgno s =
  Some (Some mp, set_bt_lru_queue (fun q => filter (fun x => x <> mp) q ++ [mp]) s).
Proof.
  intros H. unfold btree_get_mpage, mpage_lookup, bind, gets. rewrite H. reflexivity.
Qed.

Lemma read_overflow_loop_chain (max : Z) (s : btree) (pgno : Z) (d : bytes) :
  overflow_chain s pgno d -> max = psize (bt_head_ s) - PAGEHDRSZ -> 0 < max ->
  forall (s1 : btree) (fuel : nat) (acc : bytes),
    bt_page_cache s1 = bt_page_cache s -> bt_heap s1 = bt_heap s ->
    (length d <= fuel)%nat ->
    exists s', read_overflow_loop fuel pgno (Z.of_nat (length d)) max acc s1 =
               Some ((BT_SUCCESS, acc ++ d), s') /\
      bt_page_cache s' = bt_page_cache s /\ bt_heap s' = bt_heap s /\
      set_bt_lru_queue (fun _ => []) s' = set_bt_lru_queue (fun _ => []) s1.
Proof.
  intros Hch Hmax Hpos. induction Hch as [pgno mp m d Hc Hm Hov Hb Hnx Hlen
                                         |pgno mp m d rest Hc Hm Hov Hb Hlen Hne Hch IH];
    intros s1 fuel acc Hc1 Hh1 Hfuel.
  - destruct d as [|b d].
    { exists s1. destruct fuel; cbn; rewrite app_nil_r; auto. }
    destruct fuel as [|fuel]; [simpl in Hfuel; lia|].
    cbn [read_overflow_loop].
    replace (Z.of_nat (length (b :: d)) <=? 0) with false
      by (symmetry; apply Z.leb_gt; simpl; lia).
    unfold bind at 1. rewrite (get_mpage_hit s1 pgno mp) by congruence.
    unfold bind at 1. rewrite (mp_get_eq _ mp m) by (cbn; congruence).
    rewrite Hov. cbn [negb]. rewrite Hb.
    replace (max <? Z.of_nat (length (b :: d))) with false
      by (symmetry; apply Z.ltb_ge; lia).
    unfold val_bytes. cbn [bv_size bv_data].
    rewrite (proj2 (andb_true_iff _ _)) by (split; apply Z.leb_le; lia).
    rewrite Nat2Z.id, firstn_all. unfold bind. cbn [liftO ret].
    rewrite Z.sub_diag.
    eexists. split.
    { destruct fuel; reflexivity. }
    cbn. auto.
  - assert (rest <> []) as Hne' by assumption.
    destruct fuel as [|fuel].
    { rewrite length_app in Hfuel. destruct rest; [congruence | simpl in Hfuel; lia]. }
    assert (0 < length rest)%nat by (destruct rest; [congruence | simpl; lia]).
    cbn [read_overflow_loop].
    replace (Z.of_nat (length (d ++ rest)) <=? 0) with false
      by (symmetry; apply Z.leb_gt; rewrite length_app; lia).
    unfold bind at 1. rewrite (get_mpage_hit s1 pgno mp) by congruence.
    unfold bind at 1. rewrite (mp_get_eq _ mp m) by (cbn; congruence).
    rewrite Hov. cbn [negb]. rewrite Hb.
    replace (max <? Z.of_nat (length (d ++ rest))) with true
      by (symmetry; apply Z.ltb_lt; rewrite length_app; lia).
    unfold val_bytes. cbn [bv_size bv_data].
    rewrite (proj2 (andb_true_iff _ _)) by (split; apply Z.leb_le; lia).
    replace (Z.to_nat max) with (length d) by lia. rewrite firstn_all.
    unfold bind at 1. cbn [liftO ret].
    replace (Z.of_nat (length (d ++ rest)) - max) with (Z.of_nat (length rest))
      by (rewrite length_app; lia).
    set (s2 := set_bt_lru_queue _ s1).
    destruct (IH s2 fuel (acc ++ d)) as (s' & Hrun & Hc' & Hh' & Hfr).
    + subst s2. cbn. congruence.
    + subst s2. cbn. congruence.
    + rewrite length_app in Hfuel.
      assert (0 < length d)%nat by lia. lia.
    + exists s'. rewrite Hrun, <- app_assoc. repeat split; auto.
Qed.

(** [btree_read_data] on a leaf node whose data is on overflow pages:
    when the node names the head of a cached chain that holds [db] and
    stores the size of [db], the call returns [db]; it changes nothing but
    the order of the LRU queue. *)
Theorem read_data_follows_overflow_chain
    (s : btree) (mp : option nat) (leaf : node) (head : Z) (db : bytes) :
  F_ISSET (n_flags leaf) F_BIGDATA = true ->
  pgno_of_bytes (NODEDATA leaf) = Some head ->
  NODEDSZ leaf = Z.of_nat (length db) ->
  overflow_chain s head db ->
  PAGEHDRSZ < psize (bt_head_ s) ->
  exists s', btree_read_data mp leaf s = Some ((BT_SUCCESS, db), s') /\
    set_bt_lru_queue (fun _ => []) s' = set_bt_lru_queue (fun _ => []) s.
Proof.
  intros Hbig Hhead Hsz Hch Hps.
  unfold btree_read_data, bind, the_psize, gets. rewrite Hbig. cbn [negb].
  rewrite Hhead. cbn [liftO ret]. rewrite Hsz.
  destruct (read_overflow_loop_chain (psize (bt_head_ s) - PAGEHDRSZ) s head db Hch
              eq_refl ltac:(lia) s (S (Z.to_nat (Z.of_nat (length db)))) [])
    as (s' & Hrun & _ & _ & Hfr); auto; [lia|].
  exists s'. split; assumption.
Qed.

Lemma read_data_follows_overflow_chain_witness :
  exists s', btree_read_data (Some O)
               (Node 1024 1 F_BIGDATA ("k"%byte :: pgno_bytes 2)) Scenario.leaf_with_node =
             Some ((BT_SUCCESS, repeat "v"%byte 1024), s') /\
    set_bt_lru_queue (fun _ => []) s' =
    set_bt_lru_queue (fun _ => []) Scenario.leaf_with_node.
Proof.
  apply (read_data_follows_overflow_chain Scenario.leaf_with_node (Some O)
           (Node 1024 1 F_BIGDATA ("k"%byte :: pgno_bytes 2)) 2 (repeat "v"%byte 1024)).
  - reflexivity.
  - reflexivity.
  - reflexivity.
  - apply (overflow_chain_last _ 2 1%nat
             (Mpage None 0 [] (Page 2 P_OVERFLOW PAGEHDRSZ 4096 0
                                 (BOverflow (repeat "v"%byte 1024))) 2 0 true)).
    + vm_compute. reflexivity.
    + vm_compute. reflexivity.
    + reflexivity.
    + reflexivity.
    + reflexivity.
    + vm_compute. discriminate.
  - vm_compute. reflexivity.
Defined.

End ReadFacts.

Module FrameFacts.

Create HintDb keeps discriminated.

Section Respects.

Variable R : btree -> btree -> Prop.
Hypothesis R_refl : forall s, R s s.
Hypothesis R_trans : forall s1 s2 s3, R s1 s2 -> R s2 s3 -> R s1 s3.

Lemma respects_ret {A} (a : A) : respects R (ret a).
Proof. intros s a' s' [= _ <-]. apply R_refl. Qed.

Lemma respects_bind {A B} (m : M A) (k : A -> M B) :
  respects R m -> (forall a, respects R (k a)) -> respects R (bind m k).
Proof.
  intros Hm Hk s b s' H. unfold bind in H.
  destruct (m s) as [[a s1]|] eqn:E; [|discriminate].
  eapply R_trans; [eapply Hm; eassumption | eapply Hk; eassumption].
Qed.

Lemma respects_bind_ret {A B} (a : A) (k : A -> M B) :
  respects R (k a) -> respects R (bind (ret a) k).
Proof. intros Hk s b s' H. apply (Hk s b s'). exact H. Qed.

Lemma respects_undefined {A} : respects R (@undefined A).
Proof. intros s a s' H. discriminate. Qed.

Lemma respects_gets {A} (f : btree -> A) : respects R (gets f).
Proof. intros s a s' [= _ <-]. apply R_refl. Qed.

Lemma respects_liftO {A} (o : option A) : respects R (liftO o).
Proof. destruct o; [apply respects_ret | apply respects_undefined]. Qed.

Lemma respects_modify (f : btree -> btree) :
  (forall s, R s (f s)) -> respects R (modify f).
Proof. intros Hf s a s' [= _ <-]. apply Hf. Qed.

Lemma respects_mp_get (mp : nat) : respects R (mp_get mp).
Proof.
  intros s a s' H. unfold mp_get in H. destruct (bt_heap s !! mp); [|discriminate].
  injection H as _ <-. apply R_refl.
Qed.

Lemma respects_txn_get (t : nat) : respects R (txn_get t).
Proof.
  intros s a s' H. unfold txn_get in H. destruct (bt_txns s !! t); [|discriminate].
  injection H as _ <-. apply R_refl.
Qed.

Lemma respects_bt_txn_ptr : respects R bt_txn_ptr.
Proof.
  intros s a s' H. unfold bt_txn_ptr in H. destruct (bt_txn s); [|discriminate].
  injection H as _ <-. apply R_refl.
Qed.

Lemma respects_foldr {X} (g : X -> M unit -> M unit) (l : list X) :
  (forall x k, respects R k -> respects R (g x k)) ->
  respects R (foldr g (ret tt) l).
Proof.
  intros Hg. induction l as [|x l IH]; cbn [foldr].
  - apply respects_ret.
  - apply Hg, IH.
Qed.

End Respects.

Lemma same_refl {T} (proj : btree -> T) s : same proj s s.
Proof. reflexivity. Qed.

Lemma same_trans {T} (proj : btree -> T) s1 s2 s3 :
  same proj s1 s2 -> same proj s2 s3 -> same proj s1 s3.
Proof. unfold same. congruence. Qed.

(** One step of a proof that a function leaves a part of the state as it
    is. *)
Ltac keeps_step :=
  lazymatch goal with
  | |- respects (same _) (bind (ret _) _) => apply respects_bind_ret; cbv beta
  | |- respects (same ?p) (bind _ _) =>
      apply (respects_bind (same p) (same_trans p)); [|intros ?]
  | |- respects (same ?p) (ret _) => apply (respects_ret (same p) (same_refl p))
  | |- respects (same ?p) (gets _) => apply (respects_gets (same p) (same_refl p))
  | |- respects (same ?p) (liftO _) => apply (respects_liftO (same p) (same_refl p))
  | |- respects (same _) undefined => apply respects_undefined
  | |- respects (same ?p) (mp_get _) => apply (respects_mp_get (same p) (same_refl p))
  | |- respects (same ?p) (txn_get _) => apply (respects_txn_get (same p) (same_refl p))
  | |- respects (same ?p) bt_txn_ptr => apply (respects_bt_txn_ptr (same p) (same_refl p))
  | |- respects (same _) (modify _) =>
      apply respects_modify; intros ?; unfold same;
      solve [eauto using @ig_heap, @ig_page_cache, @ig_lru_queue, @ig_cache_size,
               @ig_txns, @ig_txn, @ig_errno, @ig_ref, @ig_branch_pages, @ig_leaf_pages,
               @ig_overflow_pages, @ig_depth, @ig_meta, @ig_flags, @ig_size]
  | |- respects (same _) (set_errno _) => unfold set_errno
  | |- respects (same _) (if ?b then _ else _) => destruct b
  | |- respects (same _) (match ?x with _ => _ end) => destruct x
  | |- respects (same _) (let _ := _ in _) => cbv zeta
  | |- _ => solve [eauto with keeps]
  end.

Ltac keeps := repeat keeps_step.

Section Objects.

Context {T : Type} (proj : btree -> T) (Hig : ignores_objects proj).

Local Abbreviation K := (respects (same proj)).

Lemma keeps_mp_upd mp f : K (mp_upd mp f).
Proof. unfold mp_upd. keeps. Qed.
Lemma keeps_mp_new m : K (mp_new m).
Proof. unfold mp_new. keeps. Qed.
Lemma keeps_txn_upd t f : K (txn_upd t f).
Proof. unfold txn_upd. keeps. Qed.
Lemma keeps_the_psize : K the_psize.
Proof. unfold the_psize. keeps. Qed.
Hint Resolve keeps_mp_upd keeps_mp_new keeps_txn_upd keeps_the_psize : keeps.

Lemma keeps_mpage_lookup pgno : K (mpage_lookup pgno).
Proof. unfold mpage_lookup. keeps. Qed.
Lemma keeps_mpage_add mp : K (mpage_add mp).
Proof. unfold mpage_add. keeps. Qed.
Lemma keeps_mpage_free mp : K (mpage_free mp).
Proof. unfold mpage_free. keeps. Qed.
Lemma keeps_mpage_del mp : K (mpage_del mp).
Proof. unfold mpage_del. keeps. Qed.
Hint Resolve keeps_mpage_lookup keeps_mpage_add keeps_mpage_free keeps_mpage_del : keeps.

Lemma keeps_mpage_flush : K mpage_flush.
Proof.
  unfold mpage_flush. keeps.
  apply (respects_foldr (same proj) (same_refl proj)). intros x k Hk. keeps.
Qed.
Lemma keeps_mpage_copy mp : K (mpage_copy mp).
Proof. unfold mpage_copy. keeps. Qed.
Lemma keeps_mpage_prune_loop q : K (mpage_prune_loop q).
Proof. induction q as [|mp q IH]; cbn [mpage_prune_loop]; keeps. Qed.
Hint Resolve keeps_mpage_flush keeps_mpage_copy keeps_mpage_prune_loop : keeps.

Lemma keeps_mpage_prune : K mpage_prune.
Proof. unfold mpage_prune. keeps. Qed.
Lemma keeps_mpage_dirty mp : K (mpage_dirty mp).
Proof. unfold mpage_dirty. keeps. Qed.
Lemma keeps_alloc_pgno : K alloc_pgno.
Proof. unfold alloc_pgno. keeps. Qed.
Lemma keeps_set_node_pgno mp i pgno : K (set_node_pgno mp i pgno).
Proof. unfold set_node_pgno. keeps. Qed.
Hint Resolve keeps_mpage_prune keeps_mpage_dirty keeps_alloc_pgno
  keeps_set_node_pgno : keeps.

Lemma keeps_mpage_touch mp : K (mpage_touch mp).
Proof. unfold mpage_touch. keeps. Qed.
Lemma keeps_btree_read_page pgno : K (btree_read_page pgno).
Proof. unfold btree_read_page. keeps. Qed.
Hint Resolve keeps_mpage_touch keeps_btree_read_page : keeps.

Lemma keeps_btree_get_mpage pgno : K (btree_get_mpage pgno).
Proof. unfold btree_get_mpage. keeps. Qed.
Lemma keeps_find_common_prefix mp : K (find_common_prefix mp).
Proof. unfold find_common_prefix. keeps. Qed.
Lemma keeps_cursor_pop_page c : K (cursor_pop_page c).
Proof. unfold cursor_pop_page. keeps. Qed.
Lemma keeps_cursor_push_page c mp : K (cursor_push_page c mp).
Proof. unfold cursor_push_page. keeps. Qed.
Lemma keeps_cursor_set_top_ki c i : K (cursor_set_top_ki c i).
Proof. unfold cursor_set_top_ki. keeps. Qed.
Hint Resolve keeps_btree_get_mpage keeps_find_common_prefix keeps_cursor_pop_page
  keeps_cursor_push_page keeps_cursor_set_top_ki : keeps.

Lemma keeps_with_cursor oc f : (forall c, K (f c)) -> K (with_cursor oc f).
Proof. intros Hf. unfold with_cursor. keeps. Qed.

Lemma keeps_search_page_root_loop fuel : forall mp key oc modify_,
  K (search_page_root_loop fuel mp key oc modify_).
Proof.
  induction fuel as [|fuel IH]; intros mp key oc modify_; cbn [search_page_root_loop];
    keeps; try (apply keeps_with_cursor; intros; keeps).
Qed.
Hint Resolve keeps_search_page_root_loop : keeps.

Lemma keeps_btree_search_page_root root key oc modify_ :
  K (btree_search_page_root root key oc modify_).
Proof. unfold btree_search_page_root. keeps. apply keeps_with_cursor; intros; keeps. Qed.
Hint Resolve keeps_btree_search_page_root : keeps.

Lemma keeps_read_overflow_loop fuel : forall pgno sz max acc,
  K (read_overflow_loop fuel pgno sz max acc).
Proof.
  induction fuel as [|fuel IH]; intros pgno sz max acc; cbn [read_overflow_loop]; keeps.
Qed.
Hint Resolve keeps_read_overflow_loop : keeps.

Lemma keeps_btree_read_data mp leaf : K (btree_read_data mp leaf).
Proof. unfold btree_read_data. keeps. Qed.
Lemma keeps_btree_new_page flags : K (btree_new_page flags).
Proof. unfold btree_new_page. keeps. Qed.
Hint Resolve keeps_btree_read_data keeps_btree_new_page : keeps.

Lemma keeps_write_overflow_loop fuel : forall cur data done max,
  K (write_overflow_loop fuel cur data done max).
Proof.
  induction fuel as [|fuel IH]; intros cur data done max; cbn [write_overflow_loop]; keeps.
Qed.
Hint Resolve keeps_write_overflow_loop : keeps.

Lemma keeps_btree_write_overflow_data p data : K (btree_write_overflow_data p data).
Proof. unfold btree_write_overflow_data. keeps. Qed.
Hint Resolve keeps_btree_write_overflow_data : keeps.

Lemma keeps_btree_add_node mp indx key data pgno flags :
  K (btree_add_node mp indx key data pgno flags).
Proof. unfold btree_add_node. keeps. Qed.
Lemma keeps_btree_del_node mp indx : K (btree_del_node mp indx).
Proof. unfold btree_del_node. keeps. Qed.
Hint Resolve keeps_btree_add_node keeps_btree_del_node : keeps.

Lemma keeps_btree_close : K btree_close.
Proof. unfold btree_close. keeps. Qed.
Hint Resolve keeps_btree_close : keeps.

Lemma keeps_btree_txn_abort txn : K (btree_txn_abort txn).
Proof.
  unfold btree_txn_abort. keeps.
  apply (respects_foldr (same proj) (same_refl proj)). intros x k Hk. keeps.
Qed.
Hint Resolve keeps_btree_txn_abort : keeps.

Lemma keeps_split_loop mp pright copy split_indx newindx newkey newdata newpgno lp rp fuel :
  forall st,
    K (split_loop mp pright copy split_indx newindx newkey newdata newpgno lp rp fuel st).
Proof. induction fuel as [|fuel IH]; intros st; cbn [split_loop]; keeps. Qed.
Hint Resolve keeps_split_loop : keeps.

Lemma keeps_btree_split fuel : forall mpp newindxp newkey newdata newpgno,
  K (btree_split fuel mpp newindxp newkey newdata newpgno).
Proof.
  induction fuel as [|fuel IH]; intros mpp newindxp newkey newdata newpgno;
    cbn [btree_split]; keeps.
Qed.
Hint Resolve keeps_btree_split : keeps.

Lemma keeps_btree_update_key mp indx key : K (btree_update_key mp indx key).
Proof. unfold btree_update_key. keeps. Qed.
Hint Resolve keeps_btree_update_key : keeps.

Lemma keeps_adjust_prefix_loop fuel : forall src delta i,
  K (adjust_prefix_loop fuel src delta i).
Proof. induction fuel as [|fuel IH]; intros src delta i; cbn [adjust_prefix_loop]; keeps. Qed.
Hint Resolve keeps_adjust_prefix_loop : keeps.

Lemma keeps_btree_adjust_prefix src delta : K (btree_adjust_prefix src delta).
Proof. unfold btree_adjust_prefix. keeps. Qed.
Hint Resolve keeps_btree_adjust_prefix : keeps.

Lemma keeps_on_success c k : K c -> K k -> K (on_success c k).
Proof. intros Hc Hk. unfold on_success. keeps. Qed.

Lemma keeps_lowest_key src : K (lowest_key src).
Proof. unfold lowest_key. keeps. Qed.
Lemma keeps_update_separator mp : K (update_separator mp).
Proof. unfold update_separator. keeps. Qed.
Lemma keeps_refresh_prefix mp : K (refresh_prefix mp).
Proof. unfold refresh_prefix. keeps. Qed.
Hint Resolve keeps_lowest_key keeps_update_separator keeps_refresh_prefix : keeps.

Ltac keeps' := repeat (keeps_step || (apply keeps_on_success)).

Lemma keeps_btree_move_node src srcindx dst dstindx :
  K (btree_move_node src srcindx dst dstindx).
Proof. unfold btree_move_node. keeps'. Qed.
Hint Resolve keeps_btree_move_node : keeps.

Lemma keeps_merge_loop fuel : forall src dst i, K (merge_loop fuel src dst i).
Proof. induction fuel as [|fuel IH]; intros src dst i; cbn [merge_loop]; keeps'. Qed.
Hint Resolve keeps_merge_loop : keeps.

Lemma keeps_btree_merge rebalance src dst :
  (forall mp, K (rebalance mp)) -> K (btree_merge rebalance src dst).
Proof. intros Hr. unfold btree_merge. keeps'. Qed.

Lemma keeps_btree_rebalance fuel : forall mp, K (btree_rebalance fuel mp).
Proof.
  induction fuel as [|fuel IH]; intros mp; cbn [btree_rebalance]; keeps;
    apply keeps_btree_merge; assumption.
Qed.
Hint Resolve keeps_btree_rebalance : keeps.

Lemma keeps_rebalance mp : K (rebalance mp).
Proof. unfold rebalance. keeps. Qed.
Hint Resolve keeps_rebalance : keeps.

Lemma keeps_btree_sibling_stack st : forall mr, K (btree_sibling_stack st mr).
Proof. induction st as [|top rest IH]; intros mr; cbn [btree_sibling_stack]; keeps. Qed.
Hint Resolve keeps_btree_sibling_stack : keeps.

Lemma keeps_btree_sibling c mr : K (btree_sibling c mr).
Proof. unfold btree_sibling. keeps. Qed.
Lemma keeps_bt_set_key mp n wk : K (bt_set_key mp n wk).
Proof. unfold bt_set_key. keeps. Qed.
Hint Resolve keeps_btree_sibling keeps_bt_set_key : keeps.

Lemma keeps_cursor_fetch c mp leaf wk wd : K (cursor_fetch c mp leaf wk wd).
Proof. unfold cursor_fetch. keeps. Qed.
Hint Resolve keeps_cursor_fetch : keeps.

Lemma keeps_btree_cursor_next c wk wd : K (btree_cursor_next c wk wd).
Proof. unfold btree_cursor_next. keeps. Qed.
Lemma keeps_cursor_pop_all fuel : forall c, K (cursor_pop_all fuel c).
Proof. induction fuel as [|fuel IH]; intros c; cbn [cursor_pop_all]; keeps. Qed.

Section InTxn.

(** Inside a transaction the meta data are not read again. *)
Variable SHA256 : list Z -> bytes.

Lemma keeps_btree_search_page_in_txn t key oc modify_ :
  K (btree_search_page SHA256 (Some t) key oc modify_).
Proof. unfold btree_search_page. destruct modify_; keeps. Qed.

End InTxn.

End Objects.

#[export] Hint Resolve keeps_mp_upd keeps_mp_new keeps_txn_upd keeps_the_psize
  keeps_mpage_lookup keeps_mpage_add keeps_mpage_free keeps_mpage_del
  keeps_mpage_flush keeps_mpage_copy keeps_mpage_prune_loop
  keeps_mpage_prune keeps_mpage_dirty keeps_alloc_pgno keeps_set_node_pgno
  keeps_mpage_touch keeps_btree_read_page
  keeps_btree_get_mpage keeps_find_common_prefix keeps_cursor_pop_page
  keeps_cursor_push_page keeps_cursor_set_top_ki
  keeps_search_page_root_loop keeps_btree_search_page_root keeps_read_overflow_loop
  keeps_btree_read_data keeps_btree_new_page keeps_write_overflow_loop
  keeps_btree_write_overflow_data keeps_btree_add_node keeps_btree_del_node
  keeps_btree_close keeps_btree_txn_abort keeps_split_loop keeps_btree_split
  keeps_btree_update_key keeps_adjust_prefix_loop keeps_btree_adjust_prefix
  keeps_lowest_key keeps_update_separator keeps_refresh_prefix
  keeps_btree_move_node keeps_merge_loop keeps_btree_rebalance keeps_rebalance
  keeps_btree_sibling_stack keeps_btree_sibling keeps_bt_set_key keeps_cursor_fetch
  keeps_btree_cursor_next keeps_cursor_pop_all keeps_btree_search_page_in_txn : keeps.

End FrameFacts.

Module FileFacts.
Import FrameFacts.

Lemma file_state_ignores_objects : ignores_objects file_state.
Proof. split; reflexivity. Qed.

Lemma file_state_ignores_meta : ignores_meta file_state.
Proof. split; reflexivity. Qed.

#[local] Hint Resolve file_state_ignores_objects file_state_ignores_meta : keeps.

Section Meta.

Context {T : Type} (proj : btree -> T).
Context (Hig : ignores_objects proj) (Hmeta : ignores_meta proj).
Variable SHA256 : list Z -> bytes.

Local Abbreviation K := (respects (same proj)).

Lemma keeps_btree_is_meta_page p : K (btree_is_meta_page SHA256 p).
Proof. unfold btree_is_meta_page. keeps. Qed.
Lemma keeps_file_size : K file_size.
Proof. unfold file_size. keeps. Qed.
Hint Resolve keeps_btree_is_meta_page keeps_file_size : keeps.

Lemma keeps_read_meta_scan n : K (read_meta_scan SHA256 n).
Proof. induction n as [|n IH]; cbn [read_meta_scan]; keeps. Qed.
Hint Resolve keeps_read_meta_scan : keeps.

Lemma keeps_btree_read_meta : K (btree_read_meta SHA256).
Proof. unfold btree_read_meta. keeps. Qed.
Lemma keeps_btree_ref : K btree_ref.
Proof. unfold btree_ref. keeps. Qed.
Hint Resolve keeps_btree_read_meta keeps_btree_ref : keeps.

Lemma keeps_btree_txn_begin rdonly : K (btree_txn_begin SHA256 rdonly).
Proof. unfold btree_txn_begin. keeps. Qed.
Hint Resolve keeps_btree_txn_begin : keeps.

Lemma keeps_btree_search_page txn key oc modify_ :
  K (btree_search_page SHA256 txn key oc modify_).
Proof. unfold btree_search_page. keeps. Qed.
Hint Resolve keeps_btree_search_page : keeps.

Lemma keeps_btree_txn_get bt_null txn key : K (btree_txn_get SHA256 bt_null txn key).
Proof. unfold btree_txn_get. keeps. Qed.

Lemma keeps_btree_cursor_set c key wd ex : K (btree_cursor_set SHA256 c key wd ex).
Proof. unfold btree_cursor_set. keeps. Qed.
Lemma keeps_btree_cursor_first c wk wd : K (btree_cursor_first SHA256 c wk wd).
Proof. unfold btree_cursor_first. keeps. Qed.
Hint Resolve keeps_btree_cursor_set keeps_btree_cursor_first : keeps.

Lemma keeps_btree_cursor_get c key wd op : K (btree_cursor_get SHA256 c key wd op).
Proof. unfold btree_cursor_get. keeps. Qed.

Lemma keeps_btree_txn_cursor_open bt_null txn : K (btree_txn_cursor_open bt_null txn).
Proof. unfold btree_txn_cursor_open. keeps. Qed.
Lemma keeps_btree_cursor_close c : K (btree_cursor_close c).
Proof. unfold btree_cursor_close. keeps. Qed.

Lemma keeps_finish_txn_open txn rc : K (finish_txn SHA256 false txn rc).
Proof. unfold finish_txn. keeps. Qed.
Hint Resolve keeps_finish_txn_open : keeps.

Lemma keeps_btree_txn_put_in_txn bt_null t key data :
  K (btree_txn_put SHA256 bt_null (Some t) key data).
Proof. unfold btree_txn_put, put_target. keeps. Qed.

Lemma keeps_btree_txn_del_in_txn bt_null t key wd :
  K (btree_txn_del SHA256 rebalance bt_null (Some t) key wd).
Proof. unfold btree_txn_del. keeps. Qed.

End Meta.

(** Reading never writes: a run of [btree_txn_get] or of
    [btree_cursor_get], whatever the operation and the transaction,
    leaves the file as it is. *)
Theorem reads_leave_the_file (SHA256 : list Z -> bytes) (s s' : btree) :
  (forall bt_null txn key r,
     btree_txn_get SHA256 bt_null txn key s = Some (r, s') ->
     file_state s' = file_state s) /\
  (forall c key want_data op r,
     btree_cursor_get SHA256 c key want_data op s = Some (r, s') ->
     file_state s' = file_state s).
Proof.
  split.
  - intros bt_null txn key r H.
    exact (keeps_btree_txn_get file_state file_state_ignores_objects
             file_state_ignores_meta SHA256 bt_null txn key s r s' H).
  - intros c key wd op r H.
    exact (keeps_btree_cursor_get file_state file_state_ignores_objects
             file_state_ignores_meta SHA256 c key wd op s r s' H).
Qed.

(** The get of the key of [one_key]. *)
Lemma reads_leave_the_file_witness :
  file_state (Scenario.state_after
                (btree_txn_get Scenario.no_digest false None (Scenario.key "k")) one_key) =
  file_state one_key.
Proof.
  apply (proj1 (reads_leave_the_file Scenario.no_digest one_key _)
           false None (Scenario.key "k") (BT_SUCCESS, repeat "v"%byte 3)).
  vm_compute. reflexivity.
Defined.

(** Nothing reaches the file before the commit: beginning a
    transaction, a put or a delete inside a transaction, and aborting a
    transaction leave the file as it is. *)
Theorem writes_wait_for_commit (SHA256 : list Z -> bytes) (s s' : btree) :
  (forall rdonly r,
     btree_txn_begin SHA256 rdonly s = Some (r, s') -> file_state s' = file_state s) /\
  (forall bt_null t key data r,
     btree_txn_put SHA256 bt_null (Some t) key data s = Some (r, s') ->
     file_state s' = file_state s) /\
  (forall bt_null t key want_data r,
     btree_txn_del SHA256 rebalance bt_null (Some t) key want_data s = Some (r, s') ->
     file_state s' = file_state s) /\
  (forall txn r,
     btree_txn_abort txn s = Some (r, s') -> file_state s' = file_state s).
Proof.
  repeat split.
  - intros rdonly r H.
    exact (keeps_btree_txn_begin file_state file_state_ignores_objects
             file_state_ignores_meta SHA256 rdonly s r s' H).
  - intros bt_null t key data r H.
    exact (keeps_btree_txn_put_in_txn file_state file_state_ignores_objects
             file_state_ignores_meta SHA256 bt_null t key data s r s' H).
  - intros bt_null t key wd r H.
    exact (keeps_btree_txn_del_in_txn file_state file_state_ignores_objects
             file_state_ignores_meta SHA256 bt_null t key wd s r s' H).
  - intros txn r H.
    exact (keeps_btree_txn_abort file_state file_state_ignores_objects txn s r s' H).
Qed.

(** A put in the write transaction begun on [one_key]. *)
Lemma writes_wait_for_commit_witness :
  file_state (Scenario.state_after
                (btree_txn_put Scenario.no_digest false (Some 1%nat) (Scenario.key "a")
                   (Scenario.value "1" 3)) one_key_writing) =
  file_state one_key_writing.
Proof.
  apply (proj1 (proj2 (writes_wait_for_commit Scenario.no_digest one_key_writing _))
           false 1%nat (Scenario.key "a") (Scenario.value "1" 3) BT_SUCCESS).
  vm_compute. reflexivity.
Defined.

(** *** Appending *)

Lemma file_grows_refl s : file_grows s s.
Proof. unfold file_grows. reflexivity. Qed.

Lemma file_grows_trans s1 s2 s3 : file_grows s1 s2 -> file_grows s2 s3 -> file_grows s1 s3.
Proof. unfold file_grows. intros H1 H2. etrans; eassumption. Qed.

Lemma same_file_grows {A} (m : M A) :
  respects (same file_state) m -> respects file_grows m.
Proof.
  intros H s a s' Hr. apply H in Hr. unfold same, file_state in Hr.
  injection Hr as Hf _. unfold file_grows. now rewrite Hf.
Qed.

Lemma grows_file_append pages : respects file_grows (file_append pages).
Proof.
  intros s a s' H. unfold file_append, bind, gets in H.
  destruct (bt_file_tail s =? 0); [|discriminate].
  injection H as _ <-. unfold file_grows. cbn. now apply prefix_app_r.
Qed.

Lemma grows_file_pad : respects file_grows file_pad.
Proof.
  intros s a s' H. unfold file_pad, bind, modify, gets in H.
  injection H as _ <-. unfold file_grows. cbn. now apply prefix_app_r.
Qed.

Ltac grows_step :=
  lazymatch goal with
  | |- respects file_grows (bind (ret _) _) => apply respects_bind_ret; cbv beta
  | |- respects file_grows (bind _ _) =>
      apply (respects_bind file_grows file_grows_trans); [|intros ?]
  | |- respects file_grows (ret _) => apply (respects_ret file_grows file_grows_refl)
  | |- respects file_grows (file_append _) => apply grows_file_append
  | |- respects file_grows file_pad => apply grows_file_pad
  | |- respects file_grows (file_write _) => unfold file_write, fd_rdonly
  | |- respects file_grows file_truncate_up => unfold file_truncate_up, fd_rdonly
  | |- respects file_grows (if ?b then _ else _) => destruct b
  | |- respects file_grows (match ?x with _ => _ end) => destruct x
  | |- respects file_grows (let _ := _ in _) => cbv zeta
  | |- _ => solve [apply same_file_grows; keeps | eauto with keeps]
  end.

Ltac grows := repeat grows_step.

Section Grows.

Variable SHA256 : list Z -> bytes.

Hint Resolve keeps_btree_is_meta_page keeps_file_size keeps_read_meta_scan
  keeps_btree_read_meta keeps_btree_ref keeps_btree_txn_begin keeps_btree_search_page
  keeps_finish_txn_open : keeps.

Lemma grows_btree_write_meta root flags :
  respects file_grows (btree_write_meta SHA256 root flags).
Proof. unfold btree_write_meta. grows. Qed.
Hint Resolve grows_btree_write_meta : keeps.

Lemma grows_commit_write_loop fuel : forall t,
  respects file_grows (commit_write_loop fuel t).
Proof.
  induction fuel as [|fuel IH]; intros t; cbn [commit_write_loop]; grows.
  all: apply same_file_grows, (respects_foldr (same file_state) (same_refl file_state));
    intros; keeps.
Qed.
Hint Resolve grows_commit_write_loop : keeps.

Lemma grows_btree_txn_commit txn : respects file_grows (btree_txn_commit SHA256 txn).
Proof. unfold btree_txn_commit, btree_sync, fsync. grows. Qed.
Hint Resolve grows_btree_txn_commit : keeps.

Lemma grows_finish_txn close_txn txn rc :
  respects file_grows (finish_txn SHA256 close_txn txn rc).
Proof. unfold finish_txn. grows. Qed.
Hint Resolve grows_finish_txn : keeps.

Lemma grows_btree_txn_put bt_null txn key data :
  respects file_grows (btree_txn_put SHA256 bt_null txn key data).
Proof. unfold btree_txn_put, put_target. grows. Qed.

Lemma grows_btree_txn_del bt_null txn key wd :
  respects file_grows (btree_txn_del SHA256 rebalance bt_null txn key wd).
Proof. unfold btree_txn_del. grows. Qed.

Lemma grows_btree_write_header blk : respects file_grows (btree_write_header blk).
Proof. unfold btree_write_header. grows. Qed.
Lemma keeps_btree_read_header : respects (same file_state) btree_read_header.
Proof. unfold btree_read_header. keeps. Qed.
Hint Resolve grows_btree_write_header keeps_btree_read_header : keeps.

Lemma grows_btree_open_fd blk : respects file_grows (btree_open_fd SHA256 blk).
Proof. unfold btree_open_fd. grows. Qed.

End Grows.

(** The file is only appended to: opening a database, a commit, and a
    put or a delete, also one that commits by itself, leave every page
    the file held where it was. *)
Theorem file_is_append_only (SHA256 : list Z -> bytes) (s s' : btree) :
  (forall st_blksize r,
     btree_open_fd SHA256 st_blksize s = Some (r, s') ->
     bt_file s `prefix_of` bt_file s') /\
  (forall txn r,
     btree_txn_commit SHA256 txn s = Some (r, s') ->
     bt_file s `prefix_of` bt_file s') /\
  (forall bt_null txn key data r,
     btree_txn_put SHA256 bt_null txn key data s = Some (r, s') ->
     bt_file s `prefix_of` bt_file s') /\
  (forall bt_null txn key want_data r,
     btree_txn_del SHA256 rebalance bt_null txn key want_data s = Some (r, s') ->
     bt_file s `prefix_of` bt_file s').
Proof.
  repeat split.
  - intros blk r H. exact (grows_btree_open_fd SHA256 blk s r s' H).
  - intros txn r H. exact (grows_btree_txn_commit SHA256 txn s r s' H).
  - intros bt_null txn key data r H.
    exact (grows_btree_txn_put SHA256 bt_null txn key data s r s' H).
  - intros bt_null txn key wd r H.
    exact (grows_btree_txn_del SHA256 bt_null txn key wd s r s' H).
Qed.

(** A put that commits by itself, and a delete that does, on
    [one_key]. *)
Lemma file_is_append_only_witness :
  bt_file one_key `prefix_of`
    bt_file (Scenario.state_after
               (btree_txn_put Scenario.no_digest false None (Scenario.key "a")
                  (Scenario.value "1" 3)) one_key) /\
  bt_file one_key `prefix_of`
    bt_file (Scenario.state_after
               (btree_txn_del Scenario.no_digest rebalance false None (Scenario.key "k") false)
               one_key).
Proof.
  split.
  - apply (proj1 (proj2 (proj2 (file_is_append_only Scenario.no_digest one_key _)))
             false None (Scenario.key "a") (Scenario.value "1" 3) BT_SUCCESS).
    vm_compute. reflexivity.
  - apply (proj2 (proj2 (proj2 (file_is_append_only Scenario.no_digest one_key _)))
             false None (Scenario.key "k") false (BT_SUCCESS, [])).
    vm_compute. reflexivity.
Defined.

End FileFacts.

Module CountFacts.
Import FrameFacts.

Lemma hoare_ret {A} (P : btree -> Prop) (a : A) (Q : A -> btree -> Prop) :
  (forall s, P s -> Q a s) -> hoare P (ret a) Q.
Proof. intros H s a' s' HP [= <- <-]. now apply H. Qed.

Lemma hoare_bind {A B} (P : btree -> Prop) (m : M A) (Q1 : A -> btree -> Prop)
    (k : A -> M B) (Q : B -> btree -> Prop) :
  hoare P m Q1 -> (forall a, hoare (Q1 a) (k a) Q) -> hoare P (bind m k) Q.
Proof.
  intros Hm Hk s b s' HP H. unfold bind in H.
  destruct (m s) as [[a s1]|] eqn:E; [|discriminate].
  eapply Hk; [eapply Hm; eassumption | eassumption].
Qed.

Lemma hoare_bind_ret {A B} (P : btree -> Prop) (a : A) (k : A -> M B)
    (Q : B -> btree -> Prop) :
  hoare P (k a) Q -> hoare P (bind (ret a) k) Q.
Proof. intros Hk s b s' HP H. exact (Hk s b s' HP H). Qed.

Lemma hoare_conseq {A} (P P' : btree -> Prop) (m : M A) (Q Q' : A -> btree -> Prop) :
  hoare P' m Q' -> (forall s, P s -> P' s) -> (forall a s, Q' a s -> Q a s) ->
  hoare P m Q.
Proof. intros H HP HQ s a s' Hs Hr. eapply HQ, H; eauto. Qed.

(** A call that leaves a part of the state as it is keeps what is known
    of that part. *)
Lemma hoare_keeps {A T} (proj : btree -> T) (m : M A) (I : T -> Prop) :
  respects (same proj) m ->
  hoare (fun s => I (proj s)) m (fun _ s => I (proj s)).
Proof. intros H s a s' HP Hr. apply H in Hr. unfold same in Hr. now rewrite Hr. Qed.

Lemma hoare_bind_keeps {A B T} (proj : btree -> T) (m : M A) (I : T -> Prop)
    (k : A -> M B) (Q : B -> btree -> Prop) :
  respects (same proj) m ->
  (forall a, hoare (fun s => I (proj s)) (k a) Q) ->
  hoare (fun s => I (proj s)) (bind m k) Q.
Proof.
  intros Hm Hk. eapply hoare_bind; [apply (hoare_keeps proj m I Hm)|].
  intros a. apply Hk.
Qed.

Lemma entries_ignores_objects : ignores_objects entries_count.
Proof. split; reflexivity. Qed.

#[local] Hint Resolve entries_ignores_objects : keeps.

Section Counting.

Variable SHA256 : list Z -> bytes.
Variable e : Z.

Local Abbreviation at_e := (fun s => entries_count s = e).

(** A step over a call that leaves the count of entries as it is. *)
Ltac skip x :=
  lazymatch goal with
  | |- hoare _ (bind _ _) _ =>
      apply (hoare_bind_keeps entries_count _ (fun v => v = e)); [solve [keeps]|]; intros x
  end.

Lemma finish_open_counts (I : Z -> Prop) txn rc :
  hoare (fun s => I (entries_count s)) (finish_txn SHA256 false txn rc)
        (fun r s => r = rc /\ I (entries_count s)).
Proof.
  unfold finish_txn. apply hoare_bind_ret.
  eapply hoare_bind; [apply (hoare_keeps entries_count _ I); keeps|].
  intros ?. apply hoare_ret. auto.
Qed.

Lemma put_counts bt_null t key data :
  hoare at_e (btree_txn_put SHA256 bt_null (Some t) key data)
    (fun rc s => entries_count s = if rc =? BT_SUCCESS then u64 (e + 1) else e).
Proof.
  unfold btree_txn_put. skip rd.
  destruct rd; [skip u; apply hoare_ret; auto|].
  destruct (bt_null && bool_decide (Some t = None)); [skip u; apply hoare_ret; auto|].
  destruct ((bv_size key =? 0) || (MAXKEYSIZE <? bv_size key));
    [skip u; apply hoare_ret; auto|].
  apply hoare_bind_ret. cbv beta iota.
  skip ps.
  apply (hoare_bind _ _ (fun tgt s => entries_count s = e /\
           match tgt with inl rc => rc <> BT_SUCCESS | inr _ => True end)).
  { unfold put_target. skip r. skip en.
    destruct (r.1.1 =? BT_SUCCESS) eqn:E.
    - skip mp. skip m. skip fnd. destruct fnd as [[exact ki]|].
      + skip u. apply hoare_ret. auto.
      + apply hoare_ret. auto.
    - destruct (en =? ENOENT).
      + skip mp. skip m. skip u. skip u'. apply hoare_ret. auto.
      + apply hoare_ret. intros s Hs. split; [assumption|].
        apply Z.eqb_neq in E. exact E. }
  intros [rc|[mp ki]].
  - eapply hoare_conseq.
    + apply (finish_open_counts (fun v => v = e /\ rc <> BT_SUCCESS)).
    + intros s [H1 H2]. auto.
    + intros r' s (-> & H1 & H2). cbv beta.
      now rewrite (proj2 (Z.eqb_neq rc BT_SUCCESS) H2).
  - eapply hoare_conseq with (P' := at_e);
      [|intros s [H _]; exact H | intros a s H; exact H].
    skip m. skip rc. destruct (rc =? BT_SUCCESS) eqn:E; cbn [negb].
    + eapply hoare_bind with (Q1 := fun _ s => entries_count s = u64 (e + 1)).
      { intros s [] s' Hs [= <-]. cbn. unfold entries_count in Hs. now rewrite Hs. }
      intros ?. eapply hoare_conseq.
      * apply (finish_open_counts (fun v => v = u64 (e + 1))).
      * auto.
      * intros r' s (-> & H). cbv beta. now rewrite E.
    + skip u. eapply hoare_conseq.
      * apply (finish_open_counts (fun v => v = e)).
      * auto.
      * intros r' s (-> & H). cbv beta. now rewrite E.
Qed.

Lemma del_counts bt_null t key want_data :
  hoare at_e (btree_txn_del SHA256 rebalance bt_null (Some t) key want_data)
    (fun r s => (r.1 = BT_SUCCESS -> entries_count s = u64 (e - 1)) /\
                (entries_count s = e \/ entries_count s = u64 (e - 1))).
Proof.
  unfold btree_txn_del. skip rd.
  destruct rd; [skip u; apply hoare_ret; intros; split; [discriminate|auto]|].
  destruct (bt_null && bool_decide (Some t = None));
    [skip u; apply hoare_ret; intros; split; [discriminate|auto]|].
  destruct ((bv_size key =? 0) || (MAXKEYSIZE <? bv_size key));
    [skip u; apply hoare_ret; intros; split; [discriminate|auto]|].
  apply hoare_bind_ret. cbv beta iota.
  skip r.
  apply (hoare_bind _ _ (fun res s =>
           (res.1 = BT_SUCCESS -> entries_count s = u64 (e - 1)) /\
           (entries_count s = e \/ entries_count s = u64 (e - 1)))).
  { destruct (r.1.1 =? BT_SUCCESS) eqn:E; cbn [negb].
    2:{ apply hoare_ret. intros s Hs. cbn. split; [|auto].
        intros H. apply Z.eqb_neq in E. contradiction. }
    skip mp. skip m. skip fnd.
    assert (hoare at_e (set_errno ENOENT;;; ret (BT_FAIL, []))
              (fun (res : Z * bytes) s =>
                 (res.1 = BT_SUCCESS -> entries_count s = u64 (e - 1)) /\
                 (entries_count s = e \/ entries_count s = u64 (e - 1)))) as Hno.
    { skip u. apply hoare_ret. intros; split; [discriminate|auto]. }
    destruct fnd as [[[] ki]|]; try exact Hno.
    skip leaf. skip rdd. destruct (rdd.1 =? BT_SUCCESS) eqn:E1; cbn [negb].
    2:{ apply hoare_ret. intros s Hs. split; [|auto].
        intros H. apply Z.eqb_neq in E1. contradiction. }
    skip u.
    eapply hoare_bind with (Q1 := fun _ s => entries_count s = u64 (e - 1)).
    { intros s [] s' Hs [= <-]. cbn. unfold entries_count in Hs. now rewrite Hs. }
    intros ?.
    eapply hoare_bind; [apply (hoare_keeps entries_count _ (fun v => v = u64 (e - 1))); keeps|].
    intros rc. cbv beta.
    eapply hoare_bind; [apply (hoare_keeps entries_count _ (fun v => v = u64 (e - 1))); keeps|].
    intros ?. apply hoare_ret. intros s Hs. cbv beta. auto. }
  intros res.
  eapply hoare_bind;
    [apply (finish_open_counts (fun v => (res.1 = BT_SUCCESS -> v = u64 (e - 1)) /\
                                         (v = e \/ v = u64 (e - 1))))|].
  intros rc. apply hoare_ret. intros s (-> & H). exact H.
Qed.

End Counting.

(** The count of entries follows the calls, not the keys: inside a
    transaction a put that returns [BT_SUCCESS] adds one to the count,
    whether the key was there or not, and a put that fails leaves it; a
    delete that returns [BT_SUCCESS] takes one off. *)
Theorem entries_count_follows_calls (SHA256 : list Z -> bytes) (s s' : btree) :
  (forall bt_null t key data rc,
     btree_txn_put SHA256 bt_null (Some t) key data s = Some (rc, s') ->
     entries_count s' =
     if rc =? BT_SUCCESS then u64 (entries_count s + 1) else entries_count s) /\
  (forall bt_null t key want_data r,
     btree_txn_del SHA256 rebalance bt_null (Some t) key want_data s = Some (r, s') ->
     r.1 = BT_SUCCESS -> entries_count s' = u64 (entries_count s - 1)).
Proof.
  split.
  - intros bt_null t key data rc H.
    exact (put_counts SHA256 (entries_count s) bt_null t key data s rc s' eq_refl H).
  - intros bt_null t key wd r H Hr.
    exact (proj1 (del_counts SHA256 (entries_count s) bt_null t key wd s r s' eq_refl H) Hr).
Qed.

(** The key of [one_key] put again inside a transaction, and deleted
    inside a transaction. *)
Lemma entries_count_follows_calls_witness :
  entries_count (Scenario.state_after
                   (btree_txn_put Scenario.no_digest false (Some 1%nat) (Scenario.key "k")
                      (Scenario.value "v" 3)) one_key_writing) =
  u64 (entries_count one_key_writing + 1) /\
  entries_count (Scenario.state_after
                   (btree_txn_del Scenario.no_digest rebalance false (Some 1%nat)
                      (Scenario.key "k") false) one_key_writing) =
  u64 (entries_count one_key_writing - 1).
Proof.
  split.
  - apply (proj1 (entries_count_follows_calls Scenario.no_digest one_key_writing _)
             false 1%nat (Scenario.key "k") (Scenario.value "v" 3) BT_SUCCESS).
    vm_compute. reflexivity.
  - apply (proj2 (entries_count_follows_calls Scenario.no_digest one_key_writing _)
             false 1%nat (Scenario.key "k") false (BT_SUCCESS, [])).
    + vm_compute. reflexivity.
    + reflexivity.
Defined.

End CountFacts.

Module NodeFacts.
Import Cmp CmpFacts OrderFacts PrefixFacts SearchFacts StateFacts SepFacts.

Lemma gt_irrefl (a : bytes) : ~ gt a a.
Proof. intros (r & H & Hr). rewrite memncmp_refl in H. injection H as <-. lia. Qed.

Lemma mapM_lookup {A B} (f : A -> option B) (l : list A) (k : list B) (i : nat) :
  mapM f l = Some k -> k !! i = l !! i ≫= f.
Proof.
  intros H. apply mapM_Some in H.
  revert i. induction H as [|x y l k Hxy H IH]; intros [|i]; simpl; auto.
Qed.

Lemma mapM_length {A B} (f : A -> option B) (l : list A) (k : list B) :
  mapM f l = Some k -> length k = length l.
Proof. intros H. apply mapM_Some in H. symmetry. eapply Forall2_length; eauto. Qed.

Section Holds.

Variables (m : mpage) (ns : list node) (ks : list bytes).
Hypothesis Hholds : leaf_holds m ns ks.

Lemma holds_node (i : Z) : 0 <= i -> NODEPTR m i = ns !! Z.to_nat i.
Proof.
  intros Hi. destruct Hholds as (Hs & _ & _).
  unfold NODEPTR, NODEPTRP. rewrite (proj2 (Z.leb_le 0 i) Hi), Hs, list_lookup_fmap.
  destruct (ns !! Z.to_nat i); reflexivity.
Qed.

Lemma holds_stored_key (i : Z) : 0 <= i -> stored_key m i = ks !! Z.to_nat i.
Proof.
  intros Hi. destruct Hholds as (_ & _ & Hk).
  unfold stored_key. rewrite (holds_node i Hi). symmetry. now apply mapM_lookup.
Qed.

Lemma holds_length : length ks = length ns.
Proof. destruct Hholds as (_ & _ & Hk). now apply mapM_length in Hk. Qed.

Lemma holds_keys (i : Z) :
  IS_LEAF m = true ->
  search_low m <= i < NUMKEYS m -> exists ki, stored_key m i = Some ki.
Proof.
  intros Hl Hi. unfold search_low in Hi. rewrite Hl in Hi.
  rewrite holds_stored_key by lia. apply lookup_lt_is_Some_2.
  rewrite holds_length. destruct Hholds as (_ & Hn & _). lia.
Qed.

Lemma holds_increasing : increasing ks -> keys_increasing m.
Proof.
  intros Hinc i j ki kj Hij Hj Hki Hkj.
  assert (0 <= search_low m) by (unfold search_low; destruct (IS_LEAF m); lia).
  rewrite holds_stored_key in Hki, Hkj by lia.
  apply (Hinc (Z.to_nat i) (Z.to_nat j)); auto. lia.
Qed.

End Holds.

(** A key that is on a page whose keys increase is found where it is. *)
Lemma search_present (m : mpage) (k : bytes) (i : Z) :
  (forall j, search_low m <= j < NUMKEYS m -> exists kj, stored_key m j = Some kj) ->
  keys_increasing m ->
  search_low m <= i < NUMKEYS m -> stored_key m i = Some k ->
  btree_search_node m (mkval (mp_prefix m ++ k)) = Some (Some (true, i)).
Proof.
  intros Hkeys Hinc Hi Hk.
  assert (0 <= search_low m) by (unfold search_low; destruct (IS_LEAF m); lia).
  destruct (search_node_loop_spec m k Hkeys Hinc (S (Z.to_nat (NUMKEYS m)))
              (search_low m) (NUMKEYS m - 1) 0 0)
    as (i' & rc & Hloop & Hi' & ki & Hki & Hcmp & Hbelow & Habove);
    try (intros; lia).
  assert (i' = i /\ rc = 0) as [-> ->].
  { destruct (Z.lt_trichotomy i i') as [Hlt|[->|Hgt]].
    - exfalso. apply (gt_irrefl k). apply (Hbelow i k); auto. lia.
    - split; [reflexivity|]. rewrite Hk in Hki. injection Hki as <-.
      rewrite memncmp_refl in Hcmp. congruence.
    - exfalso. apply (gt_irrefl k). apply (Habove i k); auto. lia. }
  unfold btree_search_node. fold (search_low m). rewrite Hloop. reflexivity.
Qed.

Lemma increasing_insert (ks : list bytes) (k : bytes) (indx : nat) :
  increasing ks -> (indx <= length ks)%nat ->
  (forall j kj, (j < indx)%nat -> ks !! j = Some kj -> gt k kj) ->
  (forall j kj, (indx <= j)%nat -> ks !! j = Some kj -> gt kj k) ->
  increasing (take indx ks ++ k :: drop indx ks).
Proof.
  intros Hinc Hle Hb Ha i j ki kj Hij Hi Hj.
  assert (length (take indx ks) = indx) as Hlt by (rewrite length_take; lia).
  assert (forall x kx, (take indx ks ++ k :: drop indx ks) !! x = Some kx ->
            (x < indx)%nat /\ ks !! x = Some kx \/
            x = indx /\ kx = k \/
            (indx < x)%nat /\ ks !! (x - 1)%nat = Some kx) as Hcase.
  { intros x kx Hx. destruct (Nat.lt_trichotomy x indx) as [H|[->|H]].
    - left. split; [assumption|]. rewrite lookup_app_l in Hx by lia.
      now rewrite lookup_take_lt in Hx by lia.
    - right; left. split; [reflexivity|].
      rewrite lookup_app_r in Hx by lia. rewrite Hlt, Nat.sub_diag in Hx.
      simpl in Hx. congruence.
    - right; right. split; [assumption|].
      rewrite lookup_app_r in Hx by lia. rewrite Hlt in Hx.
      destruct (x - indx)%nat as [|d] eqn:E; [lia|]. simpl in Hx.
      rewrite lookup_drop in Hx. replace (x - 1)%nat with (indx + d)%nat by lia.
      exact Hx. }
  destruct (Hcase i ki Hi) as [[Hi1 Hi2]|[[-> ->]|[Hi1 Hi2]]];
    destruct (Hcase j kj Hj) as [[Hj1 Hj2]|[[-> ->]|[Hj1 Hj2]]]; try lia.
  - apply (Hinc i j); auto.
  - apply (Hb i); auto.
  - apply (Hinc i (j - 1)%nat); auto. lia.
  - apply (Ha (j - 1)%nat); auto. lia.
  - apply (Hinc (i - 1)%nat (j - 1)%nat); auto. lia.
Qed.

Lemma small_u64 (x : Z) : 0 <= x < 2 ^ 16 -> u64 x = x.
Proof. intros H. unfold u64. apply Z.mod_small. lia. Qed.

Lemma small_u32 (x : Z) : 0 <= x < 2 ^ 16 -> u32 x = x.
Proof. intros H. unfold u32. apply Z.mod_small. lia. Qed.

Lemma small_u16 (x : Z) : 0 <= x < 2 ^ 16 -> u16 x = x.
Proof. intros H. unfold u16. apply Z.mod_small. lia. Qed.

Lemma add_node_inline_leaf (s : btree) (mp : nat) (m : mpage) (ns : list node)
    (indx : nat) (key data : btval) (kb db : bytes) (pgno : Z) :
  bt_heap s !! mp = Some m -> IS_LEAF m = true ->
  pg_slots (mp_page m) = map Written ns -> NUMKEYS m = Z.of_nat (length ns) ->
  (indx <= length ns)%nat ->
  val_bytes key = Some kb -> val_bytes data = Some db ->
  bv_size key <= MAXKEYSIZE ->
  bv_size data < psize (bt_head_ s) / BT_MINKEYS ->
  0 <= lower (mp_page m) -> upper (mp_page m) < 2 ^ 16 ->
  NODESIZE + bv_size key + bv_size data + sizeof_indx_t
    <= upper (mp_page m) - lower (mp_page m) ->
  btree_add_node mp (Z.of_nat indx) (Some key) (Some data) pgno 0 s =
  Some (BT_SUCCESS,
        set_bt_heap (fun h => <[mp := leaf_after_add m ns indx key data kb db]> h) s).
Proof.
  intros Hm Hleaf Hs Hn Hi Hkb Hdb Hkl Hinl Hlo Hup Hroom.
  destruct (val_bytes_spec _ _ Hkb) as [Hks _].
  destruct (val_bytes_spec _ _ Hdb) as [Hds _].
  unfold NODESIZE, sizeof_indx_t, MAXKEYSIZE in *.
  assert (0 <= bv_size key) by lia. assert (0 <= bv_size data) by lia.
  unfold btree_add_node, bind.
  rewrite (mp_get_eq _ _ _ Hm). cbn [the_psize gets]. rewrite Hleaf. cbn [liftO ret].
  change (F_ISSET 0 F_BIGDATA) with false. cbv iota.
  rewrite (proj2 (Z.leb_gt _ _) Hinl). cbn [ret fst snd].
  rewrite (mp_get_eq _ _ _ Hm).
  unfold NODESIZE, sizeof_indx_t, SIZELEFT.
  rewrite (small_u64 (7 + bv_size key)) by lia.
  rewrite (small_u64 (7 + bv_size key + bv_size data)) by lia.
  rewrite (small_u64 (7 + bv_size key + bv_size data + 2)) by lia.
  rewrite (small_u16 (upper (mp_page m) - lower (mp_page m))) by lia.
  rewrite (proj2 (Z.ltb_ge _ _)) by lia.
  rewrite Hkb. cbn [liftO ret]. rewrite Hleaf. cbn [liftO ret].
  change (F_ISSET 0 F_BIGDATA) with false. cbv iota. rewrite Hdb. cbn [liftO ret].
  rewrite (small_u32 (bv_size data)) by lia.
  rewrite (small_u16 (bv_size key)) by lia.
  rewrite (small_u16 (upper (mp_page m) - (7 + bv_size key + bv_size data))) by lia.
  change (0 mod 256) with 0.
  unfold store_slot. rewrite Hs, length_map, Hn.
  rewrite (proj2 (Z.ltb_ge _ _)) by lia.
  rewrite (proj2 (Z.leb_le _ _)) by lia.
  rewrite (proj2 (Z.leb_le _ _)) by lia.
  cbn [liftO ret]. rewrite (mp_upd_eq _ _ _ _ Hm). unfold ret.
  f_equal. f_equal. unfold set_bt_heap. f_equal.
  apply (f_equal (fun h => <[mp := h]> (bt_heap s))).
  unfold leaf_after_add.
  destruct m as [par pi pfx pg pgn ref dirty]. cbn in *.
  destruct pg as [pn fl lo up nx body]. cbn in *.
  unfold set_mp_page, set_pg_slots, set_upper, set_lower, set_pg_body. cbn.
  rewrite (small_u16 (lo + 2)) by lia.
  f_equal. f_equal. rewrite Nat2Z.id.
  replace (Z.to_nat (Z.of_nat (length ns) - Z.of_nat indx)) with (length ns - indx)%nat by lia.
  replace (Z.to_nat (Z.of_nat (length ns) + 1)) with (S (length ns)) by lia.
  rewrite <- !fmap_drop.
  rewrite (take_ge (Written <$> drop indx ns))
    by (rewrite length_fmap, length_drop; lia).
  rewrite <- fmap_take.
  rewrite (drop_ge ns (S (length ns))) by lia.
  change (map Written) with (fmap (M := list) Written).
  rewrite fmap_app, fmap_cons. simpl. now rewrite app_nil_r.
Qed.

Lemma val_bytes_mkval (l : bytes) : val_bytes (mkval l) = Some l.
Proof.
  unfold val_bytes, mkval. cbn [bv_size bv_data].
  rewrite (proj2 (andb_true_iff _ _)) by (split; apply Z.leb_le; lia).
  now rewrite Nat2Z.id, firstn_all.
Qed.

Lemma read_data_inline (s : btree) (mp : nat) (m : mpage) (n : node) (db : bytes) :
  bt_heap s !! mp = Some m ->
  F_ISSET (n_flags n) F_BIGDATA = false ->
  val_bytes (Btval (NODEDATA n) (NODEDSZ n)) = Some db ->
  exists s', btree_read_data (Some mp) n s = Some ((BT_SUCCESS, db), s').
Proof.
  intros Hm Hf Hd. unfold btree_read_data, bind. cbn [the_psize gets].
  rewrite Hf. cbn [negb]. rewrite Hd. cbn [liftO ret].
  destruct (0 <? NODEDSZ n).
  - rewrite (mp_upd_eq _ _ _ _ Hm). eexists. reflexivity.
  - eexists. reflexivity.
Qed.

(** Insert and lookup on a leaf.  On a leaf whose keys increase,
    [btree_add_node] with room on the page, called for a key and inline
    data at the slot where the key belongs, succeeds and keeps the keys
    increasing; the binary search then finds the new key at that slot,
    [btree_read_data] returns its data, and every key the page held is
    still found, with the node it had. *)
Theorem leaf_insert_then_search
    (s : btree) (mp : nat) (m : mpage) (ns : list node) (ks : list bytes)
    (indx : nat) (k : bytes) (data : btval) (db : bytes) :
  bt_heap s !! mp = Some m -> IS_LEAF m = true ->
  leaf_holds m ns ks -> increasing ks ->
  (indx <= length ks)%nat ->
  (forall j kj, (j < indx)%nat -> ks !! j = Some kj -> gt k kj) ->
  (forall j kj, (indx <= j)%nat -> ks !! j = Some kj -> gt kj k) ->
  Z.of_nat (length k) <= MAXKEYSIZE ->
  val_bytes data = Some db ->
  bv_size data < psize (bt_head_ s) / BT_MINKEYS ->
  0 <= lower (mp_page m) -> upper (mp_page m) < 2 ^ 16 ->
  NODESIZE + Z.of_nat (length k) + bv_size data + sizeof_indx_t
    <= upper (mp_page m) - lower (mp_page m) ->
  exists s' m' n,
    btree_add_node mp (Z.of_nat indx) (Some (mkval k)) (Some data) 0 0 s =
      Some (BT_SUCCESS, s') /\
    bt_heap s' !! mp = Some m' /\
    leaf_holds m' (take indx ns ++ n :: drop indx ns) (take indx ks ++ k :: drop indx ks) /\
    increasing (take indx ks ++ k :: drop indx ks) /\
    btree_search_node m' (mkval (mp_prefix m' ++ k)) = Some (Some (true, Z.of_nat indx)) /\
    NODEPTR m' (Z.of_nat indx) = Some n /\
    (exists s'', btree_read_data (Some mp) n s' = Some ((BT_SUCCESS, db), s'')) /\
    (forall j kj nj, ks !! j = Some kj -> ns !! j = Some nj ->
       exists j', btree_search_node m' (mkval (mp_prefix m' ++ kj)) = Some (Some (true, j')) /\
                  NODEPTR m' j' = Some nj).
Proof.
  intros Hm Hleaf Hholds Hinc Hi Hbelow Habove Hkl Hdb Hinl Hlo Hup Hroom.
  pose proof (holds_length m ns ks Hholds) as Hlen.
  destruct Hholds as (Hs & Hn & Hk).
  destruct (val_bytes_spec _ _ Hdb) as [Hds _].
  set (n := Node (bv_size data) (bv_size (mkval k)) 0 (k ++ db)).
  set (m' := leaf_after_add m ns indx (mkval k) data k db).
  set (ns' := take indx ns ++ n :: drop indx ns).
  set (ks' := take indx ks ++ k :: drop indx ks).
  assert (mp < length (bt_heap s))%nat as Hmp by (eapply lookup_lt_Some; eauto).
  assert (node_key n = Some k) as Hnk.
  { unfold node_key, NODEKEY, n, val_bytes, mkval. cbn [ksize n_data bv_size bv_data].
    rewrite length_app.
    rewrite (proj2 (andb_true_iff _ _)) by (split; apply Z.leb_le; lia).
    now rewrite Nat2Z.id, take_app_length. }
  assert (leaf_holds m' ns' ks') as Hholds'.
  { split; [|split].
    - reflexivity.
    - unfold NUMKEYS, NUMKEYSP in *. subst m'. unfold leaf_after_add.
      destruct m as [par pi pfx [pn fl lo up nx body] pgn ref dirty]. cbn in *.
      rewrite Z.shiftr_div_pow2 in * by lia. change (2 ^ 1) with 2 in *.
      subst ns'. rewrite length_app, length_take. cbn [length]. rewrite length_drop.
      replace (lo + 2 - PAGEHDRSZ) with (lo - PAGEHDRSZ + 1 * 2) by lia.
      rewrite Z.div_add by lia. lia.
    - apply mapM_Some. apply mapM_Some in Hk. subst ns' ks'.
      apply Forall2_app; [now apply Forall2_take|].
      constructor; [assumption | now apply Forall2_drop]. }
  assert (increasing ks') as Hinc' by (now apply increasing_insert).
  assert (IS_LEAF m' = true) as Hleaf'.
  { subst m'. unfold leaf_after_add, IS_LEAF in *.
    destruct m as [par pi pfx [pn fl lo up nx body] pgn ref dirty]. exact Hleaf. }
  assert (mp_prefix m' = mp_prefix m) as Hpfx.
  { subst m'. unfold leaf_after_add. destruct m. reflexivity. }
  assert (length ks' = S (length ks)) as Hlen'.
  { subst ks'. rewrite length_app, length_take. cbn [length]. rewrite length_drop. lia. }
  assert (NUMKEYS m' = Z.of_nat (S (length ks))) as Hn'.
  { destruct Hholds' as (_ & H & _). rewrite H.
    rewrite <- (holds_length m' ns' ks'); [now rewrite Hlen'|].
    split; [reflexivity|]. split; [exact H|].
    apply mapM_Some. apply mapM_Some in Hk. subst ns' ks'.
    apply Forall2_app; [now apply Forall2_take|].
    constructor; [assumption | now apply Forall2_drop]. }
  assert (forall j kj, (j < length ks')%nat -> ks' !! j = Some kj ->
            btree_search_node m' (mkval (mp_prefix m' ++ kj)) =
            Some (Some (true, Z.of_nat j))) as Hfind.
  { intros j kj Hj Hkj. apply search_present.
    - intros x Hx. now apply (holds_keys m' ns' ks').
    - now apply (holds_increasing m' ns' ks').
    - unfold search_low. rewrite Hleaf', Hn'. lia.
    - rewrite (holds_stored_key m' ns' ks') by (auto; lia). now rewrite Nat2Z.id. }
  assert (ks' !! indx = Some k) as Hkx.
  { subst ks'. rewrite lookup_app_r by (rewrite length_take; lia).
    rewrite length_take. replace (indx - indx `min` length ks)%nat with O by lia.
    reflexivity. }
  assert (ns' !! indx = Some n) as Hnx.
  { subst ns'. rewrite lookup_app_r by (rewrite length_take; lia).
    rewrite length_take. replace (indx - indx `min` length ns)%nat with O by lia.
    reflexivity. }
  exists (set_bt_heap (fun h => <[mp := m']> h) s), m', n.
  split; [|split; [|split; [|split; [|split; [|split; [|split]]]]]].
  - apply add_node_inline_leaf; auto; try lia; try apply val_bytes_mkval; cbn; lia.
  - cbn. now apply list_lookup_insert_eq.
  - exact Hholds'.
  - exact Hinc'.
  - apply Hfind; [lia | exact Hkx].
  - rewrite (holds_node m' ns' ks') by (auto; lia). now rewrite Nat2Z.id.
  - apply (read_data_inline _ mp m').
    + cbn. now apply list_lookup_insert_eq.
    + reflexivity.
    + unfold NODEDATA, NODEDSZ, n. cbn [ksize n_data n_p bv_size mkval].
      rewrite Nat2Z.id, drop_app_length. unfold val_bytes. cbn [bv_size bv_data].
      rewrite (proj2 (andb_true_iff _ _)) by (split; apply Z.leb_le; lia).
      rewrite Hds, Nat2Z.id. now rewrite firstn_all.
  - intros j kj nj Hkj Hnj.
    assert (j < length ks)%nat by (eapply lookup_lt_Some; eauto).
    destruct (Nat.lt_ge_cases j indx) as [Hlt|Hge].
    + exists (Z.of_nat j). split.
      * apply Hfind; [lia|]. subst ks'. rewrite lookup_app_l by (rewrite length_take; lia).
        now rewrite lookup_take_lt by lia.
      * rewrite (holds_node m' ns' ks') by (auto; lia). rewrite Nat2Z.id.
        subst ns'. rewrite lookup_app_l by (rewrite length_take; lia).
        now rewrite lookup_take_lt by lia.
    + exists (Z.of_nat (S j)). split.
      * apply Hfind; [lia|]. subst ks'. rewrite lookup_app_r by (rewrite length_take; lia).
        rewrite length_take.
        replace (S j - indx `min` length ks)%nat with (S (j - indx)) by lia.
        rewrite lookup_cons_ne_0 by lia. cbn [Nat.pred]. rewrite lookup_drop.
        now replace (indx + (j - indx))%nat with j by lia.
      * rewrite (holds_node m' ns' ks') by (auto; lia). rewrite Nat2Z.id.
        subst ns'. rewrite lookup_app_r by (rewrite length_take; lia).
        rewrite length_take.
        replace (S j - indx `min` length ns)%nat with (S (j - indx)) by lia.
        rewrite lookup_cons_ne_0 by lia. cbn [Nat.pred]. rewrite lookup_drop.
        now replace (indx + (j - indx))%nat with j by lia.
Qed.

(** The key [ab] with three bytes of data, added between [a] and [b]. *)
Lemma leaf_insert_then_search_witness :
  exists s' m' n,
    btree_add_node 0 (Z.of_nat 1) (Some (mkval [ "a"; "b" ]%byte))
      (Some (Scenario.value "v" 3)) 0 0 leaf_ab = Some (BT_SUCCESS, s') /\
    bt_heap s' !! O = Some m' /\
    leaf_holds m'
      (take 1 [Scenario.leaf_node "a" 1; Scenario.leaf_node "b" 1] ++
       n :: drop 1 [Scenario.leaf_node "a" 1; Scenario.leaf_node "b" 1])
      (take 1 [[ "a" ]; [ "b" ]] ++ [ "a"; "b" ] :: drop 1 [[ "a" ]; [ "b" ]])%byte /\
    increasing (take 1 [[ "a" ]; [ "b" ]] ++ [ "a"; "b" ] :: drop 1 [[ "a" ]; [ "b" ]])%byte /\
    btree_search_node m' (mkval (mp_prefix m' ++ [ "a"; "b" ]%byte)) =
      Some (Some (true, Z.of_nat 1)) /\
    NODEPTR m' (Z.of_nat 1) = Some n /\
    (exists s'', btree_read_data (Some O) n s' =
                 Some ((BT_SUCCESS, repeat "v"%byte 3), s'')) /\
    (forall j kj nj,
       ([[ "a" ]; [ "b" ]]%byte : list bytes) !! j = Some kj ->
       [Scenario.leaf_node "a" 1; Scenario.leaf_node "b" 1] !! j = Some nj ->
       exists j', btree_search_node m' (mkval (mp_prefix m' ++ kj)) =
                    Some (Some (true, j')) /\
                  NODEPTR m' j' = Some nj).
Proof.
  apply (leaf_insert_then_search leaf_ab O (leaf_object Scenario.two_key_leaf)
           [Scenario.leaf_node "a" 1; Scenario.leaf_node "b" 1]
           [[ "a" ]; [ "b" ]]%byte 1 [ "a"; "b" ]%byte (Scenario.value "v" 3)
           (repeat "v"%byte 3)).
  - reflexivity.
  - reflexivity.
  - split; [|split]; reflexivity.
  - intros i j ki kj Hij Hi Hj.
    assert (j < 2)%nat by (apply lookup_lt_Some in Hj; exact Hj).
    assert (i = 0 /\ j = 1)%nat as [-> ->] by lia.
    injection Hi as <-. injection Hj as <-. exists 1. split; [reflexivity | lia].
  - cbn. lia.
  - intros j kj Hj Hkj. assert (j = 0)%nat as -> by lia. injection Hkj as <-.
    exists 1. split; [reflexivity | lia].
  - intros j kj Hj Hkj.
    assert (j < 2)%nat by (apply lookup_lt_Some in Hkj; exact Hkj).
    assert (j = 1)%nat as -> by lia. injection Hkj as <-.
    exists 1. split; [reflexivity | lia].
  - vm_compute. discriminate.
  - reflexivity.
  - vm_compute. reflexivity.
  - vm_compute. discriminate.
  - vm_compute. reflexivity.
  - vm_compute. discriminate.
Defined.

End NodeFacts.

Module CommitFacts.
Import StateFacts CacheFacts TxnFacts OverflowFacts.

Ltac setters :=
  cbv [set_bt_flags set_bt_head_ set_bt_meta_ set_bt_page_cache set_bt_lru_queue
       set_bt_txn set_bt_ref set_bt_cache_size set_bt_max_cache set_bt_size
       set_bt_heap set_bt_txns set_bt_file set_bt_file_tail set_bt_errno set_bt_now
       bt_flags bt_head_ bt_meta_ bt_page_cache bt_lru_queue bt_txn bt_ref
       bt_cache_size bt_max_cache bt_size bt_heap bt_txns bt_file bt_file_tail
       bt_errno bt_now].

Ltac fields :=
  cbn [set_bt_flags set_bt_head_ set_bt_meta_ set_bt_page_cache set_bt_lru_queue
       set_bt_txn set_bt_ref set_bt_cache_size set_bt_max_cache set_bt_size
       set_bt_heap set_bt_txns set_bt_file set_bt_file_tail set_bt_errno set_bt_now
       bt_flags bt_head_ bt_meta_ bt_page_cache bt_lru_queue bt_txn bt_ref
       bt_cache_size bt_max_cache bt_size bt_heap bt_txns bt_file bt_file_tail
       bt_errno bt_now].

Ltac fields_in H :=
  cbn [set_bt_flags set_bt_head_ set_bt_meta_ set_bt_page_cache set_bt_lru_queue
       set_bt_txn set_bt_ref set_bt_cache_size set_bt_max_cache set_bt_size
       set_bt_heap set_bt_txns set_bt_file set_bt_file_tail set_bt_errno set_bt_now
       bt_flags bt_head_ bt_meta_ bt_page_cache bt_lru_queue bt_txn bt_ref
       bt_cache_size bt_max_cache bt_size bt_heap bt_txns bt_file bt_file_tail
       bt_errno bt_now] in H.

Lemma clean_lookup (h h' : list mpage) (mp : nat) :
  clean <$> h' = clean <$> h ->
  mp_page <$> h' !! mp = mp_page <$> h !! mp /\
  mp_pgno <$> h' !! mp = mp_pgno <$> h !! mp.
Proof.
  intros E. apply (f_equal (fun l => l !! mp)) in E. rewrite !list_lookup_fmap in E.
  destruct (h' !! mp) as [m'|], (h !! mp) as [m|]; cbn in E; try discriminate;
    [|split; reflexivity].
  assert (clean m' = clean m) as E' by congruence.
  destruct m, m'. unfold clean, set_mp_dirty in E'. cbn in E'.
  split; cbn; congruence.
Qed.

Lemma clear_dirty_ok (batch : list nat) : forall s,
  (forall mp, mp ∈ batch -> is_Some (bt_heap s !! mp)) ->
  exists h',
    foldr (fun mp k => mp_upd mp (set_mp_dirty (fun _ => false)) ;;; k) (ret tt) batch s =
      Some (tt, set_bt_heap (fun _ => h') s) /\
    clean <$> h' = clean <$> bt_heap s.
Proof.
  induction batch as [|mp batch IH]; intros s Hin.
  - exists (bt_heap s). split; [destruct s; reflexivity | reflexivity].
  - destruct (Hin mp) as [m Hm]; [left|].
    cbn [foldr]. unfold bind at 1. rewrite (mp_upd_eq _ _ _ _ Hm).
    destruct (IH (set_bt_heap (fun h => <[mp := set_mp_dirty (fun _ => false) m]> h) s))
      as (h' & Hrun & Hcl).
    { intros mp' Hmp'. cbn. apply lookup_lt_is_Some. rewrite length_insert.
      apply lookup_lt_is_Some. apply Hin. now right. }
    exists h'. rewrite Hrun. split; [destruct s; reflexivity|].
    rewrite Hcl. cbn. rewrite list_fmap_insert. apply list_insert_id.
    rewrite list_lookup_fmap, Hm. reflexivity.
Qed.

Lemma commit_write_loop_unfold (fuel : nat) (t : nat) :
  commit_write_loop fuel t =
  (x <- txn_get t ;;
   let q := tx_dirty_queue x in
   let batch := take 64 q in
   match batch with
   | [] => ret true
   | _ =>
       h <- gets bt_heap ;;
       pages <- liftO (mapM (fun mp => mp_page <$> h !! mp) batch) ;;
       written <- file_write pages ;;
       if negb written then ret false
       else
         foldr (fun mp k => mp_upd mp (set_mp_dirty (fun _ => false)) ;;; k) (ret tt)
               batch ;;;
         txn_upd t (set_tx_dirty_queue (fun _ => drop (length batch) q)) ;;;
         if (length q <? 64)%nat then ret true
         else match fuel with O => undefined | S f => commit_write_loop f t end
   end).
Proof. destruct fuel; reflexivity. Qed.

(** [write] and [writev] on a descriptor open for writing, at a page
    boundary. *)
Lemma file_write_ok (s : btree) (pages : list page) :
  F_ISSET (bt_flags s) BT_RDONLY = false -> bt_file_tail s = 0 ->
  file_write pages s = Some (true, set_bt_file (fun f => f ++ pages) s).
Proof.
  intros Hro Htail. unfold file_write, fd_rdonly, bind, gets. rewrite Hro.
  unfold file_append, bind, gets. rewrite Htail. reflexivity.
Qed.

Lemma queue_pages_spec (s : btree) (q : list nat) (pages : list page) :
  queue_pages s q = Some pages <->
  Forall2 (fun mp pg => mp_page <$> bt_heap s !! mp = Some pg) q pages.
Proof. unfold queue_pages. apply mapM_Some. Qed.

Lemma no_dirty_queue (x : btree_txn) :
  tx_dirty_queue x = [] -> set_tx_dirty_queue (fun _ => []) x = x.
Proof. destruct x. cbn. now intros ->. Qed.

Lemma commit_write_loop_ok (fuel : nat) :
  forall (s : btree) (t : nat) (x : btree_txn) (pages : list page),
  bt_txns s !! t = Some x ->
  queue_pages s (tx_dirty_queue x) = Some pages ->
  F_ISSET (bt_flags s) BT_RDONLY = false ->
  bt_file_tail s = 0 ->
  (length (tx_dirty_queue x) < 64 * (fuel + 1))%nat ->
  exists h',
    commit_write_loop fuel t s =
      Some (true, set_bt_txns (fun l => <[t := set_tx_dirty_queue (fun _ => []) x]> l)
                  (set_bt_heap (fun _ => h') (set_bt_file (fun f => f ++ pages) s))) /\
    clean <$> h' = clean <$> bt_heap s.
Proof.
  induction fuel as [|fuel IH]; intros s t x pages Hx Hp Hro Htail Hlen.
  all: rewrite commit_write_loop_unfold; unfold bind at 1; rewrite (txn_get_eq _ _ _ Hx).
  all: cbv zeta; apply queue_pages_spec in Hp.
  all: pose proof (Forall2_length _ _ _ Hp) as Hlp.
  all: destruct (take 64 (tx_dirty_queue x)) as [|mp0 rest] eqn:Hb.
  all: swap 2 3.
  1, 2: assert (tx_dirty_queue x = []) as Hq
          by (revert Hb; destruct (tx_dirty_queue x); [reflexivity | discriminate]).
  1, 2: rewrite Hq in Hp; apply Forall2_nil_inv_l in Hp; subst pages.
  1, 2: exists (bt_heap s); split; [|reflexivity].
  1, 2: rewrite (no_dirty_queue x Hq); destruct s as [fl hd me pc lru tx rf cs mc sz hp txs fi ta er nw]; cbn in Hx; setters.
  1, 2: rewrite app_nil_r, (list_insert_id _ _ _ Hx); reflexivity.
  all: rewrite <- Hb; clear Hb mp0 rest.
  all: unfold bind at 1; cbn [gets].
  all: pose proof (Forall2_take _ _ _ 64 Hp) as Hp1;
       pose proof (Forall2_drop _ _ _ 64 Hp) as Hp2.
  all: apply (proj2 (mapM_Some _ _ _)) in Hp1; unfold bind at 1; rewrite Hp1; cbn [liftO ret].
  all: unfold bind at 1; rewrite (file_write_ok s _ Hro Htail); cbn [negb].
  all: destruct (clear_dirty_ok (take 64 (tx_dirty_queue x))
                   (set_bt_file (fun f => f ++ take 64 pages) s)) as (h1 & Hclr & Hcl1);
       [ intros mp Hmp; apply list_elem_of_lookup in Hmp as [i Hi];
         destruct (Forall2_lookup_l _ _ _ _ _ (Forall2_take _ _ _ 64 Hp) Hi) as (pg & _ & Hpg);
         cbn; destruct (bt_heap s !! mp); [eauto | discriminate] | ].
  all: unfold bind at 1; rewrite Hclr; unfold bind at 1.
  all: rewrite (txn_upd_eq _ t x) by exact Hx.
  all: destruct (length (tx_dirty_queue x) <? 64)%nat eqn:Hlt;
       [ apply Nat.ltb_lt in Hlt | apply Nat.ltb_ge in Hlt ].
  1, 3: exists h1; split; [|exact Hcl1].
  1, 2: rewrite (take_ge pages) by lia.
  1, 2: rewrite (drop_ge (tx_dirty_queue x)) by (rewrite length_take; lia).
  1, 2: destruct s as [fl hd me pc lru tx rf cs mc sz hp txs fi ta er nw]; setters; reflexivity.
  - lia.
  - rewrite length_take, Nat.min_l by lia.
    assert (t < length (bt_txns s))%nat as Ht by (eapply lookup_lt_Some; eauto).
    set (x1 := set_tx_dirty_queue (fun _ => drop 64 (tx_dirty_queue x)) x).
    set (s1 := set_bt_txns _ _).
    destruct (IH s1 t x1 (drop 64 pages)) as (h2 & Hrun & Hcl2).
    + subst s1. cbn. now apply list_lookup_insert_eq.
    + apply queue_pages_spec. subst s1 x1. destruct x; cbn.
      eapply Forall2_impl; [exact Hp2|]. intros mp pg Hpg. cbn in Hpg.
      rewrite <- Hpg. apply (clean_lookup _ _ mp Hcl1).
    + subst s1. exact Hro.
    + subst s1. exact Htail.
    + subst x1. destruct x; cbn in *. rewrite length_drop. lia.
    + exists h2. rewrite Hrun. split.
      * subst s1 x1. destruct s as [fl hd me pc lru tx rf cs mc sz hp txs fi ta er nw].
        destruct x as [xr xn xq xf]. setters.
        cbv [set_tx_dirty_queue tx_root tx_next_pgno tx_dirty_queue tx_flags].
        rewrite list_insert_insert_eq, <- app_assoc, take_drop. reflexivity.
      * rewrite Hcl2. subst s1. exact Hcl1.
Qed.


(** The cache stays consistent when the page objects keep their page
    numbers, and when a page object with a page number that is not cached
    is added. *)
Lemma cache_ok_pgno (s s' : btree) :
  bt_lru_queue s' = bt_lru_queue s -> bt_page_cache s' = bt_page_cache s ->
  mp_pgno <$> bt_heap s' = mp_pgno <$> bt_heap s ->
  cache_ok s = true -> cache_ok s' = true.
Proof.
  intros Hq Hc Hh Hok. apply cache_ok_spec in Hok as [Hnd Hall].
  apply cache_ok_spec. rewrite Hq. split; [exact Hnd|].
  intros mp Hmp. destruct (cache_entry_ok_inv s mp (Hall mp Hmp)) as (m & Hm & Hcm).
  apply (f_equal (fun l => l !! mp)) in Hh. rewrite !list_lookup_fmap, Hm in Hh.
  unfold cache_entry_ok. destruct (bt_heap s' !! mp) as [m'|]; [|discriminate].
  cbn in Hh. injection Hh as Hh. apply bool_decide_eq_true. now rewrite Hc, Hh.
Qed.

Lemma cache_ok_add (s s' : btree) (m : mpage) :
  bt_lru_queue s' = bt_lru_queue s ++ [length (bt_heap s)] ->
  bt_page_cache s' = <[mp_pgno m := length (bt_heap s)]> (bt_page_cache s) ->
  bt_heap s' = bt_heap s ++ [m] ->
  bt_page_cache s !! mp_pgno m = None ->
  cache_ok s = true -> cache_ok s' = true.
Proof.
  intros Hq Hc Hh Hfresh Hok. apply cache_ok_spec in Hok as [Hnd Hall].
  assert (forall mp, mp ∈ bt_lru_queue s -> (mp < length (bt_heap s))%nat) as Hlt.
  { intros mp Hmp. destruct (cache_entry_ok_inv s mp (Hall mp Hmp)) as (m' & Hm' & _).
    eapply lookup_lt_Some; eauto. }
  apply cache_ok_spec. rewrite Hq. split.
  - apply NoDup_app. split; [exact Hnd|]. split; [|apply NoDup_singleton].
    intros mp Hmp Hmp'. apply list_elem_of_singleton in Hmp'. apply Hlt in Hmp. lia.
  - intros mp Hmp. apply elem_of_app in Hmp as [Hmp|Hmp].
    + destruct (cache_entry_ok_inv s mp (Hall mp Hmp)) as (m' & Hm' & Hcm).
      unfold cache_entry_ok. rewrite Hh, lookup_app_l by (now apply Hlt). rewrite Hm'.
      apply bool_decide_eq_true. rewrite Hc, lookup_insert_ne; [exact Hcm|].
      intros E. rewrite E in Hfresh. congruence.
    + apply list_elem_of_singleton in Hmp as ->.
      unfold cache_entry_ok. rewrite Hh, lookup_app_r by lia. rewrite Nat.sub_diag. cbn.
      apply bool_decide_eq_true. rewrite Hc. apply lookup_insert_eq.
Qed.

(** [btree_new_page] in a write transaction whose next page number is not
    cached: the state it leaves. *)
Lemma btree_new_page_eq (s : btree) (t : nat) (x : btree_txn) (flags : Z) :
  bt_txn s = Some t -> bt_txns s !! t = Some x ->
  bt_page_cache s !! tx_next_pgno x = None ->
  let n := length (bt_heap s) in
  let nm := new_mpage (psize (bt_head_ s)) (tx_next_pgno x) flags false in
  let x' := set_tx_next_pgno (fun n => u32 (n + 1)) x in
  btree_new_page flags s =
  Some (n,
    set_bt_txns (fun l => <[t := set_tx_dirty_queue (fun q => q ++ [n]) x']> l)
      (set_bt_heap (fun h => <[n := set_mp_dirty (fun _ => true) nm]> h)
         (set_bt_lru_queue (fun q => q ++ [n])
            (set_bt_cache_size (fun c => u32 (c + 1))
               (set_bt_page_cache (fun c => <[tx_next_pgno x := n]> c)
                  (count_page flags
                     (set_bt_heap (fun h => h ++ [nm])
                        (set_bt_txns (fun l => <[t := x']> l) s)))))))).
Proof.
  cbv zeta. intros Htxn Hx Hfresh.
  assert (t < length (bt_txns s))%nat as Hlt by (eapply lookup_lt_Some; eauto).
  unfold btree_new_page at 1. unfold bind, the_psize, gets, alloc_pgno, bind, bt_txn_ptr.
  rewrite Htxn. cbn [liftO ret]. rewrite (txn_get_eq _ _ _ Hx).
  rewrite (txn_upd_eq _ _ _ _ Hx). cbn [ret].
  unfold mp_new, bind, gets, modify. cbn [ret bt_heap set_bt_txns set_bt_heap].
  unfold mp_get at 1. cbn [bt_heap set_bt_heap set_bt_txns].
  rewrite lookup_app_r by lia. rewrite Nat.sub_diag. cbn [lookup list_lookup liftO ret].
  set (nm := Mpage None 0 [] _ _ 0 false).
  set (s1 := set_bt_heap _ _).
  assert ((if IS_BRANCH nm then modify (set_bt_meta_ (set_m_branch_pages (fun n => u32 (n + 1))))
           else if IS_LEAF nm then modify (set_bt_meta_ (set_m_leaf_pages (fun n => u32 (n + 1))))
           else if IS_OVERFLOW nm
                then modify (set_bt_meta_ (set_m_overflow_pages (fun n => u32 (n + 1))))
                else ret tt) s1 = Some (tt, count_page flags s1)) as Hcnt.
  { unfold count_page, IS_BRANCH, IS_LEAF, IS_OVERFLOW. subst nm. cbn [mp_page pg_flags].
    destruct (F_ISSET flags P_BRANCH), (F_ISSET flags P_LEAF), (F_ISSET flags P_OVERFLOW);
      reflexivity. }
  unfold modify in Hcnt. unfold modify. rewrite Hcnt. clear Hcnt.
  destruct (count_page_frame flags s1) as (Hh & Hc & Ht & Hts & Hhd).
  set (s2 := count_page flags s1) in *.
  assert (bt_heap s2 !! length (bt_heap s) = Some nm) as Hnm.
  { rewrite Hh. subst s1. cbn. rewrite lookup_app_r by lia. now rewrite Nat.sub_diag. }
  rewrite (mpage_add_eq _ _ _ Hnm) by (rewrite Hc; exact Hfresh).
  set (s3 := set_bt_lru_queue _ _).
  assert (bt_txns s3 !! t = Some (set_tx_next_pgno (fun n => u32 (n + 1)) x)) as Hx3.
  { subst s3. cbn. rewrite Hts. subst s1. cbn. now apply list_lookup_insert_eq. }
  assert (bt_heap s3 !! length (bt_heap s) = Some nm) as Hnm3 by exact Hnm.
  assert (bt_txn s3 = Some t) as Ht3.
  { subst s3. cbn. rewrite Ht. subst s1. exact Htxn. }
  rewrite (mpage_dirty_eq s3 _ nm t _ Hnm3 eq_refl Ht3 Hx3).
  reflexivity.
Qed.

Section WriteMeta.
Variable SHA256 : list Z -> bytes.

Lemma btree_write_meta_ok (s : btree) (t : nat) (x : btree_txn) (root flags : Z) :
  bt_txn s = Some t -> bt_txns s !! t = Some x -> tx_dirty_queue x = [] ->
  bt_page_cache s !! tx_next_pgno x = None ->
  F_ISSET (bt_flags s) BT_RDONLY = false -> bt_file_tail s = 0 ->
  exists s',
    btree_write_meta SHA256 root flags s = Some (BT_SUCCESS, s') /\
    bt_meta_ s' =
      (let m := set_m_revisions (fun r => u32 (r + 1))
                  (set_m_created_at (fun _ => bt_now s)
                     (set_m_flags (fun _ => flags)
                        (set_m_root (fun _ => root)
                           (set_m_prev_meta (fun _ => m_root (bt_meta_ s)) (bt_meta_ s))))) in
       set_m_hash (fun _ => SHA256 (meta_hash_input m)) m) /\
    bt_file s' =
      bt_file s ++ [meta_page (psize (bt_head_ s)) (tx_next_pgno x) (bt_meta_ s')] /\
    mp_pgno <$> bt_heap s' = mp_pgno <$> (bt_heap s ++ [new_mpage 0 (tx_next_pgno x) 0 false]) /\
    bt_txns s' = <[t := set_tx_next_pgno (fun n => u32 (n + 1)) x]> (bt_txns s) /\
    bt_lru_queue s' = bt_lru_queue s ++ [length (bt_heap s)] /\
    bt_page_cache s' = <[tx_next_pgno x := length (bt_heap s)]> (bt_page_cache s) /\
    bt_txn s' = bt_txn s /\ bt_ref s' = bt_ref s /\ bt_file_tail s' = 0 /\
    bt_flags s' = bt_flags s /\ bt_head_ s' = bt_head_ s /\
    bt_size s' = (Z.of_nat (length (bt_file s)) + 1) * psize (bt_head_ s).
Proof.
  intros Htxn Hx Hq Hfresh Hro Htail.
  assert (t < length (bt_txns s))%nat as Hlt by (eapply lookup_lt_Some; eauto).
  unfold btree_write_meta. unfold bind at 1.
  rewrite (btree_new_page_eq s t x P_META Htxn Hx Hfresh).
  change (count_page P_META ?X) with X.
  set (n := length (bt_heap s)).
  set (A := set_bt_txns _ _).
  unfold bind at 1. cbn [gets]. unfold bind at 1. unfold modify at 1.
  set (B := set_bt_meta_ _ A).
  unfold bind at 1. cbn [gets].
  set (nm := new_mpage (psize (bt_head_ s)) (tx_next_pgno x) P_META false) in *.
  assert (bt_heap B !! n = Some (set_mp_dirty (fun _ => true) nm)) as HnB.
  { subst B A. cbn [bt_heap set_bt_meta_ set_bt_txns set_bt_heap set_bt_lru_queue
                    set_bt_cache_size set_bt_page_cache].
    apply list_lookup_insert_eq. rewrite length_app. cbn [length]. lia. }
  unfold bind at 1. rewrite (mp_upd_eq B n _ _ HnB).
  set (pm := set_mp_page _ _).
  set (C := set_bt_heap _ B).
  assert (bt_heap C !! n = Some pm) as HnC.
  { subst C. cbn [bt_heap set_bt_heap]. apply list_lookup_insert_eq.
    eapply lookup_lt_Some; eauto. }
  unfold bind at 1. rewrite (mp_get_eq C n _ HnC).
  unfold bind at 1.
  assert (file_write [mp_page pm] C =
          Some (true, set_bt_file (fun f => f ++ [mp_page pm]) C)) as ->
    by (apply file_write_ok; [exact Hro | exact Htail]).
  cbn [negb].
  set (D := set_bt_file _ C).
  unfold bind at 1. rewrite (mp_upd_eq D n _ _ HnC).
  set (E := set_bt_heap _ D).
  unfold bind at 1. unfold bt_txn_ptr at 1. change (bt_txn E) with (bt_txn s).
  rewrite Htxn. cbn [liftO ret].
  assert (bt_txns E !! t =
          Some (set_tx_dirty_queue (fun q => q ++ [n])
                  (set_tx_next_pgno (fun n => u32 (n + 1)) x))) as HxE.
  { subst E D C B A. cbn [bt_txns set_bt_meta_ set_bt_txns set_bt_heap set_bt_lru_queue
                          set_bt_cache_size set_bt_page_cache set_bt_file].
    apply list_lookup_insert_eq. now rewrite length_insert. }
  unfold bind at 1. rewrite (txn_get_eq E t _ HxE).
  replace (tx_dirty_queue (set_tx_dirty_queue (fun q => q ++ [n])
             (set_tx_next_pgno (fun n => u32 (n + 1)) x))) with [n]
    by (destruct x as [xr xn xq xf]; cbn in *; now subst xq).
  unfold bind at 1. rewrite (txn_upd_eq E t _ _ HxE).
  unfold bind at 1. unfold file_size, bind, the_psize, gets, modify. cbn [ret].
  eexists. split; [reflexivity|].
  set (F := set_bt_size _ _).
  assert (bt_meta_ F = bt_meta_ B) as HmF by reflexivity.
  assert (n = length (bt_heap s)) as Hn by reflexivity.
  split; [reflexivity|]. split.
  { rewrite HmF. subst F E D C. fields. reflexivity. }
  split.
  { subst F E D C B A. fields. rewrite !list_insert_insert_eq.
    rewrite insert_app_r_alt by lia. rewrite Hn, Nat.sub_diag. cbn [insert list_insert].
    rewrite !fmap_app. reflexivity. }
  split.
  { subst F E D C B A. fields. rewrite !list_insert_insert_eq. f_equal.
    destruct x as [xr xn xq xf]; cbn in *; now subst xq. }
  repeat split.
  - exact Htxn.
  - exact Htail.
  - subst F E D C B A. fields. rewrite length_app, Htail. cbn [length]. lia.
Qed.

Lemma clean_pgno (h h' : list mpage) :
  clean <$> h' = clean <$> h -> mp_pgno <$> h' = mp_pgno <$> h.
Proof.
  intros E. apply (f_equal (fmap mp_pgno)) in E.
  rewrite <- !list_fmap_compose in E. exact E.
Qed.

Lemma rdonly_after_padding (f : Z) :
  F_ISSET (Z.land f (Z.lnot BT_FIXPADDING)) BT_RDONLY = F_ISSET f BT_RDONLY.
Proof. unfold F_ISSET. now rewrite <- Z.land_assoc. Qed.

(** On a handle that is open for writing, a commit that has pages to
    write appends them to the file in the order of the dirty queue, after
    the page that [ftruncate] makes of a trailing partial page when the
    file ended inside a page, and then one meta page that carries the
    page's own number, the root of the transaction, the root of the meta
    data before as [prev_meta], and the hash of its fields. *)
Theorem commit_appends_pages_then_meta
    (s : btree) (t : nat) (x : btree_txn) (pages : list page) :
  F_ISSET (bt_flags s) BT_RDONLY = false ->
  bt_txn s = Some t -> bt_txns s !! t = Some x ->
  F_ISSET (tx_flags x) BT_TXN_RDONLY = false ->
  F_ISSET (tx_flags x) BT_TXN_ERROR = false ->
  tx_dirty_queue x <> [] ->
  queue_pages s (tx_dirty_queue x) = Some pages ->
  bt_file_tail s = 0 \/ F_ISSET (bt_flags s) BT_FIXPADDING = true ->
  cache_ok s = true -> bt_page_cache s !! tx_next_pgno x = None -> bt_ref s <> 1 ->
  exists s',
    btree_txn_commit SHA256 t s = Some (BT_SUCCESS, s') /\
    bt_file s' =
      bt_file s ++
      (if F_ISSET (bt_flags s) BT_FIXPADDING then [torn_page (bt_file_tail s)] else []) ++
      pages ++ [meta_page (psize (bt_head_ s)) (tx_next_pgno x) (bt_meta_ s')] /\
    bt_file_tail s' = 0 /\
    bt_size s' = Z.of_nat (length (bt_file s')) * psize (bt_head_ s) /\
    bt_txn s' = None /\
    m_root (bt_meta_ s') = tx_root x /\
    m_prev_meta (bt_meta_ s') = m_root (bt_meta_ s) /\
    m_flags (bt_meta_ s') = 0 /\
    m_created_at (bt_meta_ s') = bt_now s /\
    m_revisions (bt_meta_ s') = u32 (m_revisions (bt_meta_ s) + 1) /\
    m_hash (bt_meta_ s') = SHA256 (meta_hash_input (bt_meta_ s')) /\
    m_entries (bt_meta_ s') = m_entries (bt_meta_ s) /\
    m_depth (bt_meta_ s') = m_depth (bt_meta_ s) /\
    m_branch_pages (bt_meta_ s') = m_branch_pages (bt_meta_ s) /\
    m_leaf_pages (bt_meta_ s') = m_leaf_pages (bt_meta_ s) /\
    m_overflow_pages (bt_meta_ s') = m_overflow_pages (bt_meta_ s).
Proof.
  intros Hro Hcur Hx Hrd Herr Hq Hp Hpad Hok Hfresh Href.
  unfold btree_txn_commit. unfold bind at 1. rewrite (txn_get_eq _ _ _ Hx).
  unfold bind at 1. cbn [gets].
  rewrite Hrd, Hcur, bool_decide_eq_true_2 by reflexivity. cbn [negb]. rewrite Herr.
  destruct (tx_dirty_queue x) as [|mp0 q0] eqn:Hq0; [congruence|]. rewrite <- Hq0. clear Hq.
  unfold bind at 1. cbn [gets]. unfold bind at 1.
  (* the padding *)
  set (pad := if F_ISSET (bt_flags s) BT_FIXPADDING then [torn_page (bt_file_tail s)] else []).
  set (s0 := if F_ISSET (bt_flags s) BT_FIXPADDING
             then set_bt_flags (fun f => Z.land f (Z.lnot BT_FIXPADDING))
                    (set_bt_file_tail (fun _ => 0)
                       (set_bt_file (fun f => f ++ [torn_page (bt_file_tail s)]) s))
             else s).
  assert ((if F_ISSET (bt_flags s) BT_FIXPADDING
           then ok <- file_truncate_up ;;
                (if ok
                 then modify (set_bt_flags (fun f => Z.land f (Z.lnot BT_FIXPADDING)))
                 else ret tt) ;;;
                ret ok
           else ret true) s = Some (true, s0)) as Hpad0.
  { subst s0. destruct (F_ISSET (bt_flags s) BT_FIXPADDING); [|reflexivity].
    unfold file_truncate_up, fd_rdonly, bind, gets. cbv beta. rewrite Hro. reflexivity. }
  rewrite Hpad0. clear Hpad0. cbn [negb].
  assert (bt_file s0 = bt_file s ++ pad /\ bt_file_tail s0 = 0 /\
          bt_heap s0 = bt_heap s /\ bt_txns s0 = bt_txns s /\ bt_txn s0 = bt_txn s /\
          bt_lru_queue s0 = bt_lru_queue s /\ bt_page_cache s0 = bt_page_cache s /\
          bt_ref s0 = bt_ref s /\ bt_meta_ s0 = bt_meta_ s /\ bt_head_ s0 = bt_head_ s /\
          bt_now s0 = bt_now s /\ F_ISSET (bt_flags s0) BT_RDONLY = false)
    as (Hf0 & Ht0 & Hh0 & Htx0 & Hc0 & Hl0 & Hpc0 & Hr0 & Hm0 & Hhd0 & Hn0 & Hro0).
  { subst s0 pad. destruct (F_ISSET (bt_flags s) BT_FIXPADDING).
    - repeat split. cbn [bt_flags set_bt_flags set_bt_file_tail set_bt_file].
      now rewrite rdonly_after_padding.
    - repeat split;
        [symmetry; apply app_nil_r | destruct Hpad; [assumption | discriminate] | exact Hro]. }
  clearbody s0 pad. rewrite <- Hq0 in Hp.
  (* the dirty pages *)
  destruct (commit_write_loop_ok (length (tx_dirty_queue x)) s0 t x pages)
    as (h1 & Hloop & Hcl1).
  { now rewrite Htx0. }
  { unfold queue_pages. rewrite Hh0. exact Hp. }
  { exact Hro0. }
  { exact Ht0. }
  { lia. }
  unfold bind at 1. rewrite Hloop. clear Hloop. cbn [negb].
  set (x1 := set_tx_dirty_queue (fun _ => []) x).
  set (s1 := set_bt_txns _ _).
  assert (t < length (bt_txns s))%nat as Hlt by (eapply lookup_lt_Some; eauto).
  assert (bt_txns s1 !! t = Some x1) as Hx1.
  { subst s1. fields. apply list_lookup_insert_eq. now rewrite Htx0. }
  unfold bind at 1. rewrite btree_sync_eq. cbn [Z.eqb negb].
  unfold bind at 1. rewrite (txn_get_eq _ _ _ Hx1).
  (* the meta page *)
  destruct (btree_write_meta_ok s1 t x1 (tx_root x1) 0)
    as (s2 & Hwm & Hm2 & Hf2 & Hh2 & Htx2 & Hl2 & Hpc2 & Hc2 & Hr2 & Ht2 & Hfl2 & Hhd2 & Hsz2).
  { subst s1. fields. now rewrite Hc0. }
  { exact Hx1. }
  { reflexivity. }
  { subst s1. fields. rewrite Hpc0. subst x1. destruct x; exact Hfresh. }
  { subst s1. fields. exact Hro0. }
  { subst s1. fields. exact Ht0. }
  unfold bind at 1. rewrite Hwm. clear Hwm. cbn [Z.eqb BT_SUCCESS negb].
  unfold bind at 1. rewrite btree_sync_eq. cbn [Z.eqb negb].
  (* the cache is pruned and the transaction closed *)
  assert (cache_ok s2 = true) as Hok2.
  { set (nm := new_mpage 0 (tx_next_pgno x1) 0 false) in *.
    apply (cache_ok_pgno
             (set_bt_lru_queue (fun _ => bt_lru_queue s2)
                (set_bt_page_cache (fun _ => bt_page_cache s2)
                   (set_bt_heap (fun h => h ++ [nm]) s1)))); try reflexivity.
    - exact Hh2.
    - apply (cache_ok_add s1 _ nm); fields.
      + exact Hl2.
      + exact Hpc2.
      + reflexivity.
      + subst s1 nm x1. fields. rewrite Hpc0. destruct x; exact Hfresh.
      + apply (cache_ok_pgno s); subst s1; fields; auto.
        rewrite <- Hh0. now apply clean_pgno. }
  destruct (mpage_prune_ok s2 Hok2) as (s3 & Hprune & Hout & _ & _).
  destruct (outside_cache_fields _ _ Hout)
    as (Hf3 & Ht3 & Hm3 & Hsz3 & Htx3 & Hc3 & Hr3 & _ & _).
  unfold bind at 1. rewrite Hprune. clear Hprune.
  set (x2 := set_tx_next_pgno (fun n => u32 (n + 1)) x1) in *.
  assert (bt_txns s3 !! t = Some x2) as Hx3.
  { rewrite Htx3, Htx2. apply list_lookup_insert_eq. subst s1. fields.
    rewrite length_insert. now rewrite Htx0. }
  unfold bind at 1. unfold btree_txn_abort, bind. rewrite (txn_get_eq _ _ _ Hx3).
  replace (F_ISSET (tx_flags x2) BT_TXN_RDONLY) with false
    by (subst x2 x1; destruct x; exact (eq_sym Hrd)).
  cbn [negb]. replace (tx_dirty_queue x2) with (@nil nat) by (subst x2 x1; now destruct x).
  cbn [foldr ret]. rewrite (txn_upd_eq _ _ _ _ Hx3).
  unfold modify, btree_close, bind, modify, gets. fields.
  rewrite Hr3, Hr2. subst s1. fields. rewrite Hr0.
  destruct (bt_ref s - 1 =? 0) eqn:E; [apply Z.eqb_eq in E; lia|].
  eexists. split; [reflexivity|]. fields.
  rewrite Hm3, Hf3, Ht3, Hsz3.
  cbv zeta in Hm2. fields_in Hm2. fields_in Hf2. fields_in Hsz2. fields_in Hhd2.
  rewrite Hm0, Hn0 in Hm2. rewrite Hf0, Hhd0 in Hf2. rewrite Hf0, Hhd0 in Hsz2.
  clear Hx1 Hok2 Hout Hx3 Hh2 Htx2 Hl2 Hpc2 Hc2 Hr2 Hfl2 Hf3 Hm3 Hsz3 Htx3 Hc3 Hr3 Ht3.
  replace (tx_next_pgno x1) with (tx_next_pgno x) in Hf2 by (subst x1; now destruct x).
  replace (tx_root x1) with (tx_root x) in Hm2 by (subst x1; now destruct x).
  split; [rewrite Hf2, <- !app_assoc; reflexivity|].
  split; [exact Ht2|].
  split.
  { rewrite Hsz2. f_equal. rewrite Hf2, (length_app _ [_]). cbn [length]. lia. }
  split; [reflexivity|].
  rewrite Hm2. destruct (bt_meta_ s). cbn. repeat split.
Qed.

End WriteMeta.

(** The write transaction that holds a new leaf and the overflow page of
    its one node. *)
Lemma commit_appends_pages_then_meta_witness :
  exists x pages,
    bt_txns Scenario.leaf_with_node !! O = Some x /\
    queue_pages Scenario.leaf_with_node (tx_dirty_queue x) = Some pages /\
    length pages = 2%nat /\
    exists s',
      btree_txn_commit Scenario.no_digest O Scenario.leaf_with_node = Some (BT_SUCCESS, s') /\
      bt_file s' =
        bt_file Scenario.leaf_with_node ++
        (if F_ISSET (bt_flags Scenario.leaf_with_node) BT_FIXPADDING
         then [torn_page (bt_file_tail Scenario.leaf_with_node)] else []) ++
        pages ++ [meta_page (psize (bt_head_ Scenario.leaf_with_node)) (tx_next_pgno x)
                    (bt_meta_ s')] /\
      bt_file_tail s' = 0 /\
      bt_size s' = Z.of_nat (length (bt_file s')) * psize (bt_head_ Scenario.leaf_with_node) /\
      bt_txn s' = None /\
      m_root (bt_meta_ s') = tx_root x /\
      m_prev_meta (bt_meta_ s') = m_root (bt_meta_ Scenario.leaf_with_node) /\
      m_flags (bt_meta_ s') = 0 /\
      m_created_at (bt_meta_ s') = bt_now Scenario.leaf_with_node /\
      m_revisions (bt_meta_ s') = u32 (m_revisions (bt_meta_ Scenario.leaf_with_node) + 1) /\
      m_hash (bt_meta_ s') = Scenario.no_digest (meta_hash_input (bt_meta_ s')) /\
      m_entries (bt_meta_ s') = m_entries (bt_meta_ Scenario.leaf_with_node) /\
      m_depth (bt_meta_ s') = m_depth (bt_meta_ Scenario.leaf_with_node) /\
      m_branch_pages (bt_meta_ s') = m_branch_pages (bt_meta_ Scenario.leaf_with_node) /\
      m_leaf_pages (bt_meta_ s') = m_leaf_pages (bt_meta_ Scenario.leaf_with_node) /\
      m_overflow_pages (bt_meta_ s') = m_overflow_pages (bt_meta_ Scenario.leaf_with_node).
Proof.
  eexists _, _. split; [vm_compute; reflexivity|]. split; [vm_compute; reflexivity|].
  split; [reflexivity|].
  apply (commit_appends_pages_then_meta Scenario.no_digest Scenario.leaf_with_node O).
  - vm_compute. reflexivity.
  - vm_compute. reflexivity.
  - vm_compute. reflexivity.
  - vm_compute. reflexivity.
  - vm_compute. reflexivity.
  - vm_compute. discriminate.
  - vm_compute. reflexivity.
  - left. vm_compute. reflexivity.
  - vm_compute. reflexivity.
  - vm_compute. reflexivity.
  - vm_compute. discriminate.
Defined.

End CommitFacts.

Module OpenFacts.
Import StateFacts.

Section Scan.
Variable SHA256 : list Z -> bytes.
Variables (f : list page) (tail : Z) (h : bt_head).
Hypothesis Hps : 0 < psize h.
Hypothesis Htail : 0 <= tail < psize h.

Lemma is_meta_page_accepted (pk : page) (meta : bt_meta) (s : btree) :
  meta_accepted SHA256 pk meta ->
  btree_is_meta_page SHA256 pk s = Some (true, s).
Proof.
  intros (Hfl & Hb & Hroot & Hhash).
  unfold btree_is_meta_page. rewrite Hfl, Hb. cbn [negb].
  replace ((pg_pgno pk <=? m_root meta) && negb (m_root meta =? P_INVALID)) with false.
  - rewrite bool_decide_eq_true_2 by exact Hhash. reflexivity.
  - symmetry. apply andb_false_iff. destruct Hroot as [Hr|Hr].
    + left. apply Z.leb_gt. exact Hr.
    + right. rewrite Hr. reflexivity.
Qed.

Lemma is_meta_page_refused (p : page) (s : btree) :
  meta_refused SHA256 p ->
  btree_is_meta_page SHA256 p s = Some (false, set_bt_errno (fun _ => EINVAL) s).
Proof.
  intros Hr. unfold btree_is_meta_page.
  destruct (F_ISSET (pg_flags p) P_META) eqn:Hfl; cbn [negb]; [|reflexivity].
  destruct Hr as [Hr|(m & Hb & Hr)]; [congruence|]. rewrite Hb.
  destruct ((pg_pgno p <=? m_root m) && negb (m_root m =? P_INVALID)) eqn:Hc; [reflexivity|].
  destruct Hr as [[H1 H2]|Hh].
  - apply andb_false_iff in Hc as [Hc|Hc].
    + apply Z.leb_gt in Hc. lia.
    + apply negb_false_iff, Z.eqb_eq in Hc. contradiction.
  - rewrite bool_decide_eq_false_2 by exact Hh. reflexivity.
Qed.

(** [btree_read_page] of a whole page of the file: it succeeds when the
    page carries the number asked for, and fails with [EINVAL] when it
    carries another. *)
Lemma read_page_whole (s : btree) (j : nat) (pj : page) :
  bt_file s = f -> bt_file_tail s = tail -> psize (bt_head_ s) = psize h ->
  f !! j = Some pj -> torn pj = false ->
  btree_read_page (Z.of_nat j) s =
  if pg_pgno pj =? Z.of_nat j then Some ((BT_SUCCESS, Some pj), s)
  else Some ((BT_FAIL, None), set_bt_errno (fun _ => EINVAL) s).
Proof.
  intros Hf Ht Hp Hj Hw.
  assert (j < length f)%nat as Hlt by (eapply lookup_lt_Some; eauto).
  unfold btree_read_page, the_psize, bind, gets. rewrite Hf, Ht, Hp.
  destruct (Z.leb_spec (Z.of_nat (length f) * psize h + tail) (Z.of_nat j * psize h));
    [nia|].
  destruct (Z.ltb_spec (Z.of_nat (length f) * psize h + tail - Z.of_nat j * psize h)
              (psize h)); [nia|].
  rewrite Nat2Z.id, Hj. cbn [liftO ret]. unfold torn in Hw.
  destruct (pg_body pj); try discriminate;
    destruct (pg_pgno pj =? Z.of_nat j); reflexivity.
Qed.

Lemma get_mpage_miss (s : btree) (j : nat) (pj : page) :
  bt_page_cache s !! Z.of_nat j = None ->
  bt_file s = f -> bt_file_tail s = tail -> psize (bt_head_ s) = psize h ->
  f !! j = Some pj -> torn pj = false -> pg_pgno pj = Z.of_nat j ->
  btree_get_mpage (Z.of_nat j) s =
  Some (Some (length (bt_heap s)),
        set_bt_lru_queue (fun q => q ++ [length (bt_heap s)])
          (set_bt_cache_size (fun n => u32 (n + 1))
             (set_bt_page_cache (fun c => <[Z.of_nat j := length (bt_heap s)]> c)
                (set_bt_heap (fun hp => hp ++ [Mpage None 0 [] pj (Z.of_nat j) 0 false]) s)))).
Proof.
  intros Hc Hf Ht Hp Hj Hw Hpg.
  unfold btree_get_mpage, bind at 1. unfold mpage_lookup, bind at 1. cbn [gets].
  rewrite Hc. cbn [ret].
  unfold bind at 1. rewrite (read_page_whole s j pj Hf Ht Hp Hj Hw), Hpg, Z.eqb_refl.
  cbn [snd].
  unfold mp_new, bind, gets, modify. cbn [ret].
  set (m := Mpage None 0 [] pj (Z.of_nat j) 0 false).
  set (s1 := set_bt_heap _ s).
  assert (bt_heap s1 !! length (bt_heap s) = Some m) as Hm.
  { subst s1. cbn. rewrite lookup_app_r by lia. now rewrite Nat.sub_diag. }
  rewrite (OverflowFacts.mpage_add_eq s1 _ m Hm) by exact Hc.
  reflexivity.
Qed.

Lemma get_mpage_wrong_number (s : btree) (j : nat) (pj : page) :
  bt_page_cache s !! Z.of_nat j = None ->
  bt_file s = f -> bt_file_tail s = tail -> psize (bt_head_ s) = psize h ->
  f !! j = Some pj -> torn pj = false -> pg_pgno pj <> Z.of_nat j ->
  btree_get_mpage (Z.of_nat j) s = Some (None, set_bt_errno (fun _ => EINVAL) s).
Proof.
  intros Hc Hf Ht Hp Hj Hw Hpg.
  unfold btree_get_mpage, bind at 1. unfold mpage_lookup, bind at 1. cbn [gets].
  rewrite Hc. cbn [ret].
  unfold bind at 1. rewrite (read_page_whole s j pj Hf Ht Hp Hj Hw).
  destruct (Z.eqb_spec (pg_pgno pj) (Z.of_nat j)); [contradiction|]. reflexivity.
Qed.

(** The backward scan of [btree_read_meta] goes over pages that carry
    their own number and are no meta pages. *)
Lemma scan_skips (d : nat) : forall (s : btree) (k : nat),
  (k + d < length f)%nat ->
  bt_file s = f -> bt_file_tail s = tail -> psize (bt_head_ s) = psize h ->
  (forall j, (j <= k + d)%nat -> bt_page_cache s !! Z.of_nat j = None) ->
  (forall j pj, (k < j <= k + d)%nat -> f !! j = Some pj ->
     pg_pgno pj = Z.of_nat j /\ torn pj = false /\ meta_refused SHA256 pj) ->
  exists s',
    read_meta_scan SHA256 (k + d) s = read_meta_scan SHA256 k s' /\
    bt_file s' = bt_file s /\ bt_file_tail s' = bt_file_tail s /\
    bt_head_ s' = bt_head_ s /\ bt_size s' = bt_size s /\ bt_flags s' = bt_flags s /\
    bt_meta_ s' = bt_meta_ s /\
    (forall j, (j <= k)%nat -> bt_page_cache s' !! Z.of_nat j = None).
Proof.
  induction d as [|d IH]; intros s k Hlen Hf Ht Hp Hc Hjunk.
  - rewrite Nat.add_0_r in *. exists s. repeat split; auto.
  - replace (k + S d)%nat with (S (k + d)) in * by lia.
    destruct (lookup_lt_is_Some_2 f (S (k + d)) Hlen) as [pj Hj].
    destruct (Hjunk (S (k + d)) pj ltac:(lia) Hj) as (Hpg & Hw & Hrf).
    cbn [read_meta_scan].
    unfold bind at 1.
    rewrite (get_mpage_miss s (S (k + d)) pj (Hc _ (Nat.le_refl _)) Hf Ht Hp Hj Hw Hpg).
    set (s1 := set_bt_lru_queue _ _).
    assert (bt_heap s1 !! length (bt_heap s) =
            Some (Mpage None 0 [] pj (Z.of_nat (S (k + d))) 0 false)) as Hm.
    { subst s1. cbn. rewrite lookup_app_r by lia. now rewrite Nat.sub_diag. }
    unfold bind at 1. rewrite (mp_get_eq _ _ _ Hm). cbn [mp_page].
    unfold bind at 1. rewrite (is_meta_page_refused pj _ Hrf).
    destruct (IH (set_bt_errno (fun _ => EINVAL) s1) k) as (s' & Hrun & Hrest);
      try assumption; try lia.
    { intros j Hjle. subst s1. cbn. rewrite lookup_insert_ne by lia. apply Hc. lia. }
    { intros j pj' Hjr Hj'. apply Hjunk; [lia | exact Hj']. }
    exists s'. split; [exact Hrun | exact Hrest].
Qed.

(** The scan ends at a page that is a meta page. *)
Lemma scan_accepts (s : btree) (k : nat) (pk : page) (meta : bt_meta) :
  (0 < k)%nat ->
  bt_file s = f -> bt_file_tail s = tail -> psize (bt_head_ s) = psize h ->
  bt_page_cache s !! Z.of_nat k = None ->
  f !! k = Some pk -> pg_pgno pk = Z.of_nat k -> meta_accepted SHA256 pk meta ->
  exists s',
    read_meta_scan SHA256 k s =
      Some (Some (if F_ISSET (m_flags meta) BT_TOMBSTONE then BT_FAIL else BT_SUCCESS), s') /\
    (if F_ISSET (m_flags meta) BT_TOMBSTONE
     then bt_errno s' = ESTALE /\ bt_meta_ s' = bt_meta_ s
     else bt_meta_ s' = meta) /\
    bt_file s' = bt_file s /\ bt_file_tail s' = bt_file_tail s /\
    bt_head_ s' = bt_head_ s /\ bt_size s' = bt_size s /\ bt_flags s' = bt_flags s.
Proof.
  intros Hk0 Hf Ht Hp Hc Hk Hpk Hmeta.
  assert (torn pk = false) as Hw.
  { destruct Hmeta as (_ & Hb & _). unfold torn. now rewrite Hb. }
  destruct k as [|k'] eqn:Ek; [lia|]. rewrite <- Ek in *.
  replace (read_meta_scan SHA256 k) with (read_meta_scan SHA256 (S k')) by now rewrite Ek.
  cbn [read_meta_scan]. rewrite <- Ek.
  unfold bind at 1. rewrite (get_mpage_miss s k pk Hc Hf Ht Hp Hk Hw Hpk).
  set (s1 := set_bt_lru_queue _ _).
  assert (bt_heap s1 !! length (bt_heap s) = Some (Mpage None 0 [] pk (Z.of_nat k) 0 false))
    as Hm.
  { subst s1. cbn. rewrite lookup_app_r by lia. now rewrite Nat.sub_diag. }
  unfold bind at 1. rewrite (mp_get_eq _ _ _ Hm). cbn [mp_page].
  unfold bind at 1. rewrite (is_meta_page_accepted pk meta _ Hmeta).
  destruct Hmeta as (_ & Hb & _ & _). rewrite Hb.
  destruct (F_ISSET (m_flags meta) BT_TOMBSTONE).
  - eexists. split; [reflexivity|]. repeat split.
  - eexists. split; [reflexivity|]. repeat split.
Qed.

(** The scan ends at a page that does not carry its own number: the page
    cannot be read. *)
Lemma scan_stops (s : btree) (k : nat) (pk : page) :
  (0 < k)%nat ->
  bt_file s = f -> bt_file_tail s = tail -> psize (bt_head_ s) = psize h ->
  bt_page_cache s !! Z.of_nat k = None ->
  f !! k = Some pk -> torn pk = false -> pg_pgno pk <> Z.of_nat k ->
  read_meta_scan SHA256 k s = Some (None, set_bt_errno (fun _ => EINVAL) s).
Proof.
  intros Hk0 Hf Ht Hp Hc Hk Hw Hpk.
  destruct k as [|k'] eqn:Ek; [lia|]. rewrite <- Ek in *.
  replace (read_meta_scan SHA256 k) with (read_meta_scan SHA256 (S k')) by now rewrite Ek.
  cbn [read_meta_scan]. rewrite <- Ek.
  unfold bind at 1. rewrite (get_mpage_wrong_number s k pk Hc Hf Ht Hp Hk Hw Hpk).
  reflexivity.
Qed.

End Scan.

Lemma fixpadding_set (a : Z) : F_ISSET (Z.lor a BT_FIXPADDING) BT_FIXPADDING = true.
Proof.
  unfold F_ISSET. apply Z.eqb_eq. apply Z.bits_inj'. intros n Hn.
  rewrite Z.land_spec, Z.lor_spec.
  destruct (Z.testbit a n), (Z.testbit BT_FIXPADDING n); reflexivity.
Qed.

Lemma fixpadding_clear (a : Z) :
  F_ISSET (Z.land a (Z.lnot BT_FIXPADDING)) BT_FIXPADDING = false.
Proof.
  unfold F_ISSET. rewrite <- Z.land_assoc.
  change (Z.land (Z.lnot BT_FIXPADDING) BT_FIXPADDING) with 0.
  rewrite Z.land_0_r. reflexivity.
Qed.

Lemma read_header_ok (s : btree) (h : bt_head) :
  has_header (bt_file s) h ->
  PAGESIZE <= Z.of_nat (length (bt_file s)) * psize h + bt_file_tail s ->
  btree_read_header s = Some (0, set_bt_head_ (fun _ => h) s).
Proof.
  intros (p0 & Hp0 & Hhd & Hb0 & Hmg & Hver) Hsize.
  unfold btree_read_header, bind, gets.
  destruct (bt_file s) as [|p rest] eqn:Ef; [discriminate|]. cbn in Hp0. injection Hp0 as ->.
  rewrite Hb0. cbv zeta.
  destruct (Z.eqb_spec (Z.of_nat (length (p0 :: rest)) * psize h + bt_file_tail s) 0);
    [unfold PAGESIZE in Hsize; lia|].
  destruct (Z.ltb_spec (Z.of_nat (length (p0 :: rest)) * psize h + bt_file_tail s) PAGESIZE);
    [lia|].
  rewrite Hhd, Hmg, Hver. reflexivity.
Qed.

Section Open.
Variable SHA256 : list Z -> bytes.
Variables (st_blksize flags now : Z) (f : list page) (tail : Z) (h : bt_head).
Hypothesis Hhead : has_header f h.
Hypothesis Hps : 0 < psize h.
Hypothesis Htail : 0 <= tail < psize h.
Hypothesis Hsize : PAGESIZE <= Z.of_nat (length f) * psize h + tail.
Hypothesis Hlen : Z.of_nat (length f) < 2 ^ 32.
Hypothesis Hmore : (1 < length f)%nat \/ tail <> 0.

(** [btree_open_fd] on a file that holds more than a header: the scan
    starts at the last whole page. *)
Lemma open_scans :
  exists s1,
    btree_open_fd SHA256 st_blksize (btree_calloc f tail flags now) =
      match read_meta_scan SHA256 (length f - 1) s1 with
      | Some (Some rc, s') => Some (rc =? 0, s')
      | Some (None, s') => Some (false, set_bt_errno (fun _ => EIO) s')
      | None => None
      end /\
    bt_file s1 = f /\ bt_file_tail s1 = tail /\ bt_head_ s1 = h /\
    bt_page_cache s1 = ∅ /\
    bt_size s1 = Z.of_nat (length f) * psize h + tail /\
    F_ISSET (bt_flags s1) BT_FIXPADDING = negb (tail =? 0).
Proof.
  assert (0 < length f)%nat as Hpos.
  { destruct Hhead as (p0 & Hp0 & _). eapply lookup_lt_Some; eauto. }
  unfold btree_open_fd. unfold bind at 1.
  rewrite (read_header_ok (btree_calloc f tail flags now) h Hhead Hsize).
  unfold bind at 1. cbn [gets]. cbn [Z.eqb negb andb]. unfold bind at 1. cbn [ret].
  set (s0 := set_bt_head_ _ _).
  unfold bind at 1. unfold btree_read_meta.
  unfold bind at 1. unfold file_size, the_psize, bind, gets. cbn [ret].
  change (bt_file s0) with f. change (bt_file_tail s0) with tail.
  change (psize (bt_head_ s0)) with (psize h). change (bt_size s0) with 0.
  set (sz := Z.of_nat (length f) * psize h + tail).
  assert (sz / psize h = Z.of_nat (length f)) as Hdiv.
  { subst sz. rewrite Z.add_comm, Z.div_add by lia. rewrite Z.div_small by lia. lia. }
  assert (sz mod psize h = tail) as Hmod.
  { subst sz. rewrite Z.add_comm, Z.mod_add by lia. apply Z.mod_small. lia. }
  assert (u32 (sz / psize h) = Z.of_nat (length f)) as Hu.
  { rewrite Hdiv. apply Z.mod_small. lia. }
  rewrite !Hu, Hmod.
  destruct (Z.ltb_spec sz 0); [nia|].
  destruct (Z.eqb_spec sz (psize h)); [nia|].
  destruct (Z.eqb_spec (Z.of_nat (length f)) 0); [lia|].
  destruct (Z.eqb_spec sz 0); [nia|].
  set (s1 := if negb (tail =? 0)
             then set_bt_flags (fun f0 => Z.lor f0 BT_FIXPADDING) s0 else s0).
  set (next := if negb (tail =? 0) then u32 (Z.of_nat (length f) + 1)
               else Z.of_nat (length f)).
  assert ((if negb (tail =? 0)
           then modify (set_bt_flags (fun f0 => Z.lor f0 BT_FIXPADDING)) ;;;
                ret (u32 (Z.of_nat (length f) + 1))
           else ret (Z.of_nat (length f))) s0 = Some (next, s1)) as Hpad.
  { subst s1 next. destruct (negb (tail =? 0)); reflexivity. }
  unfold bind, modify in Hpad. unfold modify at 1. rewrite Hpad. clear Hpad.
  unfold modify at 1.
  assert (bt_file s1 = f /\ bt_file_tail s1 = tail /\ bt_head_ s1 = h /\
          bt_page_cache s1 = ∅ /\
          F_ISSET (bt_flags s1) BT_FIXPADDING = negb (tail =? 0))
    as (Hf1 & Ht1 & Hh1 & Hc1 & Hfl1).
  { subst s1. destruct (negb (tail =? 0)); repeat split.
    - apply fixpadding_set.
    - apply fixpadding_clear. }
  clearbody s1 next.
  replace (Z.to_nat (Z.of_nat (length f) - 1)) with (length f - 1)%nat by lia.
  exists (set_bt_size (fun _ => sz) s1). split.
  - destruct (read_meta_scan SHA256 (length f - 1) (set_bt_size (fun _ => sz) s1))
      as [[[rc|] s']|]; reflexivity.
  - cbn. repeat split; assumption.
Qed.

End Open.

(** Opening a file that holds more than a header.  [btree_read_meta]
    goes back from the last whole page of the file over the pages that
    carry their own page number and are no meta pages.  When the first
    other page is a meta page with its own number, the open succeeds and
    the meta data of that page are the database's, unless the page is a
    tombstone, with which the open fails with [ESTALE].  When it is a
    page that does not carry its own number, the page cannot be read: the
    open fails with [EIO], whatever lies below.  When no page above the
    header is left, the open fails with [EIO] too. *)
Theorem open_finds_last_meta_page
    (SHA256 : list Z -> bytes) (st_blksize flags now : Z)
    (f : list page) (tail : Z) (h : bt_head) (k : nat) :
  has_header f h ->
  0 < psize h -> 0 <= tail < psize h ->
  PAGESIZE <= Z.of_nat (length f) * psize h + tail -> Z.of_nat (length f) < 2 ^ 32 ->
  (1 < length f)%nat \/ tail <> 0 ->
  (k < length f)%nat ->
  (forall j pj, (k < j)%nat -> f !! j = Some pj ->
     pg_pgno pj = Z.of_nat j /\ torn pj = false /\ meta_refused SHA256 pj) ->
  (forall pk meta,
     (0 < k)%nat -> f !! k = Some pk -> pg_pgno pk = Z.of_nat k ->
     meta_accepted SHA256 pk meta ->
     exists s',
       btree_open_fd SHA256 st_blksize (btree_calloc f tail flags now) =
         Some (negb (F_ISSET (m_flags meta) BT_TOMBSTONE), s') /\
       (if F_ISSET (m_flags meta) BT_TOMBSTONE then bt_errno s' = ESTALE
        else bt_meta_ s' = meta) /\
       bt_head_ s' = h /\ bt_file s' = f /\ bt_file_tail s' = tail /\
       bt_size s' = Z.of_nat (length f) * psize h + tail /\
       F_ISSET (bt_flags s') BT_FIXPADDING = negb (tail =? 0)) /\
  (forall pk,
     (0 < k)%nat -> f !! k = Some pk -> torn pk = false -> pg_pgno pk <> Z.of_nat k ->
     exists s',
       btree_open_fd SHA256 st_blksize (btree_calloc f tail flags now) = Some (false, s') /\
       bt_errno s' = EIO /\ bt_file s' = f /\ bt_file_tail s' = tail) /\
  (k = O ->
   exists s',
     btree_open_fd SHA256 st_blksize (btree_calloc f tail flags now) = Some (false, s') /\
     bt_errno s' = EIO /\ bt_file s' = f /\ bt_file_tail s' = tail).
Proof.
  intros Hhead Hps Htail Hsize Hlen Hmore Hklt Hjunk.
  destruct (open_scans SHA256 st_blksize flags now f tail h Hhead Hps Htail Hsize Hlen Hmore)
    as (s1 & Hopen & Hf1 & Ht1 & Hh1 & Hc1 & Hsz1 & Hfl1).
  rewrite Hopen. clear Hopen.
  replace (length f - 1)%nat with (k + (length f - 1 - k))%nat by lia.
  destruct (scan_skips SHA256 f tail h Hps Htail (length f - 1 - k) s1 k)
    as (s2 & -> & Hf2 & Ht2 & Hh2 & Hsz2 & Hfl2 & Hm2 & Hc2); try assumption.
  { lia. }
  { now rewrite Hh1. }
  { intros j _. rewrite Hc1. apply lookup_empty. }
  { intros j pj Hj Hl. apply Hjunk; [lia | exact Hl]. }
  rewrite Hf1 in Hf2. rewrite Ht1 in Ht2. rewrite Hh1 in Hh2.
  split; [|split].
  - intros pk meta Hk0 Hk Hpk Hmeta.
    destruct (scan_accepts SHA256 f tail h Hps Htail s2 k pk meta)
      as (s' & -> & Hres & Hf' & Ht' & Hh' & Hsz' & Hfl'); try assumption.
    { now rewrite Hh2. }
    { apply Hc2. lia. }
    exists s'. split.
    { destruct (F_ISSET (m_flags meta) BT_TOMBSTONE); reflexivity. }
    split.
    { destruct (F_ISSET (m_flags meta) BT_TOMBSTONE); [apply Hres | exact Hres]. }
    rewrite Hh', Hf', Ht', Hsz', Hfl', Hh2, Hf2, Ht2, Hsz2, Hfl2. auto.
  - intros pk Hk0 Hk Hw Hpk.
    rewrite (scan_stops SHA256 f tail h Hps Htail s2 k pk); try assumption.
    + eexists. split; [reflexivity|]. cbn. auto.
    + now rewrite Hh2.
    + apply Hc2. lia.
  - intros ->. cbn [read_meta_scan ret].
    eexists. split; [reflexivity|]. cbn. auto.
Qed.

(** Three files: one that was cut off inside the page after a leaf page
    that follows the last meta page; the same with a page in the leaf's
    place that carries the number [7]; a header page and a leaf page. *)
Lemma open_finds_last_meta_page_witness :
  (exists s',
     btree_open_fd Scenario.no_digest 4096 (btree_calloc torn_file 100 0 0) =
       Some (negb (F_ISSET (m_flags (bt_meta_ one_key)) BT_TOMBSTONE), s') /\
     (if F_ISSET (m_flags (bt_meta_ one_key)) BT_TOMBSTONE then bt_errno s' = ESTALE
      else bt_meta_ s' = bt_meta_ one_key) /\
     bt_head_ s' = bt_head_ one_key /\ bt_file s' = torn_file /\ bt_file_tail s' = 100 /\
     bt_size s' = Z.of_nat (length torn_file) * psize (bt_head_ one_key) + 100 /\
     F_ISSET (bt_flags s') BT_FIXPADDING = negb (100 =? 0)) /\
  (exists s',
     btree_open_fd Scenario.no_digest 4096 (btree_calloc misnumbered_file 0 0 0) =
       Some (false, s') /\
     bt_errno s' = EIO /\ bt_file s' = misnumbered_file /\ bt_file_tail s' = 0) /\
  (exists s',
     btree_open_fd Scenario.no_digest 4096 (btree_calloc meta_less_file 0 0 0) =
       Some (false, s') /\
     bt_errno s' = EIO /\ bt_file s' = meta_less_file /\ bt_file_tail s' = 0).
Proof.
  split; [|split].
  - destruct (open_finds_last_meta_page Scenario.no_digest 4096 0 0 torn_file 100
                (bt_head_ one_key) 2) as (Hfound & _ & _).
    + eexists. split; [vm_compute; reflexivity|]. vm_compute. repeat split.
    + vm_compute. reflexivity.
    + vm_compute. split; [discriminate | reflexivity].
    + vm_compute. discriminate.
    + vm_compute. reflexivity.
    + left. vm_compute. lia.
    + vm_compute. lia.
    + intros j pj Hj Hl.
      assert (j < 4)%nat by (apply lookup_lt_Some in Hl; exact Hl).
      assert (j = 3)%nat as -> by lia.
      vm_compute in Hl. injection Hl as <-.
      split; [reflexivity|]. split; [reflexivity | left; reflexivity].
    + apply (Hfound (meta_page 4096 2 (bt_meta_ one_key)) (bt_meta_ one_key)).
      * lia.
      * vm_compute. reflexivity.
      * reflexivity.
      * vm_compute. repeat split. now left.
  - destruct (open_finds_last_meta_page Scenario.no_digest 4096 0 0 misnumbered_file 0
                (bt_head_ one_key) 3) as (_ & Hstop & _).
    + eexists. split; [vm_compute; reflexivity|]. vm_compute. repeat split.
    + vm_compute. reflexivity.
    + vm_compute. split; [discriminate | reflexivity].
    + vm_compute. discriminate.
    + vm_compute. reflexivity.
    + left. vm_compute. lia.
    + vm_compute. lia.
    + intros j pj Hj Hl.
      assert (j < 4)%nat by (apply lookup_lt_Some in Hl; exact Hl). lia.
    + apply (Hstop (Page 7 P_LEAF PAGEHDRSZ 4096 0 (BNodes []))).
      * lia.
      * vm_compute. reflexivity.
      * reflexivity.
      * vm_compute. discriminate.
  - destruct (open_finds_last_meta_page Scenario.no_digest 4096 0 0 meta_less_file 0
                (bt_head_ one_key) 0) as (_ & _ & Hnone).
    + eexists. split; [vm_compute; reflexivity|]. vm_compute. repeat split.
    + vm_compute. reflexivity.
    + vm_compute. split; [discriminate | reflexivity].
    + vm_compute. discriminate.
    + vm_compute. reflexivity.
    + left. vm_compute. lia.
    + vm_compute. lia.
    + intros j pj Hj Hl.
      assert (j < 2)%nat by (apply lookup_lt_Some in Hl; exact Hl).
      assert (j = 1)%nat as -> by lia.
      vm_compute in Hl. injection Hl as <-.
      split; [reflexivity|]. split; [reflexivity | left; reflexivity].
    + apply Hnone. reflexivity.
Defined.

End OpenFacts.

Module PruneFacts.
Import StateFacts CacheFacts TxnFacts.

Lemma in_use_heap (s s' : btree) (mp : nat) :
  bt_heap s' = bt_heap s -> in_use s mp -> in_use s' mp.
Proof. intros E (m & Hm & H). exists m. now rewrite E. Qed.

Lemma prune_loop_keeps (q : list nat) : forall s,
  cache_ok s = true -> NoDup q -> q ⊆ bt_lru_queue s ->
  exists s', mpage_prune_loop q s = Some (tt, s') /\
    outside_cache s' = outside_cache s /\
    cache_ok s' = true /\
    sublist (bt_lru_queue s') (bt_lru_queue s) /\
    (forall mp, mp ∈ bt_lru_queue s -> in_use s mp \/ mp ∉ q -> mp ∈ bt_lru_queue s') /\
    (bt_cache_size s' <= bt_max_cache s' \/
     forall mp, mp ∈ q -> mp ∈ bt_lru_queue s' -> in_use s mp).
Proof.
  induction q as [|mp next IH]; intros s Hok Hnd Hsub.
  - exists s. repeat split; auto. right. intros mp Hmp. inversion Hmp.
  - cbn [mpage_prune_loop]. unfold bind at 1 2. cbn [gets].
    destruct (Z.leb_spec (bt_cache_size s) (bt_max_cache s)) as [Hle|Hgt].
    { exists s. repeat split; auto. }
    assert (mp ∈ bt_lru_queue s) as Hin by (apply Hsub; left).
    pose proof Hok as Hok'. apply cache_ok_spec in Hok' as [_ Hall].
    destruct (cache_entry_ok_inv s mp (Hall mp Hin)) as (m & Hm & Hc).
    unfold bind at 1. unfold mp_get at 1. rewrite Hm. cbn [liftO ret].
    apply NoDup_cons in Hnd as [Hnotin Hnd].
    destruct (negb (mp_dirty m) && (mp_ref m <=? 0)) eqn:Hev.
    + destruct (mpage_del_ok s mp Hok Hin) as (s1 & Hdel & Hout & Hok1 & Hlru).
      unfold bind at 1. unfold bind at 1. rewrite Hdel. unfold mpage_free. cbn [ret].
      destruct (outside_cache_fields _ _ Hout) as (_ & _ & _ & _ & _ & _ & _ & Hheap & _).
      destruct (IH s1 Hok1 Hnd) as (s' & Hloop & Hout' & Hok'' & Hsl & Hkeep & Hend).
      { intros y Hy. rewrite Hlru. apply list_elem_of_filter. split.
        - intros ->. contradiction.
        - apply Hsub. now right. }
      exists s'. rewrite Hloop. split; [reflexivity|].
      split; [congruence|]. split; [exact Hok''|].
      split; [etrans; [exact Hsl|]; rewrite Hlru; apply sublist_filter|].
      apply andb_true_iff in Hev as [Hd Hr].
      apply negb_true_iff in Hd. apply Z.leb_le in Hr.
      assert (~ in_use s mp) as Hnot.
      { intros (m' & Hm' & Hu). rewrite Hm in Hm'. injection Hm' as <-.
        destruct Hu; [congruence | lia]. }
      split.
      * intros y Hy Hcase. apply Hkeep.
        -- rewrite Hlru. apply list_elem_of_filter. split; [|exact Hy].
           intros ->. destruct Hcase as [Hu|Hq]; [contradiction|]. apply Hq. left.
        -- destruct Hcase as [Hu|Hq].
           ++ left. now apply (in_use_heap s).
           ++ right. intros Hy'. apply Hq. now right.
      * destruct Hend as [Hle|Hall']; [now left|]. right.
        intros y Hy Hy'. apply elem_of_cons in Hy as [->|Hy].
        -- exfalso. apply (fun H => elem_of_sublist _ _ _ H Hsl) in Hy'.
           rewrite Hlru in Hy'. apply list_elem_of_filter in Hy' as [Hne _]. now apply Hne.
        -- apply (in_use_heap s1 s); [congruence|]. now apply Hall'.
    + unfold bind at 1. cbn [ret].
      destruct (IH s Hok Hnd) as (s' & Hloop & Hout' & Hok'' & Hsl & Hkeep & Hend).
      { intros y Hy. apply Hsub. now right. }
      exists s'. rewrite Hloop. split; [reflexivity|].
      split; [exact Hout'|]. split; [exact Hok''|]. split; [exact Hsl|].
      assert (in_use s mp) as Huse.
      { exists m. split; [exact Hm|]. apply andb_false_iff in Hev as [Hd|Hr].
        - left. now apply negb_false_iff in Hd.
        - right. apply Z.leb_gt in Hr. lia. }
      split.
      * intros y Hy Hcase. apply Hkeep; [exact Hy|].
        destruct Hcase as [Hu|Hq]; [now left|]. right. intros Hy'. apply Hq. now right.
      * destruct Hend as [Hle|Hall']; [now left|]. right.
        intros y Hy Hy'. apply elem_of_cons in Hy as [->|Hy]; [exact Huse|]. now apply Hall'.
Qed.

(** Pruning the cache never drops a page that is dirty or whose
    reference count is above zero: on a consistent cache [mpage_prune]
    returns, changes nothing outside the cache, only takes pages out of
    the LRU queue, and every such page is still queued and still found
    under its page number.  It goes on until the cache is small enough or
    only such pages are left. *)
Theorem prune_keeps_pages_in_use (s : btree) :
  cache_ok s = true ->
  exists s',
    mpage_prune s = Some (tt, s') /\
    outside_cache s' = outside_cache s /\
    sublist (bt_lru_queue s') (bt_lru_queue s) /\
    (forall mp m, mp ∈ bt_lru_queue s -> bt_heap s !! mp = Some m ->
       mp_dirty m = true \/ 0 < mp_ref m ->
       mp ∈ bt_lru_queue s' /\ bt_page_cache s' !! mp_pgno m = Some mp) /\
    (bt_cache_size s' <= bt_max_cache s' \/
     forall mp, mp ∈ bt_lru_queue s' -> in_use s mp).
Proof.
  intros Hok. pose proof Hok as Hok0. apply cache_ok_spec in Hok0 as [Hnd _].
  destruct (prune_loop_keeps (bt_lru_queue s) s Hok Hnd)
    as (s' & Hrun & Hout & Hok' & Hsl & Hkeep & Hend); [set_solver|].
  exists s'. split; [exact Hrun|]. split; [exact Hout|]. split; [exact Hsl|].
  destruct (outside_cache_fields _ _ Hout) as (_ & _ & _ & _ & _ & _ & _ & Hheap & _).
  split.
  - intros mp m Hmp Hm Huse.
    assert (mp ∈ bt_lru_queue s') as Hmp'.
    { apply Hkeep; [exact Hmp|]. left. exists m. auto. }
    split; [exact Hmp'|].
    apply cache_ok_spec in Hok' as [_ Hall].
    destruct (cache_entry_ok_inv s' mp (Hall mp Hmp')) as (m' & Hm' & Hc).
    rewrite Hheap, Hm in Hm'. injection Hm' as <-. exact Hc.
  - destruct Hend as [Hle|Hall]; [now left|]. right.
    intros mp Hmp. apply Hall; [|exact Hmp].
    eapply elem_of_sublist; eauto.
Qed.

(** The cache of [crowded_cache]: the dirty leaf (page object [0], page
    [3]) and the referenced leaf (page object [2], page [1]) are kept,
    the meta page (page object [1]) is dropped. *)
Lemma prune_keeps_pages_in_use_witness :
  exists s',
    mpage_prune crowded_cache = Some (tt, s') /\
    outside_cache s' = outside_cache crowded_cache /\
    bt_lru_queue crowded_cache = [1; 0; 2]%nat /\
    bt_lru_queue s' = [0; 2]%nat /\
    (O ∈ bt_lru_queue s' /\ bt_page_cache s' !! 3 = Some O) /\
    (2%nat ∈ bt_lru_queue s' /\ bt_page_cache s' !! 1 = Some 2%nat) /\
    (bt_cache_size s' <= bt_max_cache s' \/
     forall mp, mp ∈ bt_lru_queue s' -> in_use crowded_cache mp).
Proof.
  destruct (prune_keeps_pages_in_use crowded_cache) as (s' & Hrun & Hout & _ & Hkeep & Hend).
  - vm_compute. reflexivity.
  - exists s'. split; [exact Hrun|]. split; [exact Hout|]. split; [vm_compute; reflexivity|].
    split.
    { vm_compute in Hrun. injection Hrun as <-. reflexivity. }
    split.
    { apply (Hkeep O (Mpage None 0 []
               (Page 3 P_LEAF 16 4074 0
                  (BNodes [Written (Node 3 1 0 [ "a"; "1"; "1"; "1" ]%byte);
                           Written (Node 3 1 0 [ "k"; "v"; "v"; "v" ]%byte)]))
               3 0 true)).
      - vm_compute. right. left.
      - vm_compute. reflexivity.
      - left. reflexivity. }
    split; [|exact Hend].
    apply (Hkeep 2%nat (Mpage None 0 []
             (Page 1 P_LEAF 14 4085 0
                (BNodes [Written (Node 3 1 0 [ "k"; "v"; "v"; "v" ]%byte)]))
             1 2 false)).
    + vm_compute. right. right. left.
    + vm_compute. reflexivity.
    + right. cbn. lia.
Defined.

End PruneFacts.

Module LeafTreeFacts.
Import Cmp CmpFacts OrderFacts PrefixFacts SearchFacts StateFacts SepFacts.
Import CacheFacts TxnFacts ReadFacts NodeFacts CommitFacts PruneFacts.

(** A cache hit moves the page to the tail of the LRU queue. *)
Lemma cache_ok_hit (s : btree) (pgno : Z) (mp : nat) (m : mpage) :
  cache_ok s = true ->
  bt_page_cache s !! pgno = Some mp -> bt_heap s !! mp = Some m -> mp_pgno m = pgno ->
  cache_ok (set_bt_lru_queue (fun q => filter (fun x => x <> mp) q ++ [mp]) s) = true.
Proof.
  intros Hok Hc Hm Hp. apply cache_ok_spec in Hok as [Hnd Hall].
  apply cache_ok_spec. cbn. split.
  - apply NoDup_app. split; [now apply NoDup_filter|]. split; [|apply NoDup_singleton].
    intros y Hy Hy'. apply list_elem_of_singleton in Hy'. subst y.
    apply list_elem_of_filter in Hy as [Hne _]. now apply Hne.
  - intros y Hy. apply elem_of_app in Hy as [Hy|Hy].
    + apply list_elem_of_filter in Hy as [_ Hy]. apply (Hall y Hy).
    + apply list_elem_of_singleton in Hy as ->.
      unfold cache_entry_ok. cbn. rewrite Hm. apply bool_decide_eq_true. now rewrite Hp.
Qed.

Lemma search_page_root_loop_leaf (fuel : nat) (s : btree) (mp : nat) (m : mpage)
    (key : option btval) (modify_ : bool) :
  bt_heap s !! mp = Some m -> IS_LEAF m = true -> IS_BRANCH m = false ->
  search_page_root_loop fuel mp key None modify_ s = Some ((BT_SUCCESS, None, Some mp), s).
Proof.
  intros Hm Hl Hb.
  destruct fuel; cbn [search_page_root_loop]; unfold bind;
    rewrite (mp_get_eq _ _ _ Hm), Hb, Hl; reflexivity.
Qed.

(** The search for the page of a key in a tree of one leaf. *)
Lemma search_page_leaf (SHA256 : list Z -> bytes) (s : btree) (t : nat) (x : btree_txn)
    (mp : nat) (m : mpage) (key : option btval) (modify_ : bool) :
  leaf_tree s t x mp m -> (modify_ = true -> mp_dirty m = true) ->
  let s' := set_bt_lru_queue (fun q => filter (fun y => y <> mp) q ++ [mp]) s in
  btree_search_page SHA256 (Some t) key None modify_ s =
    Some ((BT_SUCCESS, None, Some mp), s') /\
  leaf_tree s' t x mp m /\ mp ∈ bt_lru_queue s'.
Proof.
  intros (Hx & Herr & Hroot & Hc & Hm & Hp & Hl & Hb & Hok) Hd. cbv zeta.
  split; [|split].
  - assert (modify_ && negb (mp_dirty m) = false) as Hmd
      by (destruct modify_; [rewrite Hd by reflexivity|]; reflexivity).
    unfold btree_search_page.
    destruct modify_.
    all: unfold bind at 1; unfold bind at 1; rewrite (txn_get_eq _ _ _ Hx), Herr; cbn [ret].
    all: destruct (Z.eqb_spec (tx_root x) P_INVALID) as [E|_]; [contradiction|].
    all: unfold bind at 1; rewrite (get_mpage_hit _ _ _ Hc).
    all: unfold bind at 1; unfold mp_get at 1; cbn [bt_heap set_bt_lru_queue]; rewrite Hm.
    all: cbn [liftO ret]; cbn [andb] in Hmd |- *; try rewrite Hmd.
    all: unfold bind at 1; cbn [ret]; unfold btree_search_page_root, bind at 1.
    all: cbn [with_cursor ret]; unfold bind at 1; cbn [gets].
    all: now apply search_page_root_loop_leaf with (m := m).
  - repeat split; auto. now apply (cache_ok_hit s (tx_root x) mp m).
  - cbn. apply elem_of_app. right. now left.
Qed.

(** The binary search on a leaf that holds the increasing keys [ks]. *)
Lemma search_leaf (m : mpage) (ns : list node) (ks : list bytes) (k : bytes) :
  leaf_holds m ns ks -> IS_LEAF m = true -> increasing ks -> ks <> [] ->
  exists r, btree_search_node m (mkval (mp_prefix m ++ k)) = Some r /\
    match r with
    | None => forall j kj, ks !! j = Some kj -> gt k kj
    | Some (exact, i) =>
        exists j kj, i = Z.of_nat j /\ ks !! j = Some kj /\
          (forall j' kj', (j' < j)%nat -> ks !! j' = Some kj' -> gt k kj') /\
          if exact then kj = k else gt kj k
    end.
Proof.
  intros Hholds Hleaf Hinc Hne.
  pose proof (holds_length m ns ks Hholds) as Hlen.
  assert (NUMKEYS m = Z.of_nat (length ks)) as HN
    by (destruct Hholds as (_ & H & _); rewrite H; lia).
  assert (search_low m = 0) as Hlow by (unfold search_low; now rewrite Hleaf).
  assert (0 < length ks)%nat as Hpos by (destruct ks; [congruence | cbn; lia]).
  assert (forall i, search_low m <= i < NUMKEYS m -> exists ki, stored_key m i = Some ki)
    as Hkeys by (intros i Hi; now apply (holds_keys m ns ks)).
  pose proof (holds_increasing m ns ks Hholds Hinc) as Hinc'.
  destruct (search_node_loop_spec m k Hkeys Hinc' (S (Z.to_nat (NUMKEYS m)))
              (search_low m) (NUMKEYS m - 1) 0 0)
    as (i & rc & Hloop & Hi & ki & Hki & Hcmp & Hbelow & Habove);
    try (intros; lia).
  unfold btree_search_node. fold (search_low m). rewrite Hloop.
  cbn [mbind option_bind fst snd].
  destruct (cmp_sign _ _ _ Hcmp) as (H0 & Hgt & Hlt).
  rewrite Hlow in *.
  assert (forall j kj, ks !! j = Some kj -> stored_key m (Z.of_nat j) = Some kj) as Hst.
  { intros j kj Hj. rewrite (holds_stored_key m ns ks Hholds) by lia. now rewrite Nat2Z.id. }
  rewrite (holds_stored_key m ns ks Hholds) in Hki by lia.
  destruct (0 <? rc) eqn:E1.
  - apply Z.ltb_lt in E1. specialize (Hgt E1).
    destruct (NUMKEYS m <=? i + 1) eqn:E2.
    + apply Z.leb_le in E2. eexists. split; [reflexivity|].
      intros j kj Hj. pose proof (lookup_lt_Some _ _ _ Hj).
      destruct (decide (Z.of_nat j = i)) as [E|Hn].
      * subst i. rewrite Nat2Z.id in Hki. congruence.
      * apply (Hbelow (Z.of_nat j) kj); [lia | now apply Hst].
    + apply Z.leb_gt in E2. eexists. split; [reflexivity|].
      replace (rc =? 0) with false by (symmetry; apply Z.eqb_neq; lia).
      destruct (lookup_lt_is_Some_2 ks (Z.to_nat (i + 1)) ltac:(lia)) as [kn Hkn].
      exists (Z.to_nat (i + 1)), kn. split; [lia|]. split; [exact Hkn|]. split.
      * intros j kj Hj Hkj. destruct (decide (Z.of_nat j = i)) as [E|Hn].
        -- subst i. rewrite Nat2Z.id in Hki. congruence.
        -- apply (Hbelow (Z.of_nat j) kj); [lia | now apply Hst].
      * apply (Habove (i + 1) kn); [lia|].
        rewrite (holds_stored_key m ns ks Hholds) by lia. exact Hkn.
  - apply Z.ltb_ge in E1. eexists. split; [reflexivity|].
    exists (Z.to_nat i), ki. split; [lia|]. split; [exact Hki|]. split.
    + intros j kj Hj Hkj. apply (Hbelow (Z.of_nat j) kj); [lia | now apply Hst].
    + destruct (rc =? 0) eqn:E0.
      * apply Z.eqb_eq in E0. symmetry. auto.
      * apply Z.eqb_neq in E0. apply Hlt. lia.
Qed.

(** The search for a key that is not on the leaf stops at the slot where
    the key belongs. *)
Lemma search_position (m : mpage) (ns : list node) (ks : list bytes) (k : bytes)
    (indx : nat) :
  leaf_holds m ns ks -> IS_LEAF m = true -> increasing ks -> ks <> [] ->
  (indx <= length ks)%nat ->
  (forall j kj, (j < indx)%nat -> ks !! j = Some kj -> gt k kj) ->
  (forall j kj, (indx <= j)%nat -> ks !! j = Some kj -> gt kj k) ->
  btree_search_node m (mkval (mp_prefix m ++ k)) =
  Some (if (indx <? length ks)%nat then Some (false, Z.of_nat indx) else None).
Proof.
  intros Hholds Hleaf Hinc Hne Hi Hbelow Habove.
  destruct (search_leaf m ns ks k Hholds Hleaf Hinc Hne) as (r & Hr & Hres).
  rewrite Hr. f_equal.
  destruct r as [[exact i]|].
  - destruct Hres as (j & kj & -> & Hkj & Hb & Hex).
    pose proof (lookup_lt_Some _ _ _ Hkj) as Hjl.
    assert (gt kj k) as Hgt.
    { destruct exact; [|exact Hex]. subst kj. exfalso. apply (gt_irrefl k).
      destruct (Nat.lt_ge_cases j indx);
        [apply (Hbelow j k) | apply (Habove j k)]; assumption. }
    assert (j = indx) as ->.
    { destruct (Nat.lt_trichotomy j indx) as [Hlt|[E|Hgt']]; [|exact E|].
      - exfalso. apply (gt_irrefl k). apply (gt_transitive k kj k); [|exact Hgt].
        now apply (Hbelow j kj).
      - exfalso. destruct (lookup_lt_is_Some_2 ks indx ltac:(lia)) as [ki Hki].
        apply (gt_irrefl k). apply (gt_transitive k ki k).
        + now apply (Hb indx ki).
        + apply (Habove indx ki); [lia | exact Hki]. }
    rewrite (proj2 (Nat.ltb_lt _ _) Hjl).
    destruct exact; [|reflexivity].
    subst kj. exfalso. apply (gt_irrefl k). apply (Habove indx k); [lia | exact Hkj].
  - destruct (indx <? length ks)%nat eqn:E; [|reflexivity].
    apply Nat.ltb_lt in E. exfalso.
    destruct (lookup_lt_is_Some_2 ks indx E) as [ki Hki].
    apply (gt_irrefl k). apply (gt_transitive k ki k).
    + now apply (Hres indx ki).
    + apply (Habove indx ki); [lia | exact Hki].
Qed.

Section Get.
Variable SHA256 : list Z -> bytes.
Variables (s : btree) (t : nat) (x : btree_txn) (mp : nat) (m : mpage).
Variables (ns : list node) (ks : list bytes).
Hypothesis Htree : leaf_tree s t x mp m.
Hypothesis Hholds : leaf_holds m ns ks.
Hypothesis Hinc : increasing ks.
Hypothesis Hne : ks <> [].

Lemma get_found (bt_null : bool) (j : nat) (kj : bytes) (nj : node) (d : bytes) :
  ks !! j = Some kj -> ns !! j = Some nj ->
  0 < Z.of_nat (length (mp_prefix m ++ kj)) <= MAXKEYSIZE ->
  inline_data nj = Some d ->
  exists s', btree_txn_get SHA256 bt_null (Some t) (mkval (mp_prefix m ++ kj)) s =
             Some ((BT_SUCCESS, d), s').
Proof.
  intros Hkj Hnj Hsz Hd.
  destruct (search_page_leaf SHA256 s t x mp m (Some (mkval (mp_prefix m ++ kj))) false Htree)
    as (Hsp & Htree1 & Hin1); [discriminate|].
  set (s1 := set_bt_lru_queue _ s) in *.
  destruct Htree1 as (Hx & Herr & Hroot & Hc & Hm & Hp & Hl & Hb & Hok).
  pose proof (lookup_lt_Some _ _ _ Hkj) as Hjl.
  assert (NUMKEYS m = Z.of_nat (length ks)) as HN.
  { destruct Hholds as (_ & H & _). rewrite H, (holds_length m ns ks Hholds). reflexivity. }
  unfold btree_txn_get. rewrite bool_decide_eq_false_2 by discriminate.
  rewrite andb_false_r. cbn [bv_size mkval].
  destruct (Z.eqb_spec (Z.of_nat (length (mp_prefix m ++ kj))) 0); [lia|].
  destruct (Z.ltb_spec MAXKEYSIZE (Z.of_nat (length (mp_prefix m ++ kj)))); [lia|].
  cbn [orb]. unfold bind at 1. fold (mkval (mp_prefix m ++ kj)). rewrite Hsp.
  cbn [fst snd Z.eqb BT_SUCCESS negb liftO]. unfold bind at 1. cbn [ret].
  unfold bind at 1. rewrite (mp_get_eq _ _ _ Hm).
  rewrite (search_present m kj (Z.of_nat j)).
  2:{ intros i Hi. now apply (holds_keys m ns ks). }
  2:{ now apply (holds_increasing m ns ks). }
  2:{ unfold search_low. rewrite Hl. lia. }
  2:{ rewrite (holds_stored_key m ns ks Hholds) by lia. now rewrite Nat2Z.id. }
  unfold bind at 1. cbn [liftO ret]. unfold bind at 1.
  rewrite (holds_node m ns ks Hholds) by lia. rewrite Nat2Z.id, Hnj.
  unfold bind at 1. cbn [liftO ret].
  unfold inline_data in Hd. destruct (F_ISSET (n_flags nj) F_BIGDATA) eqn:Hbig; [discriminate|].
  unfold btree_read_data, bind at 1. cbn [the_psize gets]. rewrite Hbig. cbn [negb].
  unfold bind at 1. rewrite Hd. cbn [liftO ret].
  set (s2 := if 0 <? NODEDSZ nj
             then set_bt_heap (fun h => <[mp := set_mp_ref (fun r => i16 (r + 1)) m]> h) s1
             else s1).
  assert ((if 0 <? NODEDSZ nj then mp_upd mp (set_mp_ref (fun r => i16 (r + 1))) else ret tt) s1 =
          Some (tt, s2)) as Hpin.
  { subst s2. destruct (0 <? NODEDSZ nj); [now apply mp_upd_eq | reflexivity]. }
  unfold bind at 1. rewrite Hpin. cbn [ret].
  assert (cache_ok s2 = true) as Hok2.
  { apply (cache_ok_pgno s1); auto; subst s2; destruct (0 <? NODEDSZ nj); try reflexivity.
    cbn [bt_heap set_bt_heap]. rewrite list_fmap_insert, list_insert_id; [reflexivity|].
    rewrite list_lookup_fmap, Hm. reflexivity. }
  destruct (mpage_prune_ok s2 Hok2) as (s3 & Hprune & _).
  unfold bind at 1. rewrite Hprune. eexists. reflexivity.
Qed.

Lemma get_missing (bt_null : bool) (k : bytes) :
  0 < Z.of_nat (length (mp_prefix m ++ k)) <= MAXKEYSIZE ->
  (forall j kj, ks !! j = Some kj -> kj <> k) ->
  exists s', btree_txn_get SHA256 bt_null (Some t) (mkval (mp_prefix m ++ k)) s =
             Some ((BT_FAIL, []), s') /\ bt_errno s' = ENOENT.
Proof.
  intros Hsz Habs.
  destruct (search_page_leaf SHA256 s t x mp m (Some (mkval (mp_prefix m ++ k))) false Htree)
    as (Hsp & Htree1 & Hin1); [discriminate|].
  set (s1 := set_bt_lru_queue _ s) in *.
  destruct Htree1 as (Hx & Herr & Hroot & Hc & Hm & Hp & Hl & Hb & Hok).
  unfold btree_txn_get. rewrite bool_decide_eq_false_2 by discriminate.
  rewrite andb_false_r. cbn [bv_size mkval].
  destruct (Z.eqb_spec (Z.of_nat (length (mp_prefix m ++ k))) 0); [lia|].
  destruct (Z.ltb_spec MAXKEYSIZE (Z.of_nat (length (mp_prefix m ++ k)))); [lia|].
  cbn [orb]. unfold bind at 1. fold (mkval (mp_prefix m ++ k)). rewrite Hsp.
  cbn [fst snd Z.eqb BT_SUCCESS negb liftO]. unfold bind at 1. cbn [ret].
  unfold bind at 1. rewrite (mp_get_eq _ _ _ Hm).
  destruct (search_leaf m ns ks k Hholds Hl Hinc Hne) as (r & Hr & Hres).
  rewrite Hr. unfold bind at 1. cbn [liftO ret].
  assert (cache_ok (set_bt_errno (fun _ => ENOENT) s1) = true) as Hok2
    by (apply (cache_ok_pgno s1); auto).
  destruct (mpage_prune_ok _ Hok2) as (s3 & Hprune & Hout & _).
  destruct (outside_cache_fields _ _ Hout) as (_ & _ & _ & _ & _ & _ & _ & _ & He).
  assert ((set_errno ENOENT ;;; ret (BT_FAIL, @nil byte)) s1 =
          Some ((BT_FAIL, []), set_bt_errno (fun _ => ENOENT) s1)) as Hen by reflexivity.
  destruct r as [[[|] i]|].
  - destruct Hres as (j & kj & _ & Hkj & _ & ->). exfalso. now apply (Habs j k).
  - unfold bind at 1. rewrite Hen. unfold bind at 1. rewrite Hprune.
    eexists. split; [reflexivity|]. now rewrite He.
  - unfold bind at 1. rewrite Hen. unfold bind at 1. rewrite Hprune.
    eexists. split; [reflexivity|]. now rewrite He.
Qed.

End Get.

(** Pruning leaves a dirty leaf in the cache. *)
Lemma prune_leaf_tree (s : btree) (t : nat) (x : btree_txn) (mp : nat) (m : mpage) :
  leaf_tree s t x mp m -> mp_dirty m = true -> mp ∈ bt_lru_queue s ->
  exists s', mpage_prune s = Some (tt, s') /\ leaf_tree s' t x mp m /\
             outside_cache s' = outside_cache s.
Proof.
  intros (Hx & Herr & Hroot & Hc & Hm & Hp & Hl & Hb & Hok) Hd Hin.
  pose proof Hok as Hok0. apply cache_ok_spec in Hok0 as [Hnd _].
  destruct (prune_loop_keeps (bt_lru_queue s) s Hok Hnd)
    as (s' & Hrun & Hout & Hok' & Hsl & Hkeep & _); [set_solver|].
  exists s'. split; [exact Hrun|]. split; [|exact Hout].
  destruct (outside_cache_fields _ _ Hout) as (_ & _ & _ & _ & Htx & _ & _ & Hheap & _).
  assert (mp ∈ bt_lru_queue s') as Hin'.
  { apply Hkeep; [exact Hin|]. left. exists m. auto. }
  pose proof Hok' as Hok1. apply cache_ok_spec in Hok1 as [_ Hall].
  destruct (cache_entry_ok_inv s' mp (Hall mp Hin')) as (m' & Hm' & Hc').
  rewrite Hheap, Hm in Hm'. injection Hm' as <-.
  repeat split; auto; try congruence.
Qed.

Lemma remove_prefix_app (pfx k : bytes) :
  remove_prefix (mkval (pfx ++ k)) (Z.of_nat (length pfx)) = Some (mkval k).
Proof.
  unfold remove_prefix, mkval. cbn [bv_size bv_data]. rewrite length_app.
  destruct pfx as [|b pfx]; [reflexivity|].
  destruct (Z.eqb_spec (Z.of_nat (length (b :: pfx))) 0); [cbn in *; lia|].
  destruct (Z.ltb_spec (Z.of_nat (length (b :: pfx) + length k))
              (Z.of_nat (length (b :: pfx)))); [lia|].
  rewrite Nat2Z.id, drop_app_length. do 2 f_equal. lia.
Qed.

Lemma leaf_after_add_fields (m : mpage) (ns : list node) (indx : nat) (key data : btval)
    (kb db : bytes) :
  let m' := leaf_after_add m ns indx key data kb db in
  mp_pgno m' = mp_pgno m /\ mp_dirty m' = mp_dirty m /\ mp_prefix m' = mp_prefix m /\
  IS_LEAF m' = IS_LEAF m /\ IS_BRANCH m' = IS_BRANCH m /\ mp_parent m' = mp_parent m /\
  mp_ref m' = mp_ref m.
Proof. destruct m as [par pi pfx [pn fl lo up nx body] pgn ref dirty]. repeat split. Qed.

Section Put.
Variable SHA256 : list Z -> bytes.
Variables (s : btree) (t : nat) (x : btree_txn) (mp : nat) (m : mpage).
Variables (ns : list node) (ks : list bytes).
Hypothesis Htree : leaf_tree s t x mp m.
Hypothesis Hdirty : mp_dirty m = true.
Hypothesis Hrd : F_ISSET (tx_flags x) BT_TXN_RDONLY = false.
Hypothesis Hholds : leaf_holds m ns ks.
Hypothesis Hinc : increasing ks.
Hypothesis Hne : ks <> [].

Lemma put_new (bt_null : bool) (indx : nat) (k : bytes) (data : btval) (db : bytes) :
  (indx <= length ks)%nat ->
  (forall j kj, (j < indx)%nat -> ks !! j = Some kj -> gt k kj) ->
  (forall j kj, (indx <= j)%nat -> ks !! j = Some kj -> gt kj k) ->
  0 < Z.of_nat (length (mp_prefix m ++ k)) <= MAXKEYSIZE ->
  val_bytes data = Some db ->
  bv_size data < psize (bt_head_ s) / BT_MINKEYS ->
  0 <= lower (mp_page m) -> upper (mp_page m) < 2 ^ 16 ->
  NODESIZE + Z.of_nat (length (mp_prefix m ++ k)) + bv_size data + sizeof_indx_t
    <= upper (mp_page m) - lower (mp_page m) ->
  exists s',
    btree_txn_put SHA256 bt_null (Some t) (mkval (mp_prefix m ++ k)) data s =
      Some (BT_SUCCESS, s') /\
    leaf_tree s' t x mp (leaf_after_add m ns indx (mkval k) data k db) /\
    entries_count s' = u64 (entries_count s + 1).
Proof.
  intros Hi Hbelow Habove Hsz Hdb Hinl Hlo Hup Hroom.
  destruct (search_page_leaf SHA256 s t x mp m (Some (mkval (mp_prefix m ++ k))) true Htree)
    as (Hsp & Htree1 & Hin1); [auto|].
  set (s1 := set_bt_lru_queue _ s) in *.
  destruct Htree1 as (Hx & Herr & Hroot & Hc & Hm & Hp & Hl & Hb & Hok).
  pose proof (holds_length m ns ks Hholds) as Hlen.
  assert (NUMKEYS m = Z.of_nat (length ks)) as HN.
  { destruct Hholds as (_ & H & _). rewrite H, Hlen. reflexivity. }
  destruct (val_bytes_spec _ _ Hdb) as [Hds _].
  rewrite length_app in Hsz, Hroom.
  unfold btree_txn_put. unfold bind at 1. unfold bind at 1.
  assert (bt_txns s !! t = Some x) as Hx0 by exact Hx.
  rewrite (txn_get_eq _ _ _ Hx0), Hrd. cbn [ret].
  rewrite bool_decide_eq_false_2 by discriminate. rewrite andb_false_r.
  cbn [bv_size mkval]. rewrite length_app.
  destruct (Z.eqb_spec (Z.of_nat (length (mp_prefix m) + length k)) 0); [lia|].
  destruct (Z.ltb_spec MAXKEYSIZE (Z.of_nat (length (mp_prefix m) + length k))); [lia|].
  cbn [orb]. unfold bind at 1. cbn [ret]. unfold bind at 1. cbn [the_psize gets].
  replace (Btval (mp_prefix m ++ k) (Z.of_nat (length (mp_prefix m) + length k)))
    with (mkval (mp_prefix m ++ k)) by (unfold mkval; now rewrite length_app).
  assert (put_target SHA256 t (mkval (mp_prefix m ++ k)) s =
          Some (inr (mp, Z.of_nat indx), s1)) as Htgt.
  { unfold put_target. unfold bind at 1. rewrite Hsp. unfold bind at 1. cbn [gets].
    cbn [fst snd Z.eqb BT_SUCCESS liftO]. unfold bind at 1. cbn [ret].
    unfold bind at 1. rewrite (mp_get_eq _ _ _ Hm).
    rewrite (search_position m ns ks k indx Hholds Hl Hinc Hne Hi Hbelow Habove).
    unfold bind at 1. cbn [liftO ret]. destruct (indx <? length ks)%nat eqn:E.
    - reflexivity.
    - apply Nat.ltb_ge in E. rewrite HN. replace indx with (length ks) by lia. reflexivity. }
  unfold bind at 1. rewrite Htgt. clear Htgt.
  unfold bind at 1. rewrite (mp_get_eq _ _ _ Hm).
  assert (0 <= bv_size data) as Hd0 by lia.
  assert (Z.of_nat (length ks) < 2 ^ 16) as Hks.
  { rewrite <- HN. unfold NUMKEYS, NUMKEYSP. rewrite Z.shiftr_div_pow2 by lia.
    unfold NODESIZE, sizeof_indx_t, PAGEHDRSZ in *. change (2 ^ 1) with 2.
    apply Z.div_lt_upper_bound; lia. }
  assert (SIZELEFT m = upper (mp_page m) - lower (mp_page m)) as Hleft.
  { unfold SIZELEFT. apply small_u16. unfold NODESIZE, sizeof_indx_t in Hroom. lia. }
  assert (bt_leaf_size (psize (bt_head_ s)) (mkval (mp_prefix m ++ k)) data =
          NODESIZE + Z.of_nat (length (mp_prefix m) + length k) + bv_size data +
          sizeof_indx_t) as Hls.
  { unfold bt_leaf_size. cbn [bv_size mkval]. rewrite length_app.
    destruct (Z.leb_spec (psize (bt_head_ s) / BT_MINKEYS) (bv_size data)); [lia|].
    unfold NODESIZE, sizeof_indx_t in *.
    rewrite (small_u64 (7 + _ + _)) by lia. apply small_u64. lia. }
  rewrite Hleft, Hls.
  destruct (Z.ltb_spec (upper (mp_page m) - lower (mp_page m))
              (NODESIZE + Z.of_nat (length (mp_prefix m) + length k) + bv_size data +
               sizeof_indx_t)); [lia|].
  unfold bind at 1. unfold bind at 1. rewrite remove_prefix_app. cbn [liftO ret].
  rewrite (small_u16 (Z.of_nat indx)) by lia.
  rewrite (add_node_inline_leaf s1 mp m ns indx (mkval k) data k db 0); auto.
  2:{ now destruct Hholds as (H1 & _). }
  2:{ destruct Hholds as (_ & H2 & _). exact H2. }
  2:{ lia. }
  2:{ apply val_bytes_mkval. }
  2:{ cbn [bv_size mkval]. lia. }
  2:{ cbn [bv_size mkval]. unfold NODESIZE, sizeof_indx_t in *. lia. }
  cbn [Z.eqb BT_SUCCESS negb]. unfold bind at 1, modify at 1.
  set (m' := leaf_after_add m ns indx (mkval k) data k db).
  destruct (leaf_after_add_fields m ns indx (mkval k) data k db)
    as (Fp & Fd & Fx & Fl & Fb & _ & _). fold m' in Fp, Fd, Fx, Fl, Fb.
  set (s3 := set_bt_meta_ _ _).
  assert (leaf_tree s3 t x mp m') as Htree3.
  { repeat split; auto; try congruence.
    - cbn. apply list_lookup_insert_eq. eapply lookup_lt_Some; eauto.
    - apply (cache_ok_pgno s1); auto. cbn [bt_heap set_bt_heap set_bt_meta_ s3].
      cbn. rewrite list_fmap_insert, list_insert_id; [reflexivity|].
      rewrite list_lookup_fmap. cbn in Hm. rewrite Hm. cbn [fmap option_fmap option_map].
      now rewrite Fp. }
  destruct (prune_leaf_tree s3 t x mp m' Htree3) as (s4 & Hprune & Htree4 & Hout);
    [congruence | exact Hin1 |].
  unfold finish_txn, bind. cbn [ret]. rewrite Hprune.
  exists s4. split; [reflexivity|]. split; [exact Htree4|].
  destruct (outside_cache_fields _ _ Hout) as (_ & _ & Hmeta & _).
  unfold entries_count. rewrite Hmeta. reflexivity.
Qed.

End Put.

(** The leaf after [btree_add_node] holds the new node at its slot. *)
Lemma after_add_holds (m : mpage) (ns : list node) (ks : list bytes) (indx : nat)
    (k : bytes) (data : btval) (db : bytes) :
  leaf_holds m ns ks -> (indx <= length ks)%nat -> val_bytes data = Some db ->
  let n := Node (bv_size data) (Z.of_nat (length k)) 0 (k ++ db) in
  leaf_holds (leaf_after_add m ns indx (mkval k) data k db)
    (take indx ns ++ n :: drop indx ns) (take indx ks ++ k :: drop indx ks) /\
  inline_data n = Some db /\
  (take indx ns ++ n :: drop indx ns) !! indx = Some n /\
  (take indx ks ++ k :: drop indx ks) !! indx = Some k.
Proof.
  intros Hholds Hi Hdb n.
  pose proof (holds_length m ns ks Hholds) as Hlen.
  destruct Hholds as (Hs & Hn & Hk).
  destruct (val_bytes_spec _ _ Hdb) as [Hds _].
  assert (node_key n = Some k) as Hnk.
  { unfold node_key, NODEKEY, n, val_bytes. cbn [ksize n_data bv_size bv_data].
    rewrite length_app.
    rewrite (proj2 (andb_true_iff _ _)) by (split; apply Z.leb_le; lia).
    now rewrite Nat2Z.id, take_app_length. }
  split; [|split; [|split]].
  - split; [|split].
    + reflexivity.
    + unfold NUMKEYS, NUMKEYSP in *. unfold leaf_after_add.
      destruct m as [par pi pfx [pn fl lo up nx body] pgn ref dirty]. cbn in *.
      rewrite Z.shiftr_div_pow2 in * by lia. change (2 ^ 1) with 2 in *.
      rewrite length_app, length_take. cbn [length]. rewrite length_drop.
      replace (lo + 2 - PAGEHDRSZ) with (lo - PAGEHDRSZ + 1 * 2) by lia.
      rewrite Z.div_add by lia. lia.
    + apply mapM_Some. apply mapM_Some in Hk.
      apply Forall2_app; [now apply Forall2_take|].
      constructor; [assumption | now apply Forall2_drop].
  - unfold inline_data, NODEDATA, NODEDSZ, n. cbn [ksize n_data n_p n_flags].
    change (F_ISSET 0 F_BIGDATA) with false. cbv iota.
    rewrite Nat2Z.id, drop_app_length. unfold val_bytes. cbn [bv_size bv_data].
    rewrite (proj2 (andb_true_iff _ _)) by (split; apply Z.leb_le; lia).
    rewrite Hds, Nat2Z.id. now rewrite firstn_all.
  - rewrite lookup_app_r by (rewrite length_take; lia).
    rewrite length_take. replace (indx - indx `min` length ns)%nat with O by lia.
    reflexivity.
  - rewrite lookup_app_r by (rewrite length_take; lia).
    rewrite length_take. replace (indx - indx `min` length ks)%nat with O by lia.
    reflexivity.
Qed.

Lemma lookup_after_insert {A} (l : list A) (indx j : nat) (a y : A) :
  l !! j = Some y ->
  (take indx l ++ a :: drop indx l) !! (if (j <? indx)%nat then j else S j) = Some y.
Proof.
  intros Hj. pose proof (lookup_lt_Some _ _ _ Hj) as Hlt.
  destruct (Nat.ltb_spec j indx).
  - rewrite lookup_app_l by (rewrite length_take; lia). now rewrite lookup_take_lt by lia.
  - rewrite lookup_app_r by (rewrite length_take; lia). rewrite length_take.
    replace (S j - indx `min` length l)%nat with (S (j - indx)) by lia.
    rewrite lookup_cons_ne_0 by lia. cbn [Nat.pred]. rewrite lookup_drop.
    now replace (indx + (j - indx))%nat with j by lia.
Qed.

(** Lookups in a tree of one leaf.  In a transaction whose tree is one
    cached leaf with increasing keys, [btree_txn_get] returns the data of
    each key the leaf holds (here for data stored inline), and fails with
    [ENOENT] for every other key. *)
Theorem get_on_leaf_tree
    (SHA256 : list Z -> bytes) (s : btree) (t : nat) (x : btree_txn) (mp : nat) (m : mpage)
    (ns : list node) (ks : list bytes) (bt_null : bool) :
  leaf_tree s t x mp m -> leaf_holds m ns ks -> increasing ks -> ks <> [] ->
  (forall j kj nj d,
     ks !! j = Some kj -> ns !! j = Some nj ->
     0 < Z.of_nat (length (mp_prefix m ++ kj)) <= MAXKEYSIZE ->
     inline_data nj = Some d ->
     exists s', btree_txn_get SHA256 bt_null (Some t) (mkval (mp_prefix m ++ kj)) s =
                Some ((BT_SUCCESS, d), s')) /\
  (forall k,
     0 < Z.of_nat (length (mp_prefix m ++ k)) <= MAXKEYSIZE ->
     (forall j kj, ks !! j = Some kj -> kj <> k) ->
     exists s', btree_txn_get SHA256 bt_null (Some t) (mkval (mp_prefix m ++ k)) s =
                Some ((BT_FAIL, []), s') /\ bt_errno s' = ENOENT).
Proof.
  intros Htree Hholds Hinc Hne. split.
  - intros j kj nj d Hkj Hnj Hsz Hd.
    now apply (get_found SHA256 s t x mp m ns ks Htree Hholds Hinc bt_null j kj nj d).
  - intros k Hsz Habs.
    now apply (get_missing SHA256 s t x mp m ns ks Htree Hholds Hinc Hne bt_null k).
Qed.

Ltac one_key_tree :=
  repeat split; try (vm_compute; reflexivity); try (vm_compute; discriminate).

Lemma single_increasing (k : bytes) : increasing [k].
Proof.
  intros i j ki kj Hij Hi Hj. apply lookup_lt_Some in Hj. cbn in Hj. lia.
Qed.

Lemma km_increasing : increasing km_keys.
Proof.
  intros i j ki kj Hij Hi Hj.
  assert (j < 2)%nat by (apply lookup_lt_Some in Hj; exact Hj).
  assert (i = 0 /\ j = 1)%nat as [-> ->] by lia.
  injection Hi as <-. injection Hj as <-.
  eexists. split; [vm_compute; reflexivity | lia].
Qed.

(** The keys [k], which is there, and [z], which is not. *)
Lemma get_on_leaf_tree_witness :
  (exists s', btree_txn_get Scenario.no_digest false (Some O) (Scenario.key "k")
                one_key_in_txn = Some ((BT_SUCCESS, repeat "v"%byte 3), s')) /\
  (exists s', btree_txn_get Scenario.no_digest false (Some O) (Scenario.key "z")
                one_key_in_txn = Some ((BT_FAIL, []), s') /\ bt_errno s' = ENOENT).
Proof.
  destruct (get_on_leaf_tree Scenario.no_digest one_key_in_txn O (BtreeTxn 1 2 [O] 0) O
              (Mpage None 0 []
                 (Page 1 P_LEAF 14 4085 0 (BNodes [Written (Node 3 1 0 [ "k"; "v"; "v"; "v" ]%byte)]))
                 1 0 true)
              [Node 3 1 0 [ "k"; "v"; "v"; "v" ]%byte] [[ "k"%byte ]] false) as [Hfound Hmissing].
  - one_key_tree.
  - one_key_tree.
  - apply single_increasing.
  - discriminate.
  - split.
    + apply (Hfound O [ "k"%byte ] (Node 3 1 0 [ "k"; "v"; "v"; "v" ]%byte) (repeat "v"%byte 3)).
      * reflexivity.
      * reflexivity.
      * vm_compute. split; [reflexivity | discriminate].
      * reflexivity.
    + apply (Hmissing [ "z"%byte ]).
      * vm_compute. split; [reflexivity | discriminate].
      * intros j kj Hj. destruct j; [|discriminate]. injection Hj as <-. discriminate.
Defined.

(** Insert and lookup in a tree of one leaf.  In a write transaction
    whose tree is one dirty leaf with increasing keys, [btree_txn_put] of
    a key that is not there, with data that are stored inline and room on
    the page, returns [BT_SUCCESS] and counts one more entry; then
    [btree_txn_get] returns the data for that key, and for each key that
    was there the data it had. *)
Theorem put_then_get_on_leaf_tree
    (SHA256 : list Z -> bytes) (s : btree) (t : nat) (x : btree_txn) (mp : nat) (m : mpage)
    (ns : list node) (ks : list bytes) (bt_null : bool)
    (indx : nat) (k : bytes) (data : btval) (db : bytes) :
  leaf_tree s t x mp m -> mp_dirty m = true ->
  F_ISSET (tx_flags x) BT_TXN_RDONLY = false ->
  leaf_holds m ns ks -> increasing ks -> ks <> [] ->
  (indx <= length ks)%nat ->
  (forall j kj, (j < indx)%nat -> ks !! j = Some kj -> gt k kj) ->
  (forall j kj, (indx <= j)%nat -> ks !! j = Some kj -> gt kj k) ->
  0 < Z.of_nat (length (mp_prefix m ++ k)) <= MAXKEYSIZE ->
  val_bytes data = Some db ->
  bv_size data < psize (bt_head_ s) / BT_MINKEYS ->
  0 <= lower (mp_page m) -> upper (mp_page m) < 2 ^ 16 ->
  NODESIZE + Z.of_nat (length (mp_prefix m ++ k)) + bv_size data + sizeof_indx_t
    <= upper (mp_page m) - lower (mp_page m) ->
  exists s1,
    btree_txn_put SHA256 bt_null (Some t) (mkval (mp_prefix m ++ k)) data s =
      Some (BT_SUCCESS, s1) /\
    entries_count s1 = u64 (entries_count s + 1) /\
    (exists s2, btree_txn_get SHA256 bt_null (Some t) (mkval (mp_prefix m ++ k)) s1 =
                Some ((BT_SUCCESS, db), s2)) /\
    (forall j kj nj d,
       ks !! j = Some kj -> ns !! j = Some nj ->
       0 < Z.of_nat (length (mp_prefix m ++ kj)) <= MAXKEYSIZE ->
       inline_data nj = Some d ->
       exists s2, btree_txn_get SHA256 bt_null (Some t) (mkval (mp_prefix m ++ kj)) s1 =
                  Some ((BT_SUCCESS, d), s2)).
Proof.
  intros Htree Hdirty Hrd Hholds Hinc Hne Hi Hbelow Habove Hsz Hdb Hinl Hlo Hup Hroom.
  destruct (put_new SHA256 s t x mp m ns ks Htree Hdirty Hrd Hholds Hinc Hne
              bt_null indx k data db) as (s1 & Hput & Htree1 & Hcount); auto.
  destruct (after_add_holds m ns ks indx k data db Hholds Hi Hdb)
    as (Hholds1 & Hdata & Hn1 & Hk1).
  destruct (leaf_after_add_fields m ns indx (mkval k) data k db)
    as (_ & _ & Hpfx & _).
  set (m1 := leaf_after_add m ns indx (mkval k) data k db) in *.
  set (n := Node (bv_size data) (Z.of_nat (length k)) 0 (k ++ db)) in *.
  assert (increasing (take indx ks ++ k :: drop indx ks)) as Hinc1
    by (now apply increasing_insert).
  exists s1. split; [exact Hput|]. split; [exact Hcount|]. split.
  - rewrite <- Hpfx.
    apply (get_found SHA256 s1 t x mp m1 _ _ Htree1 Hholds1 Hinc1 bt_null indx k n db);
      assumption.
  - intros j kj nj d Hkj Hnj Hszj Hd. rewrite <- Hpfx.
    apply (get_found SHA256 s1 t x mp m1 _ _ Htree1 Hholds1 Hinc1 bt_null
             (if (j <? indx)%nat then j else S j) kj nj d); try assumption.
    + now apply lookup_after_insert.
    + now apply lookup_after_insert.
Qed.

(** The key [m] put after the key [k]. *)
Lemma put_then_get_on_leaf_tree_witness :
  exists s1,
    btree_txn_put Scenario.no_digest false (Some O) (Scenario.key "m") (Scenario.value "w" 2)
      one_key_in_txn = Some (BT_SUCCESS, s1) /\
    entries_count s1 = u64 (entries_count one_key_in_txn + 1) /\
    (exists s2, btree_txn_get Scenario.no_digest false (Some O) (Scenario.key "m") s1 =
                Some ((BT_SUCCESS, repeat "w"%byte 2), s2)) /\
    (forall j kj nj d,
       [[ "k"%byte ]] !! j = Some kj -> [Node 3 1 0 [ "k"; "v"; "v"; "v" ]%byte] !! j = Some nj ->
       0 < Z.of_nat (length kj) <= MAXKEYSIZE ->
       inline_data nj = Some d ->
       exists s2, btree_txn_get Scenario.no_digest false (Some O) (mkval kj) s1 =
                  Some ((BT_SUCCESS, d), s2)).
Proof.
  apply (put_then_get_on_leaf_tree Scenario.no_digest one_key_in_txn O (BtreeTxn 1 2 [O] 0) O
           (Mpage None 0 []
              (Page 1 P_LEAF 14 4085 0 (BNodes [Written (Node 3 1 0 [ "k"; "v"; "v"; "v" ]%byte)]))
              1 0 true)
           [Node 3 1 0 [ "k"; "v"; "v"; "v" ]%byte] [[ "k"%byte ]] false 1 [ "m"%byte ]
           (Scenario.value "w" 2) (repeat "w"%byte 2)).
  - one_key_tree.
  - reflexivity.
  - reflexivity.
  - one_key_tree.
  - apply single_increasing.
  - discriminate.
  - cbn. lia.
  - intros j kj Hj Hkj. assert (j = 0)%nat as -> by lia. injection Hkj as <-.
    exists 2. split; [reflexivity | lia].
  - intros j kj Hj Hkj. destruct j; [lia | discriminate].
  - vm_compute. split; [reflexivity | discriminate].
  - reflexivity.
  - vm_compute. reflexivity.
  - vm_compute. discriminate.
  - vm_compute. reflexivity.
  - vm_compute. discriminate.
Defined.

End LeafTreeFacts.

Module NewTreeFacts.
Import Cmp CmpFacts OrderFacts PrefixFacts SearchFacts StateFacts SepFacts.
Import CacheFacts TxnFacts ReadFacts NodeFacts CommitFacts PruneFacts LeafTreeFacts.

Section FirstPut.
Variable SHA256 : list Z -> bytes.
Variables (s : btree) (t : nat) (x : btree_txn).
Hypothesis Hcur : bt_txn s = Some t.
Hypothesis Hx : bt_txns s !! t = Some x.
Hypothesis Hrd : F_ISSET (tx_flags x) BT_TXN_RDONLY = false.
Hypothesis Herr : F_ISSET (tx_flags x) BT_TXN_ERROR = false.
Hypothesis Hroot : tx_root x = P_INVALID.
Hypothesis Hfresh : bt_page_cache s !! tx_next_pgno x = None.
Hypothesis Hnext : tx_next_pgno x <> P_INVALID.
Hypothesis Hok : cache_ok s = true.
Hypothesis Hps : 0 < psize (bt_head_ s) < 2 ^ 16.

Lemma put_first (bt_null : bool) (k : bytes) (data : btval) (db : bytes) :
  0 < Z.of_nat (length k) <= MAXKEYSIZE ->
  val_bytes data = Some db ->
  bv_size data < psize (bt_head_ s) / BT_MINKEYS ->
  NODESIZE + Z.of_nat (length k) + bv_size data + sizeof_indx_t
    <= psize (bt_head_ s) - PAGEHDRSZ ->
  let m0 := new_mpage (psize (bt_head_ s)) (tx_next_pgno x) P_LEAF true in
  let x1 := set_tx_root (fun _ => tx_next_pgno x)
              (set_tx_dirty_queue (fun q => q ++ [length (bt_heap s)])
                 (set_tx_next_pgno (fun n => u32 (n + 1)) x)) in
  exists s1,
    btree_txn_put SHA256 bt_null (Some t) (mkval k) data s = Some (BT_SUCCESS, s1) /\
    leaf_tree s1 t x1 (length (bt_heap s)) (leaf_after_add m0 [] 0 (mkval k) data k db) /\
    bt_meta_ s1 =
      set_m_entries (fun n => u64 (n + 1))
        (set_m_depth (fun d => u32 (d + 1))
           (set_m_leaf_pages (fun n => u32 (n + 1)) (bt_meta_ s))).
Proof.
  intros Hsz Hdb Hinl Hroom m0 x1.
  destruct (val_bytes_spec _ _ Hdb) as [Hds _].
  assert (t < length (bt_txns s))%nat as Hlt by (eapply lookup_lt_Some; eauto).
  unfold btree_txn_put. unfold bind at 1. unfold bind at 1.
  rewrite (txn_get_eq _ _ _ Hx), Hrd. cbn [ret].
  rewrite bool_decide_eq_false_2 by discriminate. rewrite andb_false_r.
  cbn [bv_size mkval].
  destruct (Z.eqb_spec (Z.of_nat (length k)) 0); [lia|].
  destruct (Z.ltb_spec MAXKEYSIZE (Z.of_nat (length k))); [lia|].
  cbn [orb]. unfold bind at 1. cbn [ret]. unfold bind at 1. cbn [the_psize gets].
  unfold bind at 1. unfold put_target. unfold bind at 1. fold (mkval k).
  (* the search finds no root *)
  assert (btree_search_page SHA256 (Some t) (Some (mkval k)) None true s =
          Some ((BT_FAIL, None, None), set_bt_errno (fun _ => ENOENT) s)) as Hsp.
  { unfold btree_search_page. unfold bind at 1. unfold bind at 1.
    rewrite (txn_get_eq _ _ _ Hx), Herr. cbn [ret]. rewrite Hroot. reflexivity. }
  rewrite Hsp. clear Hsp. unfold bind at 1. cbn [gets bt_errno set_bt_errno].
  cbn [fst snd]. change (BT_FAIL =? BT_SUCCESS) with false.
  change (ENOENT =? ENOENT) with true. cbv iota.
  (* a new leaf becomes the root *)
  set (sa := set_bt_errno (fun _ => ENOENT) s).
  unfold bind at 1.
  rewrite (btree_new_page_eq sa t x P_LEAF Hcur Hx Hfresh).
  change (count_page P_LEAF ?X) with (set_bt_meta_ (set_m_leaf_pages (fun n => u32 (n + 1))) X).
  change (bt_heap sa) with (bt_heap s). change (bt_head_ sa) with (bt_head_ s).
  set (hn := length (bt_heap s)).
  set (A := set_bt_txns _ _).
  set (x' := set_tx_next_pgno (fun n => u32 (n + 1)) x) in *.
  set (xA := set_tx_dirty_queue (fun q => q ++ [hn]) x') in *.
  assert (bt_heap A = bt_heap s ++ [m0]) as HhA.
  { subst A sa. fields. rewrite insert_app_r_alt by (subst hn; lia).
    subst hn. rewrite Nat.sub_diag. reflexivity. }
  assert (bt_heap A !! hn = Some m0) as Hm0.
  { rewrite HhA, lookup_app_r by (subst hn; lia). subst hn. now rewrite Nat.sub_diag. }
  assert (bt_txns A !! t = Some xA) as HxA.
  { subst A sa. fields. apply list_lookup_insert_eq. now rewrite length_insert. }
  unfold bind at 1. unfold bind at 1. rewrite (mp_get_eq _ _ _ Hm0).
  unfold bind at 1. rewrite (txn_upd_eq _ _ _ _ HxA).
  unfold bind at 1. unfold modify at 1. cbn [ret].
  set (C := set_bt_meta_ _ (set_bt_txns _ A)).
  assert (bt_heap C !! hn = Some m0) as HmC by exact Hm0.
  unfold bind at 1. rewrite (mp_get_eq _ _ _ HmC).
  (* there is room on the new page *)
  assert (u16 (psize (bt_head_ s)) = psize (bt_head_ s)) as Hu by (apply small_u16; lia).
  assert (0 <= bv_size data) as Hd0 by lia.
  assert (SIZELEFT m0 = psize (bt_head_ s) - PAGEHDRSZ) as Hleft.
  { unfold SIZELEFT, m0, new_mpage. cbn [mp_page upper lower]. rewrite Hu.
    apply small_u16. unfold PAGEHDRSZ, NODESIZE, sizeof_indx_t in *. lia. }
  assert (bt_leaf_size (psize (bt_head_ s)) (mkval k) data =
          NODESIZE + Z.of_nat (length k) + bv_size data + sizeof_indx_t) as Hls.
  { unfold bt_leaf_size. cbn [bv_size mkval].
    destruct (Z.leb_spec (psize (bt_head_ s) / BT_MINKEYS) (bv_size data)); [lia|].
    unfold NODESIZE, sizeof_indx_t, PAGEHDRSZ in *.
    rewrite (small_u64 (7 + _ + _)) by lia. apply small_u64. lia. }
  rewrite Hleft, Hls.
  destruct (Z.ltb_spec (psize (bt_head_ s) - PAGEHDRSZ)
              (NODESIZE + Z.of_nat (length k) + bv_size data + sizeof_indx_t)); [lia|].
  unfold bind at 1. unfold bind at 1.
  change (remove_prefix (mkval k) (Z.of_nat (length (mp_prefix m0)))) with (Some (mkval k)).
  cbn [liftO ret]. change (u16 0) with (Z.of_nat 0).
  rewrite (add_node_inline_leaf C hn m0 [] 0 (mkval k) data k db 0); auto.
  2:{ apply val_bytes_mkval. }
  2:{ cbn. unfold PAGEHDRSZ. lia. }
  2:{ unfold m0, new_mpage. cbn [mp_page upper]. rewrite Hu. lia. }
  2:{ unfold m0, new_mpage. cbn [mp_page upper lower bv_size mkval]. rewrite Hu. lia. }
  change (BT_SUCCESS =? BT_SUCCESS) with true. cbn [negb]. unfold modify at 1.
  set (m1 := leaf_after_add m0 [] 0 (mkval k) data k db).
  set (E := set_bt_meta_ _ _).
  assert (leaf_tree E t x1 hn m1) as HtreeE.
  { split; [|split; [|split; [|split; [|split; [|split; [|split; [|split]]]]]]].
    - subst E C A sa. fields. rewrite !list_insert_insert_eq.
      apply list_lookup_insert_eq. exact Hlt.
    - subst x1. destruct x. exact Herr.
    - subst x1. destruct x. exact Hnext.
    - subst E C A sa. fields. replace (tx_root x1) with (tx_next_pgno x)
        by (subst x1; now destruct x).
      apply lookup_insert_eq.
    - subst E. fields. apply list_lookup_insert_eq. eapply lookup_lt_Some; eauto.
    - subst x1. destruct x. reflexivity.
    - reflexivity.
    - reflexivity.
    - apply (cache_ok_pgno
               (set_bt_lru_queue (fun _ => bt_lru_queue E)
                  (set_bt_page_cache (fun _ => bt_page_cache E)
                     (set_bt_heap (fun h => h ++ [m0]) s)))); try reflexivity.
      + subst E. fields. change (bt_heap C) with (bt_heap A). rewrite HhA.
        rewrite list_fmap_insert, list_insert_id; [reflexivity|].
        rewrite list_lookup_fmap, <- HhA, Hm0. reflexivity.
      + apply (cache_ok_add s _ m0); fields; auto. }
  destruct (prune_leaf_tree E t x1 hn m1 HtreeE) as (s4 & Hprune & Htree4 & Hout).
  { reflexivity. }
  { subst E C A sa. fields. apply elem_of_app. right. now left. }
  unfold finish_txn, bind. cbn [ret]. rewrite Hprune.
  exists s4. split; [reflexivity|]. split; [exact Htree4|].
  destruct (outside_cache_fields _ _ Hout) as (_ & _ & Hmeta & _).
  rewrite Hmeta. reflexivity.
Qed.

End FirstPut.

(** The first put.  In a write transaction on an empty tree,
    [btree_txn_put] (for data stored inline that fit on a page) makes a
    new leaf the root of the transaction, under the next page number,
    and counts one more leaf page, one more level and one more entry;
    then [btree_txn_get] returns the data for that key and fails with
    [ENOENT] for any other. *)
Theorem first_put_then_get
    (SHA256 : list Z -> bytes) (s : btree) (t : nat) (x : btree_txn) (bt_null : bool)
    (k : bytes) (data : btval) (db : bytes) :
  bt_txn s = Some t -> bt_txns s !! t = Some x ->
  F_ISSET (tx_flags x) BT_TXN_RDONLY = false ->
  F_ISSET (tx_flags x) BT_TXN_ERROR = false ->
  tx_root x = P_INVALID ->
  bt_page_cache s !! tx_next_pgno x = None -> tx_next_pgno x <> P_INVALID ->
  cache_ok s = true ->
  0 < psize (bt_head_ s) < 2 ^ 16 ->
  0 < Z.of_nat (length k) <= MAXKEYSIZE ->
  val_bytes data = Some db ->
  bv_size data < psize (bt_head_ s) / BT_MINKEYS ->
  NODESIZE + Z.of_nat (length k) + bv_size data + sizeof_indx_t
    <= psize (bt_head_ s) - PAGEHDRSZ ->
  exists s1,
    btree_txn_put SHA256 bt_null (Some t) (mkval k) data s = Some (BT_SUCCESS, s1) /\
    (exists x1, bt_txns s1 !! t = Some x1 /\ tx_root x1 = tx_next_pgno x /\
                tx_next_pgno x1 = u32 (tx_next_pgno x + 1)) /\
    m_leaf_pages (bt_meta_ s1) = u32 (m_leaf_pages (bt_meta_ s) + 1) /\
    m_depth (bt_meta_ s1) = u32 (m_depth (bt_meta_ s) + 1) /\
    m_entries (bt_meta_ s1) = u64 (m_entries (bt_meta_ s) + 1) /\
    (exists s2, btree_txn_get SHA256 bt_null (Some t) (mkval k) s1 =
                Some ((BT_SUCCESS, db), s2)) /\
    (forall k', 0 < Z.of_nat (length k') <= MAXKEYSIZE -> k' <> k ->
       exists s2, btree_txn_get SHA256 bt_null (Some t) (mkval k') s1 =
                  Some ((BT_FAIL, []), s2) /\ bt_errno s2 = ENOENT).
Proof.
  intros Hcur Hx Hrd Herr Hroot Hfresh Hnext Hok Hps Hsz Hdb Hinl Hroom.
  destruct (put_first SHA256 s t x Hcur Hx Hrd Herr Hroot Hfresh Hnext Hok Hps
              bt_null k data db Hsz Hdb Hinl Hroom) as (s1 & Hput & Htree & Hmeta).
  set (m0 := new_mpage (psize (bt_head_ s)) (tx_next_pgno x) P_LEAF true) in *.
  assert (leaf_holds m0 [] []) as Hh0 by (repeat split).
  destruct (after_add_holds m0 [] [] 0 k data db Hh0 (Nat.le_refl _) Hdb)
    as (Hholds & Hdata & Hn & Hk).
  set (m1 := leaf_after_add m0 [] 0 (mkval k) data k db) in *.
  cbn [take drop app] in Hholds, Hn, Hk.
  exists s1. split; [exact Hput|]. split.
  { destruct Htree as (Hx1 & _). eexists. split; [exact Hx1|]. now destruct x. }
  split; [rewrite Hmeta; now destruct (bt_meta_ s)|].
  split; [rewrite Hmeta; now destruct (bt_meta_ s)|].
  split; [rewrite Hmeta; now destruct (bt_meta_ s)|].
  split.
  - eapply (get_found SHA256 s1 t _ _ m1 _ [k] Htree Hholds (single_increasing k)
              bt_null 0 k); [reflexivity | exact Hn | exact Hsz | exact Hdata].
  - intros k' Hsz' Hne.
    apply (get_missing SHA256 s1 t _ _ m1 _ [k] Htree Hholds (single_increasing k)
             ltac:(discriminate) bt_null k'); [exact Hsz'|].
    intros j kj Hj. destruct j; [|discriminate]. injection Hj as <-. congruence.
Qed.

(** The first put of a write transaction on a database just opened. *)
Lemma first_put_then_get_witness :
  exists s1,
    btree_txn_put Scenario.no_digest false (Some O) (Scenario.key "k") (Scenario.value "v" 3)
      Scenario.write_begun = Some (BT_SUCCESS, s1) /\
    (exists x1, bt_txns s1 !! O = Some x1 /\ tx_root x1 = 1 /\ tx_next_pgno x1 = u32 (1 + 1)) /\
    m_leaf_pages (bt_meta_ s1) = u32 (m_leaf_pages (bt_meta_ Scenario.write_begun) + 1) /\
    m_depth (bt_meta_ s1) = u32 (m_depth (bt_meta_ Scenario.write_begun) + 1) /\
    m_entries (bt_meta_ s1) = u64 (m_entries (bt_meta_ Scenario.write_begun) + 1) /\
    (exists s2, btree_txn_get Scenario.no_digest false (Some O) (Scenario.key "k") s1 =
                Some ((BT_SUCCESS, repeat "v"%byte 3), s2)) /\
    (forall k', 0 < Z.of_nat (length k') <= MAXKEYSIZE -> k' <> [ "k"%byte ] ->
       exists s2, btree_txn_get Scenario.no_digest false (Some O) (mkval k') s1 =
                  Some ((BT_FAIL, []), s2) /\ bt_errno s2 = ENOENT).
Proof.
  apply (first_put_then_get Scenario.no_digest Scenario.write_begun O
           (BtreeTxn P_INVALID 1 [] 0) false [ "k"%byte ] (Scenario.value "v" 3)
           (repeat "v"%byte 3)).
  - vm_compute. reflexivity.
  - vm_compute. reflexivity.
  - reflexivity.
  - reflexivity.
  - reflexivity.
  - vm_compute. reflexivity.
  - vm_compute. discriminate.
  - vm_compute. reflexivity.
  - vm_compute. split; reflexivity.
  - vm_compute. split; [reflexivity | discriminate].
  - reflexivity.
  - vm_compute. reflexivity.
  - vm_compute. discriminate.
Defined.

End NewTreeFacts.

Module DeleteFacts.
Import Cmp CmpFacts OrderFacts PrefixFacts SearchFacts StateFacts SepFacts.
Import CacheFacts TxnFacts ReadFacts NodeFacts CommitFacts PruneFacts LeafTreeFacts.

Lemma leaf_after_del_fields (m : mpage) (ns : list node) (indx : nat) (n : node) :
  let m' := leaf_after_del m ns indx n in
  mp_pgno m' = mp_pgno m /\ mp_dirty m' = mp_dirty m /\ mp_prefix m' = mp_prefix m /\
  IS_LEAF m' = IS_LEAF m /\ IS_BRANCH m' = IS_BRANCH m /\ mp_parent m' = mp_parent m /\
  mp_ref m' = mp_ref m.
Proof. destruct m as [par pi pfx [pn fl lo up nx body] pgn ref dirty]. repeat split. Qed.

Lemma forallb_written (ns : list node) :
  forallb (fun s => match s with Written _ => true | Zero => false end) (map Written ns) = true.
Proof. induction ns; [reflexivity | exact IHns]. Qed.

(** [btree_del_node] on a leaf that holds the nodes [ns]. *)
Lemma del_node_leaf (s : btree) (mp : nat) (m : mpage) (ns : list node) (ks : list bytes)
    (j : nat) (nj : node) :
  bt_heap s !! mp = Some m -> IS_LEAF m = true ->
  leaf_holds m ns ks -> ns !! j = Some nj ->
  F_ISSET (n_flags nj) F_BIGDATA = false ->
  btree_del_node mp (Z.of_nat j) s =
  Some (tt, set_bt_heap (fun h => <[mp := leaf_after_del m ns j nj]> h) s).
Proof.
  intros Hm Hleaf Hholds Hnj Hbig.
  pose proof (lookup_lt_Some _ _ _ Hnj) as Hjl.
  pose proof Hholds as (Hs & Hn & Hk).
  unfold btree_del_node. unfold bind at 1. rewrite (mp_get_eq _ _ _ Hm).
  rewrite Hn, Hs, length_map.
  rewrite firstn_all2 by (rewrite length_map, Nat2Z.id; lia).
  rewrite forallb_written.
  rewrite (proj2 (Z.leb_le 0 (Z.of_nat j))) by lia.
  rewrite (proj2 (Z.ltb_lt (Z.of_nat j) (Z.of_nat (length ns)))) by lia.
  rewrite Z.leb_refl. cbn [andb].
  rewrite (holds_node m ns ks Hholds) by lia. rewrite Nat2Z.id, Hnj.
  unfold bind at 1. cbn [liftO ret]. rewrite Hleaf, Hbig.
  rewrite (mp_upd_eq _ _ _ _ Hm). do 2 f_equal.
  unfold leaf_after_del, set_bt_heap. do 2 f_equal.
  destruct m as [par pi pfx [pn fl lo up nx body] pgn ref dirty].
  unfold pg_slots in Hs. cbn in Hs. unfold set_mp_page, set_pg_slots, pg_slots. cbn.
  rewrite Hs, Nat2Z.id.
  rewrite firstn_all2 by (rewrite length_map; lia).
  change (map Written) with (fmap (M := list) Written).
  rewrite <- list_fmap_delete. reflexivity.
Qed.

Lemma after_del_holds (m : mpage) (ns : list node) (ks : list bytes) (j : nat) (nj : node) :
  leaf_holds m ns ks -> ns !! j = Some nj -> lower (mp_page m) < 2 ^ 16 ->
  leaf_holds (leaf_after_del m ns j nj) (delete j ns) (delete j ks).
Proof.
  intros (Hs & Hn & Hk) Hnj Hlo.
  pose proof (lookup_lt_Some _ _ _ Hnj) as Hjl.
  split; [|split].
  - reflexivity.
  - rewrite length_delete by eauto.
    unfold NUMKEYS, NUMKEYSP in *. unfold leaf_after_del.
    destruct m as [par pi pfx [pn fl lo up nx body] pgn ref dirty]. cbn in *.
    rewrite Z.shiftr_div_pow2 in * by lia. change (2 ^ 1) with 2 in *.
    unfold PAGEHDRSZ, sizeof_indx_t in *.
    assert (14 <= lo).
    { destruct (Z.lt_ge_cases lo 14) as [Hlt|]; [|assumption]. exfalso.
      assert ((lo - 12) / 2 < 1) by (apply Z.div_lt_upper_bound; lia). lia. }
    rewrite small_u16 by lia.
    replace (lo - 2 - 12) with (lo - 12 + (-1) * 2) by lia.
    rewrite Z.div_add by lia. lia.
  - apply mapM_Some. apply mapM_Some in Hk. now apply Forall2_delete.
Qed.

Lemma increasing_delete (ks : list bytes) (j : nat) :
  increasing ks -> increasing (delete j ks).
Proof.
  intros Hinc a b ka kb Hab Ha Hb. rewrite list_lookup_delete in Ha, Hb.
  refine (Hinc _ _ ka kb _ Ha Hb).
  destruct (decide (a < j)%nat), (decide (b < j)%nat); lia.
Qed.

Lemma increasing_distinct (ks : list bytes) (i j : nat) (k : bytes) :
  increasing ks -> ks !! i = Some k -> ks !! j = Some k -> i = j.
Proof.
  intros Hinc Hi Hj. destruct (Nat.lt_trichotomy i j) as [H|[H|H]]; [|exact H|].
  - exfalso. apply (gt_irrefl k). now apply (Hinc i j k k).
  - exfalso. apply (gt_irrefl k). now apply (Hinc j i k k).
Qed.

(** [btree_rebalance] on a root that is a leaf: the tree is emptied when
    the page is below the fill threshold and holds no key. *)
Lemma rebalance_root_leaf (s : btree) (mp : nat) (m : mpage) (t : nat) (x : btree_txn) :
  bt_heap s !! mp = Some m -> mp_parent m = None -> IS_BRANCH m = false ->
  bt_txn s = Some t -> bt_txns s !! t = Some x ->
  rebalance mp s =
  Some (BT_SUCCESS,
        if (PAGEFILL (psize (bt_head_ s)) m <? FILL_THRESHOLD) && (NUMKEYS m =? 0)
        then set_bt_meta_ (set_m_leaf_pages (fun n => u32 (n - 1)))
               (set_bt_meta_ (set_m_depth (fun d => u32 (d - 1)))
                  (set_bt_txns (fun l => <[t := set_tx_root (fun _ => P_INVALID) x]> l) s))
        else s).
Proof.
  intros Hm Hpar Hb Hcur Hx.
  unfold rebalance, bind at 1. cbn [gets].
  destruct (length (bt_heap s)); cbn [btree_rebalance]; unfold bind at 1;
    rewrite (mp_get_eq _ _ _ Hm); unfold bind at 1; cbn [the_psize gets];
    rewrite Z.ltb_antisym; destruct (FILL_THRESHOLD <=? PAGEFILL (psize (bt_head_ s)) m);
    cbn [negb andb]; try reflexivity; rewrite Hpar, Hb; cbn [andb];
    destruct (NUMKEYS m =? 0); try reflexivity;
    unfold bind at 1; unfold bt_txn_ptr at 1; rewrite Hcur; cbn [liftO ret];
    unfold bind at 1; rewrite (txn_upd_eq _ _ _ _ Hx); reflexivity.
Qed.

(** A lookup in an empty tree. *)
Lemma get_empty (SHA256 : list Z -> bytes) (s : btree) (t : nat) (x : btree_txn)
    (bt_null : bool) (k : bytes) :
  bt_txns s !! t = Some x -> F_ISSET (tx_flags x) BT_TXN_ERROR = false ->
  tx_root x = P_INVALID ->
  0 < Z.of_nat (length k) <= MAXKEYSIZE ->
  btree_txn_get SHA256 bt_null (Some t) (mkval k) s =
  Some ((BT_FAIL, []), set_bt_errno (fun _ => ENOENT) s).
Proof.
  intros Hx Herr Hroot Hsz.
  unfold btree_txn_get. rewrite bool_decide_eq_false_2 by discriminate.
  rewrite andb_false_r. cbn [bv_size mkval].
  destruct (Z.eqb_spec (Z.of_nat (length k)) 0); [lia|].
  destruct (Z.ltb_spec MAXKEYSIZE (Z.of_nat (length k))); [lia|].
  cbn [orb]. unfold bind at 1. unfold btree_search_page. unfold bind at 1. unfold bind at 1.
  rewrite (txn_get_eq _ _ _ Hx), Herr. cbn [ret]. rewrite Hroot. reflexivity.
Qed.

Section Del.
Variable SHA256 : list Z -> bytes.
Variables (s : btree) (t : nat) (x : btree_txn) (mp : nat) (m : mpage).
Variables (ns : list node) (ks : list bytes).
Hypothesis Hcur : bt_txn s = Some t.
Hypothesis Htree : leaf_tree s t x mp m.
Hypothesis Hdirty : mp_dirty m = true.
Hypothesis Hrd : F_ISSET (tx_flags x) BT_TXN_RDONLY = false.
Hypothesis Hpar : mp_parent m = None.
Hypothesis Hholds : leaf_holds m ns ks.
Hypothesis Hinc : increasing ks.

Lemma del_present (bt_null want_data : bool) (j : nat) (kj : bytes) (nj : node) (d : bytes) :
  ks !! j = Some kj -> ns !! j = Some nj -> inline_data nj = Some d ->
  0 < Z.of_nat (length (mp_prefix m ++ kj)) <= MAXKEYSIZE ->
  lower (mp_page m) < 2 ^ 16 ->
  let m' := leaf_after_del m ns j nj in
  exists s1,
    btree_txn_del SHA256 rebalance bt_null (Some t) (mkval (mp_prefix m ++ kj)) want_data s =
      Some ((BT_SUCCESS, if want_data then d else []), s1) /\
    entries_count s1 = u64 (entries_count s - 1) /\
    if (PAGEFILL (psize (bt_head_ s)) m' <? FILL_THRESHOLD) && (NUMKEYS m' =? 0)
    then bt_txns s1 !! t = Some (set_tx_root (fun _ => P_INVALID) x) /\
         m_depth (bt_meta_ s1) = u32 (m_depth (bt_meta_ s) - 1) /\
         m_leaf_pages (bt_meta_ s1) = u32 (m_leaf_pages (bt_meta_ s) - 1)
    else leaf_tree s1 t x mp m'.
Proof.
  intros Hkj Hnj Hd Hsz Hlo m'.
  destruct (search_page_leaf SHA256 s t x mp m (Some (mkval (mp_prefix m ++ kj))) true Htree)
    as (Hsp & Htree1 & Hin1); [auto|].
  set (s1 := set_bt_lru_queue _ s) in *.
  destruct Htree1 as (Hx & Herr & Hroot & Hc & Hm & Hp & Hl & Hb & Hok).
  pose proof (lookup_lt_Some _ _ _ Hkj) as Hjl.
  assert (NUMKEYS m = Z.of_nat (length ks)) as HN.
  { destruct Hholds as (_ & H & _). rewrite H, (holds_length m ns ks Hholds). reflexivity. }
  unfold inline_data in Hd.
  destruct (F_ISSET (n_flags nj) F_BIGDATA) eqn:Hbig; [discriminate|].
  unfold btree_txn_del. unfold bind at 1. unfold bind at 1.
  assert (bt_txns s !! t = Some x) as Hx0 by exact Hx.
  rewrite (txn_get_eq _ _ _ Hx0), Hrd. cbn [ret].
  rewrite bool_decide_eq_false_2 by discriminate. rewrite andb_false_r.
  cbn [bv_size mkval].
  destruct (Z.eqb_spec (Z.of_nat (length (mp_prefix m ++ kj))) 0); [lia|].
  destruct (Z.ltb_spec MAXKEYSIZE (Z.of_nat (length (mp_prefix m ++ kj)))); [lia|].
  cbn [orb]. unfold bind at 1. cbn [ret]. unfold bind at 1.
  fold (mkval (mp_prefix m ++ kj)). rewrite Hsp.
  cbn [fst snd Z.eqb BT_SUCCESS negb liftO]. unfold bind at 1. unfold bind at 1. cbn [ret].
  unfold bind at 1. rewrite (mp_get_eq _ _ _ Hm).
  rewrite (search_present m kj (Z.of_nat j)).
  2:{ intros i Hi. now apply (holds_keys m ns ks). }
  2:{ now apply (holds_increasing m ns ks). }
  2:{ unfold search_low. rewrite Hl. lia. }
  2:{ rewrite (holds_stored_key m ns ks Hholds) by lia. now rewrite Nat2Z.id. }
  unfold bind at 1. cbn [liftO ret]. unfold bind at 1.
  rewrite (holds_node m ns ks Hholds) by lia. rewrite Nat2Z.id, Hnj. cbn [liftO ret].
  set (rdd := if want_data then btree_read_data None nj else ret (BT_SUCCESS, [])).
  assert (rdd s1 = Some ((BT_SUCCESS, if want_data then d else []), s1)) as Hrdd.
  { subst rdd. destruct want_data; [|reflexivity].
    unfold btree_read_data, bind at 1. cbn [the_psize gets]. rewrite Hbig. cbn [negb].
    unfold bind at 1. rewrite Hd. cbn [liftO ret].
    unfold bind at 1. destruct (0 <? NODEDSZ nj); reflexivity. }
  unfold bind at 1. rewrite Hrdd. cbn [fst snd Z.eqb BT_SUCCESS negb].
  unfold bind at 1. rewrite (del_node_leaf s1 mp m ns ks j nj Hm Hl Hholds Hnj Hbig).
  fold m'. unfold bind at 1, modify at 1.
  set (D := set_bt_meta_ _ _).
  destruct (leaf_after_del_fields m ns j nj) as (Fp & Fd & Fx & Fl & Fb & Fpar & _).
  fold m' in Fp, Fd, Fx, Fl, Fb, Fpar.
  assert (bt_heap D !! mp = Some m') as HmD.
  { subst D. cbn. apply list_lookup_insert_eq. eapply lookup_lt_Some; eauto. }
  assert (cache_ok D = true) as HokD.
  { apply (cache_ok_pgno s1); auto. subst D. cbn.
    rewrite list_fmap_insert, list_insert_id; [reflexivity|].
    rewrite list_lookup_fmap. cbn in Hm. rewrite Hm. cbn [fmap option_fmap option_map].
    now rewrite Fp. }
  unfold bind at 1.
  rewrite (rebalance_root_leaf D mp m' t x HmD); try congruence; try assumption.
  cbn [Z.eqb BT_SUCCESS negb]. unfold bind at 1. cbn [ret]. unfold bind at 1. cbn [ret fst snd].
  change (psize (bt_head_ D)) with (psize (bt_head_ s)).
  destruct ((PAGEFILL (psize (bt_head_ s)) m' <? FILL_THRESHOLD) && (NUMKEYS m' =? 0)).
  - set (R := set_bt_meta_ _ _).
    assert (cache_ok R = true) as HokR by (apply (cache_ok_pgno D); auto).
    destruct (mpage_prune_ok R HokR) as (s4 & Hprune & Hout & _).
    destruct (outside_cache_fields _ _ Hout) as (_ & _ & Hmeta & _ & Htx & _).
    unfold finish_txn, bind. cbn [ret]. rewrite Hprune.
    exists s4. split; [reflexivity|].
    unfold entries_count. rewrite Hmeta, Htx. subst R D. cbn.
    split; [now destruct (bt_meta_ s)|]. split.
    + apply list_lookup_insert_eq. eapply lookup_lt_Some; eauto.
    + split; now destruct (bt_meta_ s).
  - assert (leaf_tree D t x mp m') as HtreeD.
    { repeat split; auto; congruence. }
    destruct (prune_leaf_tree D t x mp m' HtreeD) as (s4 & Hprune & Htree4 & Hout);
      [congruence | exact Hin1 |].
    destruct (outside_cache_fields _ _ Hout) as (_ & _ & Hmeta & _).
    unfold finish_txn, bind. cbn [ret]. rewrite Hprune.
    exists s4. split; [reflexivity|]. split; [|exact Htree4].
    unfold entries_count. rewrite Hmeta. reflexivity.
Qed.

End Del.

(** Delete and lookup in a tree of one leaf.  In a write transaction
    whose tree is one dirty leaf with increasing keys, [btree_txn_del] of
    a key the leaf holds (with inline data) returns [BT_SUCCESS], with
    the data when they are asked for, and counts one entry less; then
    [btree_txn_get] fails with [ENOENT] for that key and still returns
    the data of every other key.  When it was the only key, and the
    emptied page is below the fill threshold, the tree is left without a
    root, one level and one leaf page less. *)
Theorem del_then_get_on_leaf_tree
    (SHA256 : list Z -> bytes) (s : btree) (t : nat) (x : btree_txn) (mp : nat) (m : mpage)
    (ns : list node) (ks : list bytes) (bt_null want_data : bool)
    (j : nat) (kj : bytes) (nj : node) (d : bytes) :
  bt_txn s = Some t -> leaf_tree s t x mp m -> mp_dirty m = true ->
  F_ISSET (tx_flags x) BT_TXN_RDONLY = false ->
  mp_parent m = None ->
  leaf_holds m ns ks -> increasing ks ->
  ks !! j = Some kj -> ns !! j = Some nj -> inline_data nj = Some d ->
  0 < Z.of_nat (length (mp_prefix m ++ kj)) <= MAXKEYSIZE ->
  lower (mp_page m) < 2 ^ 16 ->
  (length ks = 1%nat ->
   PAGEFILL (psize (bt_head_ s)) (leaf_after_del m ns j nj) < FILL_THRESHOLD) ->
  exists s1,
    btree_txn_del SHA256 rebalance bt_null (Some t) (mkval (mp_prefix m ++ kj)) want_data s =
      Some ((BT_SUCCESS, if want_data then d else []), s1) /\
    entries_count s1 = u64 (entries_count s - 1) /\
    (exists s2, btree_txn_get SHA256 bt_null (Some t) (mkval (mp_prefix m ++ kj)) s1 =
                Some ((BT_FAIL, []), s2) /\ bt_errno s2 = ENOENT) /\
    (forall j' kj' nj' d',
       j' <> j -> ks !! j' = Some kj' -> ns !! j' = Some nj' ->
       0 < Z.of_nat (length (mp_prefix m ++ kj')) <= MAXKEYSIZE ->
       inline_data nj' = Some d' ->
       exists s2, btree_txn_get SHA256 bt_null (Some t) (mkval (mp_prefix m ++ kj')) s1 =
                  Some ((BT_SUCCESS, d'), s2)) /\
    (length ks = 1%nat ->
     exists x1, bt_txns s1 !! t = Some x1 /\ tx_root x1 = P_INVALID /\
       m_depth (bt_meta_ s1) = u32 (m_depth (bt_meta_ s) - 1) /\
       m_leaf_pages (bt_meta_ s1) = u32 (m_leaf_pages (bt_meta_ s) - 1)).
Proof.
  intros Hcur Htree Hdirty Hrd Hpar Hholds Hinc Hkj Hnj Hd Hsz Hlo Hfill.
  destruct (del_present SHA256 s t x mp m ns ks Hcur Htree Hdirty Hrd Hpar Hholds Hinc
              bt_null want_data j kj nj d Hkj Hnj Hd Hsz Hlo) as (s1 & Hdel & Hcount & Hres).
  pose proof (after_del_holds m ns ks j nj Hholds Hnj Hlo) as Hholds'.
  pose proof (increasing_delete ks j Hinc) as Hinc'.
  destruct (leaf_after_del_fields m ns j nj) as (_ & _ & Hpfx & _).
  pose proof (lookup_lt_Some _ _ _ Hkj) as Hjl.
  set (m' := leaf_after_del m ns j nj) in *.
  assert (NUMKEYS m' = Z.of_nat (length ks - 1)) as HN'.
  { pose proof Hholds' as (_ & H & _). rewrite H.
    rewrite <- (holds_length m' _ _ Hholds').
    rewrite length_delete by eauto. reflexivity. }
  exists s1. split; [exact Hdel|]. split; [exact Hcount|].
  destruct (Nat.eq_dec (length ks) 1%nat) as [H1|H1].
  - (* the last key *)
    rewrite (proj2 (Z.ltb_lt _ _) (Hfill H1)), HN', H1 in Hres. cbn in Hres.
    destruct Hres as (Hx1 & Hdepth & Hleaves).
    destruct Htree as (_ & Herr & _).
    split; [|split].
    + eexists. split.
      * apply (get_empty SHA256 s1 t _ bt_null _ Hx1);
          [now destruct x | reflexivity | exact Hsz].
      * reflexivity.
    + intros j' kj' nj' d' Hne Hkj' _ _ _. exfalso.
      apply lookup_lt_Some in Hkj'. lia.
    + intros _. eexists. split; [exact Hx1|]. split; [reflexivity|]. split; assumption.
  - (* keys are left *)
    replace (NUMKEYS m' =? 0) with false in Hres
      by (symmetry; apply Z.eqb_neq; rewrite HN'; lia).
    rewrite andb_false_r in Hres.
    assert (delete j ks <> []) as Hne'.
    { intros E. apply (f_equal length) in E. rewrite length_delete in E by eauto.
      cbn in E. lia. }
    split; [|split].
    + rewrite <- Hpfx.
      apply (get_missing SHA256 s1 t x mp m' _ _ Hres Hholds' Hinc' Hne' bt_null kj).
      * now rewrite Hpfx.
      * intros a ka Ha ->. rewrite list_lookup_delete in Ha.
        pose proof (increasing_distinct ks _ _ _ Hinc Ha Hkj) as E.
        destruct (decide (a < j)%nat); lia.
    + intros j' kj' nj' d' Hne Hkj' Hnj' Hsz' Hd'. rewrite <- Hpfx.
      apply (get_found SHA256 s1 t x mp m' _ _ Hres Hholds' Hinc' bt_null
               (if decide (j' < j)%nat then j' else (j' - 1)%nat) kj' nj' d').
      * rewrite list_lookup_delete.
        destruct (decide (j' < j)%nat) as [Hlt|Hge].
        -- now rewrite decide_True by exact Hlt.
        -- rewrite decide_False by lia. now replace (S (j' - 1)) with j' by lia.
      * rewrite list_lookup_delete.
        destruct (decide (j' < j)%nat) as [Hlt|Hge].
        -- now rewrite decide_True by exact Hlt.
        -- rewrite decide_False by lia. now replace (S (j' - 1)) with j' by lia.
      * now rewrite Hpfx.
      * exact Hd'.
    + intros E. contradiction.
Qed.

(** The key [k] deleted from the tree that holds [k] and [m], where [m]
    is left, and from the tree that holds [k] alone, which is left
    without a root. *)
Lemma del_then_get_on_leaf_tree_witness :
  (exists s1,
     btree_txn_del Scenario.no_digest rebalance false (Some O) (Scenario.key "k") true
       two_keys_in_txn = Some ((BT_SUCCESS, repeat "v"%byte 3), s1) /\
     entries_count s1 = u64 (entries_count two_keys_in_txn - 1) /\
     (exists s2, btree_txn_get Scenario.no_digest false (Some O) (Scenario.key "k") s1 =
                 Some ((BT_FAIL, []), s2) /\ bt_errno s2 = ENOENT) /\
     (exists s2, btree_txn_get Scenario.no_digest false (Some O) (Scenario.key "m") s1 =
                 Some ((BT_SUCCESS, repeat "w"%byte 2), s2))) /\
  (exists s1,
     btree_txn_del Scenario.no_digest rebalance false (Some O) (Scenario.key "k") true
       one_key_in_txn = Some ((BT_SUCCESS, repeat "v"%byte 3), s1) /\
     entries_count s1 = u64 (entries_count one_key_in_txn - 1) /\
     (exists s2, btree_txn_get Scenario.no_digest false (Some O) (Scenario.key "k") s1 =
                 Some ((BT_FAIL, []), s2) /\ bt_errno s2 = ENOENT) /\
     (exists x1, bt_txns s1 !! O = Some x1 /\ tx_root x1 = P_INVALID /\
        m_depth (bt_meta_ s1) = u32 (m_depth (bt_meta_ one_key_in_txn) - 1) /\
        m_leaf_pages (bt_meta_ s1) = u32 (m_leaf_pages (bt_meta_ one_key_in_txn) - 1))).
Proof.
  split.
  - destruct (del_then_get_on_leaf_tree Scenario.no_digest two_keys_in_txn O
                (BtreeTxn 1 2 [O] 0) O km_leaf km_nodes km_keys false true
                O [ "k"%byte ] (Node 3 1 0 [ "k"; "v"; "v"; "v" ]%byte) (repeat "v"%byte 3))
      as (s1 & Hdel & Hcount & Hgone & Hrest & _).
    + vm_compute. reflexivity.
    + one_key_tree.
    + reflexivity.
    + reflexivity.
    + reflexivity.
    + one_key_tree.
    + apply km_increasing.
    + reflexivity.
    + reflexivity.
    + reflexivity.
    + vm_compute. split; [reflexivity | discriminate].
    + vm_compute. reflexivity.
    + intros E. discriminate E.
    + exists s1. split; [exact Hdel|]. split; [exact Hcount|]. split; [exact Hgone|].
      apply (Hrest 1%nat [ "m"%byte ] (Node 2 1 0 [ "m"; "w"; "w" ]%byte) (repeat "w"%byte 2)).
      * discriminate.
      * reflexivity.
      * reflexivity.
      * vm_compute. split; [reflexivity | discriminate].
      * reflexivity.
  - destruct (del_then_get_on_leaf_tree Scenario.no_digest one_key_in_txn O
                (BtreeTxn 1 2 [O] 0) O
                (Mpage None 0 []
                   (Page 1 P_LEAF 14 4085 0
                      (BNodes [Written (Node 3 1 0 [ "k"; "v"; "v"; "v" ]%byte)]))
                   1 0 true)
                [Node 3 1 0 [ "k"; "v"; "v"; "v" ]%byte] [[ "k"%byte ]] false true
                O [ "k"%byte ] (Node 3 1 0 [ "k"; "v"; "v"; "v" ]%byte) (repeat "v"%byte 3))
      as (s1 & Hdel & Hcount & Hgone & _ & Hlast).
    + vm_compute. reflexivity.
    + one_key_tree.
    + reflexivity.
    + reflexivity.
    + reflexivity.
    + one_key_tree.
    + apply single_increasing.
    + reflexivity.
    + reflexivity.
    + reflexivity.
    + vm_compute. split; [reflexivity | discriminate].
    + vm_compute. reflexivity.
    + intros _. vm_compute. reflexivity.
    + exists s1. split; [exact Hdel|]. split; [exact Hcount|]. split; [exact Hgone|].
      apply Hlast. reflexivity.
Defined.

End DeleteFacts.

Module ScanFacts.
Import Cmp CmpFacts OrderFacts PrefixFacts SearchFacts StateFacts SepFacts.
Import CacheFacts TxnFacts ReadFacts NodeFacts CommitFacts PruneFacts LeafTreeFacts.

Lemma i16_small (z : Z) : - 2 ^ 15 <= z < 2 ^ 15 -> i16 z = z.
Proof. intros H. unfold i16. rewrite Z.mod_small by lia. lia. Qed.

(** Pruning leaves a referenced leaf in the cache. *)
Lemma prune_scanning (s : btree) (t : nat) (x : btree_txn) (mp : nat)
    (ns : list node) (ks : list bytes) (pfx : bytes) (r : Z) :
  scanning s t x mp ns ks pfx r -> mp ∈ bt_lru_queue s ->
  exists s', mpage_prune s = Some (tt, s') /\ scanning s' t x mp ns ks pfx r /\
             mp ∈ bt_lru_queue s' /\ bt_errno s' = bt_errno s.
Proof.
  intros (m & (Hx & Herr & Hroot & Hc & Hm & Hp & Hl & Hb & Hok) & Hholds & Hpfx & Href) Hin.
  pose proof Hok as Hok0. apply cache_ok_spec in Hok0 as [Hnd _].
  destruct (prune_loop_keeps (bt_lru_queue s) s Hok Hnd)
    as (s' & Hrun & Hout & Hok' & Hsl & Hkeep & _); [set_solver|].
  exists s'. split; [exact Hrun|].
  destruct (outside_cache_fields _ _ Hout) as (_ & _ & _ & _ & Htx & _ & _ & Hheap & He).
  assert (mp ∈ bt_lru_queue s') as Hin'.
  { apply Hkeep; [exact Hin|]. left. exists m. split; [exact Hm|]. right. lia. }
  pose proof Hok' as Hok1. apply cache_ok_spec in Hok1 as [_ Hall].
  destruct (cache_entry_ok_inv s' mp (Hall mp Hin')) as (m' & Hm' & Hc').
  rewrite Hheap, Hm in Hm'. injection Hm' as <-.
  split; [|split; [exact Hin' | exact He]].
  exists m. split; [|auto].
  split; [now rewrite Htx|]. split; [exact Herr|]. split; [exact Hroot|].
  split; [now rewrite <- Hp|]. split; [now rewrite Hheap|]. auto.
Qed.

(** A change of the reference count of the leaf. *)
Lemma leaf_tree_ref (s : btree) (t : nat) (x : btree_txn) (mp : nat) (m : mpage)
    (f : Z -> Z) :
  leaf_tree s t x mp m ->
  leaf_tree (set_bt_heap (fun h => <[mp := set_mp_ref f m]> h) s) t x mp (set_mp_ref f m).
Proof.
  intros (Hx & Herr & Hroot & Hc & Hm & Hp & Hl & Hb & Hok).
  repeat split; auto.
  - cbn. apply list_lookup_insert_eq. eapply lookup_lt_Some; eauto.
  - apply (cache_ok_pgno s); auto. cbn.
    rewrite list_fmap_insert, list_insert_id; [reflexivity|].
    rewrite list_lookup_fmap, Hm. reflexivity.
Qed.

Lemma leaf_holds_ref (m : mpage) (ns : list node) (ks : list bytes) (f : Z -> Z) :
  leaf_holds m ns ks -> leaf_holds (set_mp_ref f m) ns ks.
Proof. intros H. exact H. Qed.

(** [cursor_fetch] of the key of a node of the leaf. *)
Lemma fetch_scanning (s : btree) (t : nat) (x : btree_txn) (mp : nat)
    (ns : list node) (ks : list bytes) (pfx : bytes) (r : Z) (c : cursor)
    (i : nat) (n : node) (k : bytes) :
  scanning s t x mp ns ks pfx r -> r + 1 < 2 ^ 15 -> mp ∈ bt_lru_queue s ->
  ns !! i = Some n -> ks !! i = Some k ->
  exists s', cursor_fetch c mp n true false s = Some ((BT_SUCCESS, c, pfx ++ k, []), s') /\
             scanning s' t x mp ns ks pfx (r + 1) /\ mp ∈ bt_lru_queue s' /\
             bt_errno s' = bt_errno s.
Proof.
  intros (m & Htree & Hholds & Hpfx & Href) Hr Hin Hn Hk.
  pose proof Htree as (Hx & Herr & Hroot & Hc & Hm & Hp & Hl & Hb & Hok).
  assert (node_key n = Some k) as Hnk.
  { destruct Hholds as (_ & _ & Hks). apply mapM_Some in Hks.
    destruct (Forall2_lookup_l _ _ _ _ _ Hks Hn) as (k' & Hk' & Hnk). congruence. }
  unfold cursor_fetch, bind at 1. cbn [ret fst snd Z.eqb BT_SUCCESS negb].
  unfold bind at 1. unfold bt_set_key. cbn [negb].
  unfold bind at 1. rewrite (mp_get_eq _ _ _ Hm).
  unfold bind at 1. rewrite Hnk. cbn [liftO ret]. rewrite Hpfx.
  destruct pfx as [|b pfx'].
  - cbn [length Nat.ltb Nat.leb]. unfold bind at 1. rewrite (mp_upd_eq _ _ _ _ Hm).
    cbn [ret fst snd Z.eqb negb]. eexists. split; [reflexivity|]. split; [|split].
    + exists (set_mp_ref (fun r => i16 (r + 1)) m). split; [now apply leaf_tree_ref|].
      split; [exact Hholds|]. split; [exact Hpfx|].
      destruct m as [par pi px pg pn rf dt]. cbn in *. rewrite i16_small by lia. lia.
    + exact Hin.
    + reflexivity.
  - cbn [length Nat.ltb Nat.leb ret fst snd Z.eqb negb].
    eexists. split; [reflexivity|]. split; [|split; [exact Hin | reflexivity]].
    exists m. split; [exact Htree|]. split; [exact Hholds|]. split; [exact Hpfx|]. lia.
Qed.

Lemma search_loop_leaf (fuel : nat) (s : btree) (mp : nat) (m : mpage)
    (key : option btval) (oc : option cursor) (modify_ : bool) :
  bt_heap s !! mp = Some m -> IS_LEAF m = true -> IS_BRANCH m = false ->
  search_page_root_loop fuel mp key oc modify_ s = Some ((BT_SUCCESS, oc, Some mp), s).
Proof.
  intros Hm Hl Hb.
  destruct fuel; cbn [search_page_root_loop]; unfold bind;
    rewrite (mp_get_eq _ _ _ Hm), Hb, Hl; reflexivity.
Qed.

(** The search that sets a cursor on the leaf. *)
Lemma search_page_leaf_cursor (SHA256 : list Z -> bytes) (s : btree) (t : nat) (x : btree_txn)
    (mp : nat) (m : mpage) (c : cursor) (key : option btval) :
  leaf_tree s t x mp m ->
  btree_search_page SHA256 (Some t) key (Some c) false s =
    Some ((BT_SUCCESS, Some (set_c_stack (fun st => Ppage mp 0 :: st) c), Some mp),
          set_bt_heap (fun h => <[mp := set_mp_ref (fun r => i16 (r + 1)) m]> h)
            (set_bt_lru_queue (fun q => filter (fun y => y <> mp) q ++ [mp]) s)).
Proof.
  intros (Hx & Herr & Hroot & Hc & Hm & Hp & Hl & Hb & Hok).
  unfold btree_search_page.
  unfold bind at 1. unfold bind at 1. rewrite (txn_get_eq _ _ _ Hx), Herr. cbn [ret].
  destruct (Z.eqb_spec (tx_root x) P_INVALID) as [E|_]; [contradiction|].
  unfold bind at 1. rewrite (get_mpage_hit _ _ _ Hc).
  set (s1 := set_bt_lru_queue _ s).
  assert (bt_heap s1 !! mp = Some m) as Hm1 by exact Hm.
  unfold bind at 1. rewrite (mp_get_eq _ _ _ Hm1). cbn [andb].
  unfold bind at 1. cbn [ret]. unfold btree_search_page_root, bind at 1.
  cbn [with_cursor]. unfold bind at 1. unfold cursor_push_page, bind at 1.
  rewrite (mp_upd_eq _ _ _ _ Hm1). cbn [ret]. unfold bind at 1. cbn [gets].
  apply (search_loop_leaf _ _ mp (set_mp_ref (fun r => i16 (r + 1)) m)).
  - cbn. apply list_lookup_insert_eq. eapply lookup_lt_Some; eauto.
  - exact Hl.
  - exact Hb.
Qed.

Section Scan.
Variable SHA256 : list Z -> bytes.
Variables (t : nat) (x : btree_txn) (mp : nat).
Variables (ns : list node) (ks : list bytes) (pfx : bytes).
Hypothesis Hsmall : Z.of_nat (length ks) < 2 ^ 16.

(** The first entry. *)
Lemma cursor_first_leaf (s : btree) (m : mpage) (c : cursor) (kv : btval) (op : cursor_op)
    (n0 : node) (k0 : bytes) (r : Z) :
  leaf_tree s t x mp m -> leaf_holds m ns ks -> mp_prefix m = pfx ->
  0 <= mp_ref m <= r -> r + 2 < 2 ^ 15 ->
  c_txn c = Some t -> c_stack c = [] ->
  op = BT_FIRST \/ (op = BT_NEXT /\ c_initialized c = false) ->
  ns !! O = Some n0 -> ks !! O = Some k0 ->
  exists s',
    btree_cursor_get SHA256 c (Some kv) false op s =
      Some ((BT_SUCCESS, Cursor (Some t) [Ppage mp 0] true false, pfx ++ k0, []), s') /\
    scanning s' t x mp ns ks pfx (r + 2) /\ mp ∈ bt_lru_queue s'.
Proof.
  intros Htree Hholds Hpfx Href Hr Hct Hcs Hop Hn0 Hk0.
  pose proof Htree as (Hx & Herr & Hroot & Hc & Hm & Hp & Hl & Hb & Hok).
  assert (btree_cursor_first SHA256 c (bool_decide (Some kv <> None)) false s =
          (match op with
           | BT_FIRST => c' <- cursor_pop_all (length (c_stack c)) c ;;
                         btree_cursor_first SHA256 c' (bool_decide (Some kv <> None)) false
           | _ => if negb (c_initialized c)
                  then btree_cursor_first SHA256 c (bool_decide (Some kv <> None)) false
                  else btree_cursor_next c (bool_decide (Some kv <> None)) false
           end) s) as Hsame.
  { destruct Hop as [->|[-> Hi]].
    - rewrite Hcs. cbn [length cursor_pop_all]. unfold bind. rewrite Hcs. reflexivity.
    - rewrite Hi. reflexivity. }
  unfold btree_cursor_get. unfold bind at 1.
  replace (match op with
           | BT_FIRST => _
           | BT_NEXT => _
           | _ => _
           end s)
    with (btree_cursor_first SHA256 c (bool_decide (Some kv <> None)) false s).
  2:{ rewrite Hsame. destruct Hop as [->|[-> _]]; reflexivity. }
  clear Hsame. rewrite bool_decide_eq_true_2 by discriminate.
  unfold btree_cursor_first. unfold bind at 1. rewrite Hct.
  rewrite (search_page_leaf_cursor SHA256 s t x mp m c None Htree).
  set (m1 := set_mp_ref (fun r => i16 (r + 1)) m).
  set (s1 := set_bt_heap _ _).
  assert (leaf_tree s1 t x mp m1) as Htree1.
  { subst s1 m1. apply leaf_tree_ref.
    destruct (search_page_leaf SHA256 s t x mp m None false Htree) as (_ & H & _);
      [discriminate | exact H]. }
  assert (scanning s1 t x mp ns ks pfx (r + 1)) as Hscan1.
  { exists m1. split; [exact Htree1|]. split; [exact Hholds|]. split; [exact Hpfx|].
    subst m1. destruct m as [par pi px pg pn rf dt]. cbn in *.
    rewrite i16_small by lia. lia. }
  assert (mp ∈ bt_lru_queue s1) as Hin1.
  { subst s1. cbn. apply elem_of_app. right. now left. }
  cbn [fst snd liftO]. unfold bind at 1. cbn [ret Z.eqb BT_SUCCESS negb].
  unfold bind at 1. cbn [ret]. unfold bind at 1.
  destruct Htree1 as (_ & _ & _ & _ & Hm1 & _).
  rewrite (mp_get_eq _ _ _ Hm1). unfold bind at 1.
  rewrite (holds_node m1 ns ks Hholds) by lia. change (Z.to_nat 0) with O.
  rewrite Hn0. cbn [liftO ret].
  destruct (fetch_scanning s1 t x mp ns ks pfx (r + 1)
              (set_c_eof (fun _ => false)
                 (set_c_initialized (fun _ => true)
                    (set_c_stack (fun st => Ppage mp 0 :: st) c)))
              O n0 k0 Hscan1 ltac:(lia) Hin1 Hn0 Hk0) as (s2 & Hfetch & Hscan2 & Hin2 & _).
  rewrite Hfetch. replace (r + 1 + 1) with (r + 2) in Hscan2 by lia.
  destruct (prune_scanning s2 t x mp ns ks pfx (r + 2) Hscan2 Hin2)
    as (s3 & Hprune & Hscan3 & Hin3 & _).
  unfold bind at 1. rewrite Hprune. cbn [ret].
  exists s3. split; [|split; assumption].
  destruct c as [ct cs ci ce]. cbn in Hct, Hcs. subst ct cs. reflexivity.
Qed.

(** The next entry, and the end of the leaf. *)
Lemma cursor_next_leaf (s : btree) (c : cursor) (kv : btval) (i : nat) (r : Z) :
  scanning s t x mp ns ks pfx r -> r + 1 < 2 ^ 15 -> mp ∈ bt_lru_queue s ->
  c = Cursor (Some t) [Ppage mp (Z.of_nat i)] true false ->
  (i < length ks)%nat ->
  match ns !! S i, ks !! S i with
  | Some n, Some k =>
      exists s',
        btree_cursor_get SHA256 c (Some kv) false BT_NEXT s =
          Some ((BT_SUCCESS, Cursor (Some t) [Ppage mp (Z.of_nat (S i))] true false,
                 pfx ++ k, []), s') /\
        scanning s' t x mp ns ks pfx (r + 1) /\ mp ∈ bt_lru_queue s'
  | _, _ =>
      exists s',
        btree_cursor_get SHA256 c (Some kv) false BT_NEXT s =
          Some ((BT_FAIL, Cursor (Some t) [Ppage mp (Z.of_nat i)] true true, [], []), s') /\
        bt_errno s' = ENOENT /\
        scanning s' t x mp ns ks pfx r /\ mp ∈ bt_lru_queue s'
  end.
Proof.
  intros Hscan Hr Hin -> Hi.
  pose proof Hscan as (m & Htree & Hholds & Hpfx & Href).
  pose proof Htree as (Hx & Herr & Hroot & Hc & Hm & Hp & Hl & Hb & Hok).
  pose proof (holds_length m ns ks Hholds) as Hlen.
  assert (NUMKEYS m = Z.of_nat (length ks)) as HN.
  { destruct Hholds as (_ & H & _). rewrite H, Hlen. reflexivity. }
  destruct (Nat.lt_ge_cases (S i) (length ks)) as [Hmore|Hend].
  - destruct (lookup_lt_is_Some_2 ks (S i) Hmore) as [k Hk].
    destruct (lookup_lt_is_Some_2 ns (S i) ltac:(lia)) as [n Hn].
    rewrite Hn, Hk.
    unfold btree_cursor_get. unfold bind at 1.
    cbn [c_initialized negb]. rewrite bool_decide_eq_true_2 by discriminate.
    unfold btree_cursor_next. cbn [c_eof c_stack pp_mpage pp_ki].
    unfold bind at 1. rewrite (mp_get_eq _ _ _ Hm). rewrite HN.
    rewrite (small_u32 (Z.of_nat i + 1)) by lia.
    destruct (Z.leb_spec (Z.of_nat (length ks)) (Z.of_nat i + 1)); [lia|].
    unfold bind at 1. cbn [ret c_stack set_c_stack pp_mpage pp_ki].
    unfold bind at 1. rewrite (mp_get_eq _ _ _ Hm). unfold bind at 1.
    rewrite (holds_node m ns ks Hholds) by lia.
    replace (Z.to_nat (Z.of_nat i + 1)) with (S i) by lia. rewrite Hn. cbn [liftO ret].
    destruct (fetch_scanning s t x mp ns ks pfx r
                (Cursor (Some t) [Ppage mp (Z.of_nat i + 1)] true false)
                (S i) n k Hscan Hr Hin Hn Hk) as (s2 & Hfetch & Hscan2 & Hin2 & _).
    unfold set_c_stack. cbn [c_txn c_stack c_initialized c_eof].
    rewrite Hfetch.
    destruct (prune_scanning s2 t x mp ns ks pfx (r + 1) Hscan2 Hin2)
      as (s3 & Hprune & Hscan3 & Hin3 & _).
    unfold bind at 1. rewrite Hprune. cbn [ret].
    exists s3. split; [|split; assumption].
    replace (Z.of_nat (S i)) with (Z.of_nat i + 1) by lia. reflexivity.
  - (* the last key: there is no sibling *)
    assert (ns !! S i = None) as Hnone by (apply lookup_ge_None; lia).
    rewrite Hnone.
    unfold btree_cursor_get. unfold bind at 1.
    cbn [c_initialized negb]. rewrite bool_decide_eq_true_2 by discriminate.
    unfold btree_cursor_next. cbn [c_eof c_stack pp_mpage pp_ki].
    unfold bind at 1. rewrite (mp_get_eq _ _ _ Hm). rewrite HN.
    rewrite (small_u32 (Z.of_nat i + 1)) by lia.
    destruct (Z.leb_spec (Z.of_nat (length ks)) (Z.of_nat i + 1)); [|lia].
    unfold bind at 1. unfold bind at 1. unfold btree_sibling, bind at 1.
    cbn [c_stack btree_sibling_stack]. unfold bind at 1. unfold set_errno, modify. cbn [ret].
    cbn [fst snd]. change (BT_FAIL =? BT_SUCCESS) with false. cbn [negb ret].
    set (s1 := set_bt_errno _ s).
    assert (scanning s1 t x mp ns ks pfx r) as Hscan1.
    { exists m. split; [|auto]. repeat split; auto. }
    destruct (prune_scanning s1 t x mp ns ks pfx r Hscan1 Hin)
      as (s2 & Hprune & Hscan2 & Hin2 & He).
    unfold bind at 1. rewrite Hprune. cbn [ret].
    exists s2. split; [reflexivity|]. split; [now rewrite He|]. split; assumption.
Qed.

Lemma scan_from (fuel : nat) : forall (s : btree) (i : nat) (r : Z),
  scanning s t x mp ns ks pfx r -> r + Z.of_nat fuel < 2 ^ 15 ->
  mp ∈ bt_lru_queue s -> (i < length ks)%nat ->
  exists s',
    Scenario.traverse_from SHA256 fuel (Cursor (Some t) [Ppage mp (Z.of_nat i)] true false)
      BT_NEXT s =
    Some ((map (app pfx) (take fuel (drop (S i) ks)),
           bool_decide (length ks - S i < fuel)%nat), s').
Proof.
  induction fuel as [|fuel IH]; intros s i r Hscan Hr Hin Hi.
  - eexists. cbn [Scenario.traverse_from take map]. rewrite bool_decide_eq_false_2 by lia.
    reflexivity.
  - cbn [Scenario.traverse_from]. unfold bind at 1.
    pose proof (cursor_next_leaf s _ (Btval [] 0) i r Hscan ltac:(lia) Hin eq_refl Hi)
      as Hnext.
    destruct (Nat.lt_ge_cases (S i) (length ks)) as [Hmore|Hend].
    + destruct (lookup_lt_is_Some_2 ks (S i) Hmore) as [k Hk].
      assert (is_Some (ns !! S i)) as [n Hn].
      { apply lookup_lt_is_Some_2. destruct Hscan as (m & _ & Hholds & _).
        rewrite <- (holds_length m ns ks Hholds). exact Hmore. }
      rewrite Hn, Hk in Hnext. destruct Hnext as (s1 & Hget & Hscan1 & Hin1).
      rewrite Hget. cbn [Z.eqb BT_SUCCESS].
      destruct (IH s1 (S i) (r + 1) Hscan1 ltac:(lia) Hin1 Hmore) as (s2 & Hrest).
      unfold bind at 1. rewrite Hrest. cbn [ret fst snd].
      exists s2. unfold ret. do 2 f_equal.
      rewrite (drop_S ks k (S i) Hk). cbn [take map]. f_equal.
      apply bool_decide_ext. lia.
    + assert (ns !! S i = None) as Hnone.
      { apply lookup_ge_None. destruct Hscan as (m & _ & Hholds & _).
        rewrite <- (holds_length m ns ks Hholds). exact Hend. }
      rewrite Hnone in Hnext. destruct Hnext as (s1 & Hget & _).
      rewrite Hget. change (BT_FAIL =? BT_SUCCESS) with false. cbn [ret].
      exists s1. unfold ret. do 2 f_equal.
      rewrite drop_ge by lia. rewrite take_nil. cbn [map].
      rewrite bool_decide_eq_true_2 by lia. reflexivity.
Qed.

End Scan.

(** A scan of a tree of one leaf.  A new cursor of a transaction whose
    tree is one cached leaf, moved with [BT_FIRST] and then [BT_NEXT] as
    long as it succeeds, at most [fuel] times, returns the keys of the
    leaf in slot order, each behind the page prefix, and fails when the
    keys are used up.  The reference count of the leaf, a [short] that
    goes up with the cursor and with every key handed out, has to stay
    below [2 ^ 15]. *)
Theorem scan_returns_leaf_keys
    (SHA256 : list Z -> bytes) (s : btree) (t : nat) (x : btree_txn) (mp : nat) (m : mpage)
    (ns : list node) (ks : list bytes) (fuel : nat) :
  leaf_tree s t x mp m -> leaf_holds m ns ks -> ks <> [] ->
  0 <= mp_ref m -> mp_ref m + Z.of_nat fuel + 1 < 2 ^ 15 ->
  Z.of_nat (length ks) < 2 ^ 16 ->
  exists s',
    Scenario.traverse_from SHA256 fuel (Cursor (Some t) [] false false) BT_FIRST s =
    Some ((map (app (mp_prefix m)) (take fuel ks), bool_decide (length ks < fuel)%nat), s').
Proof.
  intros Htree Hholds Hne Href Hbound Hsmall.
  destruct fuel as [|fuel].
  - eexists. cbn [Scenario.traverse_from take map]. rewrite bool_decide_eq_false_2 by lia.
    reflexivity.
  - destruct ks as [|k0 ks'] eqn:Eks; [congruence|]. rewrite <- Eks in *.
    assert (ks !! O = Some k0) as Hk0 by (rewrite Eks; reflexivity).
    assert (is_Some (ns !! O)) as [n0 Hn0].
    { apply lookup_lt_is_Some_2. rewrite <- (holds_length m ns ks Hholds), Eks. cbn. lia. }
    destruct (cursor_first_leaf SHA256 t x mp ns ks (mp_prefix m) s m
                (Cursor (Some t) [] false false) (Btval [] 0) BT_FIRST n0 k0 (mp_ref m))
      as (s1 & Hget & Hscan1 & Hin1); auto; try lia.
    cbn [Scenario.traverse_from]. unfold bind at 1. rewrite Hget. cbn [Z.eqb BT_SUCCESS].
    destruct (scan_from SHA256 t x mp ns ks (mp_prefix m) Hsmall fuel s1 O (mp_ref m + 2)
                Hscan1 ltac:(lia) Hin1)
      as (s2 & Hrest); [rewrite Eks; cbn; lia|].
    unfold bind at 1. change (Z.of_nat 0) with 0 in Hrest. rewrite Hrest. cbn [ret fst snd].
    exists s2. unfold ret.
    assert (bool_decide (length ks - 1 < fuel)%nat = bool_decide (length ks < S fuel)%nat)
      as -> by (apply bool_decide_ext; rewrite Eks; cbn [length]; lia).
    rewrite Eks. reflexivity.
Qed.

(** The scan of the tree that holds the keys [k] and [m]: [BT_FIRST]
    returns [k], the first [BT_NEXT] returns [m], the second fails. *)
Lemma scan_returns_leaf_keys_witness :
  exists s',
    Scenario.traverse_from Scenario.no_digest 5 (Cursor (Some O) [] false false) BT_FIRST
      two_keys_in_txn =
    Some (([[ "k"%byte ]; [ "m"%byte ]], true), s').
Proof.
  apply (scan_returns_leaf_keys Scenario.no_digest two_keys_in_txn O (BtreeTxn 1 2 [O] 0) O
           km_leaf km_nodes km_keys 5).
  - one_key_tree.
  - one_key_tree.
  - discriminate.
  - vm_compute. discriminate.
  - vm_compute. reflexivity.
  - vm_compute. reflexivity.
Defined.


End ScanFacts.

Module ReplaceFacts.
Import Cmp CmpFacts OrderFacts PrefixFacts SearchFacts StateFacts SepFacts.
Import CacheFacts TxnFacts ReadFacts NodeFacts CommitFacts PruneFacts LeafTreeFacts.
Import DeleteFacts.


Section Replace.
Variable SHA256 : list Z -> bytes.
Variables (s : btree) (t : nat) (x : btree_txn) (mp : nat) (m : mpage).
Variables (ns : list node) (ks : list bytes).
Hypothesis Htree : leaf_tree s t x mp m.
Hypothesis Hdirty : mp_dirty m = true.
Hypothesis Hrd : F_ISSET (tx_flags x) BT_TXN_RDONLY = false.
Hypothesis Hholds : leaf_holds m ns ks.
Hypothesis Hinc : increasing ks.


End Replace.



End ReplaceFacts.

Module AbortFacts.
Import Cmp CmpFacts OrderFacts PrefixFacts SearchFacts StateFacts SepFacts.
Import CacheFacts TxnFacts ReadFacts NodeFacts CommitFacts PruneFacts LeafTreeFacts.

Lemma filter_all {A} (P : A -> Prop) `{!forall a, Decision (P a)} (l : list A) :
  (forall a, P a) -> filter P l = l.
Proof.
  intros HP. induction l as [|a l IH]; [reflexivity|].
  rewrite filter_cons_True by apply HP. now rewrite IH.
Qed.

Lemma mpage_del_cache (s : btree) (mp : nat) (m : mpage) :
  cache_ok s = true -> mp ∈ bt_lru_queue s -> bt_heap s !! mp = Some m ->
  exists s', mpage_del mp s = Some (tt, s') /\
    outside_cache s' = outside_cache s /\
    cache_ok s' = true /\
    bt_lru_queue s' = filter (fun y => y <> mp) (bt_lru_queue s) /\
    bt_page_cache s' = delete (mp_pgno m) (bt_page_cache s).
Proof.
  intros Hok Hin Hm.
  destruct (mpage_del_ok s mp Hok Hin) as (s' & Hdel & Hout & Hok' & Hq).
  exists s'. repeat split; auto.
  apply cache_ok_spec in Hok as [_ Hall].
  destruct (cache_entry_ok_inv s mp (Hall mp Hin)) as (m' & Hm' & Hc).
  rewrite Hm in Hm'. injection Hm' as <-.
  unfold mpage_del, bind, mp_get, liftO, gets in Hdel. rewrite Hm in Hdel. cbn [ret] in Hdel.
  rewrite Hc in Hdel. rewrite bool_decide_eq_true_2 in Hdel by reflexivity.
  unfold modify in Hdel. injection Hdel as <-. reflexivity.
Qed.

(** The loop of [btree_txn_abort] over the dirty queue [q]. *)
Lemma abort_loop_ok (q : list nat) : forall (s : btree),
  cache_ok s = true -> NoDup q -> (forall mp, mp ∈ q -> mp ∈ bt_lru_queue s) ->
  exists s',
    foldr (fun mp k => mpage_del mp ;;; mpage_free mp ;;; k) (ret tt) q s = Some (tt, s') /\
    outside_cache s' = outside_cache s /\
    cache_ok s' = true /\
    bt_lru_queue s' = filter (fun y => y ∉ q) (bt_lru_queue s) /\
    forall p, bt_page_cache s' !! p =
      if decide (p ∈ omap (fun mp => mp_pgno <$> bt_heap s !! mp) q)
      then None else bt_page_cache s !! p.
Proof.
  induction q as [|mp q IH]; intros s Hok Hnd Hin.
  - exists s. cbn [foldr omap]. split; [reflexivity|]. split; [reflexivity|].
    split; [exact Hok|]. split.
    + symmetry. apply filter_all. intros y. apply not_elem_of_nil.
    + intros p. destruct (decide (p ∈ [])) as [H|_]; [|reflexivity].
      now apply elem_of_nil in H.
  - apply NoDup_cons in Hnd as [Hmp Hnd].
    assert (mp ∈ bt_lru_queue s) as Hmpin by (apply Hin; left).
    pose proof Hok as Hok0. apply cache_ok_spec in Hok0 as [_ Hall].
    destruct (cache_entry_ok_inv s mp (Hall mp Hmpin)) as (m & Hm & Hc).
    destruct (mpage_del_cache s mp m Hok Hmpin Hm) as (s1 & Hdel & Hout1 & Hok1 & Hq1 & Hc1).
    destruct (IH s1 Hok1 Hnd) as (s' & Hrun & Hout & Hok' & Hq & Hcache).
    { intros y Hy. rewrite Hq1. apply list_elem_of_filter. split.
      - intros ->. contradiction.
      - apply Hin. now right. }
    destruct (outside_cache_fields _ _ Hout1) as (_ & _ & _ & _ & _ & _ & _ & Hheap & _).
    exists s'. cbn [foldr]. unfold bind at 1. rewrite Hdel.
    unfold bind at 1. unfold mpage_free at 1. cbn [ret]. rewrite Hrun.
    split; [reflexivity|]. split; [congruence|]. split; [exact Hok'|]. split.
    + rewrite Hq, Hq1. rewrite list_filter_filter. apply list_filter_iff.
      intros y. rewrite not_elem_of_cons. tauto.
    + intros p. rewrite Hcache, Hheap, Hc1. cbn [omap list_omap]. rewrite Hm. cbn [fmap option_fmap option_map].
      destruct (decide (p ∈ omap (fun mp0 => mp_pgno <$> bt_heap s !! mp0) q)) as [Hp|Hp].
      * rewrite decide_True by now right. reflexivity.
      * destruct (decide (p = mp_pgno m)) as [->|Hne].
        -- rewrite decide_True by now left. apply lookup_delete_eq.
        -- rewrite decide_False by (rewrite elem_of_cons; tauto).
           now apply lookup_delete_ne.
Qed.

Section Abort.
Variable SHA256 : list Z -> bytes.
Variables (s : btree) (t : nat) (x : btree_txn).
Hypothesis Hx : bt_txns s !! t = Some x.
Hypothesis Hrd : F_ISSET (tx_flags x) BT_TXN_RDONLY = false.
Hypothesis Hok : cache_ok s = true.
Hypothesis Hnd : NoDup (tx_dirty_queue x).
Hypothesis Hin : forall mp, mp ∈ tx_dirty_queue x -> mp ∈ bt_lru_queue s.
Hypothesis Href : bt_ref s <> 1.

Lemma abort_write_ok :
  exists s',
    btree_txn_abort (Some t) s = Some (tt, s') /\
    outside_cache s' =
      outside_cache
        (set_bt_ref (fun r => r - 1)
           (set_bt_txn (fun _ => None)
              (set_bt_txns (fun l => <[t := set_tx_dirty_queue (fun _ => []) x]> l) s))) /\
    cache_ok s' = true /\
    bt_lru_queue s' = filter (fun y => y ∉ tx_dirty_queue x) (bt_lru_queue s) /\
    forall p, bt_page_cache s' !! p =
      if decide (p ∈ omap (fun mp => mp_pgno <$> bt_heap s !! mp) (tx_dirty_queue x))
      then None else bt_page_cache s !! p.
Proof.
  destruct (abort_loop_ok (tx_dirty_queue x) s Hok Hnd Hin)
    as (s1 & Hrun & Hout & Hok1 & Hq & Hcache).
  destruct (outside_cache_fields _ _ Hout) as (_ & _ & _ & _ & Htx & _ & Hr & _).
  unfold btree_txn_abort. unfold bind at 1. rewrite (txn_get_eq _ _ _ Hx), Hrd. cbn [negb].
  unfold bind at 1. unfold bind at 1. rewrite Hrun.
  unfold bind at 1. rewrite (txn_upd_eq s1 t x) by congruence.
  unfold modify at 1. unfold btree_close. unfold bind at 1, modify at 1.
  unfold bind at 1, gets at 1.
  destruct s1 as [fl hd me pc lru tx rf cs mc sz hp txs fi ta er nw].
  cbn in Htx, Hr, Hq, Hcache, Hok1. subst txs rf.
  cbn.
  destruct (Z.eqb_spec (bt_ref s - 1) 0) as [E|_]; [lia|].
  eexists. split; [reflexivity|]. split.
  { apply (f_equal (fun b => set_bt_ref (fun r => r - 1)
        (set_bt_txn (fun _ => None)
           (set_bt_txns (fun l => <[t := set_tx_dirty_queue (fun _ => []) x]> l) b)))) in Hout.
    destruct s. exact Hout. }
  split; [|split; assumption].
  apply (cache_ok_pgno (Btree fl hd me pc lru tx (bt_ref s) cs mc sz hp (bt_txns s) fi ta er nw));
    auto.
Qed.

End Abort.

Lemma set_flags_same (s : btree) : set_bt_flags (fun _ => bt_flags s) s = s.
Proof. destruct s. reflexivity. Qed.

(** [btree_read_meta] when the file has not grown since the meta data
    were read, or holds the header alone. *)
Lemma read_meta_keeps (SHA256 : list Z -> bytes) (s : btree) :
  let sz := Z.of_nat (length (bt_file s)) * psize (bt_head_ s) + bt_file_tail s in
  bt_size s <= sz ->
  sz = psize (bt_head_ s) \/
  (sz = bt_size s /\ u32 (sz / psize (bt_head_ s)) <> 0 /\
   F_ISSET (m_flags (bt_meta_ s)) BT_TOMBSTONE = false) ->
  exists n fl,
    btree_read_meta SHA256 s = Some ((BT_SUCCESS, n), set_bt_flags (fun _ => fl) s).
Proof.
  intros sz Hle Hcase.
  unfold btree_read_meta, file_size, the_psize, bind, gets, ret. fold sz.
  destruct (Z.ltb_spec sz (bt_size s)); [lia|].
  destruct (Z.eqb_spec sz (psize (bt_head_ s))) as [E|E].
  - exists 1, (bt_flags s). now rewrite set_flags_same.
  - destruct Hcase as [?|(Hsame & Hnz & Htomb)]; [contradiction|].
    destruct (Z.eqb_spec (u32 (sz / psize (bt_head_ s))) 0); [contradiction|].
    destruct (sz mod psize (bt_head_ s) =? 0); cbn [negb].
    + rewrite (proj2 (Z.eqb_eq sz (bt_size s)) Hsame), Htomb.
      eexists _, (bt_flags s). now rewrite set_flags_same.
    + unfold modify. cbn [bt_size bt_meta_ set_bt_flags].
      rewrite (proj2 (Z.eqb_eq sz (bt_size s)) Hsame).
      cbn [bt_size bt_meta_ set_bt_flags]. rewrite Htomb.
      eexists _, (Z.lor (bt_flags s) BT_FIXPADDING). reflexivity.
Qed.

(** [btree_txn_begin] when no write transaction is open and
    [btree_read_meta] keeps the meta data it has. *)
Lemma begin_keeps_meta (SHA256 : list Z -> bytes) (s : btree) (rdonly : bool) :
  let sz := Z.of_nat (length (bt_file s)) * psize (bt_head_ s) + bt_file_tail s in
  bt_txn s = None ->
  bt_size s <= sz ->
  sz = psize (bt_head_ s) \/
  (sz = bt_size s /\ u32 (sz / psize (bt_head_ s)) <> 0 /\
   F_ISSET (m_flags (bt_meta_ s)) BT_TOMBSTONE = false) ->
  exists s' n,
    btree_txn_begin SHA256 rdonly s = Some (Some (length (bt_txns s)), s') /\
    bt_meta_ s' = bt_meta_ s /\ bt_file s' = bt_file s /\
    bt_page_cache s' = bt_page_cache s /\
    bt_txns s' = bt_txns s ++
      [BtreeTxn (m_root (bt_meta_ s)) n [] (if rdonly then BT_TXN_RDONLY else 0)].
Proof.
  intros sz Hcur Hle Hcase.
  unfold btree_txn_begin. unfold bind at 1. cbn [gets]. rewrite Hcur.
  rewrite bool_decide_eq_false_2 by (intros H; now apply H). rewrite andb_false_r.
  unfold bind at 1. cbn [gets]. unfold bind at 1, modify at 1.
  unfold bind at 1.
  set (S1 := set_bt_txns _ s).
  set (S2 := set_bt_ref (fun r => r + 1)
               (if rdonly then S1
                else set_bt_txn (fun _ => Some (length (bt_txns s))) S1)).
  destruct (read_meta_keeps SHA256 S2) as (n & fl & Hrm).
  { subst S2 S1. destruct rdonly; exact Hle. }
  { subst S2 S1. destruct rdonly; exact Hcase. }
  set (x0 := BtreeTxn 0 0 [] (if rdonly then BT_TXN_RDONLY else 0)) in *.
  assert (forall S, bt_txns S = bt_txns s ++ [x0] ->
                    bt_txns S !! length (bt_txns s) = Some x0) as Hlast.
  { intros S ->. rewrite lookup_app_r by lia. now rewrite Nat.sub_diag. }
  assert (bt_txns S2 = bt_txns s ++ [x0]) as Htx2 by (subst S2 S1; now destruct rdonly).
  assert ((if rdonly then ret tt
           else modify (set_bt_txn (fun _ => Some (length (bt_txns s))))) S1 =
          Some (tt, if rdonly then S1
                    else set_bt_txn (fun _ => Some (length (bt_txns s))) S1)) as ->
    by now destruct rdonly.
  unfold bind at 1, btree_ref at 1, modify at 1. fold S2.
  unfold bind at 1. rewrite Hrm. cbn [fst snd].
  set (S3 := set_bt_flags _ S2).
  unfold bind at 1. rewrite (txn_upd_eq S3 _ x0) by (apply Hlast; exact Htx2).
  cbn [Z.eqb BT_SUCCESS negb]. unfold bind at 1. cbn [gets].
  set (S4 := set_bt_txns _ S3).
  assert (bt_txns S4 = bt_txns s ++ [set_tx_next_pgno (fun _ => n) x0]) as Htx4.
  { subst S4 S3. cbn [bt_txns set_bt_txns set_bt_flags]. rewrite Htx2.
    rewrite insert_app_r_alt by lia. now rewrite Nat.sub_diag. }
  unfold bind at 1.
  rewrite (txn_upd_eq S4 _ (set_tx_next_pgno (fun _ => n) x0)).
  2:{ rewrite Htx4. rewrite lookup_app_r by lia. now rewrite Nat.sub_diag. }
  cbn [ret]. eexists _, n. split; [reflexivity|].
  cbn [bt_meta_ bt_file bt_page_cache bt_txns set_bt_txns]. rewrite Htx4.
  rewrite insert_app_r_alt by lia. rewrite Nat.sub_diag.
  subst S4 S3 S2 S1. destruct rdonly; repeat split.
Qed.


(** Abort, then the next transaction.  [btree_txn_abort] of a write
    transaction takes each page of its dirty queue out of the page cache
    and the LRU queue, clears [bt->txn] and leaves the file as it is.
    [bt->meta] is left as the transaction changed it: while the file
    does not grow (or holds the header alone), the transaction begun
    next starts from [meta.root], and the page and entry counts stay as
    the aborted transaction left them. *)
Theorem abort_then_begin
    (SHA256 : list Z -> bytes) (s : btree) (t : nat) (x : btree_txn) (rdonly : bool) :
  let sz := Z.of_nat (length (bt_file s)) * psize (bt_head_ s) + bt_file_tail s in
  bt_txns s !! t = Some x ->
  F_ISSET (tx_flags x) BT_TXN_RDONLY = false ->
  cache_ok s = true ->
  NoDup (tx_dirty_queue x) ->
  (forall mp, mp ∈ tx_dirty_queue x -> mp ∈ bt_lru_queue s) ->
  bt_ref s <> 1 ->
  bt_size s <= sz ->
  sz = psize (bt_head_ s) \/
  (sz = bt_size s /\ u32 (sz / psize (bt_head_ s)) <> 0 /\
   F_ISSET (m_flags (bt_meta_ s)) BT_TOMBSTONE = false) ->
  exists s1 s2 n,
    btree_txn_abort (Some t) s = Some (tt, s1) /\
    bt_txn s1 = None /\ bt_file s1 = bt_file s /\ bt_meta_ s1 = bt_meta_ s /\
    (forall mp m, mp ∈ tx_dirty_queue x -> bt_heap s !! mp = Some m ->
       bt_page_cache s1 !! mp_pgno m = None /\ mp ∉ bt_lru_queue s1) /\
    btree_txn_begin SHA256 rdonly s1 = Some (Some (length (bt_txns s)), s2) /\
    bt_file s2 = bt_file s /\ bt_meta_ s2 = bt_meta_ s /\
    bt_txns s2 !! length (bt_txns s) =
      Some (BtreeTxn (m_root (bt_meta_ s)) n [] (if rdonly then BT_TXN_RDONLY else 0)).
Proof.
  intros sz Hx Hrd Hok Hnd Hin Href Hle Hcase.
  destruct (abort_write_ok s t x Hx Hrd Hok Hnd Hin Href)
    as (s1 & Habort & Hout & Hok1 & Hq & Hcache).
  destruct (outside_cache_fields _ _ Hout)
    as (Hfile & Htail & Hmeta & Hsize & Htxns & Hcur & _).
  assert (bt_head_ s1 = bt_head_ s) as Hhead by exact (f_equal bt_head_ Hout).
  cbn in Hfile, Htail, Hmeta, Hsize, Htxns, Hcur.
  destruct (begin_keeps_meta SHA256 s1 rdonly) as (s2 & n & Hbegin & Hmeta2 & Hfile2 & _ & Htx2).
  - exact Hcur.
  - rewrite Hfile, Htail, Hsize, Hhead. exact Hle.
  - rewrite Hfile, Htail, Hsize, Hhead, Hmeta. exact Hcase.
  - assert (length (bt_txns s1) = length (bt_txns s)) as Hlen
      by (rewrite Htxns; apply length_insert).
    exists s1, s2, n. split; [exact Habort|]. split; [exact Hcur|].
    split; [exact Hfile|]. split; [exact Hmeta|]. split.
    { intros mp m Hmp Hm. split.
      - rewrite Hcache. apply decide_True. apply list_elem_of_omap.
        exists mp. split; [exact Hmp|]. now rewrite Hm.
      - rewrite Hq. intros H. apply list_elem_of_filter in H as [H _]. contradiction. }
    rewrite <- Hlen. split; [exact Hbegin|].
    split; [congruence|]. split; [congruence|].
    rewrite Htx2, Hmeta. rewrite lookup_app_r by lia. now rewrite Nat.sub_diag.
Qed.

(** The transaction that put the key [k] into an empty tree, aborted. *)
Lemma abort_then_begin_witness :
  exists s1 s2 n,
    btree_txn_abort (Some O) one_key_in_txn = Some (tt, s1) /\
    bt_txn s1 = None /\ bt_file s1 = bt_file one_key_in_txn /\
    bt_meta_ s1 = bt_meta_ one_key_in_txn /\
    (forall mp m, mp ∈ [O] -> bt_heap one_key_in_txn !! mp = Some m ->
       bt_page_cache s1 !! mp_pgno m = None /\ mp ∉ bt_lru_queue s1) /\
    btree_txn_begin Scenario.no_digest true s1 =
      Some (Some (length (bt_txns one_key_in_txn)), s2) /\
    bt_file s2 = bt_file one_key_in_txn /\ bt_meta_ s2 = bt_meta_ one_key_in_txn /\
    bt_txns s2 !! length (bt_txns one_key_in_txn) =
      Some (BtreeTxn (m_root (bt_meta_ one_key_in_txn)) n [] BT_TXN_RDONLY).
Proof.
  apply (abort_then_begin Scenario.no_digest one_key_in_txn O (BtreeTxn 1 2 [O] 0) true).
  - reflexivity.
  - reflexivity.
  - vm_compute. reflexivity.
  - apply NoDup_singleton.
  - intros mp Hmp. apply list_elem_of_singleton in Hmp as ->. vm_compute. left.
  - vm_compute. discriminate.
  - vm_compute. discriminate.
  - left. vm_compute. reflexivity.
Defined.

(** Commit on a read-only handle.  When the handle was opened with
    [BT_RDONLY], the commit of a write transaction that has pages to
    write fails at the first call that would change the file,
    [ftruncate] when the file ended inside a page and [writev]
    otherwise: it returns [BT_FAIL] with the [errno] of that call, the
    file is as it was, and the transaction is aborted, its dirty pages
    dropped from the cache and [bt->meta] left as the transaction changed
    it. *)
Theorem commit_on_rdonly_handle_fails
    (SHA256 : list Z -> bytes) (s : btree) (t : nat) (x : btree_txn) (pages : list page) :
  F_ISSET (bt_flags s) BT_RDONLY = true ->
  bt_txn s = Some t -> bt_txns s !! t = Some x ->
  F_ISSET (tx_flags x) BT_TXN_RDONLY = false ->
  F_ISSET (tx_flags x) BT_TXN_ERROR = false ->
  tx_dirty_queue x <> [] ->
  queue_pages s (tx_dirty_queue x) = Some pages ->
  cache_ok s = true -> NoDup (tx_dirty_queue x) ->
  (forall mp, mp ∈ tx_dirty_queue x -> mp ∈ bt_lru_queue s) ->
  bt_ref s <> 1 ->
  exists s',
    btree_txn_commit SHA256 t s = Some (BT_FAIL, s') /\
    bt_errno s' = (if F_ISSET (bt_flags s) BT_FIXPADDING then EINVAL else EBADF) /\
    bt_file s' = bt_file s /\ bt_file_tail s' = bt_file_tail s /\
    bt_size s' = bt_size s /\ bt_meta_ s' = bt_meta_ s /\
    bt_txn s' = None /\
    (forall mp m, mp ∈ tx_dirty_queue x -> bt_heap s !! mp = Some m ->
       bt_page_cache s' !! mp_pgno m = None /\ mp ∉ bt_lru_queue s').
Proof.
  intros Hro Hcur Hx Hrd Herr Hq Hp Hok Hnd Hin Href.
  set (e := if F_ISSET (bt_flags s) BT_FIXPADDING then EINVAL else EBADF).
  set (se := set_bt_errno (fun _ => e) s).
  assert (btree_txn_commit SHA256 t s =
          (btree_txn_abort (Some t) ;;; ret BT_FAIL) se) as ->.
  { unfold btree_txn_commit. unfold bind at 1. rewrite (txn_get_eq _ _ _ Hx).
    unfold bind at 1. cbn [gets].
    rewrite Hrd, Hcur, bool_decide_eq_true_2 by reflexivity. cbn [negb]. rewrite Herr.
    destruct (tx_dirty_queue x) as [|mp0 q0] eqn:Hq0; [congruence|].
    rewrite <- Hq0 in Hp |- *.
    unfold bind at 1. cbn [gets]. unfold bind at 1. subst se e.
    destruct (F_ISSET (bt_flags s) BT_FIXPADDING).
    - unfold bind at 1. unfold file_truncate_up at 1, fd_rdonly, bind at 1. cbn [gets].
      rewrite Hro. unfold bind at 1. unfold set_errno at 1, modify at 1.
      cbn [ret]. unfold bind at 1. cbn [ret negb]. reflexivity.
    - cbn [ret negb]. unfold bind at 1.
      rewrite CommitFacts.commit_write_loop_unfold. unfold bind at 1.
      rewrite (txn_get_eq _ _ _ Hx). cbv zeta.
      destruct (take 64 (tx_dirty_queue x)) as [|mp1 rest] eqn:Hb.
      { rewrite Hq0 in Hb. discriminate Hb. }
      rewrite <- Hb. unfold bind at 1. cbn [gets].
      apply CommitFacts.queue_pages_spec in Hp.
      pose proof (Forall2_take _ _ _ 64 Hp) as Hp1.
      apply (proj2 (mapM_Some _ _ _)) in Hp1. unfold bind at 1. rewrite Hp1. cbn [liftO ret].
      unfold bind at 1. unfold file_write at 1, fd_rdonly, bind at 1. cbn [gets].
      rewrite Hro. unfold bind at 1. unfold set_errno at 1, modify at 1.
      cbn [ret negb]. reflexivity. }
  destruct (abort_write_ok se t x) as (s' & Habort & Hout & Hok' & Hlru & Hcache);
    try assumption.
  unfold bind at 1. rewrite Habort. cbn [ret].
  destruct (outside_cache_fields _ _ Hout)
    as (Hfile & Htail & Hmeta & Hsize & _ & Htxn & _ & _ & He).
  exists s'. split; [reflexivity|].
  split; [exact He|]. split; [exact Hfile|]. split; [exact Htail|].
  split; [exact Hsize|]. split; [exact Hmeta|]. split; [exact Htxn|].
  intros mp m Hmp Hm. split.
  - rewrite Hcache. apply decide_True. apply list_elem_of_omap.
    exists mp. split; [exact Hmp|]. change (bt_heap se) with (bt_heap s). now rewrite Hm.
  - rewrite Hlru. intros H. apply list_elem_of_filter in H as [H _]. contradiction.
Qed.

(** The transaction of [one_key_in_txn] on a handle with [BT_RDONLY]. *)
Lemma commit_on_rdonly_handle_fails_witness :
  exists s',
    btree_txn_commit Scenario.no_digest O
      (set_bt_flags (fun _ => BT_RDONLY) one_key_in_txn) = Some (BT_FAIL, s') /\
    bt_errno s' = EBADF /\
    bt_file s' = bt_file one_key_in_txn /\ bt_file_tail s' = 0 /\
    bt_size s' = bt_size one_key_in_txn /\ bt_meta_ s' = bt_meta_ one_key_in_txn /\
    bt_txn s' = None /\
    (forall mp m, mp ∈ [O] -> bt_heap one_key_in_txn !! mp = Some m ->
       bt_page_cache s' !! mp_pgno m = None /\ mp ∉ bt_lru_queue s').
Proof.
  apply (commit_on_rdonly_handle_fails Scenario.no_digest
           (set_bt_flags (fun _ => BT_RDONLY) one_key_in_txn) O (BtreeTxn 1 2 [O] 0)
           [Page 1 P_LEAF 14 4085 0
              (BNodes [Written (Node 3 1 0 [ "k"; "v"; "v"; "v" ]%byte)])]).
  - reflexivity.
  - reflexivity.
  - reflexivity.
  - reflexivity.
  - reflexivity.
  - discriminate.
  - vm_compute. reflexivity.
  - vm_compute. reflexivity.
  - apply NoDup_singleton.
  - intros mp Hmp. apply list_elem_of_singleton in Hmp as ->. vm_compute. left.
  - vm_compute. discriminate.
Defined.

End AbortFacts.

Module EofFacts.
Import Cmp CmpFacts OrderFacts PrefixFacts SearchFacts StateFacts SepFacts.
Import CacheFacts TxnFacts CursorFacts ReadFacts NodeFacts CommitFacts PruneFacts.
Import LeafTreeFacts ScanFacts.

(** [BT_CURSOR], [BT_CURSOR_EXACT] and [BT_FIRST] first take the cursor
    off the pages it stands on. *)
Lemma get_after_pop (SHA256 : list Z -> bytes) (c c' : cursor) (key : option btval)
    (wd : bool) (op : cursor_op) (s s' : btree) :
  op <> BT_NEXT ->
  cursor_pop_all (length (c_stack c)) c s = Some (c', s') -> c_stack c' = [] ->
  btree_cursor_get SHA256 c key wd op s = btree_cursor_get SHA256 c' key wd op s'.
Proof.
  intros Hop Hpop Hst. unfold btree_cursor_get. unfold bind at 1 3.
  destruct op; try congruence.
  all: unfold bind at 1 3; rewrite Hpop, Hst; cbn [length cursor_pop_all]; rewrite Hst;
    reflexivity.
Qed.

Section Leaf.
Variable SHA256 : list Z -> bytes.
Variables (t : nat) (x : btree_txn) (mp : nat).
Variables (ns : list node) (ks : list bytes) (pfx : bytes).
Hypothesis Hsmall : Z.of_nat (length ks) < 2 ^ 16.
Hypothesis Hinc : increasing ks.

(** The cursor leaves the leaf. *)
Lemma pop_leaf (s : btree) (i : Z) (ini eof : bool) (r : Z) :
  scanning s t x mp ns ks pfx r -> r < 2 ^ 15 ->
  exists m s',
    cursor_pop_all 1 (Cursor (Some t) [Ppage mp i] ini eof) s =
      Some (Cursor (Some t) [] ini eof, s') /\
    leaf_tree s' t x mp m /\ leaf_holds m ns ks /\ mp_prefix m = pfx /\
    0 <= mp_ref m <= r - 1 /\ bt_lru_queue s' = bt_lru_queue s.
Proof.
  intros (m & Htree & Hholds & Hpfx & Href) Hr.
  pose proof Htree as (Hx & Herr & Hroot & Hc & Hm & Hp & Hl & Hb & Hok).
  exists (set_mp_ref (fun r => i16 (r - 1)) m). eexists. split.
  - cbn [cursor_pop_all c_stack]. unfold bind at 1. unfold cursor_pop_page.
    cbn [c_stack pp_mpage]. unfold bind at 1. rewrite (mp_upd_eq _ _ _ _ Hm). cbn [ret].
    reflexivity.
  - split; [now apply leaf_tree_ref|]. split; [exact Hholds|]. split; [exact Hpfx|].
    split; [|reflexivity].
    destruct m as [par pi px pg pn rf dt]. cbn in *. rewrite i16_small by lia. lia.
Qed.

(** The cursor set on a key of the leaf. *)
Lemma cursor_set_leaf (s : btree) (m : mpage) (c : cursor) (op : cursor_op)
    (j : nat) (kj : bytes) (nj : node) (r : Z) :
  leaf_tree s t x mp m -> leaf_holds m ns ks -> mp_prefix m = pfx ->
  0 <= mp_ref m <= r -> r + 2 < 2 ^ 15 ->
  c_txn c = Some t -> c_stack c = [] ->
  op = BT_CURSOR \/ op = BT_CURSOR_EXACT ->
  ks !! j = Some kj -> ns !! j = Some nj ->
  0 < Z.of_nat (length (pfx ++ kj)) <= MAXKEYSIZE ->
  exists s',
    btree_cursor_get SHA256 c (Some (mkval (pfx ++ kj))) false op s =
      Some ((BT_SUCCESS, Cursor (Some t) [Ppage mp (Z.of_nat j)] true false, pfx ++ kj, []),
            s') /\
    scanning s' t x mp ns ks pfx (r + 2) /\ mp ∈ bt_lru_queue s'.
Proof.
  intros Htree Hholds Hpfx Href Hr Hct Hcs Hop Hkj Hnj Hsz.
  pose proof Htree as (Hx & Herr & Hroot & Hc & Hm & Hp & Hl & Hb & Hok).
  pose proof (lookup_lt_Some _ _ _ Hkj) as Hjl.
  unfold btree_cursor_get. unfold bind at 1.
  replace (match op with
           | BT_FIRST => _
           | BT_NEXT => _
           | _ => _
           end s)
    with (btree_cursor_set SHA256 c (mkval (pfx ++ kj)) false
            (match op with BT_CURSOR_EXACT => true | _ => false end) s).
  2:{ destruct Hop as [->| ->].
      all: rewrite Hcs; cbn [length cursor_pop_all]; unfold bind at 1; rewrite Hcs;
        cbn [ret bv_size mkval].
      all: destruct (Z.eqb_spec (Z.of_nat (length (pfx ++ kj))) 0); [lia|].
      all: destruct (Z.ltb_spec MAXKEYSIZE (Z.of_nat (length (pfx ++ kj)))); [lia|].
      all: reflexivity. }
  unfold btree_cursor_set. unfold bind at 1. rewrite Hct.
  rewrite (search_page_leaf_cursor SHA256 s t x mp m c (Some (mkval (pfx ++ kj))) Htree).
  set (m1 := set_mp_ref (fun r => i16 (r + 1)) m).
  set (s1 := set_bt_heap _ _).
  assert (leaf_tree s1 t x mp m1) as Htree1.
  { subst s1 m1. apply leaf_tree_ref.
    destruct (search_page_leaf SHA256 s t x mp m None false Htree) as (_ & H & _);
      [discriminate | exact H]. }
  assert (scanning s1 t x mp ns ks pfx (r + 1)) as Hscan1.
  { exists m1. split; [exact Htree1|]. split; [exact Hholds|]. split; [exact Hpfx|].
    subst m1. destruct m as [par pi px pg pn rf dt]. cbn in *.
    rewrite i16_small by lia. lia. }
  assert (mp ∈ bt_lru_queue s1) as Hin1.
  { subst s1. cbn. apply elem_of_app. right. now left. }
  cbn [fst snd liftO]. unfold bind at 1. cbn [ret Z.eqb BT_SUCCESS negb].
  unfold bind at 1. cbn [ret]. unfold bind at 1.
  destruct Htree1 as (_ & _ & _ & _ & Hm1 & _).
  rewrite (mp_get_eq _ _ _ Hm1). unfold bind at 1.
  assert (btree_search_node m1 (mkval (pfx ++ kj)) = Some (Some (true, Z.of_nat j))) as ->.
  { rewrite <- Hpfx. change (mp_prefix m) with (mp_prefix m1).
    assert (NUMKEYS m1 = Z.of_nat (length ks)) as HN.
    { pose proof Hholds as (_ & H & _). change (NUMKEYS m1) with (NUMKEYS m).
      rewrite H, (holds_length m ns ks Hholds). reflexivity. }
    apply search_present.
    - intros i Hi. now apply (holds_keys m1 ns ks).
    - now apply (holds_increasing m1 ns ks).
    - unfold search_low. change (IS_LEAF m1) with (IS_LEAF m). rewrite Hl. lia.
    - rewrite (holds_stored_key m1 ns ks Hholds) by lia. now rewrite Nat2Z.id. }
  cbn [liftO ret]. unfold bind at 1. unfold cursor_set_top_ki.
  cbn [c_stack set_c_stack pp_mpage ret].
  rewrite andb_false_r. unfold bind at 1. cbn [ret]. unfold bind at 1.
  rewrite (mp_get_eq _ _ _ Hm1). unfold bind at 1.
  rewrite (holds_node m1 ns ks Hholds) by lia. rewrite Nat2Z.id, Hnj. cbn [liftO ret].
  destruct (fetch_scanning s1 t x mp ns ks pfx (r + 1)
              (set_c_eof (fun _ => false)
                 (set_c_initialized (fun _ => true)
                    (set_c_stack (fun _ => Ppage mp (Z.of_nat j) :: c_stack c)
                       (set_c_stack (fun st => Ppage mp 0 :: st) c))))
              j nj kj Hscan1 ltac:(lia) Hin1 Hnj Hkj) as (s2 & Hfetch & Hscan2 & Hin2 & _).
  rewrite Hfetch. replace (r + 1 + 1) with (r + 2) in Hscan2 by lia.
  destruct (prune_scanning s2 t x mp ns ks pfx (r + 2) Hscan2 Hin2)
    as (s3 & Hprune & Hscan3 & Hin3 & _).
  unfold bind at 1. rewrite Hprune. cbn [ret].
  exists s3. split; [|split; assumption].
  destruct c as [ct cs ci ce]. cbn in Hct, Hcs. subst ct cs. reflexivity.
Qed.

(** The life of [eof] on a tree of one leaf: from the cursor on the last
    key, [BT_NEXT] fails and sets [eof]; with [eof] set, [BT_FIRST] and
    [BT_CURSOR] or [BT_CURSOR_EXACT] for a key of the leaf succeed and
    clear it. *)
Lemma eof_on_leaf (s : btree) (kv : btval) (i : nat) (r : Z) :
  scanning s t x mp ns ks pfx r -> r + 2 < 2 ^ 15 -> mp ∈ bt_lru_queue s ->
  length ks = S i ->
  let c := Cursor (Some t) [Ppage mp (Z.of_nat i)] true false in
  let ceof := Cursor (Some t) [Ppage mp (Z.of_nat i)] true true in
  exists s1,
    btree_cursor_get SHA256 c (Some kv) false BT_NEXT s = Some ((BT_FAIL, ceof, [], []), s1) /\
    bt_errno s1 = ENOENT /\ cache_ok s1 = true /\
    (forall k0, ks !! O = Some k0 ->
       exists s2,
         btree_cursor_get SHA256 ceof (Some kv) false BT_FIRST s1 =
           Some ((BT_SUCCESS, Cursor (Some t) [Ppage mp 0] true false, pfx ++ k0, []), s2)) /\
    (forall op j kj,
       op = BT_CURSOR \/ op = BT_CURSOR_EXACT ->
       ks !! j = Some kj -> 0 < Z.of_nat (length (pfx ++ kj)) <= MAXKEYSIZE ->
       exists s2,
         btree_cursor_get SHA256 ceof (Some (mkval (pfx ++ kj))) false op s1 =
           Some ((BT_SUCCESS, Cursor (Some t) [Ppage mp (Z.of_nat j)] true false,
                  pfx ++ kj, []), s2)).
Proof.
  intros Hscan Hr Hin Hlast c ceof.
  pose proof (cursor_next_leaf SHA256 t x mp ns ks pfx Hsmall s c kv i r Hscan ltac:(lia) Hin
                eq_refl ltac:(lia)) as Hnext.
  assert (ns !! S i = None) as Hnone.
  { apply lookup_ge_None. destruct Hscan as (m & _ & Hholds & _).
    rewrite <- (holds_length m ns ks Hholds). lia. }
  rewrite Hnone in Hnext. destruct Hnext as (s1 & Hget & He & Hscan1 & Hin1).
  exists s1. split; [exact Hget|]. split; [exact He|].
  split; [destruct Hscan1 as (m & (_ & _ & _ & _ & _ & _ & _ & _ & Hok) & _); exact Hok|].
  destruct (pop_leaf s1 (Z.of_nat i) true true r Hscan1 ltac:(lia))
    as (m' & s1' & Hpop & Htree' & Hholds' & Hpfx' & Href' & Hlru').
  split.
  - intros k0 Hk0.
    assert (is_Some (ns !! O)) as [n0 Hn0].
    { apply lookup_lt_is_Some_2. rewrite <- (holds_length m' ns ks Hholds'). lia. }
    rewrite (get_after_pop SHA256 ceof (Cursor (Some t) [] true true) (Some kv) false
               BT_FIRST s1 s1'); [|discriminate | exact Hpop | reflexivity].
    destruct (cursor_first_leaf SHA256 t x mp ns ks pfx s1' m'
                (Cursor (Some t) [] true true) kv BT_FIRST n0 k0 r)
      as (s2 & Hfirst & _); auto; try lia.
    exists s2. exact Hfirst.
  - intros op j kj Hop Hkj Hsz.
    assert (is_Some (ns !! j)) as [nj Hnj].
    { apply lookup_lt_is_Some_2. rewrite <- (holds_length m' ns ks Hholds').
      eapply lookup_lt_Some; eauto. }
    rewrite (get_after_pop SHA256 ceof (Cursor (Some t) [] true true)
               (Some (mkval (pfx ++ kj))) false op s1 s1');
      [| destruct Hop as [->| ->]; discriminate | exact Hpop | reflexivity].
    destruct (cursor_set_leaf s1' m' (Cursor (Some t) [] true true) op j kj nj r)
      as (s2 & Hset & _); auto; try lia.
    exists s2. exact Hset.
Qed.


End Leaf.

(** C10.  A cursor stands on the last key of a tree of one leaf.
    [BT_NEXT] then fails with [ENOENT] and sets [eof].  With [eof] set,
    the next [BT_NEXT] fails in the same way, and [BT_FIRST], and
    [BT_CURSOR] and [BT_CURSOR_EXACT] for a key of the leaf, succeed and
    hand back a cursor on their key with [eof] cleared.

    On any tree: with [eof] set on an initialised cursor, [BT_NEXT] fails
    with [ENOENT] and hands the cursor back as it is; no page object is
    created or changed and no page moves in the LRU queue, pages are at
    most pruned from the cache; so the same holds for the call after it.
    [eof] is set by [btree_cursor_next] when the move to the right sibling
    fails past the last key of the last leaf, and a successful
    [BT_CURSOR], [BT_CURSOR_EXACT] or [BT_FIRST] leaves it cleared. *)
Theorem cursor_eof_is_sticky
    (SHA256 : list Z -> bytes) (s : btree) (t : nat) (x : btree_txn) (mp : nat)
    (ns : list node) (ks : list bytes) (pfx : bytes) (kv : btval) (i : nat) (r : Z) :
  scanning s t x mp ns ks pfx r -> r + 2 < 2 ^ 15 -> mp ∈ bt_lru_queue s ->
  Z.of_nat (length ks) < 2 ^ 16 -> increasing ks -> length ks = S i ->
  let c := Cursor (Some t) [Ppage mp (Z.of_nat i)] true false in
  let ceof := Cursor (Some t) [Ppage mp (Z.of_nat i)] true true in
  (exists s1,
     btree_cursor_get SHA256 c (Some kv) false BT_NEXT s = Some ((BT_FAIL, ceof, [], []), s1) /\
     bt_errno s1 = ENOENT /\
     (exists s2,
        btree_cursor_get SHA256 ceof (Some kv) false BT_NEXT s1 =
          Some ((BT_FAIL, ceof, [], []), s2) /\
        bt_errno s2 = ENOENT /\ bt_heap s2 = bt_heap s1 /\ bt_file s2 = bt_file s1 /\
        sublist (bt_lru_queue s2) (bt_lru_queue s1)) /\
     (forall k0, ks !! O = Some k0 ->
        exists s2,
          btree_cursor_get SHA256 ceof (Some kv) false BT_FIRST s1 =
            Some ((BT_SUCCESS, Cursor (Some t) [Ppage mp 0] true false, pfx ++ k0, []), s2)) /\
     (forall op j kj,
        op = BT_CURSOR \/ op = BT_CURSOR_EXACT ->
        ks !! j = Some kj -> 0 < Z.of_nat (length (pfx ++ kj)) <= MAXKEYSIZE ->
        exists s2,
          btree_cursor_get SHA256 ceof (Some (mkval (pfx ++ kj))) false op s1 =
            Some ((BT_SUCCESS, Cursor (Some t) [Ppage mp (Z.of_nat j)] true false,
                   pfx ++ kj, []), s2))) /\
  (forall s0 c0 key wd,
     cache_ok s0 = true -> c_eof c0 = true -> c_initialized c0 = true ->
     exists s',
       btree_cursor_get SHA256 c0 key wd BT_NEXT s0 = Some ((BT_FAIL, c0, [], []), s') /\
       bt_errno s' = ENOENT /\
       bt_heap s' = bt_heap s0 /\ bt_file s' = bt_file s0 /\
       sublist (bt_lru_queue s') (bt_lru_queue s0) /\
       cache_ok s' = true) /\
  (forall c0 wk wd s0 s1 top rest m rc c1,
     c_eof c0 = false -> c_stack c0 = top :: rest ->
     bt_heap s0 !! pp_mpage top = Some m ->
     NUMKEYS m <= u32 (pp_ki top + 1) ->
     btree_sibling c0 true s0 = Some ((rc, c1), s1) -> rc <> BT_SUCCESS ->
     btree_cursor_next c0 wk wd s0 =
     Some ((BT_FAIL, set_c_eof (fun _ => true) c1, [], []), s1)) /\
  (forall s0 c0 key wd op s' c' k d,
     op <> BT_NEXT ->
     btree_cursor_get SHA256 c0 key wd op s0 = Some ((BT_SUCCESS, c', k, d), s') ->
     c_eof c' = false).
Proof.
  intros Hscan Hr Hin Hsmall Hinc Hlast c ceof.
  split; [|split; [|split]].
  - destruct (eof_on_leaf SHA256 t x mp ns ks pfx Hsmall Hinc s kv i r Hscan Hr Hin Hlast)
      as (s1 & Hnext & He & Hok1 & Hfirst & Hset).
    exists s1. split; [exact Hnext|]. split; [exact He|]. split; [|split; assumption].
    destruct (cursor_next_at_eof SHA256 s1 ceof (Some kv) false Hok1 eq_refl eq_refl)
      as (s2 & Hagain & He2 & Hh2 & Hf2 & Hl2 & _).
    exists s2. auto.
  - intros s0 c0 key wd Hok Heof Hinit. now apply cursor_next_at_eof.
  - intros c0 wk wd s0 s1 top rest m rc c1 H1 H2 H3 H4 H5 H6.
    eapply cursor_next_sets_eof; eassumption.
  - intros s0 c0 key wd op s' c' k d Hop H.
    now destruct (cursor_reposition_clears_eof _ _ _ _ _ _ _ _ _ _ Hop H).
Qed.

(** The cursor on [m], the last key of the tree that holds [k] and [m]:
    [BT_NEXT] fails and sets [eof], and fails again; then [BT_FIRST]
    returns [k], [BT_CURSOR] for [m] returns [m] and [BT_CURSOR_EXACT]
    for [k] returns [k], each with [eof] cleared. *)
Lemma cursor_eof_is_sticky_witness :
  let c := Cursor (Some O) [Ppage O 1] true false in
  let ceof := Cursor (Some O) [Ppage O 1] true true in
  exists s1,
    btree_cursor_get Scenario.no_digest c (Some (Btval [] 0)) false BT_NEXT on_last_key =
      Some ((BT_FAIL, ceof, [], []), s1) /\
    bt_errno s1 = ENOENT /\
    (exists s2,
       btree_cursor_get Scenario.no_digest ceof (Some (Btval [] 0)) false BT_NEXT s1 =
         Some ((BT_FAIL, ceof, [], []), s2) /\
       bt_errno s2 = ENOENT /\ bt_heap s2 = bt_heap s1 /\ bt_file s2 = bt_file s1 /\
       sublist (bt_lru_queue s2) (bt_lru_queue s1)) /\
    (exists s2,
       btree_cursor_get Scenario.no_digest ceof (Some (Btval [] 0)) false BT_FIRST s1 =
         Some ((BT_SUCCESS, Cursor (Some O) [Ppage O 0] true false, [ "k"%byte ], []), s2)) /\
    (exists s2,
       btree_cursor_get Scenario.no_digest ceof (Some (Scenario.key "m")) false BT_CURSOR s1 =
         Some ((BT_SUCCESS, Cursor (Some O) [Ppage O 1] true false, [ "m"%byte ], []), s2)) /\
    (exists s2,
       btree_cursor_get Scenario.no_digest ceof (Some (Scenario.key "k")) false
         BT_CURSOR_EXACT s1 =
         Some ((BT_SUCCESS, Cursor (Some O) [Ppage O 0] true false, [ "k"%byte ], []), s2)).
Proof.
  intros c ceof.
  destruct (cursor_eof_is_sticky Scenario.no_digest on_last_key O (BtreeTxn 1 2 [O] 0) O
              km_nodes km_keys [] (Btval [] 0) 1%nat 3)
    as ((s1 & Hnext & He & Hagain & Hfirst & Hset) & _).
  - exists (set_mp_ref (fun _ => 3) km_leaf). split; [one_key_tree|].
    split; [one_key_tree|]. split; [reflexivity|]. cbn. lia.
  - vm_compute. reflexivity.
  - vm_compute. left.
  - vm_compute. reflexivity.
  - apply km_increasing.
  - reflexivity.
  - exists s1. split; [exact Hnext|]. split; [exact He|]. split; [exact Hagain|].
    split; [|split].
    + apply (Hfirst [ "k"%byte ]). reflexivity.
    + apply (Hset BT_CURSOR 1%nat [ "m"%byte ]).
      * now left.
      * reflexivity.
      * vm_compute. split; [reflexivity | discriminate].
    + apply (Hset BT_CURSOR_EXACT O [ "k"%byte ]).
      * now right.
      * reflexivity.
      * vm_compute. split; [reflexivity | discriminate].
Defined.

End EofFacts.

(** ** Where a put stores the data *)

Module StoreFacts.
Import StateFacts SepFacts CacheFacts TxnFacts OverflowFacts FrameFacts NodeFacts CommitFacts.
Import PruneFacts.





Section WriteLoop.

Variables (data : btval) (db : bytes) (max : Z) (t : nat).
Hypothesis Hdb : val_bytes data = Some db.
Hypothesis Hmax : 0 < max.


End WriteLoop.







Lemma head_ignores_objects : ignores_objects bt_head_.
Proof. split; reflexivity. Qed.

#[local] Hint Resolve head_ignores_objects : keeps.






End StoreFacts.
